(* ===== verification/_CoqProject ===== *)
-Q . S2P
Prelude.v
Idr.v
Modes.v
Config.v
Property.v
Probe.v
PickCrtcs.v
SetMode.v
SetConfig.v
Device.v
PropertyIoctl.v
Ioctl.v
UserModes.v
Scanout.v
Store.v
StoreIoctls.v
Locking.v
Clients.v
ModeOwnership.v
Alloc.v
