(* ===== verification/Prelude.v ===== *)
(** * A verification development of the DRM mode-setting core

    The program is [src/linux-core/drm_crtc.c] of the DRM tree: the
    mode-configuration state manager of one graphics device.  It keeps the
    device's framebuffers, CRTCs (scan-out controllers), outputs and
    properties in one [struct drm_mode_config], hands out identifiers for
    every object from one [idr], probes the modes of every output through
    driver callbacks, picks a CRTC for every connected output
    ([drm_pick_crtcs]), applies a configuration request transactionally
    ([drm_crtc_set_config] on top of [drm_crtc_set_mode]) and answers the
    ioctls that read and change that state.

    ** Layout (one file per component, in dependency order)

    - [Prelude]   (this file) the [drm_scope] notation for CRTC-mask bits,
                  C integer helpers ([c_bool], [mask_has], [wrap_u],
                  [to_s32]), errno values, generic lemmas on lists
                  ([find_first], [find_index], [remove_first]) and folds,
                  the [drm] and [drm_rw] hint databases and the tactics.
    - [Idr]       the identifier registry: [drm_idr_get] / [drm_idr_put]
                  over [idr_get_new_above] (lib/idr.c, modelled from its
                  contract: the lowest free id at or above the start, at
                  most [MAX_ID]).  The registry is a [gmap Z drm_obj]; the
                  classes [IdRegistry] / [IdRegistryLaws] state what the
                  rest relies on, the [idr] instance discharges them.
    - [Modes]     [struct drm_display_mode], [drm_mode_equal] as a setoid
                  with [Proper] instances, [std_mode], [drm_mode_create] /
                  [drm_mode_destroy] / [drm_mode_duplicate] through the
                  idr, and the user-mode conversions with their field
                  widths.
    - [Config]    the entity store: the object records, the
                  [drm_mode_config] state (lists, idr, counters, size
                  limits, the mutex as a flag, the trace of driver hooks),
                  the driver interfaces [DrmFuncs] (CRTC and output hooks)
                  and [DrmDriver] ([fb_probe]), object creation and
                  destruction, [drm_crtc_in_use], [drm_crtc_from_fb],
                  [drm_disable_unused_functions], property attachment.
    - [Property]  properties and enum entries, per-output values, blobs,
                  the EDID property update, [drm_mode_getblob_ioctl] and
                  [drm_mode_output_property_set_ioctl].
    - [Probe]     the prober [drm_crtc_probe_single_output_modes] /
                  [drm_crtc_probe_output_modes] with the drm_modes.c
                  helpers it calls (list update, size check, pruning,
                  stable sort, refresh), modelled from the spec.
    - [PickCrtcs] the assignment engine [drm_pick_crtcs].
    - [SetMode]   the mode-apply protocol [drm_crtc_set_mode].
    - [SetConfig] the configuration transaction [drm_crtc_set_config].
    - [Device]    the name tables, [drm_mode_config_init] with the standard
                  properties, [drm_create_tv_properties],
                  [drm_initial_config], [drm_hotplug_stage_two],
                  [drm_mode_hotplug_ioctl], [drm_mode_config_cleanup].
    - [PropertyIoctl] [drm_mode_getproperty_ioctl]: the reply's counts and
                  the arrays it copies ([getproperty_reply]).
    - [Ioctl]     [drm_mode_getresources], [drm_mode_getcrtc],
                  [drm_mode_getoutput], [drm_mode_setcrtc],
                  [drm_mode_addfb], [drm_mode_rmfb], [drm_mode_getfb] and
                  [drm_fb_release], with the file's framebuffer list and the
                  buffer-object lookup as the class [DrmBufferObjects].
    - [UserModes] the outputs' [user_modes] lists: [drm_mode_attachmode],
                  [drm_mode_attachmode_crtc], [drm_mode_detachmode],
                  [drm_mode_detachmode_crtc] and the two ioctls.
    - [Scanout]   [drm_mode_cursor_ioctl] with the optional cursor hooks
                  as the class [DrmCursorFuncs], and [drm_mode_replacefb].
    - [Store]     the store invariant [config_wf] (no identifier 0; the
                  framebuffers, CRTCs, outputs, properties and blobs each
                  with distinct identifiers registered with their kind),
                  decidable, and its preservation by the operations of
                  the kernel side (constructors, destructors, protocol,
                  transaction, prober, assignment, hotplug).
    - [StoreIoctls] the preservation of [config_wf] and of the file's
                  framebuffer list ([file_wf]) by every ioctl handler.
    - [Locking]   the mode-setting entries of the ioctl table (in
                  drm_drv.c, modelled from the spec) as the inductive
                  [drm_ioctl], dispatched by [drm_ioctl_run]; sequences of
                  calls ([drm_ioctl_trace], [session_step]), the mutex
                  discipline and the store invariant along a session.
    - [Clients]   several open files whose calls interleave
                  ([client_step]) and the ownership of framebuffers by
                  files ([files_wf]).
    - [ModeOwnership] the ownership of mode identifiers by the outputs'
                  user modes ([umodes_own]: each is 0 or registered as a
                  mode, no two share one) and sessions whose detach calls
                  carry no condition ([owned_step]).
    - [Alloc]     allocation failure: each handler that calls [kzalloc]
                  (directly or through [drm_mode_create] or
                  [drm_mode_duplicate]) takes a flag [ok]; [ok = false]
                  is the NULL return, and the [_k] definition follows
                  what the C code does with it.

    The components call each other as the C functions do: every ioctl
    takes the mutex ([mutex_lock] returns [None] when it is already held:
    the caller would block forever), looks objects up through the idr and
    the lists ([idr_lookup]), and calls the store's operations; the
    transaction calls the mode-apply protocol, which calls the driver
    hooks; initial configuration and hotplug call the prober, the
    assignment engine and the protocol.

    ** What the theorems show

    - Idr: a non-zero identifier is the least free one, fits an [int] and
      is the only new entry; 0 is returned exactly on exhaustion; along any
      sequence of allocations and releases live handles stay distinct and
      resolve (refinement, bounds, invariant by rule induction); the
      search loop of the modelled [idr_get_new_above] stops within its
      fuel (a lemma that justifies the fuel, see below).
    - Modes: the user-mode round trip within the field widths, and the
      exact width behaviour: the timings survive the round trip exactly
      when they fit [unsigned short] (the clock an [int], the flags an
      [unsigned int]); larger values come back reduced (bounds).
    - PickCrtcs: exclusive bindings, bindings allowed by the masks with the
      preferred-else-first desired mode, first fit, the spec's scenario,
      and the dependence on stale bindings.
    - SetMode / SetConfig: the hook order of a mode set, rollback on
      rejection (the framebuffer is not rolled back), the leaked mode
      identifier, the unchecked [mode_set_base]; the bindings after a
      transaction.
    - Property: the set-property ioctl against an abstract acceptance
      predicate, enum registration, attachment capacity, set/get, create/
      destroy round trips, and the EDID update read back through the
      output's EDID property and the two-call [drm_mode_getblob_ioctl].
    - Probe: distinct usable modes, all [MODE_OK], the 640x480 fallback,
      the disconnected case, the stale-refresh sort (refresh rates are
      derived after sorting).
    - Device: exclusive bindings after [drm_initial_config], the deadlock
      of [drm_mode_config_cleanup] under its documented locking, what
      cleanup leaves, the hotplug counter over any notification sequence.
    - Ioctl: the addfb/getfb/rmfb round trip, the getcrtc output mask
      (2^k - 1, not the bound outputs' positions), the stale mode count
      of getoutput, the two-call protocol of getresources (a short array
      receives nothing, the reported counts receive every identifier),
      the mode identifier leaked by a rejected setcrtc, its only effect.
    - PropertyIoctl: the two-call protocol of getproperty for enum
      properties, the count of 0 a blob property reports, the -EINVAL
      path, and the TV properties as getproperty reports them.
    - UserModes: the attach/detach round trip through the ioctls, the
      -EINVAL of a detach without an equal mode; the equivalence of
      [drm_mode_attachmode_crtc]'s loop of updates by identifier with a
      structural pass ([attachmode_crtc_ref]), and from it the sharing of
      the caller's mode object with the first output on the CRTC (fresh
      duplicates for the others), which a later
      [drm_mode_detachmode_crtc] frees under the caller.
    - Scanout: the cursor ioctl's error paths and the cursor_set result
      overwritten by cursor_move; replacefb's effect (geometry, buffer
      object, one mode_set_base per CRTC showing the framebuffer) and its
      NULL dereference of an unused CRTC's framebuffer.
    - Store: [config_wf] is kept by the transaction, the mode-apply
      protocol, the prober, the assignment engine, the power-off sweep,
      initial configuration, hotplug and [drm_mode_attachmode_crtc]
      whatever the driver hooks, by [drm_create_tv_properties] when the
      idr has room for its five properties.
    - StoreIoctls: [config_wf] is kept by every ioctl (addfb when the idr
      has room, detachmode when the output's user modes own their
      identifiers), which also keep the file's framebuffer list a list of
      distinct framebuffers of the device.
    - Locking: on a free mutex every handler returns and releases the
      mutex ([drm_mode_replacefb] apart, which can crash), so any
      sequence of calls without it runs to its end (liveness: no call
      blocks); along every session of calls ([session_step], a step
      relation on the device and the file) the store invariant and the
      file's framebuffer list stay well formed (rule induction on the
      reflexive-transitive closure).
    - Clients: along every interleaving of calls by several files the
      store stays well formed, every file's framebuffers are distinct
      framebuffers of the device and no framebuffer belongs to two files
      (the ownership checks of rmfb and replacefb and the freshness of
      addfb's identifier).
    - ModeOwnership: every ioctl keeps the user modes owning their
      identifiers (attachmode registers a fresh one or 0, detachmode
      releases the one it removes, rmfb and fb_release release only
      framebuffer identifiers, setcrtc, getoutput and the prober only add
      modes); so detachmode's condition holds in every reachable state,
      and a session whose only condition is addfb's room is a session of
      guarded calls (a refinement of [owned_step] by [session_step]), for
      one file and for interleaved files ([owned_client_step] refined by
      [client_step]).
      [drm_mode_attachmode_crtc], called from drivers and not from an
      ioctl, breaks the ownership: it links the caller's mode object.
    - Alloc: with every allocation succeeding each [_k] handler is the
      handler of the main model ([drm_mode_addfb_k_ok] and the like);
      the checked NULLs leave the device and the mutex as they were
      (addfb answers -EINVAL, attachmode and set_config -ENOMEM), while
      the unchecked ones (setcrtc's mode, the prober's fallback mode,
      [drm_mode_attachmode_crtc]'s duplicate) are dereferenced, which the
      model shows as [None].

    ** Bounds and fuel

    The idr scan ([idr_scan]) runs on fuel [S (size m)]: among [size m + 1]
    consecutive candidates one is free, so the fuel never runs out before
    a free identifier is found ([drm_idr_get_least_free] proves the result
    is the least free one, and [drm_idr_get_scan_terminates] that any
    larger fuel returns the same free identifier, so the fuel models the
    unbounded C loop).  Every other
    loop of the code is over a list and is a structural fold.

    ** Not modelled

    Every function of [drm_crtc.c] is modelled; [drm_mode_remove]
    ([list_del] and [kfree], no identifier released) is modelled where
    [drm_output_destroy] calls it, by dropping the output's mode lists.
    Left out: user-space copies ([copy_to_user], [put_user],
    [get_user] succeed; -EFAULT is a fault of user memory); kernel
    allocation is assumed to succeed outside [Alloc], which models its
    failure for addfb, attachmode, set_config, setcrtc, the prober and
    [drm_mode_attachmode_crtc] (one flag per call, so a failure in a
    callee after an earlier success is not followed); the other
    allocations (of a CRTC, an output, a property, its values, enum
    entries and blobs, and the adjusted mode that [drm_crtc_set_mode]
    duplicates) are assumed to succeed (the idr's exhaustion is modelled in
    [Idr]; [idr_pre_get]'s memory failure makes [drm_idr_get] return 0 with
    the registry unchanged, the same result as exhaustion); what getproperty's
    blob loop reads when it takes enum entries for blobs (only the number
    of pairs it writes is modelled); [drm_mode_set_crtcinfo]'s hardware
    timing copies; sysfs and printk output (hooks in the trace or
    nothing); concurrency beyond the mutex flag.

    ** Modelling conventions

    - C [int]/[uint32_t]/[uint64_t] values are [Z]; the widths matter only
      for the identifier space (ids are positive [int]s, at most
      [MAX_ID] = 2^31 - 1), which is modelled.
    - A pointer to a CRTC, output or framebuffer is modelled by its
      identifier; where a theorem needs pointer equality and identifier
      equality to agree it assumes distinct identifiers ([NoDup]).
    - Lists of the C code ([list_head]) are Rocq lists in list order;
      [list_add] prepends, [list_add_tail] appends.
    - Driver callbacks are the fields of the [DrmFuncs] class; callbacks
      returning [void] append an event to the device's trace, so the order
      in which the code calls them is part of the state.
    - Allocation of kernel memory ([kzalloc]) succeeds outside [Alloc];
      the identifier space can be exhausted and that case is modelled. *)

From stdpp Require Export base list gmap strings.
From Stdlib Require Export ZArith Lia.

Declare Scope drm_scope.
Delimit Scope drm_scope with drm.
Open Scope Z_scope.

(** ** C integers and errno values *)

Definition EINVAL : Z := 22.
Definition ENOMEM : Z := 12.
Definition EFAULT : Z := 14.

(** C truth value of an integer expression. *)
Definition c_bool (z : Z) : bool := negb (z =? 0).

(** [(mask & (1 << c)) != 0], the CRTC-eligibility test of
    [drm_pick_crtcs]. *)
Definition mask_has (mask : Z) (c : nat) : bool :=
  c_bool (Z.land mask (Z.shiftl 1 (Z.of_nat c))).

Notation "m '@[' c ']'" := (mask_has m c) (at level 1, format "m @[ c ]") : drm_scope.

(** [(a & b) != 0], the shared-bit test of the clone detection. *)
Definition masks_meet (a b : Z) : bool := c_bool (Z.land a b).

Create HintDb drm discriminated.
#[export] Hint Constants Transparent : drm.

(** ** Generic lemmas on the C helpers *)

Lemma c_bool_true z : c_bool z = true <-> z <> 0.
Proof. unfold c_bool. destruct (Z.eqb_spec z 0); simpl; split; congruence. Qed.

Lemma c_bool_false z : c_bool z = false <-> z = 0.
Proof. unfold c_bool. destruct (Z.eqb_spec z 0); simpl; split; congruence. Qed.

(** The mask test is the bit of the mask at the CRTC's index. *)
Lemma mask_has_testbit mask c : mask_has mask c = Z.testbit mask (Z.of_nat c).
Proof.
  unfold mask_has, c_bool. rewrite Z.shiftl_1_l.
  destruct (Z.testbit mask (Z.of_nat c)) eqn:Hb.
  - apply negb_true_iff, Z.eqb_neq. intros H0.
    assert (Z.testbit (Z.land mask (2 ^ Z.of_nat c)) (Z.of_nat c) = true) as Ht.
    { rewrite Z.land_spec, Z.pow2_bits_true by lia. now rewrite Hb. }
    rewrite H0, Z.bits_0 in Ht. discriminate.
  - apply negb_false_iff, Z.eqb_eq. apply Z.bits_inj'. intros n Hn.
    rewrite Z.land_spec, Z.bits_0, Z.pow2_bits_eqb by lia.
    destruct (Z.eqb_spec (Z.of_nat c) n); subst; [now rewrite Hb | now rewrite andb_false_r].
Qed.

(** ** Generic list lemmas *)

Section lists.
Context {A : Type}.

(** Index of the first element satisfying a boolean test, the shape of
    the C loops [for (i = 0; i < N; i++) if (p(a[i])) break;]. *)
Fixpoint find_index (p : A -> bool) (l : list A) : option nat :=
  match l with
  | [] => None
  | x :: l' => if p x then Some 0%nat else S <$> find_index p l'
  end.

Lemma find_index_Some p l i :
  find_index p l = Some i ->
  exists x, l !! i = Some x /\ p x = true /\
    forall j y, (j < i)%nat -> l !! j = Some y -> p y = false.
Proof.
  revert i. induction l as [|x l IH]; intros i H; simpl in H; [discriminate|].
  destruct (p x) eqn:Hp.
  - injection H as <-. exists x. split_and!; [done|done|intros; lia].
  - destruct (find_index p l) as [k|] eqn:Hk; simpl in H; [|discriminate].
    injection H as <-. destruct (IH k eq_refl) as (y & Hy & Hpy & Hmin).
    exists y. split_and!; [done|done|].
    intros [|j] z Hj Hz; simpl in Hz; [congruence|]. apply (Hmin j); [lia|done].
Qed.

Lemma find_index_None p l :
  find_index p l = None -> forall x, x ∈ l -> p x = false.
Proof.
  induction l as [|y l IH]; simpl; intros H x Hx; [by apply elem_of_nil in Hx|].
  destruct (p y) eqn:Hp; [discriminate|].
  destruct (find_index p l); [discriminate|].
  apply elem_of_cons in Hx as [->|Hx]; auto.
Qed.

Lemma find_index_lt p l i : find_index p l = Some i -> (i < length l)%nat.
Proof.
  intros H. destruct (find_index_Some p l i H) as (x & Hx & _).
  eapply lookup_lt_Some; eauto.
Qed.
Lemma find_index_intro p l i x :
  l !! i = Some x -> p x = true ->
  (forall j y, (j < i)%nat -> l !! j = Some y -> p y = false) ->
  find_index p l = Some i.
Proof.
  revert i. induction l as [|z l IH]; intros [|i] Hx Hp Hmin; simpl in *; try done.
  - by simplify_eq; rewrite Hp.
  - rewrite (Hmin 0%nat z) by (done || lia). rewrite (IH i); [done|done|done|].
    intros j y Hj Hy. apply (Hmin (S j)); [lia|done].
Qed.

Lemma find_index_elem p l : is_Some (find_index p l) <-> exists x, x ∈ l /\ p x = true.
Proof.
  split.
  - intros [i (x & Hx & Hp & _)%find_index_Some]. exists x. split; [|done].
    by eapply list_elem_of_lookup_2.
  - intros (x & Hx & Hp). destruct (find_index p l) eqn:E; [done|].
    by rewrite (find_index_None p l E x Hx) in Hp.
Qed.
End lists.

#[export] Hint Resolve find_index_lt : drm.

(** ** Tactics of the development *)

(** Turn boolean tests of the model into the propositions they decide. *)
Ltac drm_bool :=
  repeat match goal with
  | H : (_ =? _) = true |- _ => apply Z.eqb_eq in H
  | H : (_ =? _) = false |- _ => apply Z.eqb_neq in H
  | H : (_ <=? _) = true |- _ => apply Z.leb_le in H
  | H : (_ <=? _) = false |- _ => apply Z.leb_gt in H
  | H : (_ <? _) = true |- _ => apply Z.ltb_lt in H
  | H : (_ <? _) = false |- _ => apply Z.ltb_ge in H
  | H : (_ && _) = true |- _ => apply andb_true_iff in H as [? ?]
  | H : (_ || _) = false |- _ => apply orb_false_iff in H as [? ?]
  | H : negb _ = true |- _ => apply negb_true_iff in H
  | H : negb _ = false |- _ => apply negb_false_iff in H
  | H : bool_decide _ = true |- _ => apply bool_decide_eq_true in H
  | H : bool_decide _ = false |- _ => apply bool_decide_eq_false in H
  end.

(** A conjunction of integer comparisons that [lia] proves. *)
Ltac drm_bool_goal :=
  repeat (apply andb_true_iff; split);
  match goal with
  | |- (_ <=? _) = true => apply Z.leb_le
  | |- (_ <? _) = true => apply Z.ltb_lt
  end; lia.

(** Case analysis on the first [if]/[match] of the goal, keeping the
    equation. *)
Ltac drm_case :=
  match goal with
  | |- context [match ?x with _ => _ end] =>
      let E := fresh "E" in destruct x eqn:E
  end.

(** ** Machine-width conversions *)

(** Assignment to an unsigned [w]-bit field. *)
Definition wrap_u (w : Z) (z : Z) : Z := z mod 2 ^ w.

(** Assignment of an unsigned 32-bit value to a C [int] (two's
    complement, as gcc does it). *)
Definition to_s32 (z : Z) : Z :=
  let u := z mod 2 ^ 32 in if u <? 2 ^ 31 then u else u - 2 ^ 32.

Lemma wrap_u_small w z : 0 <= z < 2 ^ w -> wrap_u w z = z.
Proof. intros H. unfold wrap_u. apply Z.mod_small. lia. Qed.

Lemma to_s32_small z : 0 <= z < 2 ^ 31 -> to_s32 z = z.
Proof.
  intros H. unfold to_s32. rewrite Z.mod_small by lia.
  destruct (Z.ltb_spec z (2 ^ 31)); lia.
Qed.

Lemma wrap_u_range w z : 0 <= w -> 0 <= wrap_u w z < 2 ^ w.
Proof. intros Hw. unfold wrap_u. apply Z.mod_pos_bound. lia. Qed.

Lemma to_s32_range z : - 2 ^ 31 <= to_s32 z < 2 ^ 31.
Proof.
  unfold to_s32. pose proof (Z.mod_pos_bound z (2 ^ 32) ltac:(lia)).
  destruct (Z.ltb_spec (z mod 2 ^ 32) (2 ^ 31)); lia.
Qed.

Create Rewrite HintDb drm_rw.
#[export] Hint Rewrite wrap_u_small to_s32_small using lia : drm_rw.

(** First element satisfying a test: [list_for_each_entry(..) if (..)
    return it;]. *)
Fixpoint find_first {A} (p : A -> bool) (l : list A) : option A :=
  match l with
  | [] => None
  | x :: l' => if p x then Some x else find_first p l'
  end.

Lemma find_first_Some {A} (p : A -> bool) l x :
  find_first p l = Some x -> x ∈ l /\ p x = true.
Proof.
  induction l as [|y l IH]; simpl; [discriminate|].
  destruct (p y) eqn:E; [intros [= <-]; split; [left|done]|].
  intros H. destruct (IH H). split; [by right|done].
Qed.

Lemma find_first_None {A} (p : A -> bool) l :
  find_first p l = None <-> forall x, x ∈ l -> p x = false.
Proof.
  induction l as [|y l IH]; simpl.
  - split; [intros _ x Hx; by apply elem_of_nil in Hx | done].
  - destruct (p y) eqn:E; split.
    + discriminate.
    + intros H. rewrite H in E; [discriminate | left].
    + intros H x Hx. apply elem_of_cons in Hx as [->|Hx]; [done|]. by apply IH.
    + intros H. apply IH. intros x Hx. apply H. by right.
Qed.

(** [list_del] of the first node satisfying a test. *)
Fixpoint remove_first {A} (p : A -> bool) (l : list A) : list A :=
  match l with
  | [] => []
  | x :: l' => if p x then l' else x :: remove_first p l'
  end.

Lemma remove_first_sub {A} (p : A -> bool) l x : x ∈ remove_first p l -> x ∈ l.
Proof.
  induction l as [|y l IH]; simpl; [done|].
  destruct (p y); [by right|]. intros [->|Hx]%elem_of_cons; [left | right; auto].
Qed.

Lemma remove_first_keep {A} (p : A -> bool) l x : x ∈ l -> p x = false -> x ∈ remove_first p l.
Proof.
  induction l as [|y l IH]; simpl; [done|].
  intros [->|Hx]%elem_of_cons Hp; [by rewrite Hp; left|].
  destruct (p y); [done | right; auto].
Qed.

(** First [Some] of a function along a list: nested [list_for_each_entry]
    loops that leave with [goto] on the first match. *)
Lemma find_first_app_last {A} (p : A -> bool) l x :
  existsb p l = false -> p x = true -> find_first p (l ++ [x]) = Some x.
Proof.
  induction l as [|y l IH]; simpl; [by intros _ ->|].
  destruct (p y); simpl; [discriminate | exact IH].
Qed.

Lemma remove_first_NoDup {A B} (f : A -> B) (p : A -> bool) l :
  NoDup (f <$> l) -> NoDup (f <$> remove_first p l).
Proof.
  induction l as [|y l IH]; simpl; [done|]. intros [Hy Hl]%NoDup_cons.
  destruct (p y); [done|]. apply NoDup_cons. split; [|by apply IH].
  intros (x & Heq & Hx)%list_elem_of_fmap_1. apply Hy. rewrite Heq.
  apply list_elem_of_fmap_2. by eapply remove_first_sub.
Qed.

(** With distinct keys, removing the first element of key [k] removes
    every element of key [k]. *)
Lemma remove_first_key {A} (f : A -> Z) l k x :
  NoDup (f <$> l) -> x ∈ remove_first (fun y => f y =? k) l -> f x <> k.
Proof.
  induction l as [|y l IH]; simpl; [by intros _ ?%elem_of_nil|]. intros [Hy Hl]%NoDup_cons.
  cbv beta. destruct (Z.eqb_spec (f y) k) as [Hk|Hne].
  - intros Hx Hx'. apply Hy. rewrite Hk, <- Hx'. by apply list_elem_of_fmap_2.
  - intros [->|Hx]%elem_of_cons; [done | by apply IH].
Qed.

Lemma list_elem_of_map {A B} (f : A -> B) l y : y ∈ map f l <-> exists x, y = f x /\ x ∈ l.
Proof. rewrite list_elem_of_In, in_map_iff. setoid_rewrite list_elem_of_In. naive_solver. Qed.

Lemma NoDup_fmap_filter {A B} (f : A -> B) (P : A -> Prop) `{!forall x, Decision (P x)} l :
  NoDup (f <$> l) -> NoDup (f <$> filter P l).
Proof.
  induction l as [|x l IH]; simpl; [done|]. intros [Hx Hl]%NoDup_cons.
  rewrite filter_cons. case_decide; simpl; [|auto].
  apply NoDup_cons. split; [|auto].
  intros (y & Hy & Hin)%list_elem_of_fmap_1. apply Hx. rewrite Hy.
  apply list_elem_of_fmap_2. by eapply list_elem_of_filter.
Qed.

(** A projection that no step of a fold changes. *)
Lemma fold_left_preserve {A B C} (proj : A -> C) (f : A -> B -> A) l s :
  (forall s b, proj (f s b) = proj s) -> proj (fold_left f l s) = proj s.
Proof. intros Hf. revert s. induction l as [|b l IH]; intros s; simpl; [done|]. by rewrite IH, Hf. Qed.

(** Removing the first element of a key that only [x] has. *)
Lemma remove_first_app_mid {A} (p : A -> bool) l1 x l2 :
  (forall y, y ∈ l1 -> p y = false) -> p x = true -> remove_first p (l1 ++ x :: l2) = l1 ++ l2.
Proof.
  induction l1 as [|y l1 IH]; simpl; intros Hl Hx; [by rewrite Hx|].
  rewrite Hl by left. f_equal. apply IH; [|done]. intros z Hz. apply Hl. by right.
Qed.

Lemma remove_first_app_last {A} (p : A -> bool) l x :
  (forall y, y ∈ l -> p y = false) -> p x = true -> remove_first p (l ++ [x]) = l.
Proof.
  induction l as [|y l IH]; simpl; intros Hl Hx; [by rewrite Hx|].
  rewrite Hl by left. f_equal. apply IH; [|done]. intros z Hz. apply Hl. by right.
Qed.

Fixpoint first_some {A B} (f : A -> option B) (l : list A) : option B :=
  match l with
  | [] => None
  | x :: l' => match f x with Some y => Some y | None => first_some f l' end
  end.

Lemma first_some_None {A B} (f : A -> option B) l :
  (forall x, x ∈ l -> f x = None) -> first_some f l = None.
Proof.
  induction l as [|x l IH]; simpl; intros H; [done|].
  rewrite H by left. apply IH. intros y Hy. apply H. by right.
Qed.

(** Close a decidable goal about closed data by computation. *)
Ltac decide_by_compute :=
  match goal with |- ?P => apply (@bool_decide_eq_true_1 P _); vm_compute; reflexivity end.
