(* ===== verification/Idr.v ===== *)
(** * Identifier registry: [drm_idr_get], [drm_idr_put], [idr_find]

    [drm_crtc.c] gives every object of a device (framebuffer, CRTC, output,
    mode, property, blob) an integer identifier from one [idr],
    [dev->mode_config.crtc_idr].  [drm_idr_get] calls the kernel's
    [idr_get_new_above(idr, ptr, 1, &id)], which hands out the lowest free
    identifier at or above 1 and fails with -ENOSPC once every positive
    [int] is taken; [drm_idr_get] then returns the [new_id] it initialised
    to 0.  The registry maps an identifier to the kind of object it names;
    the object itself lives in the entity store ([Config]).

    The file holds the registry, an abstract specification of allocation
    ("the least free positive identifier") with the refinement theorem, the
    typeclass [IdRegistry] with the laws the entity store relies on, and
    the invariant of any sequence of allocations and releases. *)

From S2P Require Import Prelude.

(** Kinds of objects registered in the idr (the [void *ptr] the C code
    stores, by its type). *)
Inductive drm_obj :=
  | OBJ_FB | OBJ_CRTC | OBJ_OUTPUT | OBJ_MODE | OBJ_PROPERTY | OBJ_BLOB.

#[export] Instance drm_obj_eq_dec : EqDecision drm_obj.
Proof. solve_decision. Defined.

Abbreviation idr := (gmap Z drm_obj).

(** Identifiers are positive C [int]s: lib/idr.c's [MAX_ID_MASK]. *)
Definition MAX_ID : Z := 2 ^ 31 - 1.
Definition ENOSPC : Z := 28.

(** The search of [idr_get_new_above]: the first identifier at or above
    [start] with no entry, scanning at most [fuel] candidates. *)
Fixpoint idr_scan (m : idr) (start : Z) (fuel : nat) : Z :=
  match fuel with
  | O => start
  | S f => match m !! start with
           | Some _ => idr_scan m (start + 1) f
           | None => start
           end
  end.

(** [idr_get_new_above(idp, ptr, starting_id, &id)]: 0 and the new
    identifier, or -ENOSPC when the space above [starting_id] is full.
    [size m + 1] candidates always contain a free one (see
    [idr_scan_free]). *)
Definition idr_get_new_above (m : idr) (o : drm_obj) (starting_id : Z)
  : Z * idr * Z :=
  let id := idr_scan m starting_id (S (size m)) in
  if id <=? MAX_ID then (0, <[id := o]> m, id) else (- ENOSPC, m, 0).

(** [drm_idr_get(dev, ptr)]: the identifier, or 0 when the idr refuses
    ([new_id] keeps its initial value 0; the caller is not told). *)
Definition drm_idr_get (m : idr) (o : drm_obj) : idr * Z :=
  match idr_get_new_above m o 1 with
  | (ret, m', new_id) => if ret =? 0 then (m', new_id) else (m, 0)
  end.

(** [drm_idr_put(dev, id)] is [idr_remove]. *)
Definition drm_idr_put (m : idr) (id : Z) : idr := delete id m.

(** [idr_find(idp, id)]. *)
Definition idr_find (m : idr) (id : Z) : option drm_obj := m !! id.

(** ** Abstract specification of allocation *)

(** The least free positive identifier: what [idr_get_new_above(.., 1, ..)]
    promises. *)
Definition least_free (m : idr) (id : Z) : Prop :=
  1 <= id /\ m !! id = None /\ forall k, 1 <= k < id -> is_Some (m !! k).

(** ** The interface the entity store relies on *)

Class IdRegistry (R : Type) := {
  reg_get : R -> drm_obj -> R * Z;
  reg_put : R -> Z -> R;
  reg_find : R -> Z -> option drm_obj;
}.

Class IdRegistryLaws (R : Type) `{!IdRegistry R} := {
  reg_get_fresh r o r' id :
    reg_get r o = (r', id) -> id <> 0 ->
    reg_find r id = None /\ reg_find r' id = Some o /\
    forall k, k <> id -> reg_find r' k = reg_find r k;
  reg_get_zero r o r' : reg_get r o = (r', 0) -> r' = r;
  reg_get_pos r o r' id : reg_get r o = (r', id) -> 0 <= id;
  reg_put_find r id k :
    reg_find (reg_put r id) k = if decide (id = k) then None else reg_find r k;
}.

#[export] Instance idr_registry : IdRegistry idr := {|
  reg_get := drm_idr_get; reg_put := drm_idr_put; reg_find := idr_find |}.

(** ** The scan *)

Lemma idr_scan_ge m start fuel : start <= idr_scan m start fuel.
Proof.
  revert start. induction fuel as [|f IH]; intros start; simpl; [lia|].
  destruct (m !! start); [specialize (IH (start + 1)); lia | lia].
Qed.

(** Every identifier skipped by the scan is taken. *)
Lemma idr_scan_skipped m start fuel k :
  start <= k < idr_scan m start fuel -> is_Some (m !! k).
Proof.
  revert start. induction fuel as [|f IH]; intros start Hk; simpl in Hk; [lia|].
  destruct (m !! start) eqn:E; [|lia].
  destruct (Z.eq_dec k start) as [->|Hne]; [by rewrite E|].
  apply (IH (start + 1)). lia.
Qed.

(** The scan either stops on a free identifier or exhausts its fuel. *)
Lemma idr_scan_stop m start fuel :
  m !! idr_scan m start fuel = None \/ idr_scan m start fuel = start + Z.of_nat fuel.
Proof.
  revert start. induction fuel as [|f IH]; intros start; simpl; [right; lia|].
  destruct (m !! start) eqn:E; [|by left].
  destruct (IH (start + 1)) as [H|H]; [by left | right; lia].
Qed.

(** Pigeonhole: [n] consecutive taken identifiers need [n] entries. *)
Lemma idr_taken_size (m : idr) start (n : nat) :
  (forall k, start <= k < start + Z.of_nat n -> is_Some (m !! k)) ->
  (n <= size m)%nat.
Proof.
  intros Hall.
  assert (list_to_set (seqZ start (Z.of_nat n)) ⊆ dom m) as Hsub.
  { intros k Hk. apply elem_of_list_to_set, elem_of_seqZ in Hk.
    apply elem_of_dom, Hall. lia. }
  apply subseteq_size in Hsub. rewrite size_dom in Hsub.
  rewrite size_list_to_set in Hsub by apply NoDup_seqZ.
  rewrite length_seqZ in Hsub. lia.
Qed.

(** With [size m + 1] candidates the scan always finds a free one. *)
Lemma idr_scan_free m start :
  m !! idr_scan m start (S (size m)) = None.
Proof.
  destruct (idr_scan_stop m start (S (size m))) as [H|H]; [done|].
  exfalso. assert (S (size m) <= size m)%nat; [|lia].
  apply (idr_taken_size m start). intros k Hk.
  apply (idr_scan_skipped m start (S (size m))). lia.
Qed.

(** The scan from 1 never goes beyond [size m + 1]. *)
Lemma idr_scan_bound m start :
  idr_scan m start (S (size m)) <= start + Z.of_nat (size m).
Proof.
  destruct (Z_le_gt_dec (idr_scan m start (S (size m))) (start + Z.of_nat (size m)))
    as [H|H]; [done|].
  exfalso. assert (S (size m) <= size m)%nat; [|lia].
  apply (idr_taken_size m start). intros k Hk.
  apply (idr_scan_skipped m start (S (size m))). lia.
Qed.

#[export] Hint Resolve idr_scan_free idr_scan_ge : drm.

(** ** Allocation *)

Lemma drm_idr_get_cases m o :
  exists r, r = idr_scan m 1 (S (size m)) /\ 1 <= r /\ m !! r = None /\
    (forall k, 1 <= k < r -> is_Some (m !! k)) /\ r <= 1 + Z.of_nat (size m) /\
    ((drm_idr_get m o = (<[r := o]> m, r) /\ r <= MAX_ID)
     \/ (drm_idr_get m o = (m, 0) /\ MAX_ID < r)).
Proof.
  exists (idr_scan m 1 (S (size m))). split_and!; auto with drm.
  - intros k Hk. apply (idr_scan_skipped m 1 (S (size m))). lia.
  - apply idr_scan_bound.
  - unfold drm_idr_get, idr_get_new_above.
    destruct (Z.leb_spec (idr_scan m 1 (S (size m))) MAX_ID); simpl; [left | right]; auto.
Qed.

Lemma drm_idr_get_fresh m o :
  m !! 0 = None ->
  exists id, m !! id = None /\
    ((id <> 0 /\ drm_idr_get m o = (<[id := o]> m, id)) \/
     (id = 0 /\ drm_idr_get m o = (m, 0) /\ MAX_ID <= Z.of_nat (size m))).
Proof.
  intros H0. destruct (drm_idr_get_cases m o) as (r & _ & Hr & Hfree & _ & Hb & [[Hg _]|[Hg Hmax]]).
  - exists r. split; [done|left; split; [lia|done]].
  - exists 0. split; [done|right; split_and!; [done|done|lia]].
Qed.

(** C1: Refinement: a non-zero identifier returned by [drm_idr_get] is the
    least free positive identifier of the registry, it fits in a C [int],
    and the registry afterwards maps it (and nothing else new) to the
    object. *)
Theorem drm_idr_get_least_free m o m' id :
  drm_idr_get m o = (m', id) -> id <> 0 ->
  least_free m id /\ id <= MAX_ID /\ m' = <[id := o]> m.
Proof.
  intros Hget Hnz.
  destruct (drm_idr_get_cases m o) as (r & _ & Hr1 & Hfree & Hmin & _ & [[Heq Hle]|[Heq _]]);
    rewrite Heq in Hget; injection Hget as <- <-; [|done].
  by split_and!.
Qed.

(** C2: Exhaustion: [drm_idr_get] returns 0, and leaves the registry
    unchanged, exactly when every identifier of [1, MAX_ID] is taken. *)
Theorem drm_idr_get_zero_iff m o :
  (drm_idr_get m o).2 = 0 <-> (forall k, 1 <= k <= MAX_ID -> is_Some (m !! k)).
Proof.
  destruct (drm_idr_get_cases m o) as (r & _ & Hr1 & Hfree & Hmin & _ & [[Heq Hle]|[Heq Hgt]]);
    rewrite Heq; simpl.
  - split; [lia|]. intros Hall. destruct (Hall r) as [x Hx]; [lia | congruence].
  - split; [|done]. intros _ k Hk. apply Hmin. lia.
Qed.

(** C3: Bounds: the identifier handed out is at most one more than the
    number of live identifiers, so allocation succeeds whenever fewer than
    [MAX_ID] identifiers are live. *)
Theorem drm_idr_get_succeeds m o :
  (Z.of_nat (size m) < MAX_ID) ->
  1 <= (drm_idr_get m o).2 <= Z.of_nat (size m) + 1.
Proof.
  intros Hsz.
  destruct (drm_idr_get_cases m o) as (r & _ & Hr1 & _ & _ & Hb & [[Heq Hle]|[Heq Hgt]]);
    rewrite Heq; simpl; lia.
Qed.

(** Once the scan stops on a free identifier, more fuel gives the same
    identifier. *)
Lemma idr_scan_settled m start f f' :
  (f <= f')%nat -> m !! idr_scan m start f = None -> idr_scan m start f' = idr_scan m start f.
Proof.
  revert start f'. induction f as [|f IH]; intros start [|f'] Hle Hfree; cbn in *; try lia.
  - by rewrite Hfree.
  - destruct (m !! start); [apply IH; [lia | done] | done].
Qed.

(** Termination: the search loop of [idr_get_new_above] stops on a
    free identifier within [size m + 1] candidates: with any larger
    bound the scan returns the same free identifier, so the fuel
    [S (size m)] of the model never cuts the C loop short, and
    [drm_idr_get] returns that identifier when it fits an [int] and 0
    otherwise. *)
Lemma drm_idr_get_scan_terminates m o fuel :
  (size m < fuel)%nat ->
  idr_scan m 1 fuel = idr_scan m 1 (S (size m)) /\ m !! idr_scan m 1 fuel = None /\
  (drm_idr_get m o).2 = (if idr_scan m 1 fuel <=? MAX_ID then idr_scan m 1 fuel else 0).
Proof.
  intros Hf. assert (E : idr_scan m 1 fuel = idr_scan m 1 (S (size m))).
  { apply idr_scan_settled; [lia | apply idr_scan_free]. }
  rewrite E. split_and!; [done | apply idr_scan_free |].
  unfold drm_idr_get, idr_get_new_above. by destruct (_ <=? MAX_ID).
Qed.

Lemma drm_idr_get_succeeds_witness :
  (Z.of_nat (size (∅ : idr)) < MAX_ID) /\
  1 <= (drm_idr_get ∅ OBJ_CRTC).2 <= Z.of_nat (size (∅ : idr)) + 1.
Proof.
  split; [vm_compute; reflexivity|]. apply drm_idr_get_succeeds. vm_compute. reflexivity.
Defined.

Lemma drm_idr_get_least_free_witness :
  exists m', drm_idr_get (<[1 := OBJ_FB]> (<[3 := OBJ_CRTC]> ∅)) OBJ_OUTPUT = (m', 2) /\
    least_free (<[1 := OBJ_FB]> (<[3 := OBJ_CRTC]> ∅)) 2.
Proof.
  eexists. split; [reflexivity|].
  apply (drm_idr_get_least_free _ OBJ_OUTPUT (<[2 := OBJ_OUTPUT]> (<[1 := OBJ_FB]> (<[3 := OBJ_CRTC]> ∅))));
    [reflexivity | discriminate].
Defined.

(** ** Sequences of allocations and releases *)

(** The registry reachable from an empty one by [drm_idr_get] and
    [drm_idr_put], together with the identifiers its clients hold: an
    allocation that returns 0 gives the client nothing, a release takes
    the identifier from every holder. *)
Inductive idr_reach : idr -> list Z -> Prop :=
  | idr_reach_init : idr_reach ∅ []
  | idr_reach_get m live o m' id :
      idr_reach m live -> drm_idr_get m o = (m', id) ->
      idr_reach m' (if decide (id = 0) then live else id :: live)
  | idr_reach_put m live id :
      idr_reach m live ->
      idr_reach (drm_idr_put m id) (filter (fun x => x <> id) live).

(** C4: For every sequence of allocations and releases, no two live
    handles are equal, the live handles are exactly the registry's
    entries, and a released identifier no longer resolves. *)
Theorem idr_reach_distinct m live :
  idr_reach m live ->
  NoDup live /\ (forall x, x ∈ live <-> is_Some (idr_find m x)).
Proof.
  unfold idr_find. intros Hreach.
  induction Hreach as [|m0 l0 o m' id Hr [Hnd Hin] Hget|m0 l0 id Hr [Hnd Hin]].
  - split; [constructor|]. intros x. rewrite lookup_empty. split; [set_solver|].
    by intros [? ?].
  - destruct (drm_idr_get_cases m0 o) as (r0 & _ & Hr0 & Hfree & _ & _ & [[Heq _]|[Heq _]]);
      rewrite Heq in Hget; injection Hget as <- <-; case_decide; try lia; [|by split].
    split.
    + constructor; [|done]. rewrite Hin. rewrite Hfree. by intros [? ?].
    + intros x. rewrite elem_of_cons, lookup_insert.
      case_decide; [subst; naive_solver | rewrite Hin; naive_solver].
  - split; [by apply NoDup_filter|]. intros x.
    unfold drm_idr_put. rewrite list_elem_of_filter, lookup_delete, Hin.
    case_decide; [subst; split; [naive_solver | by intros [? ?]] | naive_solver].
Qed.

Definition idr_sample1 : idr := (drm_idr_get ∅ OBJ_FB).1.
Definition idr_sample2 : idr := (drm_idr_get idr_sample1 OBJ_CRTC).1.
Definition idr_sample : idr := (drm_idr_get (drm_idr_put idr_sample2 1) OBJ_MODE).1.

Lemma idr_reach_distinct_witness :
  NoDup [1; 2] /\ (forall x, x ∈ [1; 2] <-> is_Some (idr_find idr_sample x)).
Proof.
  apply idr_reach_distinct.
  pose proof (idr_reach_get _ _ OBJ_FB idr_sample1 1 idr_reach_init
    ltac:(vm_compute; reflexivity)) as H1.
  pose proof (idr_reach_get _ _ OBJ_CRTC idr_sample2 2 H1
    ltac:(vm_compute; reflexivity)) as H2.
  pose proof (idr_reach_put _ _ 1 H2) as H3.
  exact (idr_reach_get _ _ OBJ_MODE idr_sample 1 H3 ltac:(vm_compute; reflexivity)).
Defined.

(** The idr meets the registry interface. *)
#[export] Instance idr_registry_laws : IdRegistryLaws idr.
Proof.
  split; simpl.
  - intros r o r' id Hget Hnz.
    destruct (drm_idr_get_cases r o) as (x & _ & _ & Hfree & _ & _ & [[Heq _]|[Heq _]]);
      rewrite Heq in Hget; injection Hget as <- <-; [|done].
    unfold idr_find. split_and!; [done | apply lookup_insert_eq |].
    intros k Hk. by apply lookup_insert_ne.
  - intros r o r' Hget.
    destruct (drm_idr_get_cases r o) as (x & _ & Hx & _ & _ & _ & [[Heq _]|[Heq _]]);
      rewrite Heq in Hget; [injection Hget as <- Hz; lia | by injection Hget as <-].
  - intros r o r' id Hget.
    destruct (drm_idr_get_cases r o) as (x & _ & Hx & _ & _ & _ & [[Heq _]|[Heq _]]);
      rewrite Heq in Hget; injection Hget as <- <-; lia.
  - intros r id k. unfold idr_find, drm_idr_put. apply lookup_delete.
Qed.
