(* ===== verification/Modes.v ===== *)
(** * Display modes: [struct drm_display_mode] and its helpers

    A mode is a record of the C struct's fields (the [crtc_*] copies that
    [drm_mode_set_crtcinfo] derives for the hardware are not modelled).
    [drm_mode_equal] (drm_modes.c, outside [src/], modelled from the spec:
    equality of the full timing set) is an equivalence coarser than [=];
    it is declared as a setoid with the [Proper] instances the other files
    rewrite with.  The file also holds the mode type and flag constants of
    drm_crtc.h, the standard 640x480 mode of [drm_crtc.c], mode creation,
    duplication and destruction through the identifier registry, and the
    user-space conversions [drm_crtc_convert_to_umode] /
    [drm_crtc_convert_umode] with their width behaviour. *)

From S2P Require Import Prelude Idr.
From Stdlib Require Import Setoid Morphisms.

(** ** Constants of drm_crtc.h *)

Definition DRM_DISPLAY_MODE_LEN : nat := 32.

Definition DRM_MODE_TYPE_BUILTIN : Z := 1.
Definition DRM_MODE_TYPE_PREFERRED : Z := 8.
Definition DRM_MODE_TYPE_DEFAULT : Z := 16.
Definition DRM_MODE_TYPE_USERDEF : Z := 32.
Definition DRM_MODE_TYPE_DRIVER : Z := 64.

Definition V_PHSYNC : Z := 1.
Definition V_NHSYNC : Z := 2.
Definition V_PVSYNC : Z := 4.
Definition V_NVSYNC : Z := 8.
Definition V_INTERLACE : Z := 16.
Definition V_DBLSCAN : Z := 32.

(** [enum drm_mode_status]: the values the code reads or writes by name,
    and the driver's other rejection reasons. *)
Inductive drm_mode_status :=
  | MODE_OK
  | MODE_VIRTUAL_X
  | MODE_VIRTUAL_Y
  | MODE_BAD_WIDTH
  | MODE_UNVERIFIED
  | MODE_BAD
  | MODE_ERROR
  | MODE_REJECTED (reason : Z).

#[export] Instance drm_mode_status_eq_dec : EqDecision drm_mode_status.
Proof. solve_decision. Defined.

(** ** The mode record *)

Record drm_display_mode := mk_mode {
  mode_name : string;
  mode_id : Z;
  mode_status : drm_mode_status;
  mode_type : Z;
  clock : Z;
  hdisplay : Z; hsync_start : Z; hsync_end : Z; htotal : Z; hskew : Z;
  vdisplay : Z; vsync_start : Z; vsync_end : Z; vtotal : Z; vscan : Z;
  vrefresh : Z;
  flags : Z;
}.

#[export] Instance drm_display_mode_eq_dec : EqDecision drm_display_mode.
Proof. solve_decision. Defined.

(** The zeroed mode [kzalloc] returns. *)
Definition zero_mode : drm_display_mode :=
  mk_mode "" 0 MODE_OK 0 0 0 0 0 0 0 0 0 0 0 0 0 0.

(** [drm_mode_equal]: the full timing set (clock, horizontal and vertical
    timings, scan and flags); name, identifier, type, status and refresh
    are ignored. *)
Definition drm_mode_equal (m1 m2 : drm_display_mode) : bool :=
  (clock m1 =? clock m2) && (hdisplay m1 =? hdisplay m2) &&
  (hsync_start m1 =? hsync_start m2) && (hsync_end m1 =? hsync_end m2) &&
  (htotal m1 =? htotal m2) && (hskew m1 =? hskew m2) &&
  (vdisplay m1 =? vdisplay m2) && (vsync_start m1 =? vsync_start m2) &&
  (vsync_end m1 =? vsync_end m2) && (vtotal m1 =? vtotal m2) &&
  (vscan m1 =? vscan m2) && (flags m1 =? flags m2).

(** The timing set as a tuple, the key [drm_mode_equal] compares. *)
Definition mode_timings (m : drm_display_mode) :=
  (clock m, hdisplay m, hsync_start m, hsync_end m, htotal m, hskew m,
   vdisplay m, vsync_start m, vsync_end m, vtotal m, vscan m, flags m).

Definition mode_equiv (m1 m2 : drm_display_mode) : Prop := drm_mode_equal m1 m2 = true.

Infix "≡ₘ" := mode_equiv (at level 70, no associativity) : drm_scope.
Open Scope drm_scope.

(** ** The standard mode and mode objects *)

(** [DRM_MODE(nm, t, c, hd, hss, hse, ht, hsk, vd, vss, vse, vt, vs, f)]:
    status 0 (MODE_OK), refresh 0, no identifier. *)
Definition DRM_MODE (nm : string) (t c hd hss hse ht hsk vd vss vse vt vs f : Z)
  : drm_display_mode :=
  mk_mode nm 0 MODE_OK t c hd hss hse ht hsk vd vss vse vt vs 0 f.

(** [std_mode[0]], the 640x480@60Hz fallback of the prober. *)
Definition std_mode : drm_display_mode :=
  DRM_MODE "640x480" DRM_MODE_TYPE_DEFAULT 25200 640 656 752 800 0
    480 490 492 525 0 (Z.lor V_NHSYNC V_NVSYNC).

(** [drm_mode_create]: a zeroed mode with a fresh identifier. *)
Definition drm_mode_create (m : idr) : idr * drm_display_mode :=
  let '(m', id) := drm_idr_get m OBJ_MODE in
  (m', {| mode_name := ""; mode_id := id; mode_status := MODE_OK; mode_type := 0;
          clock := 0; hdisplay := 0; hsync_start := 0; hsync_end := 0; htotal := 0;
          hskew := 0; vdisplay := 0; vsync_start := 0; vsync_end := 0; vtotal := 0;
          vscan := 0; vrefresh := 0; flags := 0 |}).

(** [drm_mode_destroy]: the identifier goes back to the registry. *)
Definition drm_mode_destroy (m : idr) (mode : drm_display_mode) : idr :=
  drm_idr_put m (mode_id mode).

Definition set_mode_id (mode : drm_display_mode) (id : Z) : drm_display_mode :=
  {| mode_name := mode_name mode; mode_id := id; mode_status := mode_status mode;
     mode_type := mode_type mode; clock := clock mode; hdisplay := hdisplay mode;
     hsync_start := hsync_start mode; hsync_end := hsync_end mode; htotal := htotal mode;
     hskew := hskew mode; vdisplay := vdisplay mode; vsync_start := vsync_start mode;
     vsync_end := vsync_end mode; vtotal := vtotal mode; vscan := vscan mode;
     vrefresh := vrefresh mode; flags := flags mode |}.

(** [drm_mode_duplicate] (drm_modes.c): a new mode object, a copy of
    [mode] with the new identifier. *)
Definition drm_mode_duplicate (m : idr) (mode : drm_display_mode) : idr * drm_display_mode :=
  let '(m', nmode) := drm_mode_create m in (m', set_mode_id mode (mode_id nmode)).

(** ** [drm_mode_equal] is an equivalence *)

Lemma drm_mode_equal_spec m1 m2 :
  drm_mode_equal m1 m2 = true <-> mode_timings m1 = mode_timings m2.
Proof.
  unfold drm_mode_equal, mode_timings. rewrite !andb_true_iff, !Z.eqb_eq.
  split; [intros; destruct_and!; congruence | intros H; simplify_eq; naive_solver].
Qed.

#[export] Instance mode_equiv_equivalence : Equivalence mode_equiv.
Proof.
  unfold mode_equiv. split.
  - intros m. by apply drm_mode_equal_spec.
  - intros m1 m2. rewrite !drm_mode_equal_spec. done.
  - intros m1 m2 m3. rewrite !drm_mode_equal_spec. congruence.
Qed.

#[export] Instance drm_mode_equal_proper :
  Proper (mode_equiv ==> mode_equiv ==> eq) drm_mode_equal.
Proof.
  intros a a' Ha b b' Hb. unfold mode_equiv in *.
  rewrite drm_mode_equal_spec in Ha, Hb.
  destruct (drm_mode_equal a b) eqn:E1, (drm_mode_equal a' b') eqn:E2; try done;
    rewrite ?drm_mode_equal_spec in E1, E2; exfalso;
    [apply not_true_iff_false in E2 | apply not_true_iff_false in E1];
    rewrite drm_mode_equal_spec in *; congruence.
Qed.

#[export] Instance set_mode_id_proper : Proper (mode_equiv ==> eq ==> mode_equiv) set_mode_id.
Proof.
  intros a a' Ha i ? <-. unfold mode_equiv in *. rewrite drm_mode_equal_spec in *.
  exact Ha.
Qed.

Lemma drm_mode_equal_refl m : drm_mode_equal m m = true.
Proof. by apply drm_mode_equal_spec. Qed.

#[export] Hint Resolve drm_mode_equal_refl : drm.

(** ** User-space mode descriptions *)

(** [struct drm_mode_modeinfo] of drm.h (outside [src/], modelled from its
    declaration): 32-bit clock, 16-bit timings, 32-bit refresh, flags and
    type, a 32-byte name. *)
Record drm_mode_modeinfo := mk_umode {
  u_clock : Z;
  u_hdisplay : Z; u_hsync_start : Z; u_hsync_end : Z; u_htotal : Z; u_hskew : Z;
  u_vdisplay : Z; u_vsync_start : Z; u_vsync_end : Z; u_vtotal : Z; u_vscan : Z;
  u_vrefresh : Z; u_flags : Z; u_type : Z;
  u_name : string;
}.

(** [strncpy(out->name, in->name, DRM_DISPLAY_MODE_LEN);
     out->name[DRM_DISPLAY_MODE_LEN-1] = 0;]: at most 31 characters. *)
Definition mode_name_copy (s : string) : string :=
  String.substring 0 (DRM_DISPLAY_MODE_LEN - 1) s.

(** [drm_crtc_convert_to_umode(out, in)]. *)
Definition drm_crtc_convert_to_umode (i : drm_display_mode) : drm_mode_modeinfo := {|
  u_clock := wrap_u 32 (clock i);
  u_hdisplay := wrap_u 16 (hdisplay i); u_hsync_start := wrap_u 16 (hsync_start i);
  u_hsync_end := wrap_u 16 (hsync_end i); u_htotal := wrap_u 16 (htotal i);
  u_hskew := wrap_u 16 (hskew i);
  u_vdisplay := wrap_u 16 (vdisplay i); u_vsync_start := wrap_u 16 (vsync_start i);
  u_vsync_end := wrap_u 16 (vsync_end i); u_vtotal := wrap_u 16 (vtotal i);
  u_vscan := wrap_u 16 (vscan i);
  u_vrefresh := wrap_u 32 (vrefresh i); u_flags := wrap_u 32 (flags i);
  u_type := wrap_u 32 (mode_type i);
  u_name := mode_name_copy (mode_name i) |}.

(** [drm_crtc_convert_umode(out, in)]: the fields of [out] the function
    does not write (identifier, status) are kept. *)
Definition drm_crtc_convert_umode (out : drm_display_mode) (i : drm_mode_modeinfo)
  : drm_display_mode := {|
  mode_name := mode_name_copy (u_name i); mode_id := mode_id out;
  mode_status := mode_status out; mode_type := to_s32 (u_type i);
  clock := to_s32 (u_clock i);
  hdisplay := u_hdisplay i; hsync_start := u_hsync_start i; hsync_end := u_hsync_end i;
  htotal := u_htotal i; hskew := u_hskew i;
  vdisplay := u_vdisplay i; vsync_start := u_vsync_start i; vsync_end := u_vsync_end i;
  vtotal := u_vtotal i; vscan := u_vscan i;
  vrefresh := to_s32 (u_vrefresh i); flags := wrap_u 32 (u_flags i) |}.

(** The ranges in which a kernel mode survives the trip to user space. *)
Definition mode_fits_umode (m : drm_display_mode) : bool :=
  forallb (fun v => (0 <=? v) && (v <? 2 ^ 16))
    [hdisplay m; hsync_start m; hsync_end m; htotal m; hskew m;
     vdisplay m; vsync_start m; vsync_end m; vtotal m; vscan m] &&
  forallb (fun v => (0 <=? v) && (v <? 2 ^ 31)) [clock m; vrefresh m; mode_type m] &&
  (0 <=? flags m) && (flags m <? 2 ^ 32).

(** The C types of the fields: [fits_u w] an unsigned [w]-bit field,
    [fits_s32] an [int]. *)
Definition fits_u (w v : Z) : bool := (0 <=? v) && (v <? 2 ^ w).
Definition fits_s32 (v : Z) : bool := (- 2 ^ 31 <=? v) && (v <? 2 ^ 31).

(** ** Round trip through user space *)

Lemma substring_prefix_idem n (s : string) :
  String.substring 0 n (String.substring 0 n s) = String.substring 0 n s.
Proof.
  revert s. induction n as [|n IH]; intros [|c s]; simpl; try done. by rewrite IH.
Qed.

Lemma mode_name_copy_idem s : mode_name_copy (mode_name_copy s) = mode_name_copy s.
Proof. apply substring_prefix_idem. Qed.

Lemma fits_umode_ranges m :
  mode_fits_umode m = true ->
  (forall v, v ∈ [hdisplay m; hsync_start m; hsync_end m; htotal m; hskew m;
                  vdisplay m; vsync_start m; vsync_end m; vtotal m; vscan m] ->
             0 <= v < 2 ^ 16) /\
  (forall v, v ∈ [clock m; vrefresh m; mode_type m] -> 0 <= v < 2 ^ 31) /\
  0 <= flags m < 2 ^ 32.
Proof.
  unfold mode_fits_umode. rewrite !andb_true_iff, !forallb_forall.
  intros [[[H16 H31] H0] H32]. drm_bool. refine (conj _ (conj _ _)); [| |lia].
  - intros v Hv. apply list_elem_of_In, H16 in Hv. drm_bool. lia.
  - intros v Hv. apply list_elem_of_In, H31 in Hv. drm_bool. lia.
Qed.

(** C5: Round trip: a mode whose fields fit the widths of
    [struct drm_mode_modeinfo] comes back from [drm_crtc_convert_to_umode]
    followed by [drm_crtc_convert_umode] with the same timings, type and
    refresh, its name cut to 31 characters, and the identifier and status
    of the destination mode. *)
Theorem umode_roundtrip out m :
  mode_fits_umode m = true ->
  let r := drm_crtc_convert_umode out (drm_crtc_convert_to_umode m) in
  r ≡ₘ m /\ mode_type r = mode_type m /\ vrefresh r = vrefresh m /\
  mode_name r = mode_name_copy (mode_name m) /\
  mode_id r = mode_id out /\ mode_status r = mode_status out.
Proof.
  intros Hfit. destruct (fits_umode_ranges m Hfit) as (H16 & H31 & Hf). simpl.
  assert (forall v, v ∈ [clock m; vrefresh m; mode_type m] -> to_s32 (wrap_u 32 v) = v)
    as Hs by (intros v Hv; specialize (H31 v Hv); rewrite wrap_u_small, to_s32_small; lia).
  assert (forall v, v ∈ [hdisplay m; hsync_start m; hsync_end m; htotal m; hskew m;
                  vdisplay m; vsync_start m; vsync_end m; vtotal m; vscan m] ->
          wrap_u 16 v = v) as Hu by (intros v Hv; apply wrap_u_small, H16, Hv).
  rewrite !Hs by set_solver. rewrite mode_name_copy_idem.
  split_and!; try done. unfold mode_equiv. apply drm_mode_equal_spec.
  unfold mode_timings; simpl. rewrite !Hu, (Hs (clock m)) by set_solver.
  rewrite !(wrap_u_small 32 (flags m)) by lia. done.
Qed.

Definition mode_1080p : drm_display_mode :=
  mk_mode "1920x1080" 7 MODE_OK DRM_MODE_TYPE_PREFERRED 148500
    1920 2008 2052 2200 0 1080 1084 1089 1125 0 60 5.

Lemma umode_roundtrip_witness :
  mode_fits_umode mode_1080p = true /\
  (let r := drm_crtc_convert_umode zero_mode (drm_crtc_convert_to_umode mode_1080p) in
   r ≡ₘ mode_1080p /\ mode_type r = mode_type mode_1080p /\
   vrefresh r = vrefresh mode_1080p /\
   mode_name r = mode_name_copy (mode_name mode_1080p) /\
   mode_id r = mode_id zero_mode /\ mode_status r = mode_status zero_mode).
Proof.
  split; [vm_compute; reflexivity|]. apply umode_roundtrip. vm_compute. reflexivity.
Defined.

(** A timing beyond 16 bits wraps on the way out: the user sees another
    mode than the kernel holds. *)
Example umode_hdisplay_wraps :
  hdisplay (drm_crtc_convert_umode zero_mode
     (drm_crtc_convert_to_umode (DRM_MODE "wide" 0 0 (65536 + 640) 0 0 0 0 0 0 0 0 0 0)))
  = 640.
Proof. vm_compute. reflexivity. Qed.

(** ** Width behaviour of the round trip *)

Lemma fits_u_spec w z : fits_u w z = true <-> 0 <= z < 2 ^ w.
Proof. unfold fits_u. rewrite andb_true_iff, Z.leb_le, Z.ltb_lt. done. Qed.

Lemma fits_s32_spec z : fits_s32 z = true <-> - 2 ^ 31 <= z < 2 ^ 31.
Proof. unfold fits_s32. rewrite andb_true_iff, Z.leb_le, Z.ltb_lt. done. Qed.

(** An assignment to an unsigned [w]-bit field keeps exactly the values
    of that field's type. *)
Lemma wrap_u_id_iff w z : 0 <= w -> wrap_u w z = z <-> fits_u w z = true.
Proof.
  intros Hw. rewrite fits_u_spec. split; [intros <-; by apply wrap_u_range | apply wrap_u_small].
Qed.

Lemma wrap_u_idem w z : 0 <= w -> wrap_u w (wrap_u w z) = wrap_u w z.
Proof. intros Hw. apply wrap_u_small, wrap_u_range, Hw. Qed.

(** An [int] stored in an [unsigned int] and read back as an [int] keeps
    exactly the values of [int]. *)
Lemma to_s32_wrap_id_iff z : to_s32 (wrap_u 32 z) = z <-> fits_s32 z = true.
Proof.
  rewrite fits_s32_spec. split.
  - intros H. rewrite <- H. apply to_s32_range.
  - intros Hz. unfold to_s32, wrap_u. rewrite Z.mod_mod by lia.
    destruct (Z.leb_spec 0 z).
    + rewrite Z.mod_small by lia. destruct (Z.ltb_spec z (2 ^ 31)); lia.
    + rewrite <- (Z.mod_unique z (2 ^ 32) (-1) (z + 2 ^ 32)) by lia.
      destruct (Z.ltb_spec (z + 2 ^ 32) (2 ^ 31)); lia.
Qed.

(** C32: Width behaviour: a kernel mode sent to user space by
    [drm_crtc_convert_to_umode] and read back by [drm_crtc_convert_umode]
    keeps its timings ([drm_mode_equal]) exactly when each of the ten
    horizontal and vertical timings fits the [unsigned short] field of
    [struct drm_mode_modeinfo], the clock is an [int] and the flags an
    [unsigned int]; its type and refresh come back exactly when they are
    [int]s.  Any larger timing comes back reduced modulo 2^16. *)
Theorem umode_roundtrip_lossless out m :
  let r := drm_crtc_convert_umode out (drm_crtc_convert_to_umode m) in
  (r ≡ₘ m <->
     forallb (fits_u 16) [hdisplay m; hsync_start m; hsync_end m; htotal m; hskew m;
                          vdisplay m; vsync_start m; vsync_end m; vtotal m; vscan m] = true /\
     fits_s32 (clock m) = true /\ fits_u 32 (flags m) = true) /\
  (mode_type r = mode_type m <-> fits_s32 (mode_type m) = true) /\
  (vrefresh r = vrefresh m <-> fits_s32 (vrefresh m) = true).
Proof.
  cbn zeta. unfold mode_equiv. rewrite drm_mode_equal_spec. unfold mode_timings. cbn.
  rewrite wrap_u_idem, !pair_eq, !to_s32_wrap_id_iff, !wrap_u_id_iff by lia.
  cbn [forallb]. rewrite !andb_true_iff. tauto.
Qed.
