(* ===== verification/Config.v ===== *)
(** * The entity store: [struct drm_mode_config] and its objects

    The records of the framebuffers, CRTCs, outputs, properties and blobs
    of one device, the [drm_mode_config] state that owns them (with the
    identifier registry, the object counters, the [mode_config.mutex] as a
    flag, and the trace of driver hooks called so far), the driver
    callback interface [DrmFuncs], the object constructors and destructors
    of [drm_crtc.c], [drm_crtc_in_use], [drm_crtc_from_fb],
    [drm_disable_unused_functions] and the per-output property
    attachment array.

    References between objects (an output's CRTC, a CRTC's framebuffer)
    are identifiers, resolved through the lists at use time. *)

From S2P Require Import Prelude Idr Modes.

(** ** Objects *)

(** [enum drm_output_status] (connected = 1, disconnected = 2,
    unknown = 3) and the 0 of a freshly [kzalloc]ed output that has not
    been probed yet. *)
Inductive drm_output_status :=
  | output_status_none
  | output_status_connected | output_status_disconnected | output_status_unknown.

#[export] Instance drm_output_status_eq_dec : EqDecision drm_output_status.
Proof. solve_decision. Defined.

(** DPMS levels of drm.h. *)
Definition DPMSModeOn : Z := 0.
Definition DPMSModeStandby : Z := 1.
Definition DPMSModeSuspend : Z := 2.
Definition DPMSModeOff : Z := 3.

Record drm_framebuffer := mk_fb {
  fb_id : Z;
  fb_width : Z; fb_height : Z; fb_pitch : Z; fb_bits_per_pixel : Z; fb_depth : Z;
  fb_bo : Z;              (** handle of the backing buffer object, 0 when none *)
  fb_bo_kernel : bool;    (** [fb->bo->type == drm_bo_type_kernel] *)
}.

Record drm_crtc := mk_crtc {
  crtc_id : Z;
  crtc_enabled : bool;
  crtc_mode : drm_display_mode;
  crtc_x : Z; crtc_y : Z;
  desired_mode : option drm_display_mode;
  desired_x : Z; desired_y : Z;
  crtc_fb : option Z;     (** [crtc->fb], by framebuffer identifier *)
}.

(** [DRM_OUTPUT_MAX_PROPERTY] of drm_crtc.h. *)
Definition DRM_OUTPUT_MAX_PROPERTY : nat := 6.

Record drm_output := mk_output {
  output_id : Z;
  output_type : Z; output_type_id : Z;
  output_status : drm_output_status;
  possible_crtcs : Z; possible_clones : Z;
  output_crtc : option Z; (** [output->crtc], by CRTC identifier *)
  probed_modes : list drm_display_mode;
  modes : list drm_display_mode;
  user_modes : list drm_display_mode;
  initial_x : Z; initial_y : Z;
  property_ids : list Z;      (** [property_ids[DRM_OUTPUT_MAX_PROPERTY]] *)
  property_values : list Z;   (** [property_values[DRM_OUTPUT_MAX_PROPERTY]] *)
  edid_blob_ptr : option Z;
}.

Record drm_property_enum := mk_prop_enum { enum_value : Z; enum_name : string }.

Record drm_property := mk_property {
  prop_id : Z;
  prop_flags : Z;
  prop_name : string;
  num_values : nat;
  prop_values : list Z;
  enum_blob_list : list drm_property_enum;
}.

Record drm_property_blob := mk_blob { blob_id : Z; blob_length : Z; blob_data : list Z }.

#[export] Instance drm_framebuffer_eq_dec : EqDecision drm_framebuffer.
Proof. solve_decision. Defined.
#[export] Instance drm_crtc_eq_dec : EqDecision drm_crtc.
Proof. solve_decision. Defined.
#[export] Instance drm_output_eq_dec : EqDecision drm_output.
Proof. solve_decision. Defined.
#[export] Instance drm_property_enum_eq_dec : EqDecision drm_property_enum.
Proof. solve_decision. Defined.
#[export] Instance drm_property_eq_dec : EqDecision drm_property.
Proof. solve_decision. Defined.

(** Calls of the driver hooks that return nothing: the order of these
    events is what the hardware sees. *)
Inductive drm_event :=
  | EvOutputPrepare (o : Z)
  | EvOutputModeSet (o : Z) (mode adjusted : drm_display_mode)
  | EvOutputCommit (o : Z)
  | EvOutputDpms (o : Z) (level : Z)
  | EvOutputCleanup (o : Z)
  | EvCrtcPrepare (c : Z)
  | EvCrtcModeSet (c : Z) (mode adjusted : drm_display_mode) (x y : Z)
  | EvCrtcCommit (c : Z)
  | EvCrtcDpms (c : Z) (level : Z)
  | EvCrtcModeSetBase (c : Z) (x y : Z)
  | EvCrtcCleanup (c : Z)
  | EvFbProbe (c o : Z)
  | EvFbResize (c : Z)
  | EvFbRemove (fb : Z)
  | EvSysfsOutputRemove (o : Z)
  | EvSysfsHotplug
  | EvCursorSet (c : Z) (bo : option Z) (w h : Z)
  | EvCursorMove (c : Z) (x y : Z).

(** ** The driver callback interface

    [struct drm_output_funcs] and [struct drm_crtc_funcs]: the hooks whose
    results the core reads.  [mode_fixup] may adjust the adjusted mode
    ([Some]) or reject ([None]); [mode_set_base] is optional. *)
Class DrmFuncs := {
  output_detect : drm_output -> drm_output_status;
  output_get_modes : drm_output -> list drm_display_mode;
  output_mode_valid : drm_output -> drm_display_mode -> drm_mode_status;
  output_mode_fixup : drm_output -> drm_display_mode -> drm_display_mode ->
                      option drm_display_mode;
  output_set_property : option (drm_output -> drm_property -> Z -> Z);
  crtc_mode_fixup : drm_crtc -> drm_display_mode -> drm_display_mode ->
                    option drm_display_mode;
  crtc_has_mode_set_base : drm_crtc -> bool;
}.

(** [struct drm_driver]: the hooks of the driver as a whole.  [fb_probe]
    may attach a framebuffer to the CRTC (its identifier); [fb_resize] and
    [fb_remove] return nothing and are recorded as events. *)
Class DrmDriver := {
  driver_fb_probe : drm_crtc -> drm_output -> option Z;
}.

(** ** The device state *)

(** The [tv_*_property] fields of [struct drm_mode_config], set by
    [drm_create_tv_properties]. *)
Record drm_tv_properties := mk_tv_props {
  tv_left_margin_property : Z; tv_right_margin_property : Z;
  tv_top_margin_property : Z; tv_bottom_margin_property : Z;
  tv_mode_property : Z;
}.

Definition no_tv_props : drm_tv_properties := mk_tv_props 0 0 0 0 0.

Record drm_mode_config := mk_config {
  fb_list : list drm_framebuffer;
  crtc_list : list drm_crtc;
  output_list : list drm_output;
  property_list : list drm_property;
  property_blob_list : list drm_property_blob;
  crtc_idr : idr;
  num_fb : Z; num_output : Z; num_crtc : Z;
  hotplug_counter : Z;
  min_width : Z; min_height : Z;
  max_width : Z; max_height : Z;
  edid_property : Z; dpms_property : Z;
  connector_type_property : Z; connector_num_property : Z;
  tv_props : drm_tv_properties;
  mc_locked : bool;            (** [mode_config.mutex] is held *)
  hw_trace : list drm_event;   (** driver hooks called so far *)
}.

Section setters.
Context (s : drm_mode_config).
Definition set_fbs l := mk_config l (crtc_list s) (output_list s) (property_list s)
  (property_blob_list s) (crtc_idr s) (num_fb s) (num_output s) (num_crtc s)
  (hotplug_counter s) (min_width s) (min_height s) (max_width s) (max_height s) (edid_property s) (dpms_property s) (connector_type_property s) (connector_num_property s) (tv_props s)
  (mc_locked s) (hw_trace s).
Definition set_crtcs l := mk_config (fb_list s) l (output_list s) (property_list s)
  (property_blob_list s) (crtc_idr s) (num_fb s) (num_output s) (num_crtc s)
  (hotplug_counter s) (min_width s) (min_height s) (max_width s) (max_height s) (edid_property s) (dpms_property s) (connector_type_property s) (connector_num_property s) (tv_props s)
  (mc_locked s) (hw_trace s).
Definition set_outputs l := mk_config (fb_list s) (crtc_list s) l (property_list s)
  (property_blob_list s) (crtc_idr s) (num_fb s) (num_output s) (num_crtc s)
  (hotplug_counter s) (min_width s) (min_height s) (max_width s) (max_height s) (edid_property s) (dpms_property s) (connector_type_property s) (connector_num_property s) (tv_props s)
  (mc_locked s) (hw_trace s).
Definition set_properties l := mk_config (fb_list s) (crtc_list s) (output_list s) l
  (property_blob_list s) (crtc_idr s) (num_fb s) (num_output s) (num_crtc s)
  (hotplug_counter s) (min_width s) (min_height s) (max_width s) (max_height s) (edid_property s) (dpms_property s) (connector_type_property s) (connector_num_property s) (tv_props s)
  (mc_locked s) (hw_trace s).
Definition set_idr m := mk_config (fb_list s) (crtc_list s) (output_list s)
  (property_list s) (property_blob_list s) m (num_fb s) (num_output s) (num_crtc s)
  (hotplug_counter s) (min_width s) (min_height s) (max_width s) (max_height s) (edid_property s) (dpms_property s) (connector_type_property s) (connector_num_property s) (tv_props s)
  (mc_locked s) (hw_trace s).
Definition set_counts nf no nc := mk_config (fb_list s) (crtc_list s) (output_list s)
  (property_list s) (property_blob_list s) (crtc_idr s) nf no nc
  (hotplug_counter s) (min_width s) (min_height s) (max_width s) (max_height s) (edid_property s) (dpms_property s) (connector_type_property s) (connector_num_property s) (tv_props s)
  (mc_locked s) (hw_trace s).
Definition set_locked b := mk_config (fb_list s) (crtc_list s) (output_list s)
  (property_list s) (property_blob_list s) (crtc_idr s) (num_fb s) (num_output s)
  (num_crtc s) (hotplug_counter s) (min_width s) (min_height s) (max_width s) (max_height s) (edid_property s)
  (dpms_property s) (connector_type_property s) (connector_num_property s) (tv_props s) b (hw_trace s).
Definition set_blobs l := mk_config (fb_list s) (crtc_list s) (output_list s)
  (property_list s) l (crtc_idr s) (num_fb s) (num_output s) (num_crtc s)
  (hotplug_counter s) (min_width s) (min_height s) (max_width s) (max_height s) (edid_property s) (dpms_property s) (connector_type_property s) (connector_num_property s) (tv_props s)
  (mc_locked s) (hw_trace s).
Definition set_hotplug n := mk_config (fb_list s) (crtc_list s) (output_list s)
  (property_list s) (property_blob_list s) (crtc_idr s) (num_fb s) (num_output s)
  (num_crtc s) n (min_width s) (min_height s) (max_width s) (max_height s) (edid_property s) (dpms_property s) (connector_type_property s) (connector_num_property s) (tv_props s)
  (mc_locked s) (hw_trace s).
Definition set_std_props edid dpms := mk_config (fb_list s) (crtc_list s) (output_list s)
  (property_list s) (property_blob_list s) (crtc_idr s) (num_fb s) (num_output s)
  (num_crtc s) (hotplug_counter s) (min_width s) (min_height s) (max_width s) (max_height s) edid dpms (connector_type_property s) (connector_num_property s) (tv_props s)
  (mc_locked s) (hw_trace s).
(** Call of a driver hook that returns nothing. *)
Definition emit e := mk_config (fb_list s) (crtc_list s) (output_list s)
  (property_list s) (property_blob_list s) (crtc_idr s) (num_fb s) (num_output s)
  (num_crtc s) (hotplug_counter s) (min_width s) (min_height s) (max_width s) (max_height s) (edid_property s)
  (dpms_property s) (connector_type_property s) (connector_num_property s) (tv_props s) (mc_locked s) (hw_trace s ++ [e]).
Definition set_conn_props ctype cnum := mk_config (fb_list s) (crtc_list s) (output_list s)
  (property_list s) (property_blob_list s) (crtc_idr s) (num_fb s) (num_output s)
  (num_crtc s) (hotplug_counter s) (min_width s) (min_height s) (max_width s) (max_height s)
  (edid_property s) (dpms_property s) ctype cnum (tv_props s) (mc_locked s) (hw_trace s).
Definition set_tv_props t := mk_config (fb_list s) (crtc_list s) (output_list s)
  (property_list s) (property_blob_list s) (crtc_idr s) (num_fb s) (num_output s)
  (num_crtc s) (hotplug_counter s) (min_width s) (min_height s) (max_width s) (max_height s)
  (edid_property s) (dpms_property s) (connector_type_property s) (connector_num_property s) t
  (mc_locked s) (hw_trace s).
End setters.

(** ** Lookups and updates by identifier *)

Definition find_crtc (s : drm_mode_config) (cid : Z) : option drm_crtc :=
  find_first (fun c => crtc_id c =? cid) (crtc_list s).

Definition find_output (s : drm_mode_config) (oid : Z) : option drm_output :=
  find_first (fun o => output_id o =? oid) (output_list s).

Definition find_fb (s : drm_mode_config) (fid : Z) : option drm_framebuffer :=
  find_first (fun f => fb_id f =? fid) (fb_list s).

(** [crtc->field = ...] through the pointer: the CRTC with that identifier. *)
Definition update_crtc (s : drm_mode_config) (cid : Z) (f : drm_crtc -> drm_crtc) :=
  set_crtcs s (map (fun c => if crtc_id c =? cid then f c else c) (crtc_list s)).

Definition update_output (s : drm_mode_config) (oid : Z) (f : drm_output -> drm_output) :=
  set_outputs s (map (fun o => if output_id o =? oid then f o else o) (output_list s)).

(** Field updates of the object records. *)
Definition with_output_crtc (o : drm_output) (c : option Z) : drm_output :=
  mk_output (output_id o) (output_type o) (output_type_id o) (output_status o)
    (possible_crtcs o) (possible_clones o) c (probed_modes o) (modes o) (user_modes o)
    (initial_x o) (initial_y o) (property_ids o) (property_values o) (edid_blob_ptr o).

Definition with_output_initial (o : drm_output) (x y : Z) : drm_output :=
  mk_output (output_id o) (output_type o) (output_type_id o) (output_status o)
    (possible_crtcs o) (possible_clones o) (output_crtc o) (probed_modes o) (modes o)
    (user_modes o) x y (property_ids o) (property_values o) (edid_blob_ptr o).

Definition with_output_props (o : drm_output) (ids vals : list Z) : drm_output :=
  mk_output (output_id o) (output_type o) (output_type_id o) (output_status o)
    (possible_crtcs o) (possible_clones o) (output_crtc o) (probed_modes o) (modes o)
    (user_modes o) (initial_x o) (initial_y o) ids vals (edid_blob_ptr o).

Definition with_output_edid (o : drm_output) (b : option Z) : drm_output :=
  mk_output (output_id o) (output_type o) (output_type_id o) (output_status o)
    (possible_crtcs o) (possible_clones o) (output_crtc o) (probed_modes o) (modes o)
    (user_modes o) (initial_x o) (initial_y o) (property_ids o) (property_values o) b.

(** [idr_find(&dev->mode_config.crtc_idr, id)] followed by the source's
    [obj->id == id] check, for an object kept in a list: the object found
    there, provided the identifier is registered (the idr never holds 0). *)
Definition idr_lookup {A} (s : drm_mode_config) (id : Z) (found : option A) : option A :=
  match crtc_idr s !! id with Some _ => found | None => None end.

Definition with_crtc_enabled (c : drm_crtc) (b : bool) : drm_crtc :=
  mk_crtc (crtc_id c) b (crtc_mode c) (crtc_x c) (crtc_y c) (desired_mode c)
    (desired_x c) (desired_y c) (crtc_fb c).

Definition with_crtc_mode (c : drm_crtc) (m : drm_display_mode) (x y : Z) : drm_crtc :=
  mk_crtc (crtc_id c) (crtc_enabled c) m x y (desired_mode c)
    (desired_x c) (desired_y c) (crtc_fb c).

Definition with_crtc_desired (c : drm_crtc) (m : option drm_display_mode) (x y : Z)
  : drm_crtc :=
  mk_crtc (crtc_id c) (crtc_enabled c) (crtc_mode c) (crtc_x c) (crtc_y c) m x y (crtc_fb c).

Definition with_crtc_fb (c : drm_crtc) (f : option Z) : drm_crtc :=
  mk_crtc (crtc_id c) (crtc_enabled c) (crtc_mode c) (crtc_x c) (crtc_y c)
    (desired_mode c) (desired_x c) (desired_y c) f.

(** ** Object constructors and destructors *)

(** [drm_crtc_from_fb]: the first CRTC scanning out [fb]. *)
Definition drm_crtc_from_fb (s : drm_mode_config) (fb : Z) : option drm_crtc :=
  find_first (fun c => bool_decide (crtc_fb c = Some fb)) (crtc_list s).

(** [drm_framebuffer_create]: zeroed, identifier from the idr (0 if the
    idr refuses, unchecked), [list_add] at the head, [num_fb++]. *)
Definition drm_framebuffer_create (s : drm_mode_config) : drm_mode_config * Z :=
  let '(m', id) := drm_idr_get (crtc_idr s) OBJ_FB in
  let s1 := set_idr s m' in
  let s2 := set_counts s1 (num_fb s1 + 1) (num_output s1) (num_crtc s1) in
  (set_fbs s2 (mk_fb id 0 0 0 0 0 0 false :: fb_list s2), id).

(** [drm_framebuffer_destroy]: every CRTC scanning out [fb] loses it, the
    identifier is released, the node is unlinked, [num_fb--]. *)
Definition drm_framebuffer_destroy (s : drm_mode_config) (fb : Z) : drm_mode_config :=
  let s1 := set_crtcs s (map (fun c => if bool_decide (crtc_fb c = Some fb)
                                       then with_crtc_fb c None else c) (crtc_list s)) in
  let s2 := set_idr s1 (drm_idr_put (crtc_idr s1) fb) in
  let s3 := set_fbs s2 (remove_first (fun f => fb_id f =? fb) (fb_list s2)) in
  set_counts s3 (num_fb s3 - 1) (num_output s3) (num_crtc s3).

(** [drm_crtc_create]: zeroed, identifier from the idr, [list_add_tail],
    [num_crtc++]. *)
Definition drm_crtc_create (s : drm_mode_config) : drm_mode_config * Z :=
  let '(m', id) := drm_idr_get (crtc_idr s) OBJ_CRTC in
  let s1 := set_idr s m' in
  let s2 := set_crtcs s1 (crtc_list s1 ++ [mk_crtc id false zero_mode 0 0 None 0 0 None]) in
  (set_counts s2 (num_fb s2) (num_output s2) (num_crtc s2 + 1), id).

(** [drm_crtc_destroy]: the driver's cleanup hook, the identifier is
    released, the node is unlinked, [num_crtc--].  Outputs still bound to
    the CRTC are not touched. *)
Definition drm_crtc_destroy (s : drm_mode_config) (cid : Z) : drm_mode_config :=
  let s1 := emit s (EvCrtcCleanup cid) in
  let s2 := set_idr s1 (drm_idr_put (crtc_idr s1) cid) in
  let s3 := set_crtcs s2 (remove_first (fun c => crtc_id c =? cid) (crtc_list s2)) in
  set_counts s3 (num_fb s3) (num_output s3) (num_crtc s3 - 1).

(** [drm_crtc_in_use]: some output is bound to the CRTC. *)
Definition drm_crtc_in_use (s : drm_mode_config) (cid : Z) : bool :=
  existsb (fun o => bool_decide (output_crtc o = Some cid)) (output_list s).

(** [drm_disable_unused_functions]: DPMS off for every output without a
    CRTC, then for every disabled CRTC, in list order. *)
Definition disable_output_step (s : drm_mode_config) (o : drm_output) : drm_mode_config :=
  if bool_decide (output_crtc o = None)
  then emit s (EvOutputDpms (output_id o) DPMSModeOff) else s.

Definition disable_crtc_step (s : drm_mode_config) (c : drm_crtc) : drm_mode_config :=
  if crtc_enabled c then s else emit s (EvCrtcDpms (crtc_id c) DPMSModeOff).

Definition drm_disable_unused_functions (s : drm_mode_config) : drm_mode_config :=
  let s1 := fold_left disable_output_step (output_list s) s in
  fold_left disable_crtc_step (crtc_list s1) s1.

(** [drm_output_attach_property]: the first empty slot of the
    attachment array takes the pair; -EINVAL when all
    [DRM_OUTPUT_MAX_PROPERTY] slots are used. *)
Definition drm_output_attach_property (o : drm_output) (prop init_val : Z) : Z * drm_output :=
  match find_index (fun id => id =? 0) (take DRM_OUTPUT_MAX_PROPERTY (property_ids o)) with
  | Some i => (0, with_output_props o (<[i := prop]> (property_ids o))
                                      (<[i := init_val]> (property_values o)))
  | None => (- EINVAL, o)
  end.

(** [mutex_lock(&dev->mode_config.mutex)]: a caller that already holds
    the (non-recursive) mutex blocks forever, modelled as [None]. *)
Definition mutex_lock (s : drm_mode_config) : option drm_mode_config :=
  if mc_locked s then None else Some (set_locked s true).

Definition mutex_unlock (s : drm_mode_config) : drm_mode_config := set_locked s false.

(** [drm_output_create]: zeroed output with empty mode lists and
    attachment array, identifier from the idr, then under the mutex:
    [list_add_tail], [num_output++], and the EDID and DPMS properties
    attached with value 0. *)
Definition drm_output_create (s : drm_mode_config) (output_type : Z)
  : option (drm_mode_config * Z) :=
  let '(m', id) := drm_idr_get (crtc_idr s) OBJ_OUTPUT in
  let o0 := mk_output id output_type 1 output_status_none 0 0 None [] [] [] 0 0
              (replicate DRM_OUTPUT_MAX_PROPERTY 0) (replicate DRM_OUTPUT_MAX_PROPERTY 0) None in
  s1 ← mutex_lock (set_idr s m');
  let o1 := (drm_output_attach_property o0 (edid_property s1) 0).2 in
  let o2 := (drm_output_attach_property o1 (dpms_property s1) 0).2 in
  let s2 := set_outputs s1 (output_list s1 ++ [o2]) in
  let s3 := set_counts s2 (num_fb s2) (num_output s2 + 1) (num_crtc s2) in
  Some (mutex_unlock s3, id).

(** [drm_output_destroy]: the driver's cleanup hook, the three mode lists
    are freed with [drm_mode_remove] (no identifier released), then under
    the mutex the output's identifier is released and its node unlinked;
    [num_output] is left as it was. *)
Definition drm_output_destroy (s : drm_mode_config) (oid : Z) : option drm_mode_config :=
  let s1 := emit s (EvOutputCleanup oid) in
  s2 ← mutex_lock s1;
  let s3 := set_idr s2 (drm_idr_put (crtc_idr s2) oid) in
  let s4 := set_outputs s3 (remove_first (fun o => output_id o =? oid) (output_list s3)) in
  Some (mutex_unlock s4).

(** ** Lemmas on lookups and updates *)

Lemma find_crtc_update_same s cid f :
  (forall c, crtc_id (f c) = crtc_id c) ->
  find_crtc (update_crtc s cid f) cid = f <$> find_crtc s cid.
Proof.
  intros Hf. unfold find_crtc, update_crtc. simpl.
  induction (crtc_list s) as [|c l IH]; simpl; [done|].
  destruct (Z.eqb_spec (crtc_id c) cid); simpl; rewrite ?Hf.
  - by rewrite (proj2 (Z.eqb_eq _ _) e).
  - by rewrite (proj2 (Z.eqb_neq _ _) n).
Qed.

Lemma find_output_update_same s oid f :
  (forall o, output_id o = oid -> output_id (f o) = oid) ->
  find_output (update_output s oid f) oid = f <$> find_output s oid.
Proof.
  intros Hf. unfold find_output, update_output. simpl.
  induction (output_list s) as [|o l IH]; simpl; [done|].
  destruct (Z.eqb_spec (output_id o) oid) as [E|E]; simpl.
  - by rewrite (proj2 (Z.eqb_eq _ _) (Hf o E)).
  - by rewrite (proj2 (Z.eqb_neq _ _) E).
Qed.

Lemma find_output_id s oid o : find_output s oid = Some o -> output_id o = oid.
Proof. by intros [_ ?%Z.eqb_eq]%find_first_Some. Qed.

Lemma find_output_set_idr s m oid : find_output (set_idr s m) oid = find_output s oid.
Proof. done. Qed.

Lemma update_output_ids s oid f :
  (forall o, output_id o = oid -> output_id (f o) = oid) ->
  output_id <$> output_list (update_output s oid f) = output_id <$> output_list s.
Proof.
  intros Hf. unfold update_output. simpl. induction (output_list s) as [|o l IH]; [done|].
  simpl. f_equal; [|apply IH]. destruct (Z.eqb_spec (output_id o) oid); [by rewrite Hf|done].
Qed.

Lemma find_crtc_update_other s cid cid' f :
  cid <> cid' -> (forall c, crtc_id (f c) = crtc_id c) ->
  find_crtc (update_crtc s cid f) cid' = find_crtc s cid'.
Proof.
  intros Hne Hf. unfold find_crtc, update_crtc. simpl.
  induction (crtc_list s) as [|c l IH]; simpl; [done|].
  destruct (Z.eqb_spec (crtc_id c) cid) as [Heq|]; simpl; rewrite ?Hf; [|by rewrite IH].
  rewrite (proj2 (Z.eqb_neq (crtc_id c) cid')) by congruence. done.
Qed.

Lemma update_crtc_compose s cid f g :
  (forall c, crtc_id (f c) = crtc_id c) ->
  update_crtc (update_crtc s cid f) cid g = update_crtc s cid (g ∘ f).
Proof.
  intros Hf. unfold update_crtc. simpl. f_equal. rewrite map_map. apply map_ext.
  intros c. destruct (Z.eqb_spec (crtc_id c) cid); simpl; rewrite ?Hf;
    [by rewrite (proj2 (Z.eqb_eq _ _) e) | by rewrite (proj2 (Z.eqb_neq _ _) n)].
Qed.

(** Setters that do not touch the outputs. *)
Lemma output_list_update_crtc s cid f : output_list (update_crtc s cid f) = output_list s.
Proof. done. Qed.
Lemma output_list_emit s e : output_list (emit s e) = output_list s.
Proof. done. Qed.
Lemma output_list_set_idr s m : output_list (set_idr s m) = output_list s.
Proof. done. Qed.
Lemma crtc_list_emit s e : crtc_list (emit s e) = crtc_list s.
Proof. done. Qed.
Lemma crtc_list_set_idr s m : crtc_list (set_idr s m) = crtc_list s.
Proof. done. Qed.
Lemma hw_trace_update_crtc s cid f : hw_trace (update_crtc s cid f) = hw_trace s.
Proof. done. Qed.
Lemma hw_trace_set_idr s m : hw_trace (set_idr s m) = hw_trace s.
Proof. done. Qed.

#[export] Hint Rewrite output_list_update_crtc output_list_emit output_list_set_idr
  crtc_list_emit crtc_list_set_idr hw_trace_update_crtc hw_trace_set_idr : drm_rw.

Lemma find_crtc_emit s e cid : find_crtc (emit s e) cid = find_crtc s cid.
Proof. done. Qed.
Lemma find_crtc_set_idr s m cid : find_crtc (set_idr s m) cid = find_crtc s cid.
Proof. done. Qed.

#[export] Hint Rewrite find_crtc_emit find_crtc_set_idr : drm_rw.

Lemma mutex_unlock_lock s : mc_locked s = false -> mutex_unlock (set_locked s true) = s.
Proof. destruct s; simpl; intros ->; reflexivity. Qed.

Lemma find_output_set_locked s b oid : find_output (set_locked s b) oid = find_output s oid.
Proof. done. Qed.

(** ** Sample devices for concrete runs *)

Definition mode_720p : drm_display_mode :=
  mk_mode "1280x720" 8 MODE_OK 0 74250 1280 1390 1430 1650 0 720 725 730 750 0 60 5.

Definition sample_output (id : Z) (st : drm_output_status) (mask : Z)
    (ms : list drm_display_mode) (crtc : option Z) : drm_output :=
  mk_output id 0 1 st mask 0 crtc [] ms [] 0 0
    (replicate DRM_OUTPUT_MAX_PROPERTY 0) (replicate DRM_OUTPUT_MAX_PROPERTY 0) None.

Definition sample_crtc (id : Z) : drm_crtc := mk_crtc id false zero_mode 0 0 None 0 0 None.

(** Two CRTCs (identifiers 1 and 2) and the given outputs. *)
Definition sample_config (outs : list drm_output) : drm_mode_config :=
  mk_config [] [sample_crtc 1; sample_crtc 2] outs [] []
    (<[1 := OBJ_CRTC]> (<[2 := OBJ_CRTC]> ∅)) 0 (Z.of_nat (length outs)) 2 0 0 0 2048 2048 0 0 0 0 no_tv_props
    false [].

(** The spec's scenario: O1 connected, mask 0b11, modes 1080p (preferred)
    and 720p; O2 disconnected. *)
Definition scenario_config : drm_mode_config :=
  sample_config [sample_output 3 output_status_connected 3 [mode_1080p; mode_720p] None;
                 sample_output 4 output_status_disconnected 3 [] None].

(** A driver whose outputs reject, at [mode_fixup] and [mode_valid],
    every mode with a pixel clock above 100 MHz; its CRTCs accept every
    mode and can reposition without a full mode set. *)
Definition sample_funcs : DrmFuncs := {|
  output_detect := output_status;
  output_get_modes := modes;
  output_mode_valid := fun _ m => if clock m <=? 100000 then MODE_OK else MODE_REJECTED 1;
  output_mode_fixup := fun _ m adj => if clock m <=? 100000 then Some adj else None;
  output_set_property := None;
  crtc_mode_fixup := fun _ _ adj => Some adj;
  crtc_has_mode_set_base := fun _ => true;
|}.

Lemma drm_disable_unused_functions_lists s :
  output_list (drm_disable_unused_functions s) = output_list s /\
  crtc_list (drm_disable_unused_functions s) = crtc_list s.
Proof.
  unfold drm_disable_unused_functions.
  assert (forall A (l : list A) f s, (forall s a, output_list (f s a) = output_list s /\
            crtc_list (f s a) = crtc_list s) ->
          output_list (fold_left f l s) = output_list s /\ crtc_list (fold_left f l s) = crtc_list s)
    as Hfold.
  { intros A l f. induction l as [|a l IH]; intros s0 Hf; [done|]. simpl.
    destruct (IH (f s0 a) Hf) as [-> ->]. apply Hf. }
  destruct (Hfold _ (output_list s) disable_output_step s) as [H1 H2];
    [intros s0 o; unfold disable_output_step; by case_bool_decide|].
  destruct (Hfold _ (crtc_list (fold_left disable_output_step (output_list s) s))
    disable_crtc_step (fold_left disable_output_step (output_list s) s)) as [H3 H4];
    [intros s0 c; unfold disable_crtc_step; by destruct (crtc_enabled c)|].
  rewrite H3, H4, H1, H2. done.
Qed.
