(* ===== verification/Property.v ===== *)
(** * The property system

    Properties ([struct drm_property]) are created with a flag set, a name
    and a value array; enum properties carry a list of named entries.  An
    output holds up to [DRM_OUTPUT_MAX_PROPERTY] attached (property,
    value) pairs ([drm_output_attach_property] in [Config]).  The set
    ioctl [drm_mode_output_property_set_ioctl] checks, in this order, that
    the output exists, that the property is attached to it, that the
    property exists, that it is not immutable, and that the value is in
    range (range properties) or among the declared values (all others),
    and then hands the value to the driver's [set_property] hook; every
    failure is -EINVAL.

    The file holds these operations, an abstract specification of the
    validation (the spec's error taxonomy) with the refinement theorem,
    the idempotence of enum registration, the capacity of the attachment
    array, and the lock discipline of the ioctl.

    Objects are looked up in the list of their own kind: the source's
    [idr_find] returns an object of any kind and only compares its [id]
    field, which is not modelled (see the findings). *)

From S2P Require Import Prelude Idr Modes Config.

(** ** Constants of drm.h *)

Definition DRM_MODE_PROP_PENDING : Z := 1.
Definition DRM_MODE_PROP_RANGE : Z := 2.
Definition DRM_MODE_PROP_IMMUTABLE : Z := 4.
Definition DRM_MODE_PROP_ENUM : Z := 8.
Definition DRM_MODE_PROP_BLOB : Z := 16.
Definition DRM_PROP_NAME_LEN : nat := 32.

Definition has_flag (flags f : Z) : bool := c_bool (Z.land flags f).

Definition find_property (s : drm_mode_config) (pid : Z) : option drm_property :=
  find_first (fun p => prop_id p =? pid) (property_list s).

(** ** Properties *)

(** [drm_property_create]: a zeroed value array of [num_values] entries,
    an identifier from the idr, the name copied with
    [strncpy(.., DRM_PROP_NAME_LEN)] (at most 32 characters, no
    terminator forced), appended to the property list. *)
Definition drm_property_create (s : drm_mode_config) (flags : Z) (name : string)
    (num_values : nat) : drm_mode_config * Z :=
  let '(m', id) := drm_idr_get (crtc_idr s) OBJ_PROPERTY in
  let p := mk_property id flags (String.substring 0 DRM_PROP_NAME_LEN name) num_values
             (replicate num_values 0) [] in
  let s1 := set_idr s m' in
  (set_properties s1 (property_list s1 ++ [p]), id).

Definition with_enum_list (p : drm_property) (l : list drm_property_enum) : drm_property :=
  mk_property (prop_id p) (prop_flags p) (prop_name p) (num_values p) (prop_values p) l.

Definition with_values (p : drm_property) (v : list Z) : drm_property :=
  mk_property (prop_id p) (prop_flags p) (prop_name p) (num_values p) v (enum_blob_list p).

(** The first entry with the value gets the new name. *)
Fixpoint rename_enum (l : list drm_property_enum) (value : Z) (name : string)
  : list drm_property_enum :=
  match l with
  | [] => []
  | e :: l' => if enum_value e =? value then mk_prop_enum value name :: l'
               else e :: rename_enum l' value name
  end.

(** [drm_property_add_enum(property, index, value, name)]: -EINVAL unless
    the property is an enum; an entry with the same value is renamed in
    place; otherwise a new entry is appended and [values[index] = value].
    The name is cut to 31 characters.  The source does not check [index]
    against [num_values]; an index out of range writes past the array,
    which the model leaves out (the list is not changed). *)
Definition drm_property_add_enum (p : drm_property) (index : nat) (value : Z)
    (name : string) : Z * drm_property :=
  let nm := String.substring 0 (DRM_PROP_NAME_LEN - 1) name in
  if negb (has_flag (prop_flags p) DRM_MODE_PROP_ENUM) then (- EINVAL, p)
  else if existsb (fun e => enum_value e =? value) (enum_blob_list p)
  then (0, with_enum_list p (rename_enum (enum_blob_list p) value nm))
  else (0, with_values (with_enum_list p (enum_blob_list p ++ [mk_prop_enum value nm]))
                       (<[index := value]> (prop_values p))).

(** A write through a property pointer: the property with that
    identifier. *)
Definition update_property (s : drm_mode_config) (pid : Z) (f : drm_property -> drm_property)
  : drm_mode_config :=
  set_properties s (map (fun p => if prop_id p =? pid then f p else p) (property_list s)).

(** [drm_property_destroy]: entries and values freed, identifier
    released, node unlinked. *)
Definition drm_property_destroy (s : drm_mode_config) (pid : Z) : drm_mode_config :=
  let s1 := set_idr s (drm_idr_put (crtc_idr s) pid) in
  set_properties s1 (remove_first (fun p => prop_id p =? pid) (property_list s1)).

(** ** Values attached to an output *)

(** The slot of a property in the attachment array: the
    [for (i = 0; i < DRM_OUTPUT_MAX_PROPERTY; i++) if (ids[i] == id) break;]
    loop. *)
Definition property_slot (o : drm_output) (pid : Z) : option nat :=
  find_index (fun id => id =? pid) (take DRM_OUTPUT_MAX_PROPERTY (property_ids o)).

(** [drm_output_property_set_value]. *)
Definition drm_output_property_set_value (o : drm_output) (pid value : Z) : Z * drm_output :=
  match property_slot o pid with
  | Some i => (0, with_output_props o (property_ids o) (<[i := value]> (property_values o)))
  | None => (- EINVAL, o)
  end.

(** [drm_output_property_get_value]: the return code and [*val]. *)
Definition drm_output_property_get_value (o : drm_output) (pid : Z) : Z * option Z :=
  match property_slot o pid with
  | Some i => (0, property_values o !! i)
  | None => (- EINVAL, None)
  end.

(** ** The set-property ioctl *)

(** The value check: within [values[0], values[1]] for a range property,
    one of the [num_values] declared values otherwise. *)
Definition property_value_ok (p : drm_property) (value : Z) : bool :=
  if has_flag (prop_flags p) DRM_MODE_PROP_RANGE
  then (default 0 (prop_values p !! 0%nat) <=? value) &&
       (value <=? default 0 (prop_values p !! 1%nat))
  else existsb (fun v => v =? value) (take (num_values p) (prop_values p)).

Section set_ioctl.
Context `{!DrmFuncs}.

(** [drm_mode_output_property_set_ioctl(dev, {output_id, prop_id, value})],
    under the mode_config mutex. *)
Definition drm_mode_output_property_set_ioctl (s : drm_mode_config)
    (output_id prop_id value : Z) : option (drm_mode_config * Z) :=
  s1 ← mutex_lock s;
  let ret :=
    match idr_lookup s1 output_id (find_output s1 output_id) with
    | None => - EINVAL
    | Some o =>
      match property_slot o prop_id with
      | None => - EINVAL
      | Some _ =>
        match idr_lookup s1 prop_id (find_property s1 prop_id) with
        | None => - EINVAL
        | Some p =>
          if has_flag (prop_flags p) DRM_MODE_PROP_IMMUTABLE then - EINVAL
          else if negb (property_value_ok p value) then - EINVAL
          else match output_set_property with
               | Some f => f o p value
               | None => - EINVAL
               end
        end
      end
    end in
  Some (mutex_unlock s1, ret).
End set_ioctl.

(** ** Blobs *)

Definition find_blob (s : drm_mode_config) (bid : Z) : option drm_property_blob :=
  find_first (fun b => blob_id b =? bid) (property_blob_list s).

(** [drm_property_create_blob(dev, length, data)]: NULL for a zero length
    or a NULL [data]; otherwise [length] bytes copied from [data], an
    identifier from the idr, appended to the blob list.  The result is the
    new blob's identifier. *)
Definition drm_property_create_blob (s : drm_mode_config) (length : Z)
    (data : option (list Z)) : drm_mode_config * option Z :=
  match data with
  | Some d =>
    if length =? 0 then (s, None)
    else
      let '(m', id) := drm_idr_get (crtc_idr s) OBJ_BLOB in
      let s1 := set_idr s m' in
      (set_blobs s1 (property_blob_list s1 ++ [mk_blob id length (take (Z.to_nat length) d)]),
       Some id)
  | None => (s, None)
  end.

(** [drm_property_destroy_blob]. *)
Definition drm_property_destroy_blob (s : drm_mode_config) (bid : Z) : drm_mode_config :=
  let s1 := set_idr s (drm_idr_put (crtc_idr s) bid) in
  set_blobs s1 (remove_first (fun b => blob_id b =? bid) (property_blob_list s1)).

(** [drm_mode_getblob_ioctl(dev, {blob_id, length, data})]: the return
    code, the [length] written back, and the bytes copied to user space
    (only when the caller's length equals the blob's; [copy_to_user] is
    taken to succeed). *)
Definition drm_mode_getblob_ioctl (s : drm_mode_config) (bid length : Z)
  : option (drm_mode_config * (Z * Z * option (list Z))) :=
  s1 ← mutex_lock s;
  let r :=
    match idr_lookup s1 bid (find_blob s1 bid) with
    | None => (- EINVAL, length, None)
    | Some b => (0, blob_length b,
                 if length =? blob_length b then Some (blob_data b) else None)
    end in
  Some (mutex_unlock s1, r).

(** [drm_mode_output_update_edid_property(output, edid)]: the old EDID
    blob is destroyed, a 128-byte blob is made from [edid], and its
    identifier becomes the value of the EDID property on the output.  A
    NULL [edid] makes [drm_property_create_blob] return NULL, which the
    code then dereferences: modelled as [None]. *)
Definition drm_mode_output_update_edid_property (s : drm_mode_config) (o : drm_output)
    (edid : option (list Z)) : option (drm_mode_config * Z) :=
  let s1 := match edid_blob_ptr o with
            | Some b => drm_property_destroy_blob s b
            | None => s
            end in
  match drm_property_create_blob s1 128 edid with
  | (_, None) => None
  | (s2, Some bid) =>
    let '(ret, o') := drm_output_property_set_value (with_output_edid o (Some bid))
                        (edid_property s2) bid in
    Some (update_output s2 (output_id o) (fun _ => o'), ret)
  end.

(** ** Well-formedness of an attachment array *)

(** [property_ids] and [property_values] are arrays of
    [DRM_OUTPUT_MAX_PROPERTY] entries in [struct drm_output]. *)
Definition output_props_wf (o : drm_output) : Prop :=
  length (property_ids o) = DRM_OUTPUT_MAX_PROPERTY /\
  length (property_values o) = DRM_OUTPUT_MAX_PROPERTY.

(** ** Lemmas *)

Lemma find_property_set_locked s b pid : find_property (set_locked s b) pid = find_property s pid.
Proof. done. Qed.

Lemma property_slot_spec o pid :
  is_Some (property_slot o pid) <-> pid ∈ take DRM_OUTPUT_MAX_PROPERTY (property_ids o).
Proof.
  unfold property_slot. rewrite find_index_elem. split.
  - intros (x & Hx & ?%Z.eqb_eq). by subst.
  - intros H. exists pid. split; [done | apply Z.eqb_refl].
Qed.

Lemma property_slot_lt o pid i :
  property_slot o pid = Some i -> (i < DRM_OUTPUT_MAX_PROPERTY)%nat /\ (i < length (property_ids o))%nat.
Proof. intros H%find_index_lt. rewrite length_take in H. lia. Qed.

Lemma property_value_ok_spec p v :
  property_value_ok p v = true <->
  if has_flag (prop_flags p) DRM_MODE_PROP_RANGE
  then default 0 (prop_values p !! 0%nat) <= v <= default 0 (prop_values p !! 1%nat)
  else v ∈ take (num_values p) (prop_values p).
Proof.
  unfold property_value_ok. destruct (has_flag _ _).
  - by rewrite andb_true_iff, !Z.leb_le.
  - rewrite existsb_exists, list_elem_of_In. split.
    + by intros (x & Hx & ->%Z.eqb_eq).
    + intros H. exists v. split; [done | apply Z.eqb_refl].
Qed.

(** The slot found after writing [pid] into slot [i], when the slots
    before [i] hold other identifiers. *)
Lemma property_slot_insert o i pid vals :
  (i < DRM_OUTPUT_MAX_PROPERTY)%nat -> (i < length (property_ids o))%nat ->
  (forall j y, (j < i)%nat -> property_ids o !! j = Some y -> y <> pid) ->
  property_slot (with_output_props o (<[i := pid]> (property_ids o)) vals) pid = Some i.
Proof.
  intros Hi Hl Hmin. unfold property_slot; simpl.
  apply (find_index_intro _ _ _ pid); [| apply Z.eqb_refl |].
  - rewrite lookup_take_lt by done. by apply list_lookup_insert_eq.
  - intros j y Hj. rewrite lookup_take_lt, list_lookup_insert_ne by lia.
    intros Hy. apply Z.eqb_neq. eapply Hmin; eauto.
Qed.


(** ** Attaching, setting and reading values *)

(** [drm_output_attach_property] fails with -EINVAL, leaving the
    output as it was, exactly when the slot search of
    [drm_output_property_set_value] finds no empty slot (identifier 0),
    that is exactly when every one of the [DRM_OUTPUT_MAX_PROPERTY] slots
    holds a property identifier. *)
Theorem drm_output_attach_property_full o pid v :
  (drm_output_attach_property o pid v = (- EINVAL, o) <-> property_slot o 0 = None) /\
  (property_slot o 0 = None <->
   forall id, id ∈ take DRM_OUTPUT_MAX_PROPERTY (property_ids o) -> id <> 0).
Proof.
  unfold drm_output_attach_property, property_slot.
  destruct (find_index _ _) eqn:E; (split; split; try done).
  - intros Hfull. destruct (find_index_Some _ _ _ E) as (x & Hx & ->%Z.eqb_eq & _).
    exfalso. apply (Hfull 0); [by eapply list_elem_of_lookup_2|done].
  - intros _ id Hid ->. pose proof (find_index_None _ _ E 0 Hid) as H. discriminate H.
Qed.

(** Attaching a property that is not yet attached, on success,
    makes [drm_output_property_get_value] return the initial value, and
    keeps the attachment arrays at their size. *)
Theorem drm_output_attach_then_get o pid v o' :
  output_props_wf o -> pid <> 0 -> pid ∉ property_ids o ->
  drm_output_attach_property o pid v = (0, o') ->
  drm_output_property_get_value o' pid = (0, Some v) /\ output_props_wf o'.
Proof.
  intros [Hli Hlv] Hpid Hnot. unfold drm_output_attach_property.
  destruct (find_index _ _) as [i|] eqn:E; [|done]. intros [= <-].
  pose proof (find_index_lt _ _ _ E) as Hi. rewrite length_take in Hi.
  unfold drm_output_property_get_value. rewrite property_slot_insert by
    (try lia; intros j y _ Hy ->; by apply Hnot, (list_elem_of_lookup_2 _ j)).
  unfold output_props_wf; simpl. rewrite !length_insert, list_lookup_insert_eq by lia.
  done.
Qed.

(** A successful [drm_output_property_set_value] is read back by
    [drm_output_property_get_value] and changes no identifier. *)
Theorem drm_output_set_then_get o pid v o' :
  output_props_wf o ->
  drm_output_property_set_value o pid v = (0, o') ->
  drm_output_property_get_value o' pid = (0, Some v) /\
  property_ids o' = property_ids o /\ output_props_wf o'.
Proof.
  intros [Hli Hlv]. unfold drm_output_property_set_value.
  destruct (property_slot o pid) as [i|] eqn:E; [|done]. intros [= <-].
  destruct (property_slot_lt _ _ _ E).
  unfold drm_output_property_get_value, property_slot, output_props_wf in *; simpl.
  rewrite E, length_insert, list_lookup_insert_eq by lia. done.
Qed.

(** ** Enum entries *)


Lemma rename_enum_find l v n :
  existsb (fun e => enum_value e =? v) l = true ->
  find_first (fun e => enum_value e =? v) (rename_enum l v n) = Some (mk_prop_enum v n).
Proof.
  induction l as [|e l IH]; simpl; [discriminate|].
  destruct (enum_value e =? v) eqn:E; simpl; [by rewrite Z.eqb_refl | by rewrite E].
Qed.

Lemma rename_enum_fixed l v n :
  find_first (fun e => enum_value e =? v) l = Some (mk_prop_enum v n) -> rename_enum l v n = l.
Proof.
  induction l as [|e l IH]; simpl; [done|].
  destruct (enum_value e =? v); [by intros [= ->] | intros H; f_equal; auto].
Qed.



Lemma drm_property_add_enum_named p j v name :
  has_flag (prop_flags p) DRM_MODE_PROP_ENUM = true ->
  find_first (fun e => enum_value e =? v) (enum_blob_list p) =
    Some (mk_prop_enum v (String.substring 0 (DRM_PROP_NAME_LEN - 1) name)) ->
  drm_property_add_enum p j v name = (0, p).
Proof.
  intros Hf Hfind. unfold drm_property_add_enum. rewrite Hf; simpl.
  destruct (find_first_Some _ _ _ Hfind) as [Hin Hv].
  replace (existsb _ _) with true
    by (symmetry; apply existsb_exists; eexists; split; [by apply list_elem_of_In | exact Hv]).
  rewrite rename_enum_fixed by exact Hfind. by destruct p.
Qed.

(** Registering the same (value, name) pair a second time, at any
    index, leaves the property as the first registration left it. *)
Theorem drm_property_add_enum_idempotent p i j v name p1 :
  drm_property_add_enum p i v name = (0, p1) ->
  drm_property_add_enum p1 j v name = (0, p1).
Proof.
  unfold drm_property_add_enum at 1.
  destruct (has_flag _ _) eqn:Hf; simpl; [|discriminate].
  destruct (existsb _ _) eqn:Hex; intros [= <-]; apply drm_property_add_enum_named; simpl;
    [done | by apply rename_enum_find | done | apply find_first_app_last; [done | apply Z.eqb_refl]].
Qed.

(** ** The set-property ioctl against its contract *)

Section set_ioctl_proofs.
Context `{!DrmFuncs}.

(** The checks a request must pass before the driver sees it: the output
    exists, the property is attached to it, the property exists, is not
    immutable, and the value is within [values[0], values[1]] (range) or
    among the [num_values] declared values (any other kind). *)
Definition set_property_accepts (s : drm_mode_config) (oid pid v : Z)
    (o : drm_output) (p : drm_property) : Prop :=
  is_Some (crtc_idr s !! oid) /\ find_output s oid = Some o /\
  pid ∈ take DRM_OUTPUT_MAX_PROPERTY (property_ids o) /\
  is_Some (crtc_idr s !! pid) /\ find_property s pid = Some p /\
  has_flag (prop_flags p) DRM_MODE_PROP_IMMUTABLE = false /\
  if has_flag (prop_flags p) DRM_MODE_PROP_RANGE
  then default 0 (prop_values p !! 0%nat) <= v <= default 0 (prop_values p !! 1%nat)
  else v ∈ take (num_values p) (prop_values p).

Lemma idr_lookup_Some {A} s id (x : option A) y :
  idr_lookup s id x = Some y <-> is_Some (crtc_idr s !! id) /\ x = Some y.
Proof. unfold idr_lookup. destruct (crtc_idr s !! id); naive_solver. Qed.

Lemma idr_lookup_set_locked {A} s b id (x : option A) :
  idr_lookup (set_locked s b) id x = idr_lookup s id x.
Proof. done. Qed.

Ltac reject_request :=
  right; split; [done|right];
  intros ?? ([? Hio] & Ho' & Hin'%property_slot_spec & [? Hip] & Hp' & Hi' & Hv'%property_value_ok_spec);
  unfold idr_lookup in *; rewrite ?Hio, ?Hip in *; simplify_eq; try destruct Hin'; congruence.

(** C18: on a device whose mutex is free, the set-property ioctl leaves
    the device state as it was and returns the driver's [set_property]
    result when the request passes every check and the driver has the
    hook; otherwise it returns -EINVAL without consulting the driver. *)
Theorem drm_mode_output_property_set_ioctl_spec s oid pid v :
  mc_locked s = false ->
  exists ret, drm_mode_output_property_set_ioctl s oid pid v = Some (s, ret) /\
    ((exists o p f, set_property_accepts s oid pid v o p /\
                    output_set_property = Some f /\ ret = f o p v) \/
     (ret = - EINVAL /\
      (output_set_property = None \/ forall o p, ~ set_property_accepts s oid pid v o p))).
Proof.
  intros Hl. unfold drm_mode_output_property_set_ioctl, mutex_lock. rewrite Hl; simpl.
  rewrite mutex_unlock_lock by done. eexists; split; [reflexivity|].
  unfold set_property_accepts.
  rewrite !idr_lookup_set_locked, find_output_set_locked, find_property_set_locked.
  destruct (idr_lookup s oid _) as [o|] eqn:Ho; [|reject_request].
  destruct (property_slot o pid) as [i|] eqn:Hs; [|reject_request].
  destruct (idr_lookup s pid _) as [p|] eqn:Hp; [|reject_request].
  destruct (has_flag _ _) eqn:Hi; [reject_request|].
  destruct (property_value_ok p v) eqn:Hv; simpl; [|reject_request].
  destruct output_set_property as [f|]; [left | right; split; [done|by left]].
  apply idr_lookup_Some in Ho as [? ?], Hp as [? ?].
  exists o, p, f. split_and!; try done; [apply property_slot_spec; by eauto | by apply property_value_ok_spec].
Qed.

End set_ioctl_proofs.

(** ** Creating and destroying a property *)

Lemma drm_property_create_cases s flags name n :
  crtc_idr s !! 0 = None ->
  exists m' id, crtc_idr s !! id = None /\
    ((id <> 0 /\ m' = <[id := OBJ_PROPERTY]> (crtc_idr s)) \/ (id = 0 /\ m' = crtc_idr s)) /\
    drm_property_create s flags name n =
      (set_properties (set_idr s m') (property_list s ++
         [mk_property id flags (String.substring 0 DRM_PROP_NAME_LEN name) n (replicate n 0) []]),
       id).
Proof.
  intros H0. unfold drm_property_create.
  destruct (drm_idr_get_cases (crtc_idr s) OBJ_PROPERTY)
    as (r & _ & Hr & Hfree & _ & _ & [[-> _] | [-> _]]).
  - exists (<[r := OBJ_PROPERTY]> (crtc_idr s)), r. split_and!; [done | left; split; [lia|done] | done].
  - exists (crtc_idr s), 0. split_and!; [done | by right | done].
Qed.

(** With the idr holding every property's identifier and never 0,
    destroying the property just created gives back the device state,
    and on success the new property is registered under its fresh
    identifier and found by it, with [num_values] zeroed values. *)
Theorem drm_property_create_destroy s flags name n :
  crtc_idr s !! 0 = None ->
  (forall p, p ∈ property_list s -> is_Some (crtc_idr s !! prop_id p)) ->
  let '(s', id) := drm_property_create s flags name n in
  drm_property_destroy s' id = s /\
  (id <> 0 -> crtc_idr s' !! id = Some OBJ_PROPERTY /\
              find_property s' id = Some (mk_property id flags
                (String.substring 0 DRM_PROP_NAME_LEN name) n (replicate n 0) [])).
Proof.
  intros H0 Hreg.
  destruct (drm_property_create_cases s flags name n H0) as (m' & id & Hfree & Hm & ->).
  assert (Hother : forall p, p ∈ property_list s -> (prop_id p =? id) = false).
  { intros p Hp. apply Z.eqb_neq. intros Heq. destruct (Hreg p Hp). congruence. }
  unfold drm_property_destroy, find_property, drm_idr_put; simpl. split.
  - rewrite remove_first_app_last by (done || apply Z.eqb_refl).
    destruct Hm as [[_ ->] | [_ ->]];
      [rewrite delete_insert_id by done | rewrite delete_id by done]; by destruct s.
  - intros Hid. destruct Hm as [[_ ->] | [? _]]; [|done]. split; [apply lookup_insert_eq|].
    apply find_first_app_last; [|apply Z.eqb_refl].
    apply not_true_iff_false. intros (p & Hp%list_elem_of_In & Hq)%existsb_exists.
    by rewrite Hother in Hq.
Qed.

(** ** Blobs and the EDID property *)

(** The blob table: distinct identifiers, each registered in the idr as a
    blob. *)
Definition blobs_wf (s : drm_mode_config) : Prop :=
  NoDup (blob_id <$> property_blob_list s) /\
  forall b, b ∈ property_blob_list s -> crtc_idr s !! blob_id b = Some OBJ_BLOB.

(** The idr can hand out another identifier. *)
Definition idr_room (s : drm_mode_config) : Prop :=
  crtc_idr s !! 0 = None /\ Z.of_nat (size (crtc_idr s)) < MAX_ID.

Lemma drm_property_create_blob_ok s len d :
  idr_room s -> len <> 0 ->
  exists id, id <> 0 /\ crtc_idr s !! id = None /\
    drm_property_create_blob s len (Some d) =
      (set_blobs (set_idr s (<[id := OBJ_BLOB]> (crtc_idr s)))
         (property_blob_list s ++ [mk_blob id len (take (Z.to_nat len) d)]), Some id).
Proof.
  intros [H0 Hroom] Hlen. unfold drm_property_create_blob.
  rewrite (proj2 (Z.eqb_neq _ _) Hlen).
  destruct (drm_idr_get_fresh (crtc_idr s) OBJ_BLOB H0)
    as (id & Hfree & [[Hid ->] | (_ & _ & Hmax)]); [|lia].
  by exists id.
Qed.

Lemma blobs_wf_add s b :
  blobs_wf s -> crtc_idr s !! blob_id b = None ->
  blobs_wf (set_blobs (set_idr s (<[blob_id b := OBJ_BLOB]> (crtc_idr s)))
              (property_blob_list s ++ [b])) /\
  find_blob (set_blobs (set_idr s (<[blob_id b := OBJ_BLOB]> (crtc_idr s)))
              (property_blob_list s ++ [b])) (blob_id b) = Some b.
Proof.
  intros [Hnd Hreg] Hfree.
  assert (Hne : forall b', b' ∈ property_blob_list s -> blob_id b' <> blob_id b)
    by (intros b' Hb' Heq; specialize (Hreg b' Hb'); congruence).
  unfold blobs_wf, find_blob; simpl. split_and!.
  - rewrite fmap_app. apply NoDup_app. split_and!; [done| |apply NoDup_singleton].
    intros x (b' & -> & Hb')%list_elem_of_fmap_1 Hx%list_elem_of_singleton. by apply (Hne b').
  - intros b' [Hb' | ->%list_elem_of_singleton]%elem_of_app; [|apply lookup_insert_eq].
    rewrite lookup_insert_ne by (apply not_eq_sym, Hne, Hb'). by apply Hreg.
  - apply find_first_app_last; [|apply Z.eqb_refl]. apply not_true_iff_false.
    intros (b' & Hb'%list_elem_of_In & ?%Z.eqb_eq)%existsb_exists. by apply (Hne b').
Qed.

Lemma drm_property_destroy_blob_wf s bid :
  blobs_wf s -> idr_room s ->
  blobs_wf (drm_property_destroy_blob s bid) /\ idr_room (drm_property_destroy_blob s bid) /\
  mc_locked (drm_property_destroy_blob s bid) = mc_locked s /\
  edid_property (drm_property_destroy_blob s bid) = edid_property s.
Proof.
  intros [Hnd Hreg] [H0 Hroom]. unfold drm_property_destroy_blob, drm_idr_put, blobs_wf, idr_room;
    simpl. split_and!; try done.
  - by apply remove_first_NoDup.
  - intros b Hb. pose proof (remove_first_key blob_id _ _ _ Hnd Hb).
    rewrite lookup_delete_ne by congruence.
    apply Hreg. by eapply remove_first_sub.
  - rewrite lookup_delete_None. by right.
  - rewrite map_size_delete. destruct (crtc_idr s !! bid); unfold id; lia.
Qed.

Lemma drm_mode_getblob_ioctl_found s b len :
  mc_locked s = false -> is_Some (crtc_idr s !! blob_id b) -> find_blob s (blob_id b) = Some b ->
  drm_mode_getblob_ioctl s (blob_id b) len =
    Some (s, (0, blob_length b, if len =? blob_length b then Some (blob_data b) else None)).
Proof.
  intros Hl [k Hk] Hb. unfold drm_mode_getblob_ioctl, mutex_lock, idr_lookup. rewrite Hl; simpl.
  rewrite mutex_unlock_lock by done. change (crtc_idr (set_locked s true)) with (crtc_idr s).
  rewrite Hk. change (find_blob (set_locked s true)) with (find_blob s). by rewrite Hb.
Qed.

Lemma blobs_wf_update_output s oid f : blobs_wf (update_output s oid f) <-> blobs_wf s.
Proof. done. Qed.

(** [drm_output_property_set_value] keeps the output's identifier and
    EDID pointer, and succeeds exactly when the property is attached. *)
Lemma drm_output_property_set_value_cases o pid v :
  let '(r, o') := drm_output_property_set_value o pid v in
  output_id o' = output_id o /\ edid_blob_ptr o' = edid_blob_ptr o /\
  output_props_wf o' = output_props_wf o /\ (r = 0 <-> is_Some (property_slot o pid)).
Proof.
  unfold drm_output_property_set_value, output_props_wf.
  destruct (property_slot o pid); simpl; rewrite ?length_insert; split_and!; done.
Qed.

(** C26: After [drm_mode_output_update_edid_property] with a 128-byte
    EDID on an output of the device, on a device whose blob table is well
    formed and whose idr has room: the blob table stays well formed; the
    output's [edid_blob_ptr] is a new non-zero blob identifier; the call
    returns 0 exactly when the EDID property is attached to the output,
    and then the output's EDID property reads back that identifier; and
    the blob answers the two-call [drm_mode_getblob_ioctl] protocol: a
    call with length 0 reports the length 128, a call with length 128
    copies out the EDID bytes. *)
Theorem drm_mode_output_update_edid_getblob s o d s' ret :
  mc_locked s = false -> blobs_wf s -> idr_room s -> length d = 128%nat ->
  find_output s (output_id o) = Some o -> output_props_wf o ->
  drm_mode_output_update_edid_property s o (Some d) = Some (s', ret) ->
  exists bid o', bid <> 0 /\ blobs_wf s' /\
    find_output s' (output_id o) = Some o' /\ edid_blob_ptr o' = Some bid /\
    (ret = 0 <-> is_Some (property_slot o (edid_property s))) /\
    (ret = 0 -> drm_output_property_get_value o' (edid_property s) = (0, Some bid)) /\
    drm_mode_getblob_ioctl s' bid 0 = Some (s', (0, 128, None)) /\
    drm_mode_getblob_ioctl s' bid 128 = Some (s', (0, 128, Some d)).
Proof.
  intros Hl Hwf Hroom Hlen Ho Hpw. unfold drm_mode_output_update_edid_property.
  set (s1 := match edid_blob_ptr o with Some b => _ | None => s end).
  assert (blobs_wf s1 /\ idr_room s1 /\ mc_locked s1 = false /\
          edid_property s1 = edid_property s /\ find_output s1 (output_id o) = Some o)
    as (Hwf1 & Hroom1 & Hl1 & He1 & Ho1).
  { subst s1. destruct (edid_blob_ptr o) as [b|]; [|done].
    destruct (drm_property_destroy_blob_wf s b) as (? & ? & -> & ->); done. }
  destruct (drm_property_create_blob_ok s1 128 d Hroom1) as (bid & Hbid & Hfree & ->); [lia|].
  destruct (blobs_wf_add s1 (mk_blob bid 128 (take (Z.to_nat 128) d)) Hwf1 Hfree)
    as [Hwf2 Hfind]; simpl in Hwf2, Hfind. cbn [edid_property set_blobs set_idr]. rewrite He1.
  pose proof (drm_output_property_set_value_cases (with_output_edid o (Some bid))
                (edid_property s) bid) as Hcases.
  destruct (drm_output_property_set_value _ _ _) as [r o'] eqn:Eset.
  destruct Hcases as (Hid & Hedid & Hpw' & Hr). simpl in Hid, Hedid. intros [= <- <-].
  exists bid, o'. split_and!; [done | by apply blobs_wf_update_output | | done | done | | |].
  - rewrite find_output_update_same by (intros; congruence).
    unfold find_output in *; simpl. by rewrite Ho1.
  - intros ->. by destruct (drm_output_set_then_get (with_output_edid o (Some bid)) _ _ _ Hpw Eset) as [-> _].
  - rewrite (drm_mode_getblob_ioctl_found _ (mk_blob bid 128 (take (Z.to_nat 128) d)));
      try done; simpl; rewrite lookup_insert_eq; by eexists.
  - rewrite (drm_mode_getblob_ioctl_found _ (mk_blob bid 128 (take (Z.to_nat 128) d)));
      try done; simpl; [|rewrite lookup_insert_eq; by eexists].
    rewrite take_ge by lia. done.
Qed.

(** ** A device with a range property *)

(** The spec's example: a range property with bounds [0, 100] (identifier
    5) attached with value 50 to output 3 of [scenario_config]. *)
Definition brightness : drm_property :=
  mk_property 5 DRM_MODE_PROP_RANGE "brightness" 2 [0; 100] [].

Definition range_output : drm_output :=
  with_output_props (sample_output 3 output_status_connected 3 [mode_1080p] None)
    [5; 0; 0; 0; 0; 0] [50; 0; 0; 0; 0; 0].

Definition range_config : drm_mode_config :=
  set_idr (set_properties (set_outputs scenario_config [range_output]) [brightness])
    (<[3 := OBJ_OUTPUT]> (<[5 := OBJ_PROPERTY]> (crtc_idr scenario_config))).

(** On [range_config], setting the range property to 150 (or to
    101) fails with -EINVAL whatever the driver, so its [set_property] hook
    is not consulted; setting it to 100 is the driver's decision. *)
Theorem set_property_range_scenario :
  (forall F : DrmFuncs, drm_mode_output_property_set_ioctl range_config 3 5 150 =
                          Some (range_config, - EINVAL)) /\
  (forall F : DrmFuncs, drm_mode_output_property_set_ioctl range_config 3 5 101 =
                          Some (range_config, - EINVAL)) /\
  (forall F : DrmFuncs, drm_mode_output_property_set_ioctl range_config 3 5 100 =
     Some (range_config, match output_set_property with
                         | Some f => f range_output brightness 100
                         | None => - EINVAL end)).
Proof. split_and!; intros F; reflexivity. Qed.

(** ** Witnesses *)

(** A driver whose outputs accept every property value. *)
Definition range_funcs : DrmFuncs := {|
  output_detect := output_status;
  output_get_modes := modes;
  output_mode_valid := fun _ _ => MODE_OK;
  output_mode_fixup := fun _ _ adj => Some adj;
  output_set_property := Some (fun _ _ _ => 0);
  crtc_mode_fixup := fun _ _ adj => Some adj;
  crtc_has_mode_set_base := fun _ => true;
|}.

Lemma drm_mode_output_property_set_ioctl_spec_witness :
  mc_locked range_config = false /\
  exists ret, @drm_mode_output_property_set_ioctl range_funcs range_config 3 5 50 =
                Some (range_config, ret).
Proof.
  split; [reflexivity|].
  destruct (@drm_mode_output_property_set_ioctl_spec range_funcs range_config 3 5 50 eq_refl)
    as (ret & Hret & _).
  exists ret. exact Hret.
Defined.

(** An enum property with one entry, and the entry 0 "On" added to it. *)
Definition dpms_prop : drm_property :=
  mk_property 7 DRM_MODE_PROP_ENUM "DPMS" 4 [3; 0; 0; 0] [mk_prop_enum 3 "Off"].

Definition dpms_prop_on : drm_property := (drm_property_add_enum dpms_prop 1 0 "On").2.


Lemma drm_property_add_enum_idempotent_witness :
  drm_property_add_enum dpms_prop_on 3 0 "On" = (0, dpms_prop_on).
Proof. apply (drm_property_add_enum_idempotent dpms_prop 1 3 0 "On"). by vm_compute. Defined.

Lemma drm_output_attach_then_get_witness :
  drm_output_property_get_value
    (drm_output_attach_property (sample_output 3 output_status_connected 3 [] None) 5 50).2 5
  = (0, Some 50).
Proof.
  apply (drm_output_attach_then_get (sample_output 3 output_status_connected 3 [] None) 5 50);
    [by vm_compute | lia | by decide_by_compute | by vm_compute].
Defined.

Lemma drm_output_set_then_get_witness :
  drm_output_property_get_value (drm_output_property_set_value range_output 5 70).2 5
  = (0, Some 70).
Proof. apply (drm_output_set_then_get range_output 5 70); by vm_compute. Defined.

Lemma drm_property_create_destroy_witness :
  let '(s', id) := drm_property_create range_config DRM_MODE_PROP_ENUM "DPMS" 4 in
  drm_property_destroy s' id = range_config /\ id = 4.
Proof.
  pose proof (drm_property_create_destroy range_config DRM_MODE_PROP_ENUM "DPMS" 4) as H.
  destruct (drm_property_create _ _ _ _) as [s' id] eqn:E. vm_compute in E. injection E as _ <-.
  split; [apply H | reflexivity]; [reflexivity|].
  intros p Hp. apply list_elem_of_singleton in Hp as ->. by eexists.
Defined.

(** A 128-byte EDID. *)
Definition edid_sample : list Z := 0 :: replicate 6 255 ++ 0 :: replicate 120 1.

Lemma drm_mode_output_update_edid_getblob_witness :
  exists s' ret bid o',
    drm_mode_output_update_edid_property range_config range_output (Some edid_sample) =
      Some (s', ret) /\ bid <> 0 /\
    find_output s' 3 = Some o' /\ edid_blob_ptr o' = Some bid /\
    drm_mode_getblob_ioctl s' bid 128 = Some (s', (0, 128, Some edid_sample)).
Proof.
  assert (Hwf : blobs_wf range_config)
    by (split; [constructor | intros b Hb; by apply elem_of_nil in Hb]).
  assert (Hroom : idr_room range_config) by (split; vm_compute; reflexivity).
  assert (Ho : find_output range_config (output_id range_output) = Some range_output)
    by (vm_compute; reflexivity).
  assert (Hpw : output_props_wf range_output) by (split; vm_compute; reflexivity).
  destruct (drm_mode_output_update_edid_property range_config range_output (Some edid_sample))
    as [[s' ret]|] eqn:E; [|vm_compute in E; discriminate].
  destruct (drm_mode_output_update_edid_getblob range_config range_output edid_sample s' ret
              eq_refl Hwf Hroom eq_refl Ho Hpw E)
    as (bid & o' & Hb & _ & Hfo & Hedid & _ & _ & _ & Hget).
  exists s', ret, bid, o'. done.
Defined.
