(* ===== verification/Probe.v ===== *)
(** * The mode prober: [drm_crtc_probe_single_output_modes]

    The prober marks an output's usable modes unverified, asks the driver
    whether the output is connected (stopping there when it is not),
    collects the modes the driver adds to [probed_modes], merges them into
    [modes] ([drm_mode_output_list_update]), marks modes beyond the size
    limits, asks the driver to validate the rest, prunes every mode that
    is not [MODE_OK], adds the 640x480 fallback when nothing is left,
    sorts the list and stores each mode's refresh rate.

    The list helpers are those of drm_modes.c, which is not part of the
    sources: they are modelled from the spec (merge keyed by
    [drm_mode_equal], status-based size check and pruning, a stable sort
    on width, height and refresh, larger first, preferred modes first
    among equals, and the refresh rate derived from the timings).
    [drm_mode_set_crtcinfo] fills CRTC timing fields the model does not
    carry; the identifiers of pruned modes are not tracked. *)

From S2P Require Import Prelude Idr Modes Config.

(** ** Field updates *)

Definition with_status (m : drm_display_mode) (st : drm_mode_status) : drm_display_mode :=
  mk_mode (mode_name m) (mode_id m) st (mode_type m) (clock m) (hdisplay m) (hsync_start m)
    (hsync_end m) (htotal m) (hskew m) (vdisplay m) (vsync_start m) (vsync_end m) (vtotal m)
    (vscan m) (vrefresh m) (flags m).

Definition with_vrefresh (m : drm_display_mode) (r : Z) : drm_display_mode :=
  mk_mode (mode_name m) (mode_id m) (mode_status m) (mode_type m) (clock m) (hdisplay m)
    (hsync_start m) (hsync_end m) (htotal m) (hskew m) (vdisplay m) (vsync_start m)
    (vsync_end m) (vtotal m) (vscan m) r (flags m).

Definition with_output_status (o : drm_output) (st : drm_output_status) : drm_output :=
  mk_output (output_id o) (output_type o) (output_type_id o) st (possible_crtcs o)
    (possible_clones o) (output_crtc o) (probed_modes o) (modes o) (user_modes o)
    (initial_x o) (initial_y o) (property_ids o) (property_values o) (edid_blob_ptr o).

Definition with_output_modes (o : drm_output) (probed ms : list drm_display_mode) : drm_output :=
  mk_output (output_id o) (output_type o) (output_type_id o) (output_status o)
    (possible_crtcs o) (possible_clones o) (output_crtc o) probed ms (user_modes o)
    (initial_x o) (initial_y o) (property_ids o) (property_values o) (edid_blob_ptr o).

(** ** The helpers of drm_modes.c *)

(** One probed mode of [drm_mode_output_list_update]: a usable mode with
    the same timings takes its status (the probed copy is freed),
    otherwise the probed mode moves to the tail of the usable list. *)
Definition list_update_one (ms : list drm_display_mode) (p : drm_display_mode)
  : list drm_display_mode :=
  match find_index (fun m => drm_mode_equal p m) ms with
  | Some i => alter (fun m => with_status m (mode_status p)) i ms
  | None => ms ++ [p]
  end.

(** [drm_mode_output_list_update(output)]: every probed mode, in order;
    the probed list ends empty. *)
Definition drm_mode_output_list_update (o : drm_output) : drm_output :=
  with_output_modes o [] (fold_left list_update_one (probed_modes o) (modes o)).

(** [drm_mode_validate_size(dev, list, maxX, maxY, 0)]. *)
Definition validate_size_one (maxX maxY : Z) (m : drm_display_mode) : drm_display_mode :=
  let m1 := if (0 <? maxX) && (maxX <? hdisplay m) then with_status m MODE_VIRTUAL_X else m in
  if (0 <? maxY) && (maxY <? vdisplay m1) then with_status m1 MODE_VIRTUAL_Y else m1.

Definition drm_mode_validate_size (maxX maxY : Z) (ms : list drm_display_mode)
  : list drm_display_mode := map (validate_size_one maxX maxY) ms.

Definition mode_ok (m : drm_display_mode) : bool := bool_decide (mode_status m = MODE_OK).

(** [drm_mode_prune_invalid]: the modes whose status is not [MODE_OK]
    are removed. *)
Definition drm_mode_prune_invalid (ms : list drm_display_mode) : list drm_display_mode :=
  filter (fun m => mode_ok m = true) ms.

Definition is_preferred (m : drm_display_mode) : bool :=
  c_bool (Z.land (mode_type m) DRM_MODE_TYPE_PREFERRED).

(** [a] goes strictly before [b] in [drm_mode_sort]'s order. *)
Definition mode_before (a b : drm_display_mode) : bool :=
  (hdisplay b <? hdisplay a) ||
  ((hdisplay a =? hdisplay b) &&
   ((vdisplay b <? vdisplay a) ||
    ((vdisplay a =? vdisplay b) &&
     ((vrefresh b <? vrefresh a) ||
      ((vrefresh a =? vrefresh b) && is_preferred a && negb (is_preferred b)))))).

Fixpoint insert_mode (x : drm_display_mode) (l : list drm_display_mode) : list drm_display_mode :=
  match l with
  | [] => [x]
  | y :: l' => if mode_before y x then y :: insert_mode x l' else x :: l
  end.

(** [drm_mode_sort]: stable insertion sort. *)
Fixpoint drm_mode_sort (l : list drm_display_mode) : list drm_display_mode :=
  match l with
  | [] => []
  | x :: l' => insert_mode x (drm_mode_sort l')
  end.

(** [drm_mode_vrefresh]: frames per second from the pixel clock (kHz)
    and the totals, doubled for interlaced, halved for double-scan and
    divided by the scan count. *)
Definition drm_mode_vrefresh (m : drm_display_mode) : Z :=
  if (0 <? htotal m) && (0 <? vtotal m) then
    let r := clock m * 1000 / (htotal m * vtotal m) in
    let r := if c_bool (Z.land (flags m) V_INTERLACE) then r * 2 else r in
    let r := if c_bool (Z.land (flags m) V_DBLSCAN) then r / 2 else r in
    if 1 <? vscan m then r / vscan m else r
  else 0.

(** ** The prober *)

Section probe.
Context `{!DrmFuncs}.

(** The status loop: the driver's [mode_valid] for the modes still
    [MODE_OK]. *)
Definition mode_valid_pass (o : drm_output) (ms : list drm_display_mode)
  : list drm_display_mode :=
  map (fun m => if mode_ok m then with_status m (output_mode_valid o m) else m) ms.

(** The [get_modes] call and the merge: the driver's modes are added to
    [probed_modes] and merged into [modes] when it reports any. *)
Definition probe_merge (o2 : drm_output) : drm_output :=
  let added := output_get_modes o2 in
  let o3 := with_output_modes o2 (added ++ probed_modes o2) (modes o2) in
  if negb (length added =? 0)%nat then drm_mode_output_list_update o3 else o3.

(** [drm_mode_probed_add(output, mode)]: [list_add] at the head of the
    probed list. *)
Definition drm_mode_probed_add (probed : list drm_display_mode) (m : drm_display_mode)
  : list drm_display_mode := m :: probed.

(** The size check (when both limits are non-zero), the [mode_valid]
    loop and the pruning. *)
Definition probe_candidates (o4 : drm_output) (maxX maxY : Z) : list drm_display_mode :=
  let ms1 := if negb (maxX =? 0) && negb (maxY =? 0)
             then drm_mode_validate_size maxX maxY (modes o4) else modes o4 in
  drm_mode_prune_invalid (mode_valid_pass o4 ms1).

(** The fallback when nothing is left: [std_mode] duplicated (a new mode
    identifier), added to [probed_modes] by [drm_mode_probed_add], and the
    probed list moved to the tail of [modes] by [drm_mode_list_concat].
    The registry, the probed list and the usable list. *)
Definition probe_fallback (m : idr) (probed ms2 : list drm_display_mode)
  : idr * list drm_display_mode * list drm_display_mode :=
  match ms2 with
  | [] => let '(m', stdmode) := drm_mode_duplicate m std_mode in
          (m', [], [] ++ drm_mode_probed_add probed stdmode)
  | _ => (m, probed, ms2)
  end.

(** [drm_crtc_probe_single_output_modes(output, maxX, maxY)], the output
    given by its identifier; the caller holds the mutex. *)
Definition drm_crtc_probe_single_output_modes (s : drm_mode_config) (oid maxX maxY : Z)
  : drm_mode_config :=
  match find_output s oid with
  | None => s
  | Some o0 =>
    let o1 := with_output_modes o0 (probed_modes o0)
                (map (fun m => with_status m MODE_UNVERIFIED) (modes o0)) in
    let st := output_detect o1 in
    let o2 := with_output_status o1 st in
    if bool_decide (st = output_status_disconnected) then update_output s oid (fun _ => o2)
    else
    let o4 := probe_merge o2 in
    let '(m', probed, ms3) :=
      probe_fallback (crtc_idr s) (probed_modes o4) (probe_candidates o4 maxX maxY) in
    let ms4 := map (fun m => with_vrefresh m (drm_mode_vrefresh m)) (drm_mode_sort ms3) in
    update_output (set_idr s m') oid (fun _ => with_output_modes o4 probed ms4)
  end.

(** [drm_crtc_probe_output_modes(dev, maxX, maxY)]: every output in list
    order. *)
Definition drm_crtc_probe_output_modes (s : drm_mode_config) (maxX maxY : Z)
  : drm_mode_config :=
  fold_left (fun s o => drm_crtc_probe_single_output_modes s (output_id o) maxX maxY)
    (output_list s) s.
End probe.

(** ** Lemmas *)

(** No two modes of a list have the same timings. *)
Definition timings_distinct (ms : list drm_display_mode) : Prop := NoDup (mode_timings <$> ms).

Lemma fmap_timings_map f (ms : list drm_display_mode) :
  (forall m, mode_timings (f m) = mode_timings m) ->
  mode_timings <$> map f ms = mode_timings <$> ms.
Proof. intros Hf. induction ms; simpl; f_equal; auto. Qed.

Lemma fmap_timings_alter f (i : nat) (ms : list drm_display_mode) :
  (forall m, mode_timings (f m) = mode_timings m) ->
  mode_timings <$> alter f i ms = mode_timings <$> ms.
Proof.
  intros Hf. rewrite (list_fmap_alter _ f id) by (apply Forall_forall; intros; apply Hf).
  by apply list_alter_id.
Qed.

Lemma list_update_one_distinct ms p :
  timings_distinct ms -> timings_distinct (list_update_one ms p).
Proof.
  unfold timings_distinct, list_update_one. intros Hnd.
  destruct (find_index _ _) eqn:E; [by rewrite fmap_timings_alter|].
  rewrite fmap_app. apply NoDup_app. split_and!; [done| |apply NoDup_singleton].
  intros t (m & -> & Hm)%list_elem_of_fmap_1 Ht%list_elem_of_singleton.
  pose proof (find_index_None _ _ E m Hm) as Hne. simpl in Hne.
  enough (drm_mode_equal p m = true) by congruence.
  by apply drm_mode_equal_spec.
Qed.

Lemma list_update_distinct ps ms :
  timings_distinct ms -> timings_distinct (fold_left list_update_one ps ms).
Proof. revert ms. induction ps; simpl; auto using list_update_one_distinct. Qed.

Lemma insert_mode_perm x l : insert_mode x l ≡ₚ x :: l.
Proof.
  induction l as [|y l IH]; simpl; [done|].
  destruct (mode_before y x); [|done]. rewrite IH. by constructor.
Qed.

Lemma insert_mode_nonempty x l : insert_mode x l <> [].
Proof. destruct l; simpl; [done|]. by case_match. Qed.

Lemma drm_mode_sort_perm l : drm_mode_sort l ≡ₚ l.
Proof. induction l as [|x l IH]; simpl; [done|]. by rewrite insert_mode_perm, IH. Qed.

(** The stages after the merge keep the timings distinct. *)
Lemma probe_candidates_distinct `{!DrmFuncs} (o : drm_output) (maxX maxY : Z) :
  timings_distinct (modes o) ->
  timings_distinct (map (fun m => with_vrefresh m (drm_mode_vrefresh m))
                      (drm_mode_sort (probe_candidates o maxX maxY))).
Proof.
  unfold timings_distinct, probe_candidates. intros Hd. rewrite fmap_timings_map by done.
  rewrite (drm_mode_sort_perm _). apply NoDup_fmap_filter.
  unfold mode_valid_pass. rewrite fmap_timings_map by (intros m; by destruct (mode_ok m)).
  case_match; [|done]. unfold drm_mode_validate_size.
  rewrite fmap_timings_map; [done|]. intros m. unfold validate_size_one.
  by repeat case_match.
Qed.

Lemma update_output_const_find s oid o o' :
  find_output s oid = Some o -> output_id o' = output_id o ->
  find_output (update_output s oid (fun _ => o')) oid = Some o'.
Proof.
  intros Ho Hid. rewrite find_output_update_same, Ho; [done|].
  intros ? _. rewrite Hid. by apply find_output_id in Ho.
Qed.

Lemma probe_merge_id `{!DrmFuncs} o2 : output_id (probe_merge o2) = output_id o2.
Proof. unfold probe_merge. by case_match. Qed.

Lemma validate_size_one_ok maxX maxY m :
  mode_status (validate_size_one maxX maxY m) = MODE_OK ->
  hdisplay (validate_size_one maxX maxY m) = hdisplay m /\
  vdisplay (validate_size_one maxX maxY m) = vdisplay m /\
  (0 < maxX -> 0 < maxY -> hdisplay m <= maxX /\ vdisplay m <= maxY).
Proof.
  unfold validate_size_one.
  destruct ((0 <? maxX) && (maxX <? hdisplay m)) eqn:Ex; simpl;
    destruct ((0 <? maxY) && _) eqn:Ey; simpl; try discriminate; intros _;
    rewrite ?andb_false_iff, ?Z.ltb_ge in Ex, Ey; split_and!; try done; lia.
Qed.

(** Every candidate left after the size check, [mode_valid] and the
    pruning is [MODE_OK] and, with both limits positive, within them. *)
Lemma probe_candidates_ok `{!DrmFuncs} o maxX maxY m :
  m ∈ probe_candidates o maxX maxY ->
  mode_status m = MODE_OK /\ (exists m0, output_mode_valid o m0 = MODE_OK) /\
  (0 < maxX -> 0 < maxY -> hdisplay m <= maxX /\ vdisplay m <= maxY).
Proof.
  unfold probe_candidates, drm_mode_prune_invalid, mode_valid_pass, mode_ok.
  intros [Hok (m0 & -> & Hm0)%list_elem_of_map]%list_elem_of_filter.
  apply bool_decide_eq_true in Hok.
  destruct (decide (mode_status m0 = MODE_OK)) as [E0|E0];
    [rewrite (bool_decide_eq_true_2 _ E0) in Hok |- * |
     by rewrite (bool_decide_eq_false_2 _ E0) in Hok].
  simpl in Hok |- *. split_and!; [done|by eexists|]. intros Hx Hy.
  destruct (negb (maxX =? 0) && negb (maxY =? 0)) eqn:Eb; [|rewrite andb_false_iff, !negb_false_iff, !Z.eqb_eq in Eb; lia].
  unfold drm_mode_validate_size in Hm0. apply list_elem_of_map in Hm0 as (m1 & -> & _).
  destruct (validate_size_one_ok maxX maxY m1 E0) as (-> & -> & Hb). auto.
Qed.

Lemma probe_merge_status `{!DrmFuncs} o2 : output_status (probe_merge o2) = output_status o2.
Proof. unfold probe_merge. by case_match. Qed.

Lemma probe_candidates_rejected `{!DrmFuncs} o maxX maxY :
  (forall m, output_mode_valid o m <> MODE_OK) -> probe_candidates o maxX maxY = [].
Proof.
  intros Hrej. destruct (probe_candidates o maxX maxY) as [|c cs] eqn:E; [done|].
  destruct (probe_candidates_ok o maxX maxY c) as (_ & [m0 Hm0] & _);
    [rewrite E; by left | by destruct (Hrej m0)].
Qed.

Lemma probe_merge_probed `{!DrmFuncs} o2 :
  probed_modes o2 = [] -> probed_modes (probe_merge o2) = [].
Proof.
  intros Hp. unfold probe_merge. destruct (length _ =? 0)%nat eqn:E; simpl; [|done].
  apply Nat.eqb_eq, nil_length_inv in E. by rewrite E, Hp.
Qed.

Lemma drm_mode_duplicate_copy m mode m' d :
  drm_mode_duplicate m mode = (m', d) -> exists id, d = set_mode_id mode id.
Proof.
  unfold drm_mode_duplicate, drm_mode_create. destruct (drm_idr_get m OBJ_MODE).
  intros [= _ <-]. by eexists.
Qed.

Lemma elem_of_probe_sorted m l :
  m ∈ map (fun m => with_vrefresh m (drm_mode_vrefresh m)) (drm_mode_sort l) ->
  exists m0, m0 ∈ l /\ m = with_vrefresh m0 (drm_mode_vrefresh m0).
Proof.
  intros (m0 & -> & Hm0)%list_elem_of_map. rewrite (drm_mode_sort_perm l) in Hm0. by exists m0.
Qed.

(** The two outcomes of a probe of an existing output. *)
Lemma drm_crtc_probe_result `{!DrmFuncs} s oid maxX maxY o o' :
  find_output s oid = Some o ->
  find_output (drm_crtc_probe_single_output_modes s oid maxX maxY) oid = Some o' ->
  let o1 := with_output_modes o (probed_modes o)
              (map (fun m => with_status m MODE_UNVERIFIED) (modes o)) in
  let o4 := probe_merge (with_output_status o1 (output_detect o1)) in
  (output_detect o1 = output_status_disconnected /\
   o' = with_output_status o1 output_status_disconnected /\
   crtc_idr (drm_crtc_probe_single_output_modes s oid maxX maxY) = crtc_idr s) \/
  (output_detect o1 <> output_status_disconnected /\
   exists m' probed ms3,
     probe_fallback (crtc_idr s) (probed_modes o4) (probe_candidates o4 maxX maxY) =
       (m', probed, ms3) /\
     o' = with_output_modes o4 probed
            (map (fun m => with_vrefresh m (drm_mode_vrefresh m)) (drm_mode_sort ms3)) /\
     crtc_idr (drm_crtc_probe_single_output_modes s oid maxX maxY) = m').
Proof.
  intros Ho. simpl. unfold drm_crtc_probe_single_output_modes. rewrite Ho.
  case_bool_decide as Hd.
  - rewrite (update_output_const_find _ _ o) by done. intros [= <-]. left. by rewrite Hd.
  - destruct (probe_fallback _ _ _) as [[m' probed] ms3] eqn:Hfb.
    rewrite (update_output_const_find _ _ o)
      by (cbn [output_id with_output_modes]; rewrite ?find_output_set_idr, ?probe_merge_id; done).
    intros [= <-]. right. split; [done|]. by exists m', probed, ms3.
Qed.

(** The probe keeps the output it probes. *)
Lemma drm_crtc_probe_find `{!DrmFuncs} s oid maxX maxY o :
  find_output s oid = Some o ->
  exists o', find_output (drm_crtc_probe_single_output_modes s oid maxX maxY) oid = Some o'.
Proof.
  intros Ho. unfold drm_crtc_probe_single_output_modes. rewrite Ho.
  case_bool_decide; [|destruct (probe_fallback _ _ _) as [[m' probed] ms3]];
    eexists; apply (update_output_const_find _ _ o); rewrite ?find_output_set_idr; try done;
    cbn [output_id with_output_modes with_output_status]; by rewrite ?probe_merge_id.
Qed.

Lemma drm_crtc_probe_single_output_modes_ids `{!DrmFuncs} s oid maxX maxY :
  output_id <$> output_list (drm_crtc_probe_single_output_modes s oid maxX maxY) =
  output_id <$> output_list s.
Proof.
  unfold drm_crtc_probe_single_output_modes.
  destruct (find_output s oid) as [o|] eqn:Ho; [|done]. apply find_output_id in Ho.
  case_bool_decide; [by apply update_output_ids|].
  destruct (probe_fallback _ _ _) as [[m' probed] ms3].
  rewrite update_output_ids; [done|]. intros. simpl. by rewrite probe_merge_id.
Qed.

Lemma drm_crtc_probe_output_modes_ids `{!DrmFuncs} s maxX maxY :
  output_id <$> output_list (drm_crtc_probe_output_modes s maxX maxY) =
  output_id <$> output_list s.
Proof.
  unfold drm_crtc_probe_output_modes. generalize s at 2 3. generalize (output_list s).
  intros l. induction l as [|o l IH]; intros s0; [done|]. cbn [fold_left].
  rewrite IH. apply drm_crtc_probe_single_output_modes_ids.
Qed.

Section probe_proofs.
Context `{!DrmFuncs}.

Lemma probe_merge_facts o2 :
  probed_modes o2 = [] -> timings_distinct (modes o2) ->
  output_id (probe_merge o2) = output_id o2 /\ probed_modes (probe_merge o2) = [] /\
  timings_distinct (modes (probe_merge o2)).
Proof.
  intros Hp Hd. unfold probe_merge. destruct (length _ =? 0)%nat eqn:E; simpl.
  - apply Nat.eqb_eq, nil_length_inv in E. by rewrite E, Hp.
  - split_and!; [done|done|]. by apply list_update_distinct.
Qed.

(** C28: probing keeps an output's usable modes free of duplicates: when
    no two usable modes have the same timings and nothing is left in
    [probed_modes], the same holds afterwards, whatever the driver
    reports. *)
Theorem drm_crtc_probe_single_output_modes_distinct s oid maxX maxY o o' :
  find_output s oid = Some o -> probed_modes o = [] -> timings_distinct (modes o) ->
  find_output (drm_crtc_probe_single_output_modes s oid maxX maxY) oid = Some o' ->
  timings_distinct (modes o') /\ probed_modes o' = [].
Proof.
  intros Ho Hp Hd. unfold drm_crtc_probe_single_output_modes. rewrite Ho.
  assert (Hd1 : timings_distinct (map (fun m => with_status m MODE_UNVERIFIED) (modes o)))
    by (unfold timings_distinct; by rewrite fmap_timings_map).
  case_bool_decide.
  { rewrite (update_output_const_find _ _ o) by done. intros [= <-]. by split. }
  match goal with |- context [probe_merge ?o2] =>
    destruct (probe_merge_facts o2) as (Hid4 & Hp4 & Hd4); [done|done|] end.
  unfold probe_fallback. destruct (probe_candidates _ _ _) as [|m ms] eqn:Hms2.
  - destruct (drm_mode_duplicate _ _) as [m' std]. rewrite Hp4.
    rewrite (update_output_const_find _ _ o) by (rewrite ?find_output_set_idr; done).
    intros [= <-]. split; [|done]. apply NoDup_singleton.
  - rewrite (update_output_const_find _ _ o) by (rewrite ?find_output_set_idr; done).
    intros [= <-]. split; [|done]. cbn [modes with_output_modes].
    change (insert_mode m (drm_mode_sort ms)) with (drm_mode_sort (m :: ms)).
    rewrite <- Hms2. by apply probe_candidates_distinct.
Qed.

(** C29: after probing an output that is connected, its usable list is
    not empty and every mode in it is [MODE_OK]; with both limits
    positive, each fits them, unless it is the 640x480 fallback, which
    is then the only mode. *)
Theorem drm_crtc_probe_modes_ok s oid maxX maxY o o' :
  find_output s oid = Some o -> probed_modes o = [] ->
  find_output (drm_crtc_probe_single_output_modes s oid maxX maxY) oid = Some o' ->
  output_status o' <> output_status_disconnected ->
  modes o' <> [] /\
  forall m, m ∈ modes o' -> mode_status m = MODE_OK /\
    ((modes o' = [m] /\ m ≡ₘ std_mode) \/
     (0 < maxX -> 0 < maxY -> hdisplay m <= maxX /\ vdisplay m <= maxY)).
Proof.
  intros Ho Hp Ho'.
  destruct (drm_crtc_probe_result s oid maxX maxY o o' Ho Ho')
    as [(_ & -> & _) | (_ & m' & probed & ms3 & Hfb & -> & _)]; [done|].
  intros _. unfold probe_fallback in Hfb. rewrite probe_merge_probed in Hfb by done.
  destruct (probe_candidates _ _ _) as [|c cs] eqn:Hc.
  - destruct (drm_mode_duplicate _ _) as [m1 d] eqn:Hdup. injection Hfb as <- <- <-.
    destruct (drm_mode_duplicate_copy _ _ _ _ Hdup) as [id ->]. simpl.
    split; [done|]. intros m ->%list_elem_of_singleton. split; [done|]. by left.
  - injection Hfb as <- <- <-. cbn [modes with_output_modes].
    split; [intros ?%map_eq_nil; by eapply insert_mode_nonempty|].
    intros m (m0 & Hm0 & ->)%elem_of_probe_sorted. rewrite <- Hc in Hm0.
    destruct (probe_candidates_ok _ _ _ _ Hm0) as (Hst & _ & Hb). simpl.
    split; [done|]. by right.
Qed.

(** C30: when the driver's [mode_valid] rejects every mode, probing a
    connected output leaves exactly one usable mode, a new copy of
    [std_mode] (640x480, refresh 60) with its own identifier, typed
    [DRM_MODE_TYPE_DEFAULT]: it is not flagged preferred. *)
Theorem drm_crtc_probe_fallback s oid maxX maxY o o' :
  (forall oo m, output_mode_valid oo m <> MODE_OK) ->
  find_output s oid = Some o -> probed_modes o = [] ->
  find_output (drm_crtc_probe_single_output_modes s oid maxX maxY) oid = Some o' ->
  output_status o' <> output_status_disconnected ->
  exists id, modes o' = [with_vrefresh (set_mode_id std_mode id) 60] /\
    probed_modes o' = [] /\ is_preferred (set_mode_id std_mode id) = false.
Proof.
  intros Hrej Ho Hp Ho'.
  destruct (drm_crtc_probe_result s oid maxX maxY o o' Ho Ho')
    as [(_ & -> & _) | (_ & m' & probed & ms3 & Hfb & -> & _)]; [done|].
  intros _. unfold probe_fallback in Hfb.
  rewrite probe_merge_probed, probe_candidates_rejected in Hfb by done.
  destruct (drm_mode_duplicate _ _) as [m1 d] eqn:Hdup. injection Hfb as <- <- <-.
  destruct (drm_mode_duplicate_copy _ _ _ _ Hdup) as [id ->]. by exists id.
Qed.

(** Probing an output the driver reports disconnected stops after
    the detection: its usable modes are kept, in order, all marked
    [MODE_UNVERIFIED], its probed list and the registry are unchanged. *)
Theorem drm_crtc_probe_disconnected s oid maxX maxY o o' :
  find_output s oid = Some o ->
  find_output (drm_crtc_probe_single_output_modes s oid maxX maxY) oid = Some o' ->
  output_status o' = output_status_disconnected ->
  modes o' = map (fun m => with_status m MODE_UNVERIFIED) (modes o) /\
  probed_modes o' = probed_modes o /\
  crtc_idr (drm_crtc_probe_single_output_modes s oid maxX maxY) = crtc_idr s.
Proof.
  intros Ho Ho'.
  destruct (drm_crtc_probe_result s oid maxX maxY o o' Ho Ho')
    as [(_ & -> & Hidr) | (Hd & m' & probed & ms3 & Hfb & -> & _)]; [done|].
  simpl. by rewrite probe_merge_status.
Qed.
End probe_proofs.

(** ** A probing example *)

Definition xga60 : drm_display_mode :=
  DRM_MODE "1024x768" DRM_MODE_TYPE_DRIVER 65000 1024 1048 1184 1344 0
    768 771 777 806 0 (Z.lor V_NHSYNC V_NVSYNC).

Definition xga75 : drm_display_mode :=
  DRM_MODE "1024x768" DRM_MODE_TYPE_DRIVER 78750 1024 1040 1136 1312 0
    768 769 772 800 0 (Z.lor V_PHSYNC V_PVSYNC).

(** A driver whose outputs keep their status, report the two XGA modes
    (60 and 75 Hz) and accept modes up to 1024 pixels wide. *)
Definition probe_funcs : DrmFuncs := {|
  output_detect := output_status;
  output_get_modes := fun _ => [xga60; xga75];
  output_mode_valid := fun _ m => if hdisplay m <=? 1024 then MODE_OK else MODE_BAD;
  output_mode_fixup := fun _ _ adj => Some adj;
  output_set_property := None;
  crtc_mode_fixup := fun _ _ adj => Some adj;
  crtc_has_mode_set_base := fun _ => true;
|}.

(** The same driver with a [mode_valid] that rejects everything. *)
Definition reject_funcs : DrmFuncs := {|
  output_detect := output_status;
  output_get_modes := fun _ => [xga60; xga75];
  output_mode_valid := fun _ _ => MODE_BAD;
  output_mode_fixup := fun _ _ adj => Some adj;
  output_set_property := None;
  crtc_mode_fixup := fun _ _ adj => Some adj;
  crtc_has_mode_set_base := fun _ => true;
|}.

(** Output 3 connected with no modes yet, output 4 disconnected with the
    720p mode from an earlier probe. *)
Definition probe_config : drm_mode_config :=
  sample_config [sample_output 3 output_status_connected 3 [] None;
                 sample_output 4 output_status_disconnected 3 [mode_720p] None].

(** [drm_mode_sort] runs before the refresh rates are derived, so
    on the first probe the two fresh XGA modes (refresh field 0) stay in
    the driver's order, 60 Hz before 75 Hz, and a second probe, which sees
    the rates stored by the first, swaps them: the order of the usable
    list depends on the probe count. *)
Theorem drm_crtc_probe_sort_stale_refresh :
  let s1 := @drm_crtc_probe_single_output_modes probe_funcs probe_config 3 0 0 in
  let s2 := @drm_crtc_probe_single_output_modes probe_funcs s1 3 0 0 in
  (fun o => vrefresh <$> modes o) <$> find_output s1 3 = Some [60; 75] /\
  (fun o => vrefresh <$> modes o) <$> find_output s2 3 = Some [75; 60].
Proof. vm_compute. split; reflexivity. Qed.

Lemma drm_crtc_probe_single_output_modes_distinct_witness :
  exists o', find_output (@drm_crtc_probe_single_output_modes probe_funcs probe_config 3 1024 768) 3
               = Some o' /\ timings_distinct (modes o') /\ probed_modes o' = [].
Proof.
  destruct (find_output (@drm_crtc_probe_single_output_modes probe_funcs probe_config 3 1024 768) 3)
    as [o'|] eqn:E; [|vm_compute in E; discriminate].
  exists o'. split; [done|].
  apply (@drm_crtc_probe_single_output_modes_distinct probe_funcs probe_config 3 1024 768
           (sample_output 3 output_status_connected 3 [] None) o');
    [reflexivity | reflexivity | constructor | exact E].
Defined.

Lemma drm_crtc_probe_modes_ok_witness :
  exists o', find_output (@drm_crtc_probe_single_output_modes probe_funcs probe_config 3 1024 768) 3
               = Some o' /\ output_status o' <> output_status_disconnected /\ modes o' <> [].
Proof.
  destruct (find_output (@drm_crtc_probe_single_output_modes probe_funcs probe_config 3 1024 768) 3)
    as [o'|] eqn:E; [|vm_compute in E; discriminate].
  assert (Hst : output_status o' <> output_status_disconnected)
    by (vm_compute in E; injection E as <-; discriminate).
  exists o'. split_and!; [done | done |].
  apply (@drm_crtc_probe_modes_ok probe_funcs probe_config 3 1024 768
           (sample_output 3 output_status_connected 3 [] None) o'); done.
Defined.

Lemma drm_crtc_probe_fallback_witness :
  exists o' id, find_output (@drm_crtc_probe_single_output_modes reject_funcs probe_config 3 0 0) 3
                  = Some o' /\ modes o' = [with_vrefresh (set_mode_id std_mode id) 60].
Proof.
  destruct (find_output (@drm_crtc_probe_single_output_modes reject_funcs probe_config 3 0 0) 3)
    as [o'|] eqn:E; [|vm_compute in E; discriminate].
  assert (Hst : output_status o' <> output_status_disconnected)
    by (vm_compute in E; injection E as <-; discriminate).
  destruct (@drm_crtc_probe_fallback reject_funcs probe_config 3 0 0
              (sample_output 3 output_status_connected 3 [] None) o')
    as (id & Hm & _); [done | reflexivity | reflexivity | exact E | exact Hst |].
  exists o', id. done.
Defined.

Lemma drm_crtc_probe_disconnected_witness :
  exists o', find_output (@drm_crtc_probe_single_output_modes probe_funcs probe_config 4 0 0) 4
               = Some o' /\
    modes o' = [with_status mode_720p MODE_UNVERIFIED].
Proof.
  destruct (find_output (@drm_crtc_probe_single_output_modes probe_funcs probe_config 4 0 0) 4)
    as [o'|] eqn:E; [|vm_compute in E; discriminate].
  assert (Hst : output_status o' = output_status_disconnected)
    by (vm_compute in E; injection E as <-; reflexivity).
  destruct (@drm_crtc_probe_disconnected probe_funcs probe_config 4 0 0
              (sample_output 4 output_status_disconnected 3 [mode_720p] None) o')
    as (Hm & _); [reflexivity | exact E | exact Hst |].
  exists o'. done.
Defined.
