(* ===== verification/PickCrtcs.v ===== *)
(** * The assignment engine: [drm_pick_crtcs]

    For every output in list order: unbind it; skip it unless it is
    connected and has modes; choose the first preferred mode, else the
    first mode; then scan the CRTCs in list order and bind the output to
    the first CRTC that its [possible_crtcs] mask allows and that no other
    output is bound to.  The source also searches for a clone (another
    output with a shared [possible_clones] bit, a mode in common, bound to
    this CRTC), but only after it has skipped every CRTC bound to another
    output, so that search never succeeds: the theorems below show that
    the result never drives one CRTC from two outputs.

    The loop reads the current bindings of the outputs that come later in
    the list, which still hold their bindings from before the call: the
    result depends on them (counterexample below). *)

From S2P Require Import Prelude Idr Modes Config.

(** ** The loop body, piece by piece *)

(** The desired mode: the first mode with [DRM_MODE_TYPE_PREFERRED], else
    the first mode. *)
Definition pick_des_mode (ms : list drm_display_mode) : option drm_display_mode :=
  match find_first (fun m => c_bool (Z.land (mode_type m) DRM_MODE_TYPE_PREFERRED)) ms with
  | Some m => Some m
  | None => head ms
  end.

(** The first inner loop: another output (by identifier) is bound to the
    CRTC. *)
Definition crtc_assigned_other (outs : list drm_output) (o : drm_output) (cid : Z) : bool :=
  existsb (fun oe => negb (output_id o =? output_id oe) &&
                     bool_decide (output_crtc oe = Some cid)) outs.

(** The clone search: over the other outputs, the output's modes and the
    other output's modes, the first mode of the output equal to one of the
    other output's, when the two share a clone bit and the other output is
    bound to the CRTC. *)
Definition clone_mode (outs : list drm_output) (o : drm_output) (cid : Z)
  : option drm_display_mode :=
  first_some (fun oe =>
    if output_id o =? output_id oe then None
    else first_some (fun m =>
           if existsb (fun me => drm_mode_equal m me &&
                                 masks_meet (possible_clones o) (possible_clones oe) &&
                                 bool_decide (output_crtc oe = Some cid)) (modes oe)
           then Some m else None) (modes o)) outs.

(** The CRTC loop, [c] counting the CRTC's index: the index and identifier
    of the CRTC chosen and the mode recorded as its desired mode. *)
Fixpoint pick_scan (outs : list drm_output) (o : drm_output)
    (des : option drm_display_mode) (c : nat) (crtcs : list drm_crtc)
  : option (nat * Z * option drm_display_mode) :=
  match crtcs with
  | [] => None
  | crtc :: rest =>
      if negb (mask_has (possible_crtcs o) c) then pick_scan outs o des (S c) rest
      else if crtc_assigned_other outs o (crtc_id crtc) then pick_scan outs o des (S c) rest
      else match clone_mode outs o (crtc_id crtc) with
           | Some m => Some (c, crtc_id crtc, Some m)
           | None => Some (c, crtc_id crtc, des)
           end
  end.

(** One iteration of the outer loop, on the output at index [i]. *)
Definition pick_one (s : drm_mode_config) (i : nat) : drm_mode_config :=
  match output_list s !! i with
  | None => s
  | Some o0 =>
      let o := with_output_crtc o0 None in
      let s1 := set_outputs s (<[i := o]> (output_list s)) in
      if bool_decide (output_status o <> output_status_connected) then s1
      else if bool_decide (modes o = []) then s1
      else match pick_scan (output_list s1) o (pick_des_mode (modes o)) 0 (crtc_list s1) with
           | None => s1
           | Some (c, cid, des) =>
               let s2 := set_outputs s1 (<[i := with_output_initial
                                               (with_output_crtc o (Some cid)) 0 0]>
                                          (output_list s1)) in
               match crtc_list s2 !! c with
               | Some crtc =>
                   set_crtcs s2 (<[c := with_crtc_desired crtc des (desired_x crtc)
                                                          (desired_y crtc)]> (crtc_list s2))
               | None => s2
               end
           end
  end.

(** [drm_pick_crtcs(dev)]. *)
Definition drm_pick_crtcs (s : drm_mode_config) : drm_mode_config :=
  fold_left pick_one (seq 0 (length (output_list s))) s.

(** ** The loop body's pieces *)

Lemma crtc_assigned_other_false outs o cid :
  crtc_assigned_other outs o cid = false <->
  forall oe, oe ∈ outs -> output_id oe <> output_id o -> output_crtc oe <> Some cid.
Proof.
  unfold crtc_assigned_other. rewrite <- not_true_iff_false, existsb_exists.
  split.
  - intros H oe Hin Hid Hc. apply H. exists oe. split; [by apply list_elem_of_In|].
    rewrite andb_true_iff, negb_true_iff, Z.eqb_neq, bool_decide_eq_true. auto.
  - intros H (oe & Hin & Hp). rewrite andb_true_iff, negb_true_iff, Z.eqb_neq,
      bool_decide_eq_true in Hp. destruct Hp as [Hid Hc].
    apply (H oe); [by apply list_elem_of_In | auto | done].
Qed.

(** The clone branch is dead: it needs another output bound to the CRTC,
    and the scan has already skipped every such CRTC. *)
Lemma clone_mode_dead outs o cid :
  crtc_assigned_other outs o cid = false -> clone_mode outs o cid = None.
Proof.
  rewrite crtc_assigned_other_false. intros H. unfold clone_mode.
  apply first_some_None. intros oe Hoe.
  destruct (Z.eqb_spec (output_id o) (output_id oe)) as [|Hne]; [done|].
  apply first_some_None. intros m _.
  destruct (existsb _ _) eqn:E; [|done]. exfalso.
  apply existsb_exists in E as (me & _ & Hme). drm_bool.
  by apply (H oe Hoe).
Qed.

(** First fit: the scan stops at a CRTC the mask allows and no other
    output holds, recording the desired mode unchanged. *)
Lemma pick_scan_Some outs o des c0 crtcs c cid d :
  pick_scan outs o des c0 crtcs = Some (c, cid, d) ->
  (c0 <= c)%nat /\ d = des /\ mask_has (possible_crtcs o) c = true /\
  crtc_assigned_other outs o cid = false /\
  exists crtc, crtcs !! (c - c0)%nat = Some crtc /\ crtc_id crtc = cid.
Proof.
  revert c0. induction crtcs as [|crtc rest IH]; intros c0; simpl; [discriminate|].
  destruct (mask_has (possible_crtcs o) c0) eqn:Hm; simpl;
    [|intros H; destruct (IH _ H) as (? & ? & ? & ? & cr & Hcr & ?);
      split_and!; [lia|done|done|done|]; exists cr; split; [|done];
      by replace (c - c0)%nat with (S (c - S c0)) by lia].
  destruct (crtc_assigned_other outs o (crtc_id crtc)) eqn:Ha;
    [intros H; destruct (IH _ H) as (? & ? & ? & ? & cr & Hcr & ?);
      split_and!; [lia|done|done|done|]; exists cr; split; [|done];
      by replace (c - c0)%nat with (S (c - S c0)) by lia|].
  rewrite clone_mode_dead by done. intros [= <- <- <-].
  split_and!; try done. exists crtc. by rewrite Nat.sub_diag.
Qed.

(** What the loop body reads of an output and keeps through the updates. *)
Definition output_key (o : drm_output) :=
  (output_id o, output_status o, possible_crtcs o, modes o).

(** Unfold one iteration of the loop body down to its branches. *)
Ltac pick_one_cases Hk :=
  unfold pick_one; rewrite Hk; simpl;
  repeat match goal with
  | |- context [bool_decide ?P] => case_bool_decide
  | |- context [match pick_scan ?a1 ?a2 ?a3 ?a4 ?a5 with _ => _ end] =>
      let Hs := fresh "Hs" in
      destruct (pick_scan a1 a2 a3 a4 a5) as [[[?c ?cid] ?des]|] eqn:Hs
  | |- context [match crtc_list ?x !! ?i with _ => _ end] =>
      let Hc := fresh "Hc" in destruct (crtc_list x !! i) eqn:Hc
  end; simpl.

Section pick_one.
Context (s : drm_mode_config) (k : nat).

Lemma pick_one_outputs_other j :
  j <> k -> output_list (pick_one s k) !! j = output_list s !! j.
Proof.
  intros Hne. destruct (output_list s !! k) as [o0|] eqn:Hk; [|by unfold pick_one; rewrite Hk].
  pick_one_cases Hk; by rewrite ?list_lookup_insert_ne by done.
Qed.

Lemma pick_one_keys :
  output_key <$> output_list (pick_one s k) = output_key <$> output_list s.
Proof.
  destruct (output_list s !! k) as [o0|] eqn:Hk; [|by unfold pick_one; rewrite Hk].
  assert (forall o, output_key o = output_key o0 ->
            output_key <$> <[k := o]> (output_list s) = output_key <$> output_list s)
    as Hins.
  { intros o Ho. rewrite list_fmap_insert, Ho.
    by apply list_insert_id; rewrite list_lookup_fmap, Hk. }
  pick_one_cases Hk; rewrite ?list_insert_insert_eq; by apply Hins.
Qed.

Lemma pick_one_crtc_ids :
  crtc_id <$> crtc_list (pick_one s k) = crtc_id <$> crtc_list s.
Proof.
  destruct (output_list s !! k) as [o0|] eqn:Hk; [|by unfold pick_one; rewrite Hk].
  pick_one_cases Hk; try done.
  rewrite list_fmap_insert. simpl. by apply list_insert_id; rewrite list_lookup_fmap, Hc.
Qed.

Lemma pick_one_crtcs_other c' :
  crtc_list (pick_one s k) !! c' <> crtc_list s !! c' ->
  exists ok crtc, output_list (pick_one s k) !! k = Some ok /\
    crtc_list s !! c' = Some crtc /\ output_crtc ok = Some (crtc_id crtc).
Proof.
  destruct (output_list s !! k) as [o0|] eqn:Hk; [|by unfold pick_one; rewrite Hk].
  pick_one_cases Hk; intros Hneq; try by contradict Hneq.
  destruct (decide (c = c')) as [<-|Hne]; [|by rewrite list_lookup_insert_ne in Hneq].
  destruct (pick_scan_Some _ _ _ _ _ _ _ _ Hs) as (_ & _ & _ & _ & cr & Hcr & <-).
  rewrite Nat.sub_0_r, Hc in Hcr. injection Hcr as <-.
  do 2 eexists. split; [|split; [exact Hc|]].
  - rewrite list_lookup_insert_eq; [reflexivity|].
    rewrite length_insert. by eapply lookup_lt_Some.
  - reflexivity.
Qed.

(** What one iteration does to the output it processes. *)
Lemma pick_one_at o0 :
  NoDup (output_id <$> output_list s) -> output_list s !! k = Some o0 ->
  exists ok, output_list (pick_one s k) !! k = Some ok /\
    output_key ok = output_key o0 /\
    (output_crtc ok = None \/
     exists cid, output_crtc ok = Some cid /\
       output_status o0 = output_status_connected /\ modes o0 <> [] /\
       (forall j oj, j <> k -> output_list s !! j = Some oj -> output_crtc oj <> Some cid) /\
       exists c crtc, crtc_list s !! c = Some crtc /\ crtc_id crtc = cid /\
         mask_has (possible_crtcs o0) c = true /\
         (desired_mode <$> crtc_list (pick_one s k) !! c) = Some (pick_des_mode (modes o0))).
Proof.
  intros Hnd Hk. pose proof (lookup_lt_Some _ _ _ Hk) as Hlt.
  pick_one_cases Hk; rewrite ?list_insert_insert_eq, list_lookup_insert_eq
    by (rewrite ?length_insert; lia);
    (eexists; split; [reflexivity|]); (split; [done|]); try (left; done).
  all: destruct (pick_scan_Some _ _ _ _ _ _ _ _ Hs) as (_ & -> & Hm & Ha & cr & Hcr & <-);
    rewrite Nat.sub_0_r, Hc in Hcr; first [injection Hcr as <- | discriminate].
  right. eexists; split_and!; [done|done|done| |].
  - intros j oj Hj Hoj. apply (proj1 (crtc_assigned_other_false _ _ _) Ha).
    + apply list_elem_of_lookup. exists j. by rewrite list_lookup_insert_ne.
    + simpl. intros Heq. apply Hj. eapply NoDup_lookup; [exact Hnd| |].
      * rewrite list_lookup_fmap, Hoj. reflexivity.
      * rewrite list_lookup_fmap, Hk. simpl. congruence.
  - do 2 eexists. split; [exact Hc|]. split_and!; [done|done|].
    rewrite list_lookup_insert_eq by (by eapply lookup_lt_Some). done.
Qed.
End pick_one.

(** ** The whole loop *)

Lemma output_ids_of_keys (l1 l2 : list drm_output) :
  output_key <$> l1 = output_key <$> l2 -> output_id <$> l1 = output_id <$> l2.
Proof.
  intros H. assert (output_id = (fun k => k.1.1.1) ∘ output_key) as -> by done.
  by rewrite !list_fmap_compose, H.
Qed.

(** Induction over the iterations of [drm_pick_crtcs]: an invariant of the
    processed prefix that every iteration extends. *)
Lemma drm_pick_crtcs_ind (I : nat -> drm_mode_config -> Prop) s :
  I 0%nat s ->
  (forall k s', (k < length (output_list s))%nat ->
     output_key <$> output_list s' = output_key <$> output_list s ->
     I k s' -> I (S k) (pick_one s' k)) ->
  I (length (output_list s)) (drm_pick_crtcs s).
Proof.
  intros H0 Hstep. unfold drm_pick_crtcs.
  assert (forall n, (n <= length (output_list s))%nat ->
    output_key <$> output_list (fold_left pick_one (seq 0 n) s) = output_key <$> output_list s /\
    I n (fold_left pick_one (seq 0 n) s)) as Hn.
  { induction n as [|n IH]; intros Hle; [done|].
    rewrite seq_S, fold_left_app. simpl. destruct IH as [Hk HI]; [lia|].
    split; [by rewrite pick_one_keys | by apply Hstep; [lia| |]]. }
  apply Hn. lia.
Qed.

Lemma drm_pick_crtcs_keys s :
  output_key <$> output_list (drm_pick_crtcs s) = output_key <$> output_list s.
Proof.
  apply (drm_pick_crtcs_ind (fun _ s' => output_key <$> output_list s' =
                                         output_key <$> output_list s)); [done|].
  intros k s' _ Hkeys _. by rewrite pick_one_keys.
Qed.

Lemma drm_pick_crtcs_length s :
  length (output_list (drm_pick_crtcs s)) = length (output_list s).
Proof.
  rewrite <- (length_fmap output_key), drm_pick_crtcs_keys. apply length_fmap.
Qed.

(** No two outputs on one CRTC. *)
Definition bindings_exclusive (outs : list drm_output) : Prop :=
  forall i j oi oj c, i <> j -> outs !! i = Some oi -> outs !! j = Some oj ->
    output_crtc oi = Some c -> output_crtc oj <> Some c.

(** The exclusivity of the bindings, by induction over the loop. *)
Lemma pick_crtcs_exclusive s :
  NoDup (output_id <$> output_list s) ->
  bindings_exclusive (output_list (drm_pick_crtcs s)).
Proof.
  intros Hnd.
  set (I n s' := forall i j oi oj c, (i < n)%nat -> i <> j ->
    output_list s' !! i = Some oi -> output_list s' !! j = Some oj ->
    output_crtc oi = Some c -> output_crtc oj <> Some c).
  assert (I (length (output_list s)) (drm_pick_crtcs s)) as HI.
  { apply drm_pick_crtcs_ind; [intros ????? Hi; lia|].
    intros k s' Hk Hkeys IH i j oi oj c Hi Hij Hoi Hoj Hci Hcj.
    assert (Hnd' : NoDup (output_id <$> output_list s'))
      by (by rewrite (output_ids_of_keys _ _ Hkeys)).
    assert (is_Some (output_list s' !! k)) as [o0 Hk0].
    { apply lookup_lt_is_Some. rewrite <- (length_fmap output_key), Hkeys, length_fmap. lia. }
    destruct (pick_one_at s' k o0 Hnd' Hk0) as (ok & Hok & _ & [Hnone|(cid & Hcid & _ & _ & Hex & _)]).
    - destruct (decide (i = k)) as [->|Hik]; [congruence|].
      destruct (decide (j = k)) as [->|Hjk]; [congruence|].
      rewrite pick_one_outputs_other in Hoi, Hoj by done. by apply (IH i j oi oj c); [lia|..].
    - destruct (decide (i = k)) as [->|Hik].
      + rewrite Hok in Hoi. injection Hoi as <-. rewrite pick_one_outputs_other in Hoj by done.
        apply (Hex j oj); [done|done|congruence].
      + rewrite pick_one_outputs_other in Hoi by done.
        destruct (decide (j = k)) as [->|Hjk].
        * rewrite Hok in Hoj. injection Hoj as <-. apply (Hex i oi); [done|done|congruence].
        * rewrite pick_one_outputs_other in Hoj by done. by apply (IH i j oi oj c); [lia|..]. }
  intros i j oi oj c Hij Hoi Hoj. apply (HI i j); try done.
  apply lookup_lt_Some in Hoi. by rewrite drm_pick_crtcs_length in Hoi.
Qed.

(** C6: The assignment never drives one CRTC from two outputs: after
    [drm_pick_crtcs], distinct outputs are bound to distinct CRTCs, so the
    clone configuration the spec describes is never produced. *)
Theorem drm_pick_crtcs_exclusive s :
  NoDup (output_id <$> output_list s) ->
  bindings_exclusive (output_list (drm_pick_crtcs s)).
Proof. exact (pick_crtcs_exclusive s). Qed.

(** What [drm_pick_crtcs] promises of every binding it leaves. *)
Definition binding_valid (s : drm_mode_config) (o : drm_output) (cid : Z) : Prop :=
  output_status o = output_status_connected /\ modes o <> [] /\
  exists c crtc, crtc_list s !! c = Some crtc /\ crtc_id crtc = cid /\
    mask_has (possible_crtcs o) c = true /\
    desired_mode crtc = pick_des_mode (modes o).

(** C7: Every binding left by [drm_pick_crtcs] is of a connected output
    with modes, to a CRTC whose index its [possible_crtcs] mask allows,
    and that CRTC's desired mode is the output's first preferred mode, or
    its first mode when none is preferred. *)
Theorem drm_pick_crtcs_valid s :
  NoDup (output_id <$> output_list s) ->
  forall o cid, o ∈ output_list (drm_pick_crtcs s) -> output_crtc o = Some cid ->
  binding_valid (drm_pick_crtcs s) o cid.
Proof.
  intros Hnd.
  set (I n s' := forall i oi cid, (i < n)%nat -> output_list s' !! i = Some oi ->
    output_crtc oi = Some cid -> binding_valid s' oi cid).
  assert (I (length (output_list s)) (drm_pick_crtcs s)) as HI.
  { apply drm_pick_crtcs_ind; [intros ???? Hi; lia|].
    intros k s' Hk Hkeys IH i oi cid Hi Hoi Hci.
    assert (Hnd' : NoDup (output_id <$> output_list s'))
      by (by rewrite (output_ids_of_keys _ _ Hkeys)).
    assert (is_Some (output_list s' !! k)) as [o0 Hk0].
    { apply lookup_lt_is_Some. rewrite <- (length_fmap output_key), Hkeys, length_fmap. lia. }
    destruct (pick_one_at s' k o0 Hnd' Hk0)
      as (ok & Hok & Hkey & [Hnone|(cid' & Hcid & Hcon & Hmodes & Hex & c & crtc & Hc & Hid & Hm & Hd)]).
    - destruct (decide (i = k)) as [->|Hik]; [congruence|].
      rewrite pick_one_outputs_other in Hoi by done.
      destruct (IH i oi cid) as (? & ? & c & crtc & Hc & ? & ? & ?); [lia|done|done|].
      split_and!; [done|done|]. exists c, crtc. split; [|done].
      destruct (decide (crtc_list (pick_one s' k) !! c = crtc_list s' !! c)) as [->|Hne]; [done|].
      destruct (pick_one_crtcs_other s' k c Hne) as (ok' & cr & Hok' & _ & Hc'). congruence.
    - unfold output_key in Hkey. injection Hkey as Hkid Hkst Hkpc Hkmd.
      destruct (decide (i = k)) as [->|Hik].
      + rewrite Hok in Hoi. injection Hoi as <-. rewrite Hci in Hcid. injection Hcid as <-.
        split_and!; [congruence|congruence|].
        destruct (crtc_list (pick_one s' k) !! c) as [crtc''|] eqn:Hc''; [|done].
        exists c, crtc''. injection Hd as Hd.
        split_and!; [done| |congruence|by rewrite Hkmd].
        pose proof (f_equal (fun l => l !! c) (pick_one_crtc_ids s' k)) as Hids.
        simpl in Hids. rewrite !list_lookup_fmap, Hc'', Hc in Hids. simpl in Hids. congruence.
      + rewrite pick_one_outputs_other in Hoi by done.
        destruct (IH i oi cid) as (? & ? & c2 & crtc2 & Hc2 & Hid2 & ? & ?); [lia|done|done|].
        split_and!; [done|done|]. exists c2, crtc2. split; [|done].
        destruct (decide (crtc_list (pick_one s' k) !! c2 = crtc_list s' !! c2)) as [->|Hne]; [done|].
        destruct (pick_one_crtcs_other s' k c2 Hne) as (ok' & cr & Hok' & Hcr & Hc').
        rewrite Hok in Hok'. injection Hok' as <-. rewrite Hc2 in Hcr. injection Hcr as <-.
        exfalso. apply (Hex i oi Hik Hoi). congruence. }
  intros o cid Ho Hc. apply list_elem_of_lookup in Ho as [i Hi].
  apply (HI i o cid); [|done|done]. apply lookup_lt_Some in Hi. by rewrite drm_pick_crtcs_length in Hi.
Qed.

(** C8: First fit, on every branch of the CRTC loop: the scan binds the
    first CRTC in list order that the output's mask allows and no other
    output holds, recording the desired mode unchanged; it binds nothing
    exactly when every CRTC is masked out or held by another output. *)
Theorem pick_scan_first_fit outs o des crtcs :
  match pick_scan outs o des 0 crtcs with
  | Some (c, cid, d) =>
      d = des /\ crtc_id <$> crtcs !! c = Some cid /\
      mask_has (possible_crtcs o) c = true /\ crtc_assigned_other outs o cid = false /\
      forall c' crtc', (c' < c)%nat -> crtcs !! c' = Some crtc' ->
        mask_has (possible_crtcs o) c' = false \/
        crtc_assigned_other outs o (crtc_id crtc') = true
  | None =>
      forall c' crtc', crtcs !! c' = Some crtc' ->
        mask_has (possible_crtcs o) c' = false \/
        crtc_assigned_other outs o (crtc_id crtc') = true
  end.
Proof.
  assert (forall c0, match pick_scan outs o des c0 crtcs with
    | Some (c, cid, d) =>
      (c0 <= c)%nat /\ d = des /\ crtc_id <$> crtcs !! (c - c0)%nat = Some cid /\
      mask_has (possible_crtcs o) c = true /\ crtc_assigned_other outs o cid = false /\
      forall c' crtc', (c' < c - c0)%nat -> crtcs !! c' = Some crtc' ->
        mask_has (possible_crtcs o) (c0 + c') = false \/
        crtc_assigned_other outs o (crtc_id crtc') = true
    | None => forall c' crtc', crtcs !! c' = Some crtc' ->
        mask_has (possible_crtcs o) (c0 + c') = false \/
        crtc_assigned_other outs o (crtc_id crtc') = true
    end) as H.
  { induction crtcs as [|crtc rest IH]; intros c0; simpl; [done|].
    assert (forall c' crtc', (c' = 0%nat -> crtc' = crtc -> mask_has (possible_crtcs o) c0 = false \/
              crtc_assigned_other outs o (crtc_id crtc) = true) ->
            (forall c'', c' = S c'' -> (crtc :: rest) !! c' = Some crtc' ->
              mask_has (possible_crtcs o) (S c0 + c'') = false \/
              crtc_assigned_other outs o (crtc_id crtc') = true) ->
            (crtc :: rest) !! c' = Some crtc' ->
            mask_has (possible_crtcs o) (c0 + c') = false \/
            crtc_assigned_other outs o (crtc_id crtc') = true) as Hsplit.
    { intros [|c''] crtc' H0 HS Hl; simpl in Hl.
      - injection Hl as <-. rewrite Nat.add_0_r. auto.
      - replace (c0 + S c'')%nat with (S c0 + c'')%nat by lia. by apply HS. }
    destruct (mask_has (possible_crtcs o) c0) eqn:Hm; simpl;
      [destruct (crtc_assigned_other outs o (crtc_id crtc)) eqn:Ha|].
    1,3: specialize (IH (S c0));
      destruct (pick_scan outs o des (S c0) rest) as [[[c cid] d]|];
      [destruct IH as (? & ? & Hl & ? & ? & Hmin);
       split_and!; [lia|done| by replace (c - c0)%nat with (S (c - S c0)) by lia |done|done|];
       intros c' crtc' Hc' Hl'; apply (Hsplit c' crtc'); [auto|intros c'' -> Hl''; apply Hmin; [lia|done]|done]
      |intros c' crtc' Hl'; apply (Hsplit c' crtc'); [auto|intros c'' -> Hl''; by apply IH|done]].
    rewrite clone_mode_dead by done. rewrite Nat.sub_diag.
    split_and!; try done. intros; lia. }
  specialize (H 0%nat). destruct (pick_scan outs o des 0 crtcs) as [[[c cid] d]|]; [|done].
  rewrite Nat.sub_0_r in H. destruct H as (_ & ? & ? & ? & ? & Hmin). split_and!; try done; intros c' crtc' Hc' Hl; apply (Hmin c' crtc' Hc' Hl).
Qed.

(** ** Concrete configurations *)

(** The spec's scenario: O1 is bound to the first CRTC with desired
    mode 1080p, O2 stays unbound, and the sweep of unused functions then
    turns O2 and both (still disabled) CRTCs off. *)
Theorem drm_pick_crtcs_scenario :
  output_crtc <$> output_list (drm_pick_crtcs scenario_config) = [Some 1; None] /\
  desired_mode <$> crtc_list (drm_pick_crtcs scenario_config) = [Some mode_1080p; None] /\
  hw_trace (drm_disable_unused_functions (drm_pick_crtcs scenario_config)) =
    [EvOutputDpms 4 DPMSModeOff; EvCrtcDpms 1 DPMSModeOff; EvCrtcDpms 2 DPMSModeOff].
Proof. vm_compute. split_and!; reflexivity. Qed.

(** The same device, but O2 still holds the first CRTC from an earlier
    configuration. *)
Definition stale_config : drm_mode_config :=
  sample_config [sample_output 3 output_status_connected 3 [mode_1080p; mode_720p] None;
                 sample_output 4 output_status_disconnected 3 [] (Some 1)].

(** The assignment depends on stale bindings of later outputs: with
    the disconnected O2 still bound to the first CRTC, O1 is bound to the
    second one, and running the assignment again moves O1 to the first:
    [drm_pick_crtcs] is not idempotent. *)
Theorem drm_pick_crtcs_stale_binding :
  output_crtc <$> output_list (drm_pick_crtcs stale_config) = [Some 2; None] /\
  output_crtc <$> output_list (drm_pick_crtcs (drm_pick_crtcs stale_config)) = [Some 1; None].
Proof. vm_compute. split; reflexivity. Qed.

Lemma drm_pick_crtcs_exclusive_witness :
  NoDup (output_id <$> output_list stale_config) /\
  bindings_exclusive (output_list (drm_pick_crtcs stale_config)).
Proof.
  assert (NoDup (output_id <$> output_list stale_config)) as H
    by decide_by_compute.
  split; [exact H | apply drm_pick_crtcs_exclusive; exact H].
Defined.

Lemma drm_pick_crtcs_valid_witness :
  NoDup (output_id <$> output_list scenario_config) /\
  (forall o cid, o ∈ output_list (drm_pick_crtcs scenario_config) -> output_crtc o = Some cid ->
   binding_valid (drm_pick_crtcs scenario_config) o cid).
Proof.
  assert (NoDup (output_id <$> output_list scenario_config)) as H
    by decide_by_compute.
  split; [exact H | apply drm_pick_crtcs_valid; exact H].
Defined.
