(* ===== verification/SetMode.v ===== *)
(** * The mode-apply protocol: [drm_crtc_set_mode]

    [drm_crtc_set_mode(crtc, mode, x, y)] duplicates [mode] into an
    adjusted mode, marks the CRTC enabled exactly when an output is bound
    to it and returns success at once when none is; otherwise it saves
    the CRTC's mode and position, writes the new ones, takes the fast path
    ([mode_set_base]) when only the position changed, and else runs the
    driver protocol: [mode_fixup] on every bound output and on the CRTC
    (a rejection restores the saved mode and position and fails),
    [prepare] on the outputs and the CRTC, [mode_set] on the CRTC and the
    outputs, [commit] on the CRTC and the outputs, and frees the adjusted
    mode.  The hooks that return nothing are events of the trace; the
    outputs are visited in list order.

    The adjusted mode is freed on the full path only: every other path
    keeps its identifier registered (theorem [drm_crtc_set_mode_leak]). *)

From S2P Require Import Prelude Idr Modes Config.

Section set_mode.
Context `{!DrmFuncs}.

(** The outputs bound to the CRTC, in list order: the
    [if (output->crtc != crtc) continue;] loops. *)
Definition outputs_on (s : drm_mode_config) (cid : Z) : list drm_output :=
  filter (fun o => output_crtc o = Some cid) (output_list s).

(** The output [mode_fixup] loop: each hook sees the adjusted mode the
    previous ones left; the first rejection ends it. *)
Fixpoint outputs_fixup (outs : list drm_output) (mode adj : drm_display_mode)
  : option drm_display_mode :=
  match outs with
  | [] => Some adj
  | o :: rest =>
      match output_mode_fixup o mode adj with
      | None => None
      | Some adj' => outputs_fixup rest mode adj'
      end
  end.

(** The hooks of the full path, from [prepare] to [commit]. *)
Definition set_mode_events (outs : list drm_output) (cid : Z)
    (mode adj : drm_display_mode) (x y : Z) : list drm_event :=
  map (fun o => EvOutputPrepare (output_id o)) outs ++
  [EvCrtcPrepare cid; EvCrtcModeSet cid mode adj x y] ++
  map (fun o => EvOutputModeSet (output_id o) mode adj) outs ++
  [EvCrtcCommit cid] ++
  map (fun o => EvOutputCommit (output_id o)) outs.

Definition emit_all (s : drm_mode_config) (evs : list drm_event) : drm_mode_config :=
  fold_left emit evs s.

(** [drm_crtc_set_mode]; the CRTC is given by its identifier (callers
    pass a live CRTC; an unknown one fails without effect). *)
Definition drm_crtc_set_mode (s : drm_mode_config) (cid : Z)
    (mode : drm_display_mode) (x y : Z) : drm_mode_config * bool :=
  match find_crtc s cid with
  | None => (s, false)
  | Some crtc0 =>
      let '(m1, adjusted_mode) := drm_mode_duplicate (crtc_idr s) mode in
      let s1 := set_idr s m1 in
      let enabled := drm_crtc_in_use s1 cid in
      let s2 := update_crtc s1 cid (fun c => with_crtc_enabled c enabled) in
      if negb enabled then (s2, true) else
      let saved_mode := crtc_mode crtc0 in
      let saved_x := crtc_x crtc0 in
      let saved_y := crtc_y crtc0 in
      let s3 := update_crtc s2 cid (fun c => with_crtc_mode c mode x y) in
      let restore := update_crtc s3 cid (fun c => with_crtc_mode c saved_mode saved_x saved_y) in
      if drm_mode_equal saved_mode mode && (negb (saved_x =? x) || negb (saved_y =? y))
      then (emit s3 (EvCrtcModeSetBase cid x y), true)
      else
      let outs := outputs_on s3 cid in
      match outputs_fixup outs mode adjusted_mode with
      | None => (restore, false)
      | Some adj1 =>
          match find_crtc s3 cid ≫= fun c => crtc_mode_fixup c mode adj1 with
          | None => (restore, false)
          | Some adj2 =>
              let s4 := emit_all s3 (set_mode_events outs cid mode adj2 x y) in
              (set_idr s4 (drm_mode_destroy (crtc_idr s4) adjusted_mode), true)
          end
      end
  end.
End set_mode.

(** ** Lemmas *)

Lemma emit_all_trace s evs : hw_trace (emit_all s evs) = hw_trace s ++ evs.
Proof.
  revert s. induction evs as [|e evs IH]; intros s; simpl; [by rewrite app_nil_r|].
  rewrite IH. simpl. by rewrite <- app_assoc.
Qed.

Lemma emit_all_rest s evs :
  output_list (emit_all s evs) = output_list s /\ crtc_list (emit_all s evs) = crtc_list s /\
  crtc_idr (emit_all s evs) = crtc_idr s.
Proof. revert s. induction evs as [|e evs IH]; intros s; simpl; [done|]. by rewrite !(proj1 (IH _)), (proj1 (proj2 (IH _))), (proj2 (proj2 (IH _))). Qed.

Lemma find_crtc_emit_all s evs cid : find_crtc (emit_all s evs) cid = find_crtc s cid.
Proof. unfold find_crtc. by rewrite (proj1 (proj2 (emit_all_rest s evs))). Qed.

Lemma drm_crtc_in_use_set_idr s m cid : drm_crtc_in_use (set_idr s m) cid = drm_crtc_in_use s cid.
Proof. done. Qed.

(** The CRTC record after the enable and mode updates. *)
Lemma find_crtc_set_mode_updates s cid crtc0 en mode x y m :
  find_crtc s cid = Some crtc0 ->
  find_crtc (update_crtc (update_crtc (set_idr s m) cid (fun c => with_crtc_enabled c en))
               cid (fun c => with_crtc_mode c mode x y)) cid =
  Some (with_crtc_mode (with_crtc_enabled crtc0 en) mode x y).
Proof.
  intros H. rewrite !find_crtc_update_same by done. by rewrite find_crtc_set_idr, H.
Qed.

(** The shape of [drm_crtc_set_mode] on a live CRTC, branch by branch. *)
Lemma drm_crtc_set_mode_cases `{!DrmFuncs} s cid mode x y crtc0 :
  find_crtc s cid = Some crtc0 ->
  let m1 := (drm_mode_duplicate (crtc_idr s) mode).1 in
  let adj0 := (drm_mode_duplicate (crtc_idr s) mode).2 in
  let s2 := update_crtc (set_idr s m1) cid
              (fun c => with_crtc_enabled c (drm_crtc_in_use s cid)) in
  let s3 := update_crtc s2 cid (fun c => with_crtc_mode c mode x y) in
  let outs := outputs_on s cid in
  (drm_crtc_in_use s cid = false /\ drm_crtc_set_mode s cid mode x y = (s2, true)) \/
  (drm_crtc_in_use s cid = true /\
   drm_mode_equal (crtc_mode crtc0) mode &&
     (negb (crtc_x crtc0 =? x) || negb (crtc_y crtc0 =? y)) = true /\
   drm_crtc_set_mode s cid mode x y = (emit s3 (EvCrtcModeSetBase cid x y), true)) \/
  (drm_crtc_in_use s cid = true /\
   drm_mode_equal (crtc_mode crtc0) mode &&
     (negb (crtc_x crtc0 =? x) || negb (crtc_y crtc0 =? y)) = false /\
   ((drm_crtc_set_mode s cid mode x y =
       (update_crtc s3 cid (fun c => with_crtc_mode c (crtc_mode crtc0) (crtc_x crtc0) (crtc_y crtc0)),
        false) /\
     (outputs_fixup outs mode adj0 = None \/
      exists adj1, outputs_fixup outs mode adj0 = Some adj1 /\
        crtc_mode_fixup (with_crtc_mode (with_crtc_enabled crtc0 true) mode x y) mode adj1 = None))
    \/ exists adj1 adj2, outputs_fixup outs mode adj0 = Some adj1 /\
        crtc_mode_fixup (with_crtc_mode (with_crtc_enabled crtc0 true) mode x y) mode adj1 = Some adj2 /\
        drm_crtc_set_mode s cid mode x y =
          (set_idr (emit_all s3 (set_mode_events outs cid mode adj2 x y))
             (drm_mode_destroy m1 adj0), true))).
Proof.
  intros Hf m1 adj0 s2 s3 outs. unfold drm_crtc_set_mode. rewrite Hf.
  destruct (drm_mode_duplicate (crtc_idr s) mode) as [m1' adj0'] eqn:Hdup.
  subst m1 adj0 s2 s3 outs. simpl. rewrite drm_crtc_in_use_set_idr.
  destruct (drm_crtc_in_use s cid) eqn:Hu; simpl; [|left; done].
  right. destruct (drm_mode_equal _ _ && _) eqn:Hb; [left; done|right; split_and!; try done].
  rewrite (find_crtc_set_mode_updates s cid crtc0 true) by done. simpl.
  unfold outputs_on. simpl.
  destruct (outputs_fixup _ mode adj0') as [adj1|] eqn:Hfx; [|left; split; [done|by left]].
  destruct (crtc_mode_fixup _ mode adj1) as [adj2|] eqn:Hcf.
  - right. exists adj1, adj2. split_and!; [done|done|]. f_equal. f_equal.
    by rewrite (proj2 (proj2 (emit_all_rest _ _))).
  - left. split; [done|right; eauto].
Qed.

Lemma with_crtc_mode_restore crtc0 en mode x y :
  with_crtc_mode (with_crtc_mode (with_crtc_enabled crtc0 en) mode x y)
    (crtc_mode crtc0) (crtc_x crtc0) (crtc_y crtc0) = with_crtc_enabled crtc0 en.
Proof. by destruct crtc0. Qed.

Lemma find_crtc_restore s cid crtc0 en mode x y m :
  find_crtc s cid = Some crtc0 ->
  find_crtc (update_crtc (update_crtc (update_crtc (set_idr s m) cid
      (fun c => with_crtc_enabled c en)) cid (fun c => with_crtc_mode c mode x y)) cid
      (fun c => with_crtc_mode c (crtc_mode crtc0) (crtc_x crtc0) (crtc_y crtc0))) cid =
  Some (with_crtc_enabled crtc0 en).
Proof.
  intros H. rewrite find_crtc_update_same by done.
  rewrite (find_crtc_set_mode_updates s cid crtc0) by done. simpl.
  by rewrite with_crtc_mode_restore.
Qed.

Lemma find_crtc_updates_other s cid cid' fs m :
  cid <> cid' -> Forall (fun f => forall c, crtc_id (f c) = crtc_id c) fs ->
  find_crtc (fold_left (fun s f => update_crtc s cid f) fs (set_idr s m)) cid' = find_crtc s cid'.
Proof.
  intros Hne Hfs. revert s m. induction Hfs as [|f fs Hf Hfs IH]; intros s m; [done|].
  simpl. specialize (IH (update_crtc s cid f) m). rewrite <- (find_crtc_update_other s cid cid' f) by done.
  exact IH.
Qed.

(** The state a failed [drm_crtc_set_mode] leaves: the CRTC enabled,
    given the new mode and position and then the saved ones back, and the
    registry holding the duplicate. *)
Lemma drm_crtc_set_mode_false `{!DrmFuncs} s cid mode x y crtc0 s' :
  find_crtc s cid = Some crtc0 ->
  drm_crtc_set_mode s cid mode x y = (s', false) ->
  s' = update_crtc (update_crtc (update_crtc (set_idr s (drm_mode_duplicate (crtc_idr s) mode).1)
         cid (fun c => with_crtc_enabled c true)) cid (fun c => with_crtc_mode c mode x y))
         cid (fun c => with_crtc_mode c (crtc_mode crtc0) (crtc_x crtc0) (crtc_y crtc0)).
Proof.
  intros Hf Hs.
  destruct (drm_crtc_set_mode_cases s cid mode x y crtc0 Hf)
    as [[_ Heq]|[[_ [_ Heq]]|(Hu & _ & [[Heq _]|(adj1 & adj2 & _ & _ & Heq)])]];
    rewrite Hs in Heq; try discriminate.
  injection Heq as ->. by rewrite Hu.
Qed.

(** C11: The protocol on the full path: when an output is bound to the
    CRTC and the call is not a pure reposition, a successful
    [drm_crtc_set_mode] calls, in this order, [prepare] on every bound
    output, [prepare] and [mode_set] on the CRTC, [mode_set] on every
    bound output, [commit] on the CRTC and [commit] on every bound output
    (outputs in list order), and nothing else; the CRTC holds the new mode
    and position and is enabled, and no binding changes. *)
Theorem drm_crtc_set_mode_protocol `{!DrmFuncs} s cid mode x y crtc0 s' :
  find_crtc s cid = Some crtc0 ->
  drm_crtc_in_use s cid = true ->
  drm_mode_equal (crtc_mode crtc0) mode &&
    (negb (crtc_x crtc0 =? x) || negb (crtc_y crtc0 =? y)) = false ->
  drm_crtc_set_mode s cid mode x y = (s', true) ->
  exists adj, hw_trace s' = hw_trace s ++
      map (fun o => EvOutputPrepare (output_id o)) (outputs_on s cid) ++
      [EvCrtcPrepare cid; EvCrtcModeSet cid mode adj x y] ++
      map (fun o => EvOutputModeSet (output_id o) mode adj) (outputs_on s cid) ++
      [EvCrtcCommit cid] ++
      map (fun o => EvOutputCommit (output_id o)) (outputs_on s cid) /\
    find_crtc s' cid = Some (with_crtc_mode (with_crtc_enabled crtc0 true) mode x y) /\
    output_list s' = output_list s.
Proof.
  intros Hf Hu Hb Hs.
  destruct (drm_crtc_set_mode_cases s cid mode x y crtc0 Hf)
    as [[Hu' _]|[[_ [Hb' _]]|(_ & _ & [[Heq _]|(adj1 & adj2 & _ & _ & Heq)])]];
    [congruence|congruence|congruence|].
  rewrite Hs in Heq. injection Heq as ->. exists adj2. rewrite Hu.
  split_and!.
  - simpl. rewrite emit_all_trace. unfold set_mode_events, outputs_on. done.
  - rewrite find_crtc_set_idr, find_crtc_emit_all.
    by apply (find_crtc_set_mode_updates s cid crtc0 true).
  - simpl. by rewrite (proj1 (emit_all_rest _ _)).
Qed.

(** C12: Rejection rolls back: when [drm_crtc_set_mode] fails, no driver
    hook that returns nothing has been called, no binding changed, the
    CRTC has its mode and position from before the call (it is left
    marked enabled), and every other CRTC is untouched. *)
Theorem drm_crtc_set_mode_rollback `{!DrmFuncs} s cid mode x y crtc0 s' :
  find_crtc s cid = Some crtc0 ->
  drm_crtc_set_mode s cid mode x y = (s', false) ->
  hw_trace s' = hw_trace s /\ output_list s' = output_list s /\
  find_crtc s' cid = Some (with_crtc_enabled crtc0 true) /\
  forall cid', cid' <> cid -> find_crtc s' cid' = find_crtc s cid'.
Proof.
  intros Hf Hs. rewrite (drm_crtc_set_mode_false s cid mode x y crtc0 s' Hf Hs).
  split_and!; [done|done| |].
  - by apply find_crtc_restore.
  - intros cid' Hne.
    apply (find_crtc_updates_other s cid cid'
      [fun c => with_crtc_enabled c true; fun c => with_crtc_mode c mode x y;
       fun c => with_crtc_mode c (crtc_mode crtc0) (crtc_x crtc0) (crtc_y crtc0)]); [done|].
    repeat constructor.
Qed.

(** C13: A rejected [drm_crtc_set_mode] leaks the identifier of its
    adjusted mode: the registry gains an [OBJ_MODE] entry that no mode
    object owns. *)
Theorem drm_crtc_set_mode_leak `{!DrmFuncs} s cid mode x y crtc0 s' :
  find_crtc s cid = Some crtc0 ->
  Z.of_nat (size (crtc_idr s)) < MAX_ID ->
  drm_crtc_set_mode s cid mode x y = (s', false) ->
  exists id, id <> 0 /\ crtc_idr s !! id = None /\ crtc_idr s' = <[id := OBJ_MODE]> (crtc_idr s).
Proof.
  intros Hf Hsz Hs. rewrite (drm_crtc_set_mode_false s cid mode x y crtc0 s' Hf Hs). simpl. unfold drm_mode_duplicate, drm_mode_create.
  destruct (drm_idr_get_cases (crtc_idr s) OBJ_MODE)
    as (r & _ & Hr1 & Hfree & _ & Hb & [[Heq _]|[_ Hgt]]); [|lia].
  rewrite Heq. exists r. split_and!; [lia|done|done].
Qed.

(** a call of [drm_crtc_set_mode] that only moves a CRTC in use
    (same timings, new position) calls its [mode_set_base] hook and
    succeeds without checking that the driver provides the hook, which
    [drm_crtc_set_config] does check: the call happens for a CRTC without
    one, and no other hook runs. *)
Theorem drm_crtc_set_mode_base_unchecked `{!DrmFuncs} s cid mode x y crtc0 :
  find_crtc s cid = Some crtc0 -> drm_crtc_in_use s cid = true ->
  drm_mode_equal (crtc_mode crtc0) mode = true -> (crtc_x crtc0 <> x \/ crtc_y crtc0 <> y) ->
  crtc_has_mode_set_base crtc0 = false ->
  hw_trace (drm_crtc_set_mode s cid mode x y).1 = hw_trace s ++ [EvCrtcModeSetBase cid x y] /\
  (drm_crtc_set_mode s cid mode x y).2 = true.
Proof.
  intros Hf Hu Heq Hxy _.
  destruct (drm_crtc_set_mode_cases s cid mode x y crtc0 Hf)
    as [[Hu' _]|[(_ & _ & ->)|(_ & Hb & _)]]; [congruence| |].
  - split; [|done]. cbn [fst]. unfold emit at 1. cbn [hw_trace].
    by rewrite !hw_trace_update_crtc, hw_trace_set_idr.
  - rewrite Heq in Hb. apply orb_false_iff in Hb as [Hx Hy].
    apply negb_false_iff, Z.eqb_eq in Hx, Hy. lia.
Qed.

(** ** Concrete runs *)

(** One connected output, bound to the first CRTC. *)
Definition bound_config : drm_mode_config :=
  sample_config [sample_output 3 output_status_connected 3 [mode_1080p; mode_720p] (Some 1)].

Lemma drm_crtc_set_mode_protocol_witness :
  let s := bound_config in
  let s' := (@drm_crtc_set_mode sample_funcs s 1 mode_720p 0 0).1 in
  find_crtc s 1 = Some (sample_crtc 1) /\ drm_crtc_in_use s 1 = true /\
  drm_mode_equal (crtc_mode (sample_crtc 1)) mode_720p &&
    (negb (crtc_x (sample_crtc 1) =? 0) || negb (crtc_y (sample_crtc 1) =? 0)) = false /\
  @drm_crtc_set_mode sample_funcs s 1 mode_720p 0 0 = (s', true) /\
  exists adj, hw_trace s' = hw_trace s ++
      map (fun o => EvOutputPrepare (output_id o)) (outputs_on s 1) ++
      [EvCrtcPrepare 1; EvCrtcModeSet 1 mode_720p adj 0 0] ++
      map (fun o => EvOutputModeSet (output_id o) mode_720p adj) (outputs_on s 1) ++
      [EvCrtcCommit 1] ++
      map (fun o => EvOutputCommit (output_id o)) (outputs_on s 1) /\
    find_crtc s' 1 = Some (with_crtc_mode (with_crtc_enabled (sample_crtc 1) true) mode_720p 0 0) /\
    output_list s' = output_list s.
Proof.
  intros s s'. split_and!; try (vm_compute; reflexivity).
  apply (@drm_crtc_set_mode_protocol sample_funcs); vm_compute; reflexivity.
Defined.

Lemma drm_crtc_set_mode_rollback_witness :
  let s := bound_config in
  let s' := (@drm_crtc_set_mode sample_funcs s 1 mode_1080p 0 0).1 in
  find_crtc s 1 = Some (sample_crtc 1) /\
  @drm_crtc_set_mode sample_funcs s 1 mode_1080p 0 0 = (s', false) /\
  hw_trace s' = hw_trace s /\ output_list s' = output_list s /\
  find_crtc s' 1 = Some (with_crtc_enabled (sample_crtc 1) true) /\
  (forall cid', cid' <> 1 -> find_crtc s' cid' = find_crtc s cid').
Proof.
  intros s s'. assert (Hs : @drm_crtc_set_mode sample_funcs bound_config 1 mode_1080p 0 0 =
    ((@drm_crtc_set_mode sample_funcs bound_config 1 mode_1080p 0 0).1, false))
    by (vm_compute; reflexivity).
  split; [vm_compute; reflexivity|]. split; [exact Hs|].
  apply (@drm_crtc_set_mode_rollback sample_funcs s 1 mode_1080p 0 0 (sample_crtc 1) s'); [vm_compute; reflexivity|exact Hs].
Defined.

Lemma drm_crtc_set_mode_leak_witness :
  let s := bound_config in
  let s' := (@drm_crtc_set_mode sample_funcs s 1 mode_1080p 0 0).1 in
  find_crtc s 1 = Some (sample_crtc 1) /\ Z.of_nat (size (crtc_idr s)) < MAX_ID /\
  @drm_crtc_set_mode sample_funcs s 1 mode_1080p 0 0 = (s', false) /\
  exists id, id <> 0 /\ crtc_idr s !! id = None /\ crtc_idr s' = <[id := OBJ_MODE]> (crtc_idr s).
Proof.
  intros s s'. assert (Hs : @drm_crtc_set_mode sample_funcs bound_config 1 mode_1080p 0 0 =
    ((@drm_crtc_set_mode sample_funcs bound_config 1 mode_1080p 0 0).1, false))
    by (vm_compute; reflexivity).
  split; [vm_compute; reflexivity|]. split; [vm_compute; reflexivity|]. split; [exact Hs|].
  apply (@drm_crtc_set_mode_leak sample_funcs s 1 mode_1080p 0 0 (sample_crtc 1) s');
    [vm_compute; reflexivity|vm_compute; reflexivity|exact Hs].
Defined.

(** [drm_crtc_set_mode] never changes a binding. *)
Lemma drm_crtc_set_mode_output_list `{!DrmFuncs} s cid mode x y :
  output_list (drm_crtc_set_mode s cid mode x y).1 = output_list s.
Proof.
  destruct (find_crtc s cid) as [crtc0|] eqn:Hf; [|by unfold drm_crtc_set_mode; rewrite Hf].
  destruct (drm_crtc_set_mode_cases s cid mode x y crtc0 Hf)
    as [[_ ->]|[[_ [_ ->]]|(_ & _ & [[-> _]|(adj1 & adj2 & _ & _ & ->)])]]; try done.
  simpl. by rewrite (proj1 (emit_all_rest _ _)).
Qed.

Lemma drm_crtc_set_mode_trace_false `{!DrmFuncs} s cid mode x y crtc0 s' :
  find_crtc s cid = Some crtc0 -> drm_crtc_set_mode s cid mode x y = (s', false) ->
  hw_trace s' = hw_trace s.
Proof. intros Hf Hs. by rewrite (drm_crtc_set_mode_false s cid mode x y crtc0 s' Hf Hs). Qed.

(** A driver whose CRTCs have no [mode_set_base] hook. *)
Definition nobase_funcs : DrmFuncs := {|
  output_detect := output_status;
  output_get_modes := modes;
  output_mode_valid := fun _ _ => MODE_OK;
  output_mode_fixup := fun _ _ adj => Some adj;
  output_set_property := None;
  crtc_mode_fixup := fun _ _ adj => Some adj;
  crtc_has_mode_set_base := fun _ => false;
|}.

Lemma drm_crtc_set_mode_base_unchecked_witness :
  hw_trace (@drm_crtc_set_mode nobase_funcs bound_config 1 zero_mode 5 0).1 =
    [EvCrtcModeSetBase 1 5 0].
Proof.
  apply (@drm_crtc_set_mode_base_unchecked nobase_funcs bound_config 1 zero_mode 5 0 (sample_crtc 1));
    try (vm_compute; reflexivity). left. discriminate.
Defined.
