(* ===== verification/SetConfig.v ===== *)
(** * The configuration transaction: [drm_crtc_set_config]

    [drm_crtc_set_config(set)] takes a request [{crtc, x, y, mode,
    outputs, fb}], saves the CRTC's enabled flag and every output's
    binding, and decides whether the request changes the configuration
    ([changed]: a different mode, a binding that moves, or a move that the
    CRTC cannot do with [mode_set_base]) or only the scan-out
    ([flip_or_move]: another framebuffer or position).  The new bindings
    are written before any hook runs.  A change sets the framebuffer and
    the enabled flag and, with a mode, runs [drm_crtc_set_mode]; when that
    fails the enabled flag and the bindings are restored and -EINVAL is
    returned, otherwise the desired mode and position are recorded and the
    unused outputs and CRTCs are powered off.  A flip or move alone sets
    the framebuffer and calls [mode_set_base].

    The allocation of the save array is assumed to succeed (its -ENOMEM
    path is not modelled). *)

From S2P Require Import Prelude Idr Modes Config SetMode.

(** [struct drm_mode_set]: CRTC, framebuffer and outputs by identifier. *)
Record drm_mode_set := mk_mode_set {
  ms_crtc : option Z;
  ms_x : Z; ms_y : Z;
  ms_mode : option drm_display_mode;
  ms_outputs : list Z;
  ms_fb : option Z;
}.

Section set_config.
Context `{!DrmFuncs}.

(** The binding the output loop gives an output: the request's CRTC if
    the output is in the request, no CRTC if it was on the request's CRTC
    and is not in the request, its old binding otherwise. *)
Definition new_binding (set : drm_mode_set) (cid : Z) (o : drm_output) : option Z :=
  if bool_decide (output_id o ∈ ms_outputs set) then Some cid
  else if bool_decide (output_crtc o = Some cid) then None else output_crtc o.

(** [output->crtc = save_crtcs[count++]] over the output list. *)
Definition restore_bindings (outs : list drm_output) (saved : list (option Z)) :=
  zip_with with_output_crtc outs saved.

Definition drm_crtc_set_config (s : drm_mode_config) (set : drm_mode_set)
  : drm_mode_config * Z :=
  match ms_crtc set with
  | None => (s, - EINVAL)
  | Some cid =>
    match find_crtc s cid with
    | None => (s, - EINVAL)
    | Some crtc =>
      let save_enabled := crtc_enabled crtc in
      let save_crtcs := map output_crtc (output_list s) in
      let flip_or_move :=
        negb (bool_decide (crtc_fb crtc = ms_fb set)) ||
        negb (ms_x set =? crtc_x crtc) || negb (ms_y set =? crtc_y crtc) in
      let mode_changed :=
        match ms_mode set with
        | Some m => negb (drm_mode_equal m (crtc_mode crtc))
        | None => false
        end in
      let binding_changed :=
        existsb (fun o => negb (bool_decide (new_binding set cid o = output_crtc o)))
          (output_list s) in
      let s1 := set_outputs s (map (fun o => with_output_crtc o (new_binding set cid o))
                                   (output_list s)) in
      let changed := mode_changed || binding_changed ||
                     (flip_or_move && negb (crtc_has_mode_set_base crtc)) in
      if changed then
        let s2 := update_crtc s1 cid (fun c => with_crtc_enabled (with_crtc_fb c (ms_fb set))
                                                 (bool_decide (ms_mode set <> None))) in
        match ms_mode set with
        | Some m =>
            let '(s3, ok) := drm_crtc_set_mode s2 cid m (ms_x set) (ms_y set) in
            if negb ok then
              let s4 := update_crtc s3 cid (fun c => with_crtc_enabled c save_enabled) in
              (set_outputs s4 (restore_bindings (output_list s4) save_crtcs), - EINVAL)
            else
              let s4 := update_crtc s3 cid
                          (fun c => with_crtc_desired c (Some m) (ms_x set) (ms_y set)) in
              (drm_disable_unused_functions s4, 0)
        | None => (drm_disable_unused_functions s2, 0)
        end
      else if flip_or_move then
        let s2 := if bool_decide (crtc_fb crtc <> ms_fb set)
                  then update_crtc s1 cid (fun c => with_crtc_fb c (ms_fb set)) else s1 in
        (emit s2 (EvCrtcModeSetBase cid (ms_x set) (ms_y set)), 0)
      else (s1, 0)
    end
  end.
End set_config.

(** ** Lemmas *)

Lemma restore_bindings_map f (outs : list drm_output) :
  restore_bindings (map (fun o => with_output_crtc o (f o)) outs) (map output_crtc outs) = outs.
Proof. induction outs as [|o outs IH]; simpl; [done|]. rewrite IH. by destruct o. Qed.

Lemma find_crtc_set_outputs s l cid : find_crtc (set_outputs s l) cid = find_crtc s cid.
Proof. done. Qed.

(** C14: Atomicity of a rejected transaction: when [drm_crtc_set_config]
    fails on a live CRTC, every output has its binding from before the
    call, no driver hook that returns nothing has run, and the CRTC has
    its enabled flag, mode, position and desired state from before; only
    its framebuffer is the requested one, which the rollback forgets. *)
Theorem drm_crtc_set_config_atomic `{!DrmFuncs} s set cid crtc s' :
  ms_crtc set = Some cid -> find_crtc s cid = Some crtc ->
  drm_crtc_set_config s set = (s', - EINVAL) ->
  output_list s' = output_list s /\ hw_trace s' = hw_trace s /\
  find_crtc s' cid = Some (with_crtc_fb crtc (ms_fb set)).
Proof.
  intros Hc Hf. unfold drm_crtc_set_config. rewrite Hc, Hf.
  set (s1 := set_outputs s _).
  destruct (_ || _ || _) eqn:Hch;
    [|intros Hr; repeat case_match; simplify_eq].
  set (en := bool_decide (ms_mode set <> None)).
  set (s2 := update_crtc s1 cid _).
  assert (Hf2 : find_crtc s2 cid = Some (with_crtc_enabled (with_crtc_fb crtc (ms_fb set)) en))
    by (unfold s2, s1; rewrite find_crtc_update_same by done; by rewrite find_crtc_set_outputs, Hf).
  destruct (ms_mode set) as [m|]; [|intros [=]].
  destruct (drm_crtc_set_mode s2 cid m (ms_x set) (ms_y set)) as [s3 []] eqn:Hs; [intros [=]|].
  intros [= <-]. pose proof (drm_crtc_set_mode_false _ _ _ _ _ _ _ Hf2 Hs) as ->.
  split_and!; [by apply restore_bindings_map | done |].
  rewrite find_crtc_set_outputs, !find_crtc_update_same by done.
  rewrite find_crtc_set_idr, Hf2. simpl. by destruct crtc.
Qed.

Lemma output_list_set_config_ok `{!DrmFuncs} s set cid crtc s' :
  ms_crtc set = Some cid -> find_crtc s cid = Some crtc ->
  drm_crtc_set_config s set = (s', 0) ->
  output_list s' = map (fun o => with_output_crtc o (new_binding set cid o)) (output_list s).
Proof.
  intros Hc Hf. unfold drm_crtc_set_config. rewrite Hc, Hf.
  repeat case_match; intros Heq; simplify_eq; simpl;
    rewrite ?(proj1 (drm_disable_unused_functions_lists _)); simpl; try done.
  all: match goal with H : drm_crtc_set_mode ?a ?b ?c ?d ?e = _ |- _ =>
         pose proof (drm_crtc_set_mode_output_list a b c d e) as Ho; rewrite H in Ho end.
  all: simpl in Ho; rewrite ?Ho; try done.
Qed.

(** C15: The bindings a successful [drm_crtc_set_config] leaves: every
    requested output is bound to the request's CRTC, every other output
    that was on that CRTC is unbound, and every other binding is kept. *)
Theorem drm_crtc_set_config_bindings `{!DrmFuncs} s set cid crtc s' :
  ms_crtc set = Some cid -> find_crtc s cid = Some crtc ->
  drm_crtc_set_config s set = (s', 0) ->
  forall i o, output_list s !! i = Some o ->
  exists o', output_list s' !! i = Some o' /\ output_id o' = output_id o /\
    (output_id o ∈ ms_outputs set -> output_crtc o' = Some cid) /\
    (output_id o ∉ ms_outputs set -> output_crtc o = Some cid -> output_crtc o' = None) /\
    (output_id o ∉ ms_outputs set -> output_crtc o <> Some cid -> output_crtc o' = output_crtc o).
Proof.
  intros Hc Hf Hs i o Hi. rewrite (output_list_set_config_ok s set cid crtc s' Hc Hf Hs).
  rewrite list_lookup_fmap, Hi. eexists. split; [reflexivity|]. simpl.
  unfold new_binding. split_and!; [done| | |]; intros; repeat case_bool_decide; done.
Qed.

(** ** Concrete runs *)

(** The spec's scenario: the only output is removed from the CRTC and no
    mode is given. *)
Definition unbind_request : drm_mode_set := mk_mode_set (Some 1) 0 0 None [] None.

(** Removing the only output from its CRTC without a mode: the
    request succeeds, the output is unbound, the CRTC is disabled, no mode
    is applied, and the sweep powers off the output and both CRTCs. *)
Theorem drm_crtc_set_config_unbind_scenario :
  let r := @drm_crtc_set_config sample_funcs bound_config unbind_request in
  r.2 = 0 /\ output_crtc <$> output_list r.1 = [None] /\
  crtc_enabled <$> crtc_list r.1 = [false; false] /\
  hw_trace r.1 = [EvOutputDpms 3 DPMSModeOff; EvCrtcDpms 1 DPMSModeOff; EvCrtcDpms 2 DPMSModeOff].
Proof. vm_compute. split_and!; reflexivity. Qed.

(** A request that binds an output and gives a framebuffer but no mode. *)
Definition bind_without_mode : drm_mode_set := mk_mode_set (Some 1) 0 0 None [3] (Some 5).

(** [drm_crtc_set_config] called with outputs and a framebuffer but
    no mode binds the outputs to the CRTC and disables it: an output ends
    up bound to a disabled CRTC, against the spec's invariant. *)
Theorem drm_crtc_set_config_binds_disabled :
  let r := @drm_crtc_set_config sample_funcs scenario_config bind_without_mode in
  r.2 = 0 /\ output_crtc <$> output_list r.1 = [Some 1; None] /\
  (crtc_enabled <$> find_crtc r.1 1) = Some false.
Proof. vm_compute. split_and!; reflexivity. Qed.

Lemma drm_crtc_set_config_bindings_witness :
  let s := scenario_config in
  let r := @drm_crtc_set_config sample_funcs s bind_without_mode in
  ms_crtc bind_without_mode = Some 1 /\ find_crtc s 1 = Some (sample_crtc 1) /\
  @drm_crtc_set_config sample_funcs s bind_without_mode = (r.1, 0) /\
  (forall i o, output_list s !! i = Some o ->
   exists o', output_list r.1 !! i = Some o' /\ output_id o' = output_id o /\
    (output_id o ∈ ms_outputs bind_without_mode -> output_crtc o' = Some 1) /\
    (output_id o ∉ ms_outputs bind_without_mode -> output_crtc o = Some 1 -> output_crtc o' = None) /\
    (output_id o ∉ ms_outputs bind_without_mode -> output_crtc o <> Some 1 ->
       output_crtc o' = output_crtc o)).
Proof.
  intros s r.
  assert (Hs : @drm_crtc_set_config sample_funcs s bind_without_mode = (r.1, 0))
    by (vm_compute; reflexivity).
  split_and!; [reflexivity|vm_compute; reflexivity|exact Hs|].
  exact (@drm_crtc_set_config_bindings sample_funcs s bind_without_mode 1 (sample_crtc 1) r.1
           eq_refl ltac:(vm_compute; reflexivity) Hs).
Defined.

(** A request that gives O1 the first CRTC with the 1080p mode, which the
    sample driver's outputs reject. *)
Definition rejected_request : drm_mode_set :=
  mk_mode_set (Some 1) 0 0 (Some mode_1080p) [3] (Some 5).

Lemma drm_crtc_set_config_atomic_witness :
  let s := scenario_config in
  let r := @drm_crtc_set_config sample_funcs s rejected_request in
  ms_crtc rejected_request = Some 1 /\ find_crtc s 1 = Some (sample_crtc 1) /\
  @drm_crtc_set_config sample_funcs s rejected_request = (r.1, - EINVAL) /\
  output_list r.1 = output_list s /\ hw_trace r.1 = hw_trace s /\
  find_crtc r.1 1 = Some (with_crtc_fb (sample_crtc 1) (ms_fb rejected_request)).
Proof.
  intros s r.
  assert (Hs : @drm_crtc_set_config sample_funcs s rejected_request = (r.1, - EINVAL))
    by (vm_compute; reflexivity).
  split_and!; [reflexivity|vm_compute; reflexivity|exact Hs|..];
  apply (@drm_crtc_set_config_atomic sample_funcs s rejected_request 1 (sample_crtc 1) r.1
           eq_refl ltac:(vm_compute; reflexivity) Hs).
Defined.
