(* ===== verification/Device.v ===== *)
(** * The device life cycle

    [drm_mode_config_init] sets up an empty configuration with the
    standard output properties (EDID, DPMS, connector type and number);
    [drm_initial_config] probes every output, assigns CRTCs, lets the
    driver attach a framebuffer to each assigned CRTC ([fb_probe]) and
    sets the desired modes; [drm_hotplug_stage_two] reacts to a hotplug
    (counter, probe, assignment when the output had none, mode set);
    [drm_mode_config_cleanup] destroys outputs, properties, framebuffers
    and CRTCs; [drm_create_tv_properties] adds the TV margin and format
    properties.  The name tables used for logging are here too.

    The driver's [fb_probe] is abstract ([DrmDriver]): it may give the
    CRTC a framebuffer, whose creation (through [drm_framebuffer_create])
    is the driver's business and not modelled; [fb_resize], [fb_remove]
    and the sysfs notifications are recorded as events.  The identifiers
    of the standard and TV properties are kept in the state's property
    fields ([set_conn_props], [set_tv_props]). *)

From stdpp Require Import pretty.
From S2P Require Import Prelude Idr Modes Config Property Probe PickCrtcs SetMode.

(** ** Name tables *)

Definition drm_dpms_enum_list : list (Z * string) :=
  [(DPMSModeOn, "On"); (DPMSModeStandby, "Standby"); (DPMSModeSuspend, "Suspend");
   (DPMSModeOff, "Off")].

(** [enum drm_connector_type] of drm_crtc.h, in the order of the table. *)
Definition drm_conn_enum_list : list (Z * string) :=
  [(0, "Unknown"); (1, "VGA"); (2, "DVI-I"); (3, "DVI-D"); (4, "DVI-A");
   (5, "Composite"); (6, "SVIDEO"); (7, "LVDS"); (8, "Component"); (9, "9-pin DIN");
   (10, "DisplayPort"); (11, "HDMI Type A"); (12, "HDMI Type B")].

(** [DRM_MODE_OUTPUT_NONE] .. [DRM_MODE_OUTPUT_TVDAC], indexed by type. *)
Definition drm_output_enum_list : list (Z * string) :=
  [(0, "None"); (1, "DAC"); (2, "TMDS"); (3, "LVDS"); (4, "TV")].

(** [drm_get_dpms_name]. *)
Definition drm_get_dpms_name (val : Z) : string :=
  match find_first (fun e => e.1 =? val) drm_dpms_enum_list with
  | Some e => e.2
  | None => "unknown"
  end.

(** [drm_get_output_name]: ["<type name>-<type id>"]; the table is
    indexed by [output_type] without a bounds check, [None] when that
    reads past it. *)
Definition drm_get_output_name (o : drm_output) : option string :=
  e ← (if 0 <=? output_type o then drm_output_enum_list !! Z.to_nat (output_type o) else None);
  Some (e.2 +:+ "-" +:+ pretty (output_type_id o)).

(** [drm_get_output_status_name]. *)
Definition drm_get_output_status_name (st : drm_output_status) : string :=
  match st with
  | output_status_connected => "connected"
  | output_status_disconnected => "disconnected"
  | _ => "unknown"
  end.

(** ** Initialisation *)

(** The [drm_property_add_enum] loop over a table, entry [i] at index
    [i]. *)
Definition add_enum_list (s : drm_mode_config) (pid : Z) (l : list (Z * string))
  : drm_mode_config :=
  fold_left (fun s '(i, (v, n)) => update_property s pid (fun p => (drm_property_add_enum p i v n).2))
    (zip (seq 0 (length l)) l) s.

(** [property->values[0] = lo; property->values[1] = hi;] *)
Definition set_range (s : drm_mode_config) (pid lo hi : Z) : drm_mode_config :=
  update_property s pid (fun p => with_values p (<[1%nat := hi]> (<[0%nat := lo]> (prop_values p)))).

(** [drm_mode_create_standard_output_properties]. *)
Definition drm_mode_create_standard_output_properties (s : drm_mode_config)
  : drm_mode_config :=
  let '(s1, edid) := drm_property_create s (Z.lor DRM_MODE_PROP_BLOB DRM_MODE_PROP_IMMUTABLE)
                       "EDID" 0 in
  let '(s2, dpms) := drm_property_create (set_std_props s1 edid (dpms_property s1))
                       DRM_MODE_PROP_ENUM "DPMS" (length drm_dpms_enum_list) in
  let s3 := add_enum_list (set_std_props s2 edid dpms) dpms drm_dpms_enum_list in
  let '(s4, ctype) := drm_property_create s3 (Z.lor DRM_MODE_PROP_ENUM DRM_MODE_PROP_IMMUTABLE)
                        "Connector Type" (length drm_conn_enum_list) in
  let s5 := add_enum_list (set_conn_props s4 ctype (connector_num_property s4)) ctype
              drm_conn_enum_list in
  let '(s6, cnum) := drm_property_create s5 (Z.lor DRM_MODE_PROP_RANGE DRM_MODE_PROP_IMMUTABLE)
                       "Connector ID" 2 in
  set_range (set_conn_props s6 ctype cnum) cnum 0 20.

(** [drm_create_tv_properties(dev, num_modes, modes)]: the four margin
    ranges [0, 100] (only the left one immutable) and the "mode" enum with
    entry [i] named [modes[i]]; the identifiers go to the [tv_*_property]
    fields.  The function is declared [bool] and returns 0, false. *)
Definition drm_create_tv_properties (s : drm_mode_config) (modes : list string)
  : drm_mode_config * bool :=
  let '(s1, tv_left) := drm_property_create s (Z.lor DRM_MODE_PROP_RANGE DRM_MODE_PROP_IMMUTABLE)
                       "left margin" 2 in
  let s1 := set_range s1 tv_left 0 100 in
  let '(s2, tv_right) := drm_property_create s1 DRM_MODE_PROP_RANGE "right margin" 2 in
  let s2 := set_range s2 tv_right 0 100 in
  let '(s3, tv_top) := drm_property_create s2 DRM_MODE_PROP_RANGE "top margin" 2 in
  let s3 := set_range s3 tv_top 0 100 in
  let '(s4, tv_bottom) := drm_property_create s3 DRM_MODE_PROP_RANGE "bottom margin" 2 in
  let s4 := set_range s4 tv_bottom 0 100 in
  let '(s5, mode) := drm_property_create s4 DRM_MODE_PROP_ENUM "mode" (length modes) in
  let s6 := set_tv_props s5 (mk_tv_props tv_left tv_right tv_top tv_bottom mode) in
  (add_enum_list s6 mode (imap (fun i n => (Z.of_nat i, n)) modes), false).

(** [drm_mode_config_init]: empty lists and idr, the standard properties,
    zero counters; the mutex is free. *)
Definition drm_mode_config_init : drm_mode_config :=
  let s0 := mk_config [] [] [] [] [] ∅ 0 0 0 0 0 0 0 0 0 0 0 0 no_tv_props false [] in
  let s1 := drm_mode_create_standard_output_properties s0 in
  set_hotplug (set_counts s1 0 0 0) 0.

Section device.
Context `{!DrmFuncs} `{!DrmDriver}.

(** [dev->driver->fb_probe(dev, crtc, output)]. *)
Definition fb_probe_step (s : drm_mode_config) (crtc : drm_crtc) (o : drm_output)
  : drm_mode_config :=
  let s1 := match driver_fb_probe crtc o with
            | Some fb => update_crtc s (crtc_id crtc) (fun c => with_crtc_fb c (Some fb))
            | None => s
            end in
  emit s1 (EvFbProbe (crtc_id crtc) (output_id o)).

(** [output->crtc && output->crtc->desired_mode]: the output's CRTC and
    its desired mode. *)
Definition output_config (s : drm_mode_config) (oid : Z) : option (drm_crtc * drm_display_mode) :=
  o ← find_output s oid;
  cid ← output_crtc o;
  crtc ← find_crtc s cid;
  dm ← desired_mode crtc;
  Some (crtc, dm).

(** One pass of the output loop of [drm_initial_config]. *)
Definition initial_config_step (s : drm_mode_config) (oid : Z) : drm_mode_config :=
  match output_config s oid, find_output s oid with
  | Some (crtc, dm), Some o =>
      let s1 := fb_probe_step s crtc o in
      match find_crtc s1 (crtc_id crtc) ≫= crtc_fb with
      | Some _ => (drm_crtc_set_mode s1 (crtc_id crtc) dm 0 0).1
      | None => s1
      end
  | _, _ => s
  end.

(** [drm_initial_config(dev, can_grow)]: always returns [false]. *)
Definition drm_initial_config (s : drm_mode_config) (can_grow : bool)
  : option (drm_mode_config * bool) :=
  s1 ← mutex_lock s;
  let s2 := drm_crtc_probe_output_modes s1 2048 2048 in
  let s3 := drm_pick_crtcs s2 in
  let s4 := fold_left initial_config_step (output_id <$> output_list s3) s3 in
  let s5 := drm_disable_unused_functions s4 in
  Some (mutex_unlock s5, false).

(** [drm_hotplug_stage_two(dev, output, connected)]; the caller holds the
    mutex. *)
Definition drm_hotplug_stage_two (s : drm_mode_config) (oid : Z) (connected : bool)
  : drm_mode_config * Z :=
  let s1 := set_hotplug s (hotplug_counter s + 1) in
  if negb connected then (s1, 0) else
  let has_config := bool_decide (is_Some (output_config s1 oid)) in
  let s2 := drm_crtc_probe_output_modes s1 2048 2048 in
  let s3 := if has_config then s2 else drm_pick_crtcs s2 in
  match output_config s3 oid, find_output s3 oid with
  | Some (crtc, dm), Some o =>
      let s4 := if negb has_config then fb_probe_step s3 crtc o
                else (drm_crtc_set_mode (emit s3 (EvFbResize (crtc_id crtc)))
                        (crtc_id crtc) dm 0 0).1 in
      (drm_disable_unused_functions (emit s4 EvSysfsHotplug), 0)
  | _, _ => (s3, 1)
  end.

(** [drm_mode_hotplug_ioctl]: the return code and [counter]; the mutex is
    not taken. *)
Definition drm_mode_hotplug_ioctl (s : drm_mode_config) : Z * Z := (0, hotplug_counter s).

(** [drm_mode_config_cleanup]; the outputs go first, each through
    [drm_output_destroy], which takes the mutex. *)
Definition cleanup_output (r : option drm_mode_config) (o : drm_output)
  : option drm_mode_config :=
  s ← r; drm_output_destroy (emit s (EvSysfsOutputRemove (output_id o))) (output_id o).

Definition cleanup_fb (s : drm_mode_config) (f : drm_framebuffer) : drm_mode_config :=
  if fb_bo_kernel f then emit s (EvFbRemove (fb_id f)) else drm_framebuffer_destroy s (fb_id f).

Definition drm_mode_config_cleanup (s : drm_mode_config) : option drm_mode_config :=
  s1 ← fold_left cleanup_output (output_list s) (Some s);
  let s2 := fold_left (fun s p => drm_property_destroy s (prop_id p)) (property_list s1) s1 in
  let s3 := fold_left cleanup_fb (fb_list s2) s2 in
  Some (fold_left (fun s c => drm_crtc_destroy s (crtc_id c)) (crtc_list s3) s3).
End device.

(** ** Lemmas *)

Create Rewrite HintDb drm_counter.

Lemma output_config_emit s e oid : output_config (emit s e) oid = output_config s oid.
Proof. done. Qed.

Section device_lemmas.
Context `{!DrmFuncs} `{!DrmDriver}.

Lemma fb_probe_step_output_list s crtc o : output_list (fb_probe_step s crtc o) = output_list s.
Proof. unfold fb_probe_step. by case_match. Qed.

Lemma initial_config_step_output_list s oid :
  output_list (initial_config_step s oid) = output_list s.
Proof.
  unfold initial_config_step. repeat case_match; try done;
    rewrite ?drm_crtc_set_mode_output_list; apply fb_probe_step_output_list.
Qed.

(** The hotplug counter is only written by [drm_hotplug_stage_two]. *)
Lemma counter_set_idr s m : hotplug_counter (set_idr s m) = hotplug_counter s.
Proof. done. Qed.

Lemma counter_probe_single s oid maxX maxY :
  hotplug_counter (drm_crtc_probe_single_output_modes s oid maxX maxY) = hotplug_counter s.
Proof.
  unfold drm_crtc_probe_single_output_modes. destruct (find_output s oid); [|done].
  case_bool_decide; [done|]. by destruct (probe_fallback _ _ _) as [[? ?] ?].
Qed.

Lemma counter_probe s maxX maxY :
  hotplug_counter (drm_crtc_probe_output_modes s maxX maxY) = hotplug_counter s.
Proof. apply fold_left_preserve. intros. apply counter_probe_single. Qed.

Lemma counter_pick s : hotplug_counter (drm_pick_crtcs s) = hotplug_counter s.
Proof. apply fold_left_preserve. intros s' i. unfold pick_one. by repeat case_match. Qed.

Lemma counter_set_mode s cid mode x y :
  hotplug_counter (drm_crtc_set_mode s cid mode x y).1 = hotplug_counter s.
Proof.
  unfold drm_crtc_set_mode. destruct (find_crtc s cid); [|done].
  destruct (drm_mode_duplicate _ _) as [m1 adj]. cbn zeta.
  destruct (drm_crtc_in_use _ _); [|done]. destruct (_ && _); [done|].
  destruct (outputs_fixup _ _ _); [|done]. destruct (_ ≫= _); [|done].
  cbn [fst negb]. rewrite counter_set_idr. unfold emit_all.
  by rewrite (fold_left_preserve hotplug_counter).
Qed.

Lemma counter_disable s : hotplug_counter (drm_disable_unused_functions s) = hotplug_counter s.
Proof.
  unfold drm_disable_unused_functions.
  rewrite (fold_left_preserve hotplug_counter disable_crtc_step)
    by (intros; unfold disable_crtc_step; by case_match).
  apply fold_left_preserve. intros. unfold disable_output_step. by case_match.
Qed.

Lemma counter_fb_probe s crtc o : hotplug_counter (fb_probe_step s crtc o) = hotplug_counter s.
Proof. unfold fb_probe_step. by case_match. Qed.

Lemma counter_emit s e : hotplug_counter (emit s e) = hotplug_counter s.
Proof. done. Qed.

Lemma counter_set_hotplug s n : hotplug_counter (set_hotplug s n) = n.
Proof. done. Qed.
End device_lemmas.

#[export] Hint Rewrite @counter_probe @counter_pick @counter_set_mode @counter_disable
  @counter_fb_probe @counter_emit @counter_set_hotplug : drm_counter.

Section device_lemmas2.
Context `{!DrmFuncs} `{!DrmDriver}.

Lemma counter_hotplug_stage_two s oid c :
  hotplug_counter (drm_hotplug_stage_two s oid c).1 = hotplug_counter s + 1.
Proof.
  unfold drm_hotplug_stage_two. destruct c; [|done]. cbn [negb].
  repeat case_match; cbn [fst]; by autorewrite with drm_counter.
Qed.

(** The sweeps of [drm_mode_config_cleanup]: each destroys the head of the
    list it walks, so it empties that list and leaves the others. *)
Lemma cleanup_outputs l s :
  output_list s = l -> mc_locked s = false ->
  exists s', fold_left cleanup_output l (Some s) = Some s' /\ output_list s' = [] /\
    mc_locked s' = false /\ property_list s' = property_list s /\
    fb_list s' = fb_list s /\ crtc_list s' = crtc_list s.
Proof.
  revert s. induction l as [|o l IH]; intros s Hs Hl; [by exists s|].
  cbn [fold_left]. unfold cleanup_output at 2, drm_output_destroy, mutex_lock. simpl.
  rewrite Hl. simpl. rewrite Hs. simpl. rewrite Z.eqb_refl.
  destruct (IH (mutex_unlock (set_outputs (set_idr (set_locked (emit (emit s
    (EvSysfsOutputRemove (output_id o))) (EvOutputCleanup (output_id o))) true)
    (drm_idr_put (crtc_idr s) (output_id o))) l))) as (s' & -> & ?); [done|done|].
  by exists s'.
Qed.

Lemma cleanup_properties l s :
  property_list s = l ->
  let s' := fold_left (fun s p => drm_property_destroy s (prop_id p)) l s in
  property_list s' = [] /\ output_list s' = output_list s /\ mc_locked s' = mc_locked s /\
  fb_list s' = fb_list s /\ crtc_list s' = crtc_list s.
Proof.
  revert s. induction l as [|p l IH]; intros s Hs; [done|]. cbn [fold_left].
  destruct (IH (drm_property_destroy s (prop_id p))) as (? & -> & -> & -> & ->); [|done].
  unfold drm_property_destroy. simpl. by rewrite Hs; simpl; rewrite Z.eqb_refl.
Qed.

Lemma cleanup_fbs kept l s :
  fb_list s = kept ++ l -> Forall (fun f => fb_bo_kernel f = true) kept ->
  NoDup (fb_id <$> kept ++ l) ->
  let s' := fold_left cleanup_fb l s in
  fb_list s' = kept ++ filter (fun f => fb_bo_kernel f = true) l /\
  output_list s' = output_list s /\ property_list s' = property_list s /\
  mc_locked s' = mc_locked s /\ length (crtc_list s') = length (crtc_list s).
Proof.
  revert kept s. induction l as [|f l IH]; intros kept s Hs Hk Hnd;
    [simpl; rewrite Hs, filter_nil, !app_nil_r; by split_and!|].
  cbn [fold_left]. rewrite filter_cons.
  assert (Hstep : cleanup_fb s f = if fb_bo_kernel f then emit s (EvFbRemove (fb_id f))
                                   else drm_framebuffer_destroy s (fb_id f)) by done.
  rewrite Hstep. clear Hstep. destruct (fb_bo_kernel f) eqn:Ef.
  - destruct (IH (kept ++ [f]) (emit s (EvFbRemove (fb_id f)))) as (-> & -> & -> & -> & ->);
      [by rewrite <- app_assoc | apply Forall_app; split; [done|by apply Forall_singleton] |
       by rewrite <- app_assoc | ].
    rewrite decide_True by done. by rewrite <- app_assoc.
  - rewrite decide_False by congruence.
    assert (Hnd' : NoDup (fb_id <$> kept ++ l)).
    { rewrite !fmap_app in Hnd |- *. simpl in Hnd.
      apply NoDup_app in Hnd as (? & Hd & Hl). apply NoDup_cons in Hl as [? ?].
      apply NoDup_app. split_and!; [done| |done]. intros x Hx1 Hx2. apply (Hd x Hx1). by right. }
    destruct (IH kept (drm_framebuffer_destroy s (fb_id f))) as (-> & -> & -> & -> & Hlen);
      [|done|done|].
    + unfold drm_framebuffer_destroy. simpl. rewrite Hs, remove_first_app_mid; [done| |].
      * intros y Hy. apply Z.eqb_neq. intros Heq. rewrite fmap_app in Hnd.
        apply NoDup_app in Hnd as (_ & Hd & _). apply (Hd (fb_id y)).
        -- by apply list_elem_of_fmap_2.
        -- rewrite Heq. by left.
      * apply Z.eqb_refl.
    + split_and!; try done. rewrite Hlen. unfold drm_framebuffer_destroy. simpl.
      by rewrite length_map.
Qed.

Lemma cleanup_crtcs l s :
  crtc_list s = l ->
  let s' := fold_left (fun s c => drm_crtc_destroy s (crtc_id c)) l s in
  crtc_list s' = [] /\ output_list s' = output_list s /\ property_list s' = property_list s /\
  fb_list s' = fb_list s /\ mc_locked s' = mc_locked s.
Proof.
  revert s. induction l as [|c l IH]; intros s Hs; [done|]. cbn [fold_left].
  destruct (IH (drm_crtc_destroy s (crtc_id c))) as (? & -> & -> & -> & ->); [|done].
  unfold drm_crtc_destroy. simpl. by rewrite Hs; simpl; rewrite Z.eqb_refl.
Qed.
End device_lemmas2.

(** ** Theorems *)

Section device_theorems.
Context `{!DrmFuncs} `{!DrmDriver}.

(** C34: [drm_initial_config] on a device whose mutex is free and whose
    outputs have distinct identifiers returns [false], releases the mutex,
    and leaves no CRTC driven by two outputs: probing keeps the outputs,
    the assignment binds them exclusively, and neither the framebuffer
    probe, the mode sets nor the power-off sweep changes a binding. *)
Theorem drm_initial_config_exclusive s can_grow :
  mc_locked s = false -> NoDup (output_id <$> output_list s) ->
  exists s', drm_initial_config s can_grow = Some (s', false) /\ mc_locked s' = false /\
    bindings_exclusive (output_list s').
Proof.
  intros Hl Hnd. unfold drm_initial_config, mutex_lock. rewrite Hl. simpl.
  eexists. split_and!; [reflexivity | done |].
  cbn [output_list mutex_unlock set_locked].
  rewrite (proj1 (drm_disable_unused_functions_lists _)).
  rewrite (fold_left_preserve output_list) by apply initial_config_step_output_list.
  apply pick_crtcs_exclusive. by rewrite drm_crtc_probe_output_modes_ids.
Qed.

(** C35: [drm_mode_config_cleanup] is documented as called with the mode
    config mutex held, but destroys each output with
    [drm_output_destroy], which takes that mutex: a caller that holds it
    deadlocks as soon as there is an output. *)
Theorem drm_mode_config_cleanup_deadlock s :
  mc_locked s = true -> output_list s <> [] -> drm_mode_config_cleanup s = None.
Proof.
  intros Hl Hne. unfold drm_mode_config_cleanup.
  destruct (output_list s) as [|o l]; [done|]. cbn [fold_left].
  assert (cleanup_output (Some s) o = None) as ->
    by (unfold cleanup_output, drm_output_destroy, mutex_lock; simpl; by rewrite Hl).
  assert (forall l', fold_left cleanup_output l' None = None) as -> by (by induction 0).
  done.
Qed.

(** With the mutex free and distinct framebuffer identifiers,
    [drm_mode_config_cleanup] succeeds and leaves no output, property or
    CRTC; of the framebuffers only those backed by a kernel buffer object
    remain, handed to the driver's [fb_remove]. *)
Theorem drm_mode_config_cleanup_empties s :
  mc_locked s = false -> NoDup (fb_id <$> fb_list s) ->
  exists s', drm_mode_config_cleanup s = Some s' /\
    output_list s' = [] /\ property_list s' = [] /\ crtc_list s' = [] /\
    fb_list s' = filter (fun f => fb_bo_kernel f = true) (fb_list s) /\ mc_locked s' = false.
Proof.
  intros Hl Hnd. unfold drm_mode_config_cleanup.
  destruct (cleanup_outputs (output_list s) s eq_refl Hl) as (s1 & -> & Ho1 & Hl1 & Hp1 & Hf1 & _).
  simpl. eexists. split; [reflexivity|].
  destruct (cleanup_properties (property_list s1) s1 eq_refl) as (Hp2 & Ho2 & Hl2 & Hf2 & _).
  set (s2 := fold_left _ (property_list s1) s1) in *.
  destruct (cleanup_fbs [] (fb_list s2) s2 eq_refl (Forall_nil_2 _))
    as (Hf3 & Ho3 & Hp3 & Hl3 & _); [by rewrite Hf2, Hf1|].
  set (s3 := fold_left cleanup_fb (fb_list s2) s2) in *.
  destruct (cleanup_crtcs (crtc_list s3) s3 eq_refl) as (Hc4 & Ho4 & Hp4 & Hf4 & Hl4).
  split_and!; try done.
  - by rewrite Ho4, Ho3, Ho2.
  - by rewrite Hp4, Hp3.
  - by rewrite Hf4, Hf3, Hf2, Hf1.
  - by rewrite Hl4, Hl3, Hl2.
Qed.

(** A sequence of hotplug notifications, each for an output and a
    connection state. *)
Definition hotplug_run (s : drm_mode_config) (evs : list (Z * bool)) : drm_mode_config :=
  fold_left (fun s '(oid, c) => (drm_hotplug_stage_two s oid c).1) evs s.

(** C37: the counter the hotplug ioctl reports grows by exactly one per
    [drm_hotplug_stage_two], on every path (disconnection, failed
    assignment, new or existing configuration). *)
Theorem drm_hotplug_counter_run s evs :
  drm_mode_hotplug_ioctl (hotplug_run s evs) = (0, hotplug_counter s + Z.of_nat (length evs)).
Proof.
  unfold drm_mode_hotplug_ioctl, hotplug_run. f_equal. revert s.
  induction evs as [|[oid c] evs IH]; intros s; simpl; [lia|].
  rewrite IH, counter_hotplug_stage_two. lia.
Qed.
End device_theorems.

(** [drm_mode_config_init] creates the four standard properties with
    identifiers 1 to 4 (EDID blob, DPMS and connector-type enums, the
    connector-number range [0, 20]), the DPMS entries 0..3 named On,
    Standby, Suspend, Off; an output created after two CRTCs gets the EDID
    and DPMS properties attached in its first two slots. *)
Theorem drm_mode_config_init_scenario :
  let s := drm_mode_config_init in
  (fun p => (prop_id p, prop_name p, prop_flags p, prop_values p)) <$> property_list s =
    [(1, "EDID", 20, []); (2, "DPMS", 8, [0; 1; 2; 3]);
     (3, "Connector Type", 12, [0; 1; 2; 3; 4; 5; 6; 7; 8; 9; 10; 11; 12]);
     (4, "Connector ID", 6, [0; 20])] /\
  (fun p => enum_name <$> enum_blob_list p) <$> find_property s 2 =
    Some ["On"; "Standby"; "Suspend"; "Off"] /\
  edid_property s = 1 /\ dpms_property s = 2 /\ mc_locked s = false /\
  (fun r => property_ids <$> find_output r.1 r.2) <$>
    drm_output_create (drm_crtc_create (drm_crtc_create s).1).1 0 =
    Some (Some [1; 2; 0; 0; 0; 0]).
Proof. vm_compute. split_and!; reflexivity. Qed.

(** ** Witnesses *)

(** A driver that gives every probed CRTC framebuffer 9. *)
Definition sample_driver : DrmDriver := {| driver_fb_probe := fun _ _ => Some 9 |}.

Lemma drm_initial_config_exclusive_witness :
  exists s', @drm_initial_config probe_funcs sample_driver probe_config false = Some (s', false) /\
    bindings_exclusive (output_list s').
Proof.
  destruct (@drm_initial_config_exclusive probe_funcs sample_driver probe_config false)
    as (s' & Hs & _ & Hex); [reflexivity | by decide_by_compute |].
  by exists s'.
Defined.

(** [probe_config] with the mutex held. *)
Definition locked_config : drm_mode_config := set_locked probe_config true.

Lemma drm_mode_config_cleanup_deadlock_witness :
  mc_locked locked_config = true /\ drm_mode_config_cleanup locked_config = None.
Proof.
  split; [reflexivity|]. apply drm_mode_config_cleanup_deadlock; [reflexivity | discriminate].
Defined.

(** [probe_config] with a kernel framebuffer (1) and a user one (2). *)
Definition fb_config : drm_mode_config :=
  set_fbs probe_config [mk_fb 1 1024 768 4096 32 24 0 true; mk_fb 2 640 480 2560 32 24 0 false].

Lemma drm_mode_config_cleanup_empties_witness :
  exists s', drm_mode_config_cleanup fb_config = Some s' /\
    fb_id <$> fb_list s' = [1] /\ output_list s' = [].
Proof.
  destruct (drm_mode_config_cleanup_empties fb_config) as (s' & Hs & Ho & _ & _ & Hf & _);
    [reflexivity | by decide_by_compute |].
  exists s'. split_and!; [done | by rewrite Hf | done].
Defined.
