(* ===== verification/PropertyIoctl.v ===== *)
(** * [drm_mode_getproperty_ioctl]

    The query ioctl of a property: under the mode-config mutex the
    property is looked up in the idr, its name and flags are copied out,
    its values are copied when the caller's array is large enough, and
    the entries of [enum_blob_list] are copied either as enum entries
    (ENUM properties) or as blobs (BLOB properties); the counts are
    written back so that user space can size its arrays and call again.

    The user copies are modelled as succeeding (their -EFAULT paths are
    copy failures of user memory, outside the model); what they write is
    part of the reply.  The blob loop reads the entries of
    [enum_blob_list] as [struct drm_property_blob]; only the number of
    entries it writes is modelled. *)

From S2P Require Import Prelude Idr Modes Config Property Device.

(** [struct drm_mode_get_property], the fields the caller sets: the
    property and the sizes of its two arrays (unsigned 32-bit). *)
Record drm_mode_get_property := mk_get_property {
  gp_prop_id : Z; gp_count_values : Z; gp_count_enum_blobs : Z }.

(** The fields the ioctl writes.  [gpr_values] and [gpr_enums] are the
    arrays copied out ([None]: not copied); [gpr_blobs_copied] is the
    number of (id, length) pairs the blob loop writes. *)
Record drm_mode_get_property_resp := mk_get_property_resp {
  gpr_name : string; gpr_flags : Z;
  gpr_count_values : Z; gpr_values : option (list Z);
  gpr_count_enum_blobs : Z; gpr_enums : option (list (Z * string));
  gpr_blobs_copied : option nat }.

(** The reply for a property found in the idr.  [enum_count] is counted
    for ENUM properties, [blob_count] for BLOB properties that are not
    ENUM ([else if]); the blob part compares with [count_enum_blobs] as
    the enum part left it and, like the enum part, writes back
    [enum_count]. *)
Definition getproperty_reply (p : drm_property) (req : drm_mode_get_property)
  : drm_mode_get_property_resp :=
  let is_enum := has_flag (prop_flags p) DRM_MODE_PROP_ENUM in
  let is_blob := has_flag (prop_flags p) DRM_MODE_PROP_BLOB in
  let enum_count := if is_enum then Z.of_nat (length (enum_blob_list p)) else 0 in
  let blob_count :=
    if is_enum then 0 else if is_blob then Z.of_nat (length (enum_blob_list p)) else 0 in
  let value_count := Z.of_nat (num_values p) in
  let values :=
    if (value_count <=? gp_count_values req) && negb (value_count =? 0)
    then Some (take (num_values p) (prop_values p)) else None in
  let enums :=
    if is_enum && (enum_count <=? gp_count_enum_blobs req) && negb (enum_count =? 0)
    then Some ((fun e => (enum_value e, enum_name e)) <$> enum_blob_list p) else None in
  let count1 := if is_enum then enum_count else gp_count_enum_blobs req in
  let blobs :=
    if is_blob && (blob_count <=? count1) && negb (blob_count =? 0)
    then Some (Z.to_nat blob_count) else None in
  let count2 := if is_blob then enum_count else count1 in
  mk_get_property_resp (String.substring 0 (DRM_PROP_NAME_LEN - 1) (prop_name p)) (prop_flags p)
    value_count values count2 enums blobs.

(** The ioctl: -EINVAL for an identifier that is not a property or whose
    property has another [id]; the mutex is taken and released. *)
Definition drm_mode_getproperty_ioctl (s : drm_mode_config) (req : drm_mode_get_property)
  : option (drm_mode_config * (Z * option drm_mode_get_property_resp)) :=
  s1 ← mutex_lock s;
  let r :=
    match idr_lookup s1 (gp_prop_id req) (find_property s1 (gp_prop_id req)) with
    | None => (- EINVAL, None)
    | Some p =>
        if negb (prop_id p =? gp_prop_id req) then (- EINVAL, None)
        else (0, Some (getproperty_reply p req))
    end in
  Some (mutex_unlock s1, r).

(** * Properties *)

Lemma find_property_id s pid p : find_property s pid = Some p -> prop_id p = pid.
Proof. by intros [_ ?%Z.eqb_eq]%find_first_Some. Qed.

(** On an unlocked device the ioctl leaves the state as it was and
    answers from the idr and the property list. *)
Lemma drm_mode_getproperty_ioctl_eq s req :
  mc_locked s = false ->
  drm_mode_getproperty_ioctl s req =
    Some (s, match crtc_idr s !! gp_prop_id req, find_property s (gp_prop_id req) with
             | Some _, Some p => (0, Some (getproperty_reply p req))
             | _, _ => (- EINVAL, None)
             end).
Proof.
  intros Hl. unfold drm_mode_getproperty_ioctl, mutex_lock, idr_lookup. rewrite Hl.
  cbn [mbind option_bind]. rewrite (mutex_unlock_lock s Hl), find_property_set_locked.
  change (crtc_idr (set_locked s true)) with (crtc_idr s).
  destruct (crtc_idr s !! _); [|done].
  destruct (find_property s _) as [p|] eqn:Hp; [|done].
  by rewrite (find_property_id _ _ _ Hp), Z.eqb_refl.
Qed.

Lemma drm_mode_getproperty_ioctl_found s req p :
  mc_locked s = false -> is_Some (crtc_idr s !! gp_prop_id req) ->
  find_property s (gp_prop_id req) = Some p ->
  drm_mode_getproperty_ioctl s req = Some (s, (0, Some (getproperty_reply p req))).
Proof. intros Hl [k Hk] Hp. rewrite drm_mode_getproperty_ioctl_eq, Hk, Hp by done. done. Qed.

(** An identifier that is not a registered property: -EINVAL, no reply,
    state unchanged. *)
Theorem drm_mode_getproperty_ioctl_einval s req :
  mc_locked s = false ->
  (crtc_idr s !! gp_prop_id req = None \/ find_property s (gp_prop_id req) = None) ->
  drm_mode_getproperty_ioctl s req = Some (s, (- EINVAL, None)).
Proof.
  intros Hl Hnone. rewrite drm_mode_getproperty_ioctl_eq by done.
  destruct Hnone as [Hn|Hn]; rewrite Hn; [done|]. by destruct (crtc_idr s !! _).
Qed.

(** C31: Two-call protocol: a first call with empty arrays returns the number
    of values and of enum entries and copies nothing; a second call with
    those counts copies every value and every enum entry. *)
Theorem drm_mode_getproperty_two_calls s p :
  mc_locked s = false -> is_Some (crtc_idr s !! prop_id p) ->
  find_property s (prop_id p) = Some p -> has_flag (prop_flags p) DRM_MODE_PROP_ENUM = true ->
  exists r1 r2,
    drm_mode_getproperty_ioctl s (mk_get_property (prop_id p) 0 0) = Some (s, (0, Some r1)) /\
    drm_mode_getproperty_ioctl s
      (mk_get_property (prop_id p) (gpr_count_values r1) (gpr_count_enum_blobs r1))
      = Some (s, (0, Some r2)) /\
    gpr_count_values r1 = Z.of_nat (num_values p) /\
    gpr_count_enum_blobs r1 = Z.of_nat (length (enum_blob_list p)) /\
    gpr_values r1 = None /\ gpr_enums r1 = None /\
    (num_values p <> 0%nat -> gpr_values r2 = Some (take (num_values p) (prop_values p))) /\
    (enum_blob_list p <> [] ->
     gpr_enums r2 = Some ((fun e => (enum_value e, enum_name e)) <$> enum_blob_list p)).
Proof.
  intros Hl Hid Hp He.
  set (r1 := getproperty_reply p (mk_get_property (prop_id p) 0 0)).
  exists r1, (getproperty_reply p
    (mk_get_property (prop_id p) (gpr_count_values r1) (gpr_count_enum_blobs r1))).
  split; [by apply drm_mode_getproperty_ioctl_found|].
  split; [by apply drm_mode_getproperty_ioctl_found|].
  subst r1. unfold getproperty_reply. cbn [gp_count_values gp_count_enum_blobs gpr_count_values
    gpr_count_enum_blobs gpr_values gpr_enums]. rewrite He. cbn [andb].
  destruct (has_flag _ DRM_MODE_PROP_BLOB); rewrite !Z.leb_refl; split_and!; try done;
    try (by destruct (num_values p)); by destruct (enum_blob_list p).
Qed.

(** The blob branch writes back [enum_count], which is 0 for a BLOB
    property that is not ENUM: the reply reports no blob entries even
    when the loop has just copied [length (enum_blob_list p)] of them. *)
Theorem drm_mode_getproperty_blob_count s req p :
  mc_locked s = false -> is_Some (crtc_idr s !! gp_prop_id req) ->
  find_property s (gp_prop_id req) = Some p ->
  has_flag (prop_flags p) DRM_MODE_PROP_BLOB = true ->
  has_flag (prop_flags p) DRM_MODE_PROP_ENUM = false ->
  exists r, drm_mode_getproperty_ioctl s req = Some (s, (0, Some r)) /\
    gpr_count_enum_blobs r = 0 /\ gpr_enums r = None /\
    (enum_blob_list p <> [] -> Z.of_nat (length (enum_blob_list p)) <= gp_count_enum_blobs req ->
     gpr_blobs_copied r = Some (length (enum_blob_list p))).
Proof.
  intros Hl Hid Hp Hb He. eexists. split; [by apply drm_mode_getproperty_ioctl_found|].
  unfold getproperty_reply; cbn [gpr_count_enum_blobs gpr_enums gpr_blobs_copied].
  rewrite Hb, He. cbn [andb]. split_and!; [done | done |].
  intros Hne Hle. apply Z.leb_le in Hle. rewrite Hle.
  destruct (enum_blob_list p); [done|]. cbn [negb length]. by rewrite Nat2Z.id.
Qed.

(** ** Witnesses *)

(** The standard properties of [drm_mode_config_init]: EDID (identifier
    1, BLOB) and DPMS (identifier 2, ENUM with four entries). *)
Definition init_property (pid : Z) : drm_property :=
  default (mk_property 0 0 "" 0 [] []) (find_property drm_mode_config_init pid).

Lemma drm_mode_getproperty_ioctl_einval_witness :
  drm_mode_getproperty_ioctl drm_mode_config_init (mk_get_property 99 0 0) =
    Some (drm_mode_config_init, (- EINVAL, None)).
Proof.
  apply (drm_mode_getproperty_ioctl_einval drm_mode_config_init (mk_get_property 99 0 0));
    [vm_compute; reflexivity | left; vm_compute; reflexivity].
Defined.

Lemma drm_mode_getproperty_two_calls_witness :
  exists r1 r2,
    drm_mode_getproperty_ioctl drm_mode_config_init (mk_get_property 2 0 0) =
      Some (drm_mode_config_init, (0, Some r1)) /\
    drm_mode_getproperty_ioctl drm_mode_config_init
      (mk_get_property 2 (gpr_count_values r1) (gpr_count_enum_blobs r1)) =
      Some (drm_mode_config_init, (0, Some r2)) /\
    gpr_count_enum_blobs r1 = 4 /\
    gpr_enums r2 = Some [(0, "On"); (1, "Standby"); (2, "Suspend"); (3, "Off")].
Proof.
  assert (prop_id (init_property 2) = 2) as Hid by (vm_compute; reflexivity).
  destruct (drm_mode_getproperty_two_calls drm_mode_config_init (init_property 2))
    as (r1 & r2 & H1 & H2 & _ & Hc & _ & _ & _ & He);
    [vm_compute; reflexivity | vm_compute; by eexists | vm_compute; reflexivity
    | vm_compute; reflexivity |].
  rewrite Hid in H1, H2. exists r1, r2.
  split_and!; [exact H1 | exact H2 | rewrite Hc; vm_compute; reflexivity
    | rewrite He; [vm_compute; reflexivity | vm_compute; discriminate]].
Defined.

Lemma drm_mode_getproperty_blob_count_witness :
  exists r, drm_mode_getproperty_ioctl drm_mode_config_init (mk_get_property 1 0 0) =
    Some (drm_mode_config_init, (0, Some r)) /\ gpr_count_enum_blobs r = 0.
Proof.
  destruct (drm_mode_getproperty_blob_count drm_mode_config_init (mk_get_property 1 0 0)
              (init_property 1)) as (r & H1 & H2 & _);
    [vm_compute; reflexivity | vm_compute; by eexists | vm_compute; reflexivity
    | vm_compute; reflexivity | vm_compute; reflexivity |].
  exists r. split; [exact H1 | exact H2].
Defined.

(** [drm_create_tv_properties] on the device of [drm_mode_config_init]
    with the formats "NTSC" and "PAL": the margins are ranges [0, 100]
    (only the left one immutable), the "mode" property lists the formats
    by index (values [0, 1]), the identifiers are stored in the [tv_*_property] fields,
    and the [bool] the function is declared to return is false. *)
Theorem drm_create_tv_properties_init :
  let '(s, r) := drm_create_tv_properties drm_mode_config_init ["NTSC"; "PAL"] in
  let get pid := drm_mode_getproperty_ioctl s (mk_get_property pid 2 2) in
  r = false /\
  tv_props s = mk_tv_props 5 6 7 8 9 /\
  get 5 = Some (s, (0, Some (mk_get_property_resp "left margin"
            (Z.lor DRM_MODE_PROP_RANGE DRM_MODE_PROP_IMMUTABLE) 2 (Some [0; 100]) 2 None None))) /\
  get 6 = Some (s, (0, Some (mk_get_property_resp "right margin" DRM_MODE_PROP_RANGE
            2 (Some [0; 100]) 2 None None))) /\
  get 9 = Some (s, (0, Some (mk_get_property_resp "mode" DRM_MODE_PROP_ENUM
            2 (Some [0; 1]) 2 (Some [(0, "NTSC"); (1, "PAL")]) None))).
Proof. vm_compute. split_and!; reflexivity. Qed.
