(* ===== verification/Ioctl.v ===== *)
(** * The mode-setting ioctls

    Each handler takes the mode_config mutex, looks its objects up
    ([idr_find] and the [id] check, [idr_lookup]), fills the reply and
    releases the mutex.  The reply structures keep the fields the code
    writes; an array the code copies to user space is [Some] of its
    contents, [None] when the caller's buffer is too small or the code
    does not copy; [copy_to_user], [put_user] and [get_user] are taken to
    succeed (the -EFAULT paths are transport).

    Framebuffers belong to the file that added them ([file_priv->fbs]):
    [drm_mode_addfb], [drm_mode_rmfb], [drm_mode_getfb] and
    [drm_fb_release] work on the device state and the file's list.  The
    buffer-object lookup [drm_get_buffer_object] (the memory manager's
    hash table) is the class [DrmBufferObjects]: a handle names a buffer
    object, of kernel type or not. *)

From S2P Require Import Prelude Idr Modes Config Property Probe SetMode SetConfig.

Class DrmBufferObjects := {
  bo_lookup : Z -> option bool;   (** [Some kernel_type] for a buffer object *)
}.

(** [struct drm_file], the part this file uses: [fbs], most recent first. *)
Record drm_file := mk_file { file_fbs : list Z }.

(** ** [drm_mode_getresources] *)

Record drm_mode_card_res := mk_card_res {
  res_count_fbs : Z; res_fb_ids : option (list Z);
  res_count_crtcs : Z; res_crtc_ids : option (list Z);
  res_count_outputs : Z; res_output_ids : option (list Z);
  res_min_width : Z; res_max_width : Z; res_min_height : Z; res_max_height : Z;
}.

(** One of the four parts: the identifiers are copied when the caller's
    count is at least the number of objects. *)
Definition copy_ids (count : Z) (ids : list Z) : option (list Z) :=
  if Z.of_nat (length ids) <=? count then Some ids else None.

Definition drm_mode_getresources (s : drm_mode_config) (count_fbs count_crtcs count_outputs : Z)
  : option (drm_mode_config * (Z * drm_mode_card_res)) :=
  s1 ← mutex_lock s;
  let fbs := fb_id <$> fb_list s1 in
  let crtcs := crtc_id <$> crtc_list s1 in
  let outs := output_id <$> output_list s1 in
  Some (mutex_unlock s1,
        (0, mk_card_res (Z.of_nat (length fbs)) (copy_ids count_fbs fbs)
              (Z.of_nat (length crtcs)) (copy_ids count_crtcs crtcs)
              (Z.of_nat (length outs)) (copy_ids count_outputs outs)
              (min_width s1) (max_width s1) (min_height s1) (max_height s1))).

(** ** [drm_mode_getcrtc] *)

Record drm_mode_crtc_resp := mk_crtc_resp {
  cr_x : Z; cr_y : Z; cr_fb_id : Z;
  cr_outputs : Z; cr_mode_valid : Z; cr_mode : option drm_mode_modeinfo;
}.

(** The output loop: [crtc_resp->outputs |= 1 << (ocount++)] for each
    output on the CRTC, [ocount] counting those outputs only. *)
Definition getcrtc_mask_step (cid : Z) (acc : Z * Z) (o : drm_output) : Z * Z :=
  let '(mask, ocount) := acc in
  if bool_decide (output_crtc o = Some cid)
  then (Z.lor mask (Z.shiftl 1 ocount), ocount + 1) else (mask, ocount).

Definition getcrtc_outputs_mask (outs : list drm_output) (cid : Z) : Z :=
  (fold_left (getcrtc_mask_step cid) outs (0, 0)).1.

Definition drm_mode_getcrtc (s : drm_mode_config) (cid : Z)
  : option (drm_mode_config * (Z * option drm_mode_crtc_resp)) :=
  s1 ← mutex_lock s;
  let r :=
    match idr_lookup s1 cid (find_crtc s1 cid) with
    | None => (- EINVAL, None)
    | Some crtc =>
        (0, Some (if crtc_enabled crtc
                  then mk_crtc_resp (crtc_x crtc) (crtc_y crtc) (default 0 (crtc_fb crtc))
                         (getcrtc_outputs_mask (output_list s1) cid) 1
                         (Some (drm_crtc_convert_to_umode (crtc_mode crtc)))
                  else mk_crtc_resp (crtc_x crtc) (crtc_y crtc) (default 0 (crtc_fb crtc))
                         0 0 None))
    end in
  Some (mutex_unlock s1, r).

(** ** [drm_mode_getoutput] *)

Record drm_mode_get_output_resp := mk_output_resp {
  go_output_type : Z; go_output_type_id : Z; go_connection : drm_output_status;
  go_crtc : Z; go_crtcs : Z; go_clones : Z;
  go_count_modes : Z; go_modes : option (list drm_mode_modeinfo);
  go_count_props : Z; go_props : option (list (Z * Z));
}.

(** The attached (identifier, value) pairs, slot order. *)
Definition attached_props (o : drm_output) : list (Z * Z) :=
  filter (fun iv => iv.1 <> 0)
    (zip (take DRM_OUTPUT_MAX_PROPERTY (property_ids o))
         (take DRM_OUTPUT_MAX_PROPERTY (property_values o))).

Section getoutput.
Context `{!DrmFuncs}.

(** The modes and properties are counted first; a call with
    [count_modes = 0] then probes the output; the reply describes the
    output as it is after the probe, with the counts from before. *)
Definition drm_mode_getoutput (s : drm_mode_config) (oid count_modes count_props : Z)
  : option (drm_mode_config * (Z * option drm_mode_get_output_resp)) :=
  s1 ← mutex_lock s;
  match idr_lookup s1 oid (find_output s1 oid) with
  | None => Some (mutex_unlock s1, (- EINVAL, None))
  | Some o0 =>
    let mode_count := Z.of_nat (length (modes o0)) in
    let props_count := Z.of_nat (length (attached_props o0)) in
    let s2 := if count_modes =? 0
              then drm_crtc_probe_single_output_modes s1 oid (max_width s1) (max_height s1)
              else s1 in
    let o := default o0 (find_output s2 oid) in
    let resp := mk_output_resp (output_type o) (output_type_id o) (output_status o)
      (default 0 (output_crtc o)) (possible_crtcs o) (possible_clones o)
      mode_count
      (if (mode_count <=? count_modes) && negb (mode_count =? 0)
       then Some (drm_crtc_convert_to_umode <$> modes o) else None)
      props_count
      (if (props_count <=? count_props) && negb (props_count =? 0)
       then Some (attached_props o) else None) in
    Some (mutex_unlock s2, (0, Some resp))
  end.
End getoutput.

(** ** [drm_mode_setcrtc] *)

(** [struct drm_mode_crtc] as a request: [fb_id] is a [uint32_t], so the
    source's [fb_id == -1] is [fb_id = 2^32 - 1]; [req_outputs] is the
    user array [set_outputs_ptr], [count_outputs] its length. *)
Record drm_mode_crtc_req := mk_crtc_req {
  req_crtc_id : Z; req_fb_id : Z; req_x : Z; req_y : Z;
  req_mode_valid : Z; req_mode : drm_mode_modeinfo;
  req_outputs : list Z;
}.

(** The output loop: every identifier must name a registered output. *)
Fixpoint lookup_outputs (s : drm_mode_config) (ids : list Z) : option (list Z) :=
  match ids with
  | [] => Some []
  | oid :: ids' =>
      match idr_lookup s oid (find_output s oid) with
      | None => None
      | Some o => l ← lookup_outputs s ids'; Some (output_id o :: l)
      end
  end.

Section setcrtc.
Context `{!DrmFuncs}.

(** The checks after the CRTC lookup, in the source's order; the mode
    object made by [drm_mode_create] stays in the idr on every path. *)
Definition setcrtc_checked (s1 : drm_mode_config) (req : drm_mode_crtc_req) (crtc : drm_crtc)
  : drm_mode_config * Z :=
  let count := Z.of_nat (length (req_outputs req)) in
  let fb_res :=
    if req_mode_valid req =? 0 then Some None
    else if req_fb_id req =? 2 ^ 32 - 1 then
      Some (if existsb (fun c => crtc_id c =? crtc_id crtc) (crtc_list s1)
            then crtc_fb crtc else None)
    else option_map (fun fb => Some (fb_id fb))
           (idr_lookup s1 (req_fb_id req) (find_fb s1 (req_fb_id req))) in
  match fb_res with
  | None => (s1, - EINVAL)
  | Some fb =>
    let '(s2, mode) :=
      if req_mode_valid req =? 0 then (s1, None)
      else let '(m', mode) := drm_mode_create (crtc_idr s1) in
           (set_idr s1 m', Some (drm_crtc_convert_umode mode (req_mode req))) in
    if (count =? 0) && bool_decide (mode <> None) then (s2, - EINVAL)
    else if (0 <? count) && bool_decide (mode = None) && bool_decide (fb = None)
    then (s2, - EINVAL)
    else match lookup_outputs s2 (req_outputs req) with
         | None => (s2, - EINVAL)
         | Some outs =>
             drm_crtc_set_config s2
               (mk_mode_set (Some (crtc_id crtc)) (req_x req) (req_y req) mode outs fb)
         end
  end.

Definition drm_mode_setcrtc (s : drm_mode_config) (req : drm_mode_crtc_req)
  : option (drm_mode_config * Z) :=
  s1 ← mutex_lock s;
  match idr_lookup s1 (req_crtc_id req) (find_crtc s1 (req_crtc_id req)) with
  | None => Some (mutex_unlock s1, - EINVAL)
  | Some crtc => let '(s2, ret) := setcrtc_checked s1 req crtc in Some (mutex_unlock s2, ret)
  end.
End setcrtc.

(** ** Framebuffer ioctls *)

(** [struct drm_mode_fb_cmd]. *)
Record drm_mode_fb_cmd := mk_fb_cmd {
  fbc_buffer_id : Z; fbc_width : Z; fbc_height : Z; fbc_pitch : Z;
  fbc_bpp : Z; fbc_depth : Z; fbc_handle : Z;
}.

Section fb_ioctls.
Context `{!DrmBufferObjects}.

(** The fields [drm_mode_addfb] writes into the framebuffer
    [drm_framebuffer_create] has just put at the head of [fb_list]. *)
Definition fill_new_fb (s : drm_mode_config) (r : drm_mode_fb_cmd) (kernel : bool)
  : drm_mode_config :=
  match fb_list s with
  | fb :: rest =>
      set_fbs s (mk_fb (fb_id fb) (fbc_width r) (fbc_height r) (fbc_pitch r) (fbc_bpp r)
                       (fbc_depth r) (fbc_handle r) kernel :: rest)
  | [] => s
  end.

(** The limits are checked before the mutex is taken; the new
    framebuffer goes at the head of the file's list; the result carries
    the [buffer_id] written back. *)
Definition drm_mode_addfb (s : drm_mode_config) (f : drm_file) (r : drm_mode_fb_cmd)
  : option (drm_mode_config * drm_file * Z * option Z) :=
  if (fbc_width r <? min_width s) || (max_width s <? fbc_width r) then Some (s, f, - EINVAL, None)
  else if (fbc_height r <? min_height s) || (max_height s <? fbc_height r)
  then Some (s, f, - EINVAL, None)
  else
    s1 ← mutex_lock s;
    match bo_lookup (fbc_handle r) with
    | None => Some (mutex_unlock s1, f, - EINVAL, None)
    | Some kernel =>
        let '(s2, id) := drm_framebuffer_create s1 in
        Some (mutex_unlock (fill_new_fb s2 r kernel), mk_file (id :: file_fbs f), 0, Some id)
    end.

(** Only a framebuffer on the caller's list can be removed; a
    kernel-type buffer object is reported and removed all the same. *)
Definition drm_mode_rmfb (s : drm_mode_config) (f : drm_file) (id : Z)
  : option (drm_mode_config * drm_file * Z) :=
  s1 ← mutex_lock s;
  match idr_lookup s1 id (find_fb s1 id) with
  | None => Some (mutex_unlock s1, f, - EINVAL)
  | Some fb =>
      if negb (existsb (fun x => x =? fb_id fb) (file_fbs f))
      then Some (mutex_unlock s1, f, - EINVAL)
      else Some (mutex_unlock (drm_framebuffer_destroy s1 (fb_id fb)),
                 mk_file (remove_first (fun x => x =? fb_id fb) (file_fbs f)), 0)
  end.

Definition drm_mode_getfb (s : drm_mode_config) (r : drm_mode_fb_cmd)
  : option (drm_mode_config * Z * drm_mode_fb_cmd) :=
  s1 ← mutex_lock s;
  match idr_lookup s1 (fbc_buffer_id r) (find_fb s1 (fbc_buffer_id r)) with
  | None => Some (mutex_unlock s1, - EINVAL, r)
  | Some fb =>
      Some (mutex_unlock s1, 0,
            mk_fb_cmd (fbc_buffer_id r) (fb_width fb) (fb_height fb) (fb_pitch fb)
                      (fb_bits_per_pixel fb) (fb_depth fb) (fb_bo fb))
  end.

(** [drm_fb_release]: every framebuffer of the file is destroyed, in the
    order of the file's list. *)
Definition drm_fb_release (s : drm_mode_config) (f : drm_file)
  : option (drm_mode_config * drm_file) :=
  s1 ← mutex_lock s;
  Some (mutex_unlock (fold_left drm_framebuffer_destroy (file_fbs f) s1), mk_file []).
End fb_ioctls.

(** * Properties *)

Lemma Z_lor_ones_shiftl n : 0 <= n -> Z.lor (Z.ones n) (Z.shiftl 1 n) = Z.ones (n + 1).
Proof.
  intros Hn. apply Z.bits_inj'. intros i Hi.
  rewrite Z.lor_spec, Z.shiftl_1_l, Z.pow2_bits_eqb, !Z.testbit_ones_nonneg by lia.
  destruct (Z.eqb_spec n i), (Z.ltb_spec i n), (Z.ltb_spec i (n + 1)); simpl; try done; exfalso; lia.
Qed.

(** The output loop of [drm_mode_getcrtc] sets the low bits, one per
    output on the CRTC. *)
Lemma getcrtc_mask_fold cid outs n :
  0 <= n ->
  fold_left (getcrtc_mask_step cid) outs (Z.ones n, n) =
  (Z.ones (n + Z.of_nat (length (filter (fun o => output_crtc o = Some cid) outs))),
   n + Z.of_nat (length (filter (fun o => output_crtc o = Some cid) outs))).
Proof.
  revert n. induction outs as [|o outs IH]; intros n Hn; cbn [fold_left].
  { by rewrite filter_nil, Z.add_0_r. }
  rewrite filter_cons. unfold getcrtc_mask_step at 2.
  destruct (decide (output_crtc o = Some cid)) as [E|E];
    [rewrite bool_decide_true by done | rewrite bool_decide_false by done].
  - rewrite Z_lor_ones_shiftl, IH by lia. cbn [length].
    by rewrite Nat2Z.inj_succ, <- Z.add_1_l, Z.add_assoc.
  - by rewrite IH.
Qed.

Lemma getcrtc_outputs_mask_ones outs cid :
  getcrtc_outputs_mask outs cid =
  Z.ones (Z.of_nat (length (filter (fun o => output_crtc o = Some cid) outs))).
Proof. unfold getcrtc_outputs_mask. change (0, 0) with (Z.ones 0, 0). by rewrite getcrtc_mask_fold. Qed.

(** C39: on an enabled CRTC, [drm_mode_getcrtc] answers with the CRTC's
    position, framebuffer and mode, and an output mask whose low [k] bits
    are set, [k] the number of outputs on the CRTC: bit [i] stands for the
    [i]-th output on the CRTC, not for the output at position [i] of the
    resource list, so the mask does not say which outputs are bound.  The
    state is left as it was, unlocked. *)
Theorem drm_mode_getcrtc_outputs_mask s cid crtc :
  mc_locked s = false -> is_Some (crtc_idr s !! cid) -> find_crtc s cid = Some crtc ->
  crtc_enabled crtc = true ->
  drm_mode_getcrtc s cid =
    Some (set_locked s false,
          (0, Some (mk_crtc_resp (crtc_x crtc) (crtc_y crtc) (default 0 (crtc_fb crtc))
                     (Z.ones (Z.of_nat (length (filter (fun o => output_crtc o = Some cid)
                                                       (output_list s)))))
                     1 (Some (drm_crtc_convert_to_umode (crtc_mode crtc)))))).
Proof.
  intros Hl [k Hk] Hc He. unfold drm_mode_getcrtc, mutex_lock, idr_lookup. rewrite Hl.
  cbn [mbind option_bind crtc_idr set_locked]. rewrite Hk.
  change (find_crtc (set_locked s true) cid) with (find_crtc s cid).
  rewrite Hc, He, getcrtc_outputs_mask_ones. done.
Qed.

(** C10: the two-call protocol of [drm_mode_getresources]: any call
    succeeds, leaves the device as it was and reports the numbers of
    framebuffers, CRTCs and outputs; an array shorter than its count
    receives nothing; a second call with arrays of the reported sizes
    receives every framebuffer, CRTC and output identifier, in list
    order. *)
Theorem drm_mode_getresources_two_calls s c1 c2 c3 :
  mc_locked s = false ->
  exists res1 res2,
    drm_mode_getresources s c1 c2 c3 = Some (s, (0, res1)) /\
    res_count_fbs res1 = Z.of_nat (length (fb_list s)) /\
    res_count_crtcs res1 = Z.of_nat (length (crtc_list s)) /\
    res_count_outputs res1 = Z.of_nat (length (output_list s)) /\
    (c1 < res_count_fbs res1 -> res_fb_ids res1 = None) /\
    (c2 < res_count_crtcs res1 -> res_crtc_ids res1 = None) /\
    (c3 < res_count_outputs res1 -> res_output_ids res1 = None) /\
    drm_mode_getresources s (res_count_fbs res1) (res_count_crtcs res1)
      (res_count_outputs res1) = Some (s, (0, res2)) /\
    res_fb_ids res2 = Some (fb_id <$> fb_list s) /\
    res_crtc_ids res2 = Some (crtc_id <$> crtc_list s) /\
    res_output_ids res2 = Some (output_id <$> output_list s).
Proof.
  intros Hl. unfold drm_mode_getresources, mutex_lock. rewrite Hl.
  cbn [mbind option_bind]. rewrite mutex_unlock_lock by done.
  eexists _, _. split_and!; try reflexivity; cbn; unfold copy_ids;
    [by rewrite length_fmap .. | | | | | |];
    [intros; by rewrite (proj2 (Z.leb_gt _ _)) .. | | |]; by rewrite Z.leb_refl.
Qed.

(** Outputs 3 (unbound) and 4 (on CRTC 1), CRTC 1 enabled. *)
Definition getcrtc_config : drm_mode_config :=
  set_crtcs (sample_config [sample_output 3 output_status_connected 3 [] None;
                            sample_output 4 output_status_connected 3 [] (Some 1)])
    [with_crtc_enabled (sample_crtc 1) true; sample_crtc 2].

Lemma drm_mode_getcrtc_outputs_mask_witness :
  exists resp, drm_mode_getcrtc getcrtc_config 1 = Some (set_locked getcrtc_config false, (0, Some resp)) /\
    cr_outputs resp = 1.
Proof.
  eexists. split; [apply drm_mode_getcrtc_outputs_mask; [reflexivity | by eexists | reflexivity | reflexivity]|].
  reflexivity.
Defined.

Lemma stale_copy_skipped (n : nat) :
  (Z.of_nat n <=? 0) && negb (Z.of_nat n =? 0) = false.
Proof. destruct n; [done|]. by rewrite (proj2 (Z.leb_gt _ _)) by lia. Qed.

Section getoutput_props.
Context `{!DrmFuncs}.

(** C40: a [drm_mode_getoutput] call with [count_modes = 0] probes the
    output, and its reply gives the connection status found by the probe
    but the number of modes the output had before it, and copies no mode:
    the first call on an output that has never been probed reports no
    modes, whatever the probe found. *)
Theorem drm_mode_getoutput_stale_count s oid o cp :
  mc_locked s = false -> is_Some (crtc_idr s !! oid) -> find_output s oid = Some o ->
  exists resp o',
    drm_mode_getoutput s oid 0 cp =
      Some (mutex_unlock (drm_crtc_probe_single_output_modes (set_locked s true) oid
                            (max_width s) (max_height s)), (0, Some resp)) /\
    find_output (drm_crtc_probe_single_output_modes (set_locked s true) oid
                   (max_width s) (max_height s)) oid = Some o' /\
    go_count_modes resp = Z.of_nat (length (modes o)) /\ go_modes resp = None /\
    go_connection resp = output_status o'.
Proof.
  intros Hl [k Hk] Ho.
  destruct (drm_crtc_probe_find (set_locked s true) oid (max_width s) (max_height s) o Ho)
    as [o' Ho'].
  eexists _, o'. unfold drm_mode_getoutput, mutex_lock, idr_lookup. rewrite Hl.
  cbn [mbind option_bind crtc_idr set_locked max_width max_height]. rewrite Hk.
  change (find_output (set_locked s true) oid) with (find_output s oid). rewrite Ho.
  cbn [Z.eqb]. rewrite Ho'.
  split_and!; try done. cbn [go_modes]. by rewrite stale_copy_skipped.
Qed.
End getoutput_props.

(** [probe_config] with output 3 registered. *)
Definition getoutput_config : drm_mode_config :=
  set_idr probe_config (<[3 := OBJ_OUTPUT]> (crtc_idr probe_config)).

Lemma drm_mode_getoutput_stale_count_witness :
  exists resp o' s', @drm_mode_getoutput probe_funcs getoutput_config 3 0 0 = Some (s', (0, Some resp)) /\
    find_output s' 3 = Some o' /\ go_count_modes resp = 0 /\ length (modes o') = 2%nat.
Proof.
  destruct (@drm_mode_getoutput_stale_count probe_funcs getoutput_config 3
              (sample_output 3 output_status_connected 3 [] None) 0)
    as (resp & o' & H1 & H2 & H3 & _); [reflexivity | by eexists | reflexivity |].
  eexists resp, o', _. split; [exact H1|]. unfold mutex_unlock. rewrite find_output_set_locked.
  split_and!; [exact H2 | by rewrite H3 |]. vm_compute in H2. by injection H2 as <-.
Defined.

(** The first [drm_mode_getoutput] call on a connected output that was
    never probed reports no modes although the probe it runs finds two;
    the second call reports them. *)
Example drm_mode_getoutput_counts_scenario :
  match @drm_mode_getoutput probe_funcs getoutput_config 3 0 0 with
  | Some (s1, (_, Some r1)) =>
      go_count_modes r1 = 0 /\
      option_map (fun o => length (modes o)) (find_output s1 3) = Some 2%nat /\
      match @drm_mode_getoutput probe_funcs s1 3 0 0 with
      | Some (_, (_, Some r2)) => go_count_modes r2 = 2
      | _ => False
      end
  | _ => False
  end.
Proof. vm_compute. split_and!; reflexivity. Qed.

Section fb_props.
Context `{!DrmBufferObjects}.

Lemma fb_limits_ok lo hi w : lo <= w <= hi -> (w <? lo) || (hi <? w) = false.
Proof. intros Hw. apply orb_false_iff. split; apply Z.ltb_ge; lia. Qed.

(** A request within the limits, on a known buffer object, with room
    in the idr: the new framebuffer carries the request's geometry and
    the handle, under a fresh non-zero identifier at the head of both the
    device's list and the file's. *)
Lemma drm_mode_addfb_ok s f r kernel :
  mc_locked s = false ->
  min_width s <= fbc_width r <= max_width s -> min_height s <= fbc_height r <= max_height s ->
  bo_lookup (fbc_handle r) = Some kernel ->
  crtc_idr s !! 0 = None -> Z.of_nat (size (crtc_idr s)) < MAX_ID ->
  exists id s1, drm_mode_addfb s f r = Some (s1, mk_file (id :: file_fbs f), 0, Some id) /\
    id <> 0 /\ crtc_idr s !! id = None /\ crtc_idr s1 = <[id := OBJ_FB]> (crtc_idr s) /\
    fb_list s1 = mk_fb id (fbc_width r) (fbc_height r) (fbc_pitch r) (fbc_bpp r)
                   (fbc_depth r) (fbc_handle r) kernel :: fb_list s /\
    num_fb s1 = num_fb s + 1 /\ crtc_list s1 = crtc_list s /\ mc_locked s1 = false.
Proof.
  intros Hl Hw Hh Hbo H0 Hroom.
  destruct (drm_idr_get_fresh (crtc_idr s) OBJ_FB H0) as (id & Hfree & [[Hid Hg]|(_ & _ & Hmax)]);
    [|lia].
  exists id. eexists. unfold drm_mode_addfb. rewrite !fb_limits_ok by done.
  unfold mutex_lock. rewrite Hl. cbn [mbind option_bind]. rewrite Hbo.
  unfold drm_framebuffer_create. change (crtc_idr (set_locked s true)) with (crtc_idr s).
  rewrite Hg. split_and!; done.
Qed.

(** C38: round trip: a framebuffer added by [drm_mode_addfb] is reported by
    [drm_mode_getfb] with the request's geometry and handle, and removed by
    [drm_mode_rmfb] through the file that added it, which leaves the
    framebuffer list, the idr, the framebuffer count and the file's list
    as they were before the addition. *)
Theorem drm_mode_addfb_getfb_rmfb s f r kernel :
  mc_locked s = false ->
  min_width s <= fbc_width r <= max_width s -> min_height s <= fbc_height r <= max_height s ->
  bo_lookup (fbc_handle r) = Some kernel ->
  crtc_idr s !! 0 = None -> Z.of_nat (size (crtc_idr s)) < MAX_ID ->
  exists id s1 s2,
    drm_mode_addfb s f r = Some (s1, mk_file (id :: file_fbs f), 0, Some id) /\
    drm_mode_getfb s1 (mk_fb_cmd id 0 0 0 0 0 0) =
      Some (s1, 0, mk_fb_cmd id (fbc_width r) (fbc_height r) (fbc_pitch r) (fbc_bpp r)
                     (fbc_depth r) (fbc_handle r)) /\
    drm_mode_rmfb s1 (mk_file (id :: file_fbs f)) id = Some (s2, f, 0) /\
    fb_list s2 = fb_list s /\ crtc_idr s2 = crtc_idr s /\ num_fb s2 = num_fb s.
Proof.
  intros Hl Hw Hh Hbo H0 Hroom. destruct f as [fbs].
  destruct (drm_mode_addfb_ok s (mk_file fbs) r kernel)
    as (id & s1 & Hadd & Hid & Hfree & Hidr & Hfbs & Hnum & _ & Hl1); try done.
  exists id, s1. eexists. split; [done|].
  unfold drm_mode_getfb, drm_mode_rmfb, mutex_lock, idr_lookup, find_fb. rewrite Hl1.
  cbn [mbind option_bind crtc_idr fb_list set_locked]. rewrite Hidr, Hfbs.
  rewrite !lookup_insert_eq. cbn [find_first fb_id file_fbs existsb remove_first].
  rewrite !Z.eqb_refl. cbn [negb orb fbc_buffer_id].
  rewrite mutex_unlock_lock by done. split_and!; try done;
    unfold drm_framebuffer_destroy, drm_idr_put; cbn; rewrite ?Hidr, ?Hfbs.
  - cbn [remove_first fb_id]. by rewrite Z.eqb_refl.
  - by apply delete_insert_id.
  - lia.
Qed.
End fb_props.

(** A memory manager with one buffer object, handle 7, not of kernel
    type. *)
Definition sample_bos : DrmBufferObjects := {|
  bo_lookup := fun h => if h =? 7 then Some false else None;
|}.

Definition fb_req : drm_mode_fb_cmd := mk_fb_cmd 0 1024 768 4096 32 24 7.

Lemma drm_mode_addfb_getfb_rmfb_witness :
  exists id s1 s2,
    @drm_mode_addfb sample_bos probe_config (mk_file []) fb_req =
      Some (s1, mk_file [id], 0, Some id) /\
    drm_mode_getfb s1 (mk_fb_cmd id 0 0 0 0 0 0) =
      Some (s1, 0, mk_fb_cmd id 1024 768 4096 32 24 7) /\
    drm_mode_rmfb s1 (mk_file [id]) id = Some (s2, mk_file [], 0) /\
    fb_list s2 = [] /\ crtc_idr s2 = crtc_idr probe_config /\ num_fb s2 = 0.
Proof.
  apply (@drm_mode_addfb_getfb_rmfb sample_bos probe_config (mk_file []) fb_req false);
    [reflexivity | simpl; lia | simpl; lia | reflexivity | reflexivity | vm_compute; reflexivity].
Defined.

Section setcrtc_props.
Context `{!DrmFuncs}.

(** C22: [drm_mode_setcrtc] with a mode, the current framebuffer
    ([fb_id] -1) and no output is refused with -EINVAL, and the only
    change it leaves on the device is the identifier that
    [drm_mode_create] registered for the mode: the idr keeps an
    identifier no object owns. *)
Theorem drm_mode_setcrtc_leaks_mode s req crtc :
  mc_locked s = false -> is_Some (crtc_idr s !! req_crtc_id req) ->
  find_crtc s (req_crtc_id req) = Some crtc ->
  req_mode_valid req <> 0 -> req_fb_id req = 2 ^ 32 - 1 -> req_outputs req = [] ->
  crtc_idr s !! 0 = None -> Z.of_nat (size (crtc_idr s)) < MAX_ID ->
  exists id, crtc_idr s !! id = None /\ id <> 0 /\
    drm_mode_setcrtc s req = Some (set_idr s (<[id := OBJ_MODE]> (crtc_idr s)), - EINVAL).
Proof.
  intros Hl [k Hk] Hc Hv Hfb Hout H0 Hroom.
  destruct (drm_idr_get_fresh (crtc_idr s) OBJ_MODE H0) as (id & Hfree & [[Hid Hg]|(_ & _ & Hmax)]);
    [|lia].
  exists id. split_and!; [done | done |].
  unfold drm_mode_setcrtc, mutex_lock, idr_lookup. rewrite Hl.
  cbn [mbind option_bind crtc_idr set_locked]. rewrite Hk.
  change (find_crtc (set_locked s true) (req_crtc_id req)) with (find_crtc s (req_crtc_id req)).
  rewrite Hc. unfold setcrtc_checked. rewrite Hout, Hfb, (proj2 (Z.eqb_neq _ _) Hv), Z.eqb_refl.
  unfold drm_mode_create. change (crtc_idr (set_locked s true)) with (crtc_idr s). rewrite Hg.
  destruct s; cbn in *. by subst.
Qed.
End setcrtc_props.

(** Mode set on CRTC 1 with the current framebuffer and no output. *)
Definition leak_req : drm_mode_crtc_req :=
  mk_crtc_req 1 (2 ^ 32 - 1) 0 0 1 (drm_crtc_convert_to_umode mode_720p) [].

Lemma drm_mode_setcrtc_leaks_mode_witness :
  exists id, crtc_idr probe_config !! id = None /\ id <> 0 /\
    @drm_mode_setcrtc probe_funcs probe_config leak_req =
      Some (set_idr probe_config (<[id := OBJ_MODE]> (crtc_idr probe_config)), - EINVAL).
Proof.
  apply (@drm_mode_setcrtc_leaks_mode probe_funcs probe_config leak_req (sample_crtc 1));
    [reflexivity | by eexists | reflexivity | simpl; lia | reflexivity | reflexivity
    | reflexivity | vm_compute; reflexivity].
Defined.

Lemma drm_mode_getresources_two_calls_witness :
  exists res1 res2,
    drm_mode_getresources getcrtc_config 0 0 0 = Some (getcrtc_config, (0, res1)) /\
    res_crtc_ids res1 = None /\ res_output_ids res1 = None /\
    res_crtc_ids res2 = Some [1; 2] /\ res_output_ids res2 = Some [3; 4].
Proof.
  destruct (drm_mode_getresources_two_calls getcrtc_config 0 0 0 eq_refl)
    as (res1 & res2 & H1 & _ & Hc & Ho & _ & Nc & No & _ & _ & Fc & Fo).
  exists res1, res2. split_and!; [exact H1 | apply Nc | apply No | rewrite Fc | rewrite Fo];
    try (rewrite ?Hc, ?Ho); vm_compute; reflexivity.
Defined.
