(* ===== verification/UserModes.v ===== *)
(** * User modes: [drm_mode_attachmode*] and [drm_mode_detachmode*]

    Every output keeps a list of modes added by user space or by the
    driver ([output->user_modes]).  [drm_mode_attachmode] appends a mode
    object to it; [drm_mode_attachmode_crtc] does so for every output on a
    CRTC, giving the caller's own mode object to the first and duplicates
    to the others; [drm_mode_detachmode] removes and destroys the first
    user mode [drm_mode_equal] to the given one; [drm_mode_detachmode_crtc]
    does so on every output and ignores the result.  The two ioctls
    convert the user's [drm_mode_modeinfo] first.

    A mode object is its record; "the same object" is the same
    identifier.  The outputs are given by identifier: the functions that
    take an output pointer are called on a live output. *)

From S2P Require Import Prelude Idr Modes Config Probe.

Definition with_output_user_modes (o : drm_output) (ms : list drm_display_mode) : drm_output :=
  mk_output (output_id o) (output_type o) (output_type_id o) (output_status o)
    (possible_crtcs o) (possible_clones o) (output_crtc o) (probed_modes o) (modes o) ms
    (initial_x o) (initial_y o) (property_ids o) (property_values o) (edid_blob_ptr o).

(** The user modes of the output [oid], none for an unknown output. *)
Definition user_modes_of (s : drm_mode_config) (oid : Z) : list drm_display_mode :=
  default [] (user_modes <$> find_output s oid).

(** [drm_mode_attachmode(dev, output, mode)]: [list_add_tail]. *)
Definition drm_mode_attachmode (s : drm_mode_config) (oid : Z) (mode : drm_display_mode)
  : drm_mode_config * Z :=
  (update_output s oid (fun o => with_output_user_modes o (user_modes o ++ [mode])), 0).

(** One pass of the loop of [drm_mode_attachmode_crtc]; the flag is
    [need_dup]. *)
Definition attachmode_crtc_step (cid : Z) (mode : drm_display_mode)
    (acc : drm_mode_config * bool) (o : drm_output) : drm_mode_config * bool :=
  let '(s, need_dup) := acc in
  if bool_decide (output_crtc o = Some cid) then
    let '(s1, dup_mode) :=
      if need_dup then let '(m', d) := drm_mode_duplicate (crtc_idr s) mode in (set_idr s m', d)
      else (s, mode) in
    ((drm_mode_attachmode s1 (output_id o) dup_mode).1, true)
  else (s, need_dup).

Definition drm_mode_attachmode_crtc (s : drm_mode_config) (cid : Z) (mode : drm_display_mode)
  : drm_mode_config * Z :=
  ((fold_left (attachmode_crtc_step cid mode) (output_list s) (s, false)).1, 0).

(** A structural reference for [drm_mode_attachmode_crtc]: one pass over
    the outputs that rebuilds the list, threading the registry the
    duplicates are allocated from. *)
Fixpoint attachmode_crtc_ref (cid : Z) (mode : drm_display_mode) (need_dup : bool) (m : idr)
    (outs : list drm_output) : idr * list drm_output :=
  match outs with
  | [] => (m, [])
  | o :: rest =>
      if bool_decide (output_crtc o = Some cid) then
        let '(m1, d) := if need_dup then drm_mode_duplicate m mode else (m, mode) in
        let '(m2, rest') := attachmode_crtc_ref cid mode true m1 rest in
        (m2, with_output_user_modes o (user_modes o ++ [d]) :: rest')
      else
        let '(m2, rest') := attachmode_crtc_ref cid mode need_dup m rest in
        (m2, o :: rest')
  end.

(** [drm_mode_detachmode(dev, output, mode)]: the first equal user mode
    is unlinked and destroyed (its identifier released); -EINVAL when
    there is none. *)
Definition drm_mode_detachmode (s : drm_mode_config) (oid : Z) (mode : drm_display_mode)
  : drm_mode_config * Z :=
  let um := user_modes_of s oid in
  match find_index (fun m => drm_mode_equal m mode) um with
  | None => (s, - EINVAL)
  | Some i =>
      let s1 := update_output s oid (fun o => with_output_user_modes o (delete i (user_modes o))) in
      (set_idr s1 (drm_mode_destroy (crtc_idr s1) (default zero_mode (um !! i))), 0)
  end.

(** [drm_mode_detachmode_crtc(dev, mode)]: every output, results
    ignored. *)
Definition drm_mode_detachmode_crtc (s : drm_mode_config) (mode : drm_display_mode)
  : drm_mode_config * Z :=
  (fold_left (fun s o => (drm_mode_detachmode s (output_id o) mode).1) (output_list s) s, 0).

(** [struct drm_mode_mode_cmd]. *)
Record drm_mode_mode_cmd := mk_mode_cmd { mc_output_id : Z; mc_mode : drm_mode_modeinfo }.

(** [drm_mode_attachmode_ioctl]: a new mode object filled from the
    user's mode, attached to the output. *)
Definition drm_mode_attachmode_ioctl (s : drm_mode_config) (cmd : drm_mode_mode_cmd)
  : option (drm_mode_config * Z) :=
  s1 ← mutex_lock s;
  match idr_lookup s1 (mc_output_id cmd) (find_output s1 (mc_output_id cmd)) with
  | None => Some (mutex_unlock s1, - EINVAL)
  | Some o =>
      let '(m', mode) := drm_mode_create (crtc_idr s1) in
      let '(s2, ret) := drm_mode_attachmode (set_idr s1 m') (output_id o)
                          (drm_crtc_convert_umode mode (mc_mode cmd)) in
      Some (mutex_unlock s2, ret)
  end.

(** [drm_mode_detachmode_ioctl]: the user's mode is converted into an
    uninitialised stack mode; [drm_mode_equal] reads only the fields the
    conversion writes, so [zero_mode] stands for the stack contents. *)
Definition drm_mode_detachmode_ioctl (s : drm_mode_config) (cmd : drm_mode_mode_cmd)
  : option (drm_mode_config * Z) :=
  s1 ← mutex_lock s;
  match idr_lookup s1 (mc_output_id cmd) (find_output s1 (mc_output_id cmd)) with
  | None => Some (mutex_unlock s1, - EINVAL)
  | Some o =>
      let '(s2, ret) := drm_mode_detachmode s1 (output_id o)
                          (drm_crtc_convert_umode zero_mode (mc_mode cmd)) in
      Some (mutex_unlock s2, ret)
  end.

(** * Properties *)

Lemma find_index_last {A} (p : A -> bool) l x :
  Forall (fun y => p y = false) l -> p x = true -> find_index p (l ++ [x]) = Some (length l).
Proof.
  intros Hl Hx. apply (find_index_intro _ _ _ x); [by apply list_lookup_middle | done |].
  intros j y Hj Hy. rewrite lookup_app_l in Hy by done. by apply (proj1 (Forall_lookup _ _) Hl j y).
Qed.

(** Two conversions of the same user mode are [drm_mode_equal],
    whatever they were written into. *)
Lemma convert_umode_equal a b u :
  drm_mode_equal (drm_crtc_convert_umode a u) (drm_crtc_convert_umode b u) = true.
Proof. by apply drm_mode_equal_spec. Qed.

(** [drm_mode_create]'s allocation, undone by releasing its identifier;
    the other entries stay. *)
Lemma drm_idr_get_undo m o oid k :
  m !! 0 = None -> m !! oid = Some k ->
  (drm_idr_get m o).1 !! oid = Some k /\ delete (drm_idr_get m o).2 (drm_idr_get m o).1 = m.
Proof.
  intros H0 Hk. destruct (drm_idr_get_cases m o) as (r & _ & Hr & Hfree & _ & _ & [[-> _]|[-> _]]);
    cbn [fst snd].
  - split; [rewrite lookup_insert_ne; [done | congruence] | by apply delete_insert_id].
  - split; [done | by apply delete_id].
Qed.

Lemma with_output_user_modes_id o ms : output_id (with_output_user_modes o ms) = output_id o.
Proof. done. Qed.

Lemma with_output_user_modes_eta o : with_output_user_modes o (user_modes o) = o.
Proof. by destruct o. Qed.

Lemma find_output_mutex_unlock s oid : find_output (mutex_unlock s) oid = find_output s oid.
Proof. done. Qed.

(** ** [drm_mode_attachmode_crtc] against its reference *)

Lemma set_outputs_idr_eta s : set_outputs s (output_list s) = s.
Proof. by destruct s. Qed.

Lemma set_outputs_set_idr_twice s a b x y :
  set_outputs (set_idr (set_outputs (set_idr s a) x) b) y = set_outputs (set_idr s b) y.
Proof. by destruct s. Qed.

Lemma set_outputs_set_idr_id s x y : set_outputs (set_idr (set_outputs s x) (crtc_idr s)) y = set_outputs (set_idr s (crtc_idr s)) y.
Proof. by destruct s. Qed.

(** Updating the output of a given identifier in a list of distinct
    identifiers changes that element only. *)
Lemma map_update_middle (pre post : list drm_output) o f :
  NoDup (output_id <$> pre ++ o :: post) ->
  map (fun x => if output_id x =? output_id o then f x else x) (pre ++ o :: post) = pre ++ f o :: post.
Proof.
  rewrite fmap_app, fmap_cons. intros (_ & Hdis & Hpost)%NoDup_app.
  apply NoDup_cons in Hpost as [Hnot _].
  assert (forall l, output_id o ∉ output_id <$> l ->
            map (fun x => if output_id x =? output_id o then f x else x) l = l) as Hkeep.
  { intros l Hl. rewrite <- (map_id l) at 2. apply map_ext_in. intros x Hx.
    destruct (Z.eqb_spec (output_id x) (output_id o)) as [He|]; [|done].
    exfalso. apply Hl. rewrite <- He. by apply list_elem_of_fmap_2, list_elem_of_In. }
  rewrite map_app. cbn. rewrite Z.eqb_refl, Hkeep, Hkeep; [done | done |].
  intros Hin. apply (Hdis _ Hin). by left.
Qed.

Lemma attachmode_crtc_step_eq cid mode s b o :
  attachmode_crtc_step cid mode (s, b) o =
  if bool_decide (output_crtc o = Some cid) then
    let '(m1, d) := if b then drm_mode_duplicate (crtc_idr s) mode else (crtc_idr s, mode) in
    (set_outputs (set_idr s m1) (map (fun x => if output_id x =? output_id o
       then with_output_user_modes x (user_modes x ++ [d]) else x) (output_list s)), true)
  else (s, b).
Proof.
  unfold attachmode_crtc_step. destruct (bool_decide _); [|done].
  destruct b; [by destruct (drm_mode_duplicate _ _)|]. by destruct s.
Qed.

Lemma attachmode_crtc_fold cid mode l : forall pre s b,
  output_list s = pre ++ l -> NoDup (output_id <$> output_list s) ->
  (fold_left (attachmode_crtc_step cid mode) l (s, b)).1 =
  set_outputs (set_idr s (attachmode_crtc_ref cid mode b (crtc_idr s) l).1)
    (pre ++ (attachmode_crtc_ref cid mode b (crtc_idr s) l).2).
Proof.
  induction l as [|o l IH]; intros pre s b Hs Hnd; cbn [fold_left attachmode_crtc_ref].
  - cbn [fst snd]. rewrite app_nil_r in Hs |- *. rewrite <- Hs. by destruct s.
  - rewrite attachmode_crtc_step_eq. destruct (bool_decide _).
    + destruct (if b then _ else _) as [m1 d]. rewrite Hs in Hnd |- *.
      rewrite map_update_middle by done.
      rewrite (IH (pre ++ [with_output_user_modes o (user_modes o ++ [d])])).
      2: by rewrite <- app_assoc.
      2: unfold set_outputs; cbn [output_list]; rewrite !fmap_app, !fmap_cons in Hnd |- *; exact Hnd.
      change (crtc_idr (set_outputs (set_idr s m1) ?x)) with m1.
      destruct (attachmode_crtc_ref cid mode true m1 l) as [m2 l']. cbn [fst snd].
      rewrite <- app_assoc. apply set_outputs_set_idr_twice.
    + rewrite (IH (pre ++ [o])); [| by rewrite <- app_assoc | done].
      destruct (attachmode_crtc_ref cid mode b (crtc_idr s) l) as [m2 l']. cbn [fst snd].
      by rewrite <- app_assoc.
Qed.

(** On a device whose outputs have distinct identifiers,
    [drm_mode_attachmode_crtc]'s loop of updates by identifier computes
    the reference's output list and registry, and changes nothing else. *)
Lemma drm_mode_attachmode_crtc_ref_eq s cid mode :
  NoDup (output_id <$> output_list s) ->
  drm_mode_attachmode_crtc s cid mode =
    (set_outputs (set_idr s (attachmode_crtc_ref cid mode false (crtc_idr s) (output_list s)).1)
       (attachmode_crtc_ref cid mode false (crtc_idr s) (output_list s)).2, 0).
Proof. intros Hnd. unfold drm_mode_attachmode_crtc. f_equal. by apply (attachmode_crtc_fold _ _ _ []). Qed.

Lemma attachmode_crtc_ref_unbound cid mode b m pre l :
  Forall (fun o => output_crtc o <> Some cid) pre ->
  attachmode_crtc_ref cid mode b m (pre ++ l) =
    ((attachmode_crtc_ref cid mode b m l).1, pre ++ (attachmode_crtc_ref cid mode b m l).2).
Proof.
  induction 1 as [|o pre Ho _ IH]; cbn [app attachmode_crtc_ref];
    [by destruct (attachmode_crtc_ref _ _ _ _ _)|].
  rewrite bool_decide_false by done. rewrite IH. reflexivity.
Qed.

(** A duplicate is a fresh mode object with the same timings; the
    registry only grows. *)
Lemma drm_mode_duplicate_fresh m mode :
  m !! 0 = None ->
  m !! mode_id (drm_mode_duplicate m mode).2 = None /\ (drm_mode_duplicate m mode).1 !! 0 = None /\
  (forall id k, m !! id = Some k -> (drm_mode_duplicate m mode).1 !! id = Some k) /\
  mode_timings (drm_mode_duplicate m mode).2 = mode_timings mode.
Proof.
  intros H0. unfold drm_mode_duplicate, drm_mode_create.
  destruct (drm_idr_get_cases m OBJ_MODE) as (r & _ & Hr & Hfree & _ & _ & [[-> _]|[-> _]]);
    cbn [fst snd mode_id set_mode_id]; split_and!; try done.
  - rewrite lookup_insert_ne; [done | lia].
  - intros id k Hk. rewrite lookup_insert_ne; [done | congruence].
Qed.

(** Past the first output on the CRTC every output on it gets a fresh
    duplicate, fresh with respect to any registry the current one
    extends. *)
Lemma attachmode_crtc_ref_dups cid mode l : forall (m0 m : idr),
  m !! 0 = None -> (forall id k, m0 !! id = Some k -> m !! id = Some k) ->
  Forall2 (fun x x' => if bool_decide (output_crtc x = Some cid)
             then exists d, x' = with_output_user_modes x (user_modes x ++ [d]) /\
                    mode_timings d = mode_timings mode /\ m0 !! mode_id d = None
             else x' = x) l (attachmode_crtc_ref cid mode true m l).2.
Proof.
  induction l as [|o l IH]; intros m0 m H0 Hsub; cbn [attachmode_crtc_ref]; [constructor|].
  destruct (bool_decide _) eqn:Hb.
  - destruct (drm_mode_duplicate_fresh m mode H0) as (Hfresh & H01 & Hsub1 & Ht).
    destruct (drm_mode_duplicate m mode) as [m1 d]. cbn [fst snd] in *.
    specialize (IH m0 m1 H01 (fun id k H => Hsub1 id k (Hsub id k H))).
    destruct (attachmode_crtc_ref cid mode true m1 l) as [m2 l']. cbn [snd].
    constructor; [|exact IH]. cbv beta. rewrite Hb. exists d. split_and!; [done | done |].
    destruct (m0 !! mode_id d) eqn:E; [|done]. apply Hsub in E. congruence.
  - specialize (IH m0 m H0 Hsub).
    destruct (attachmode_crtc_ref cid mode true m l) as [m2 l']. cbn [snd] in *.
    constructor; [|exact IH]. cbv beta. by rewrite Hb.
Qed.

(** C19: Round trip: a mode attached to an output with
    [drm_mode_attachmode_ioctl] and detached with
    [drm_mode_detachmode_ioctl] from the same user mode leaves the output
    and the identifier registry as they were, provided no earlier user
    mode of the output is [drm_mode_equal] to it (otherwise the earlier
    one is the one removed). *)
Theorem drm_mode_attach_detach_roundtrip s cmd o :
  mc_locked s = false -> is_Some (crtc_idr s !! mc_output_id cmd) ->
  find_output s (mc_output_id cmd) = Some o -> crtc_idr s !! 0 = None ->
  Forall (fun m => drm_mode_equal m (drm_crtc_convert_umode zero_mode (mc_mode cmd)) = false)
    (user_modes o) ->
  exists s1 s2, drm_mode_attachmode_ioctl s cmd = Some (s1, 0) /\
    drm_mode_detachmode_ioctl s1 cmd = Some (s2, 0) /\
    find_output s2 (mc_output_id cmd) = Some o /\ crtc_idr s2 = crtc_idr s /\
    mc_locked s2 = false.
Proof.
  intros Hl [k Hk] Ho H0 Hne. pose proof (find_output_id _ _ _ Ho) as Hid.
  destruct (drm_idr_get_undo (crtc_idr s) OBJ_MODE _ _ H0 Hk) as [Hk' Hundo].
  unfold drm_mode_attachmode_ioctl, drm_mode_detachmode_ioctl, mutex_lock, idr_lookup.
  rewrite Hl. cbn [mbind option_bind crtc_idr set_locked]. rewrite Hk.
  change (find_output (set_locked s true) (mc_output_id cmd)) with (find_output s (mc_output_id cmd)).
  rewrite Ho. unfold drm_mode_create.
  destruct (drm_idr_get (crtc_idr s) OBJ_MODE) as [m' id]. cbn [fst snd] in *.
  cbn [drm_mode_attachmode mutex_unlock mc_locked set_locked crtc_idr update_output set_outputs set_idr].
  match goal with |- context [drm_crtc_convert_umode ?a (mc_mode cmd)] =>
    set (x := drm_crtc_convert_umode a (mc_mode cmd)) end.
  pose proof (convert_umode_equal {| mode_name := ""; mode_id := id; mode_status := MODE_OK;
    mode_type := 0; clock := 0; hdisplay := 0; hsync_start := 0; hsync_end := 0; htotal := 0;
    hskew := 0; vdisplay := 0; vsync_start := 0; vsync_end := 0; vtotal := 0; vscan := 0;
    vrefresh := 0; flags := 0 |} zero_mode (mc_mode cmd)) as Hxeq. fold x in Hxeq.
  eexists _, _. split; [reflexivity|].
  set (o1 := with_output_user_modes o (user_modes o ++ [x])).
  set (s1 := mutex_unlock (update_output (set_idr (set_locked s true) m') (output_id o)
                             (fun o => with_output_user_modes o (user_modes o ++ [x])))).
  assert (find_output s1 (mc_output_id cmd) = Some o1) as Hf1.
  { unfold s1, mutex_unlock. rewrite find_output_set_locked, <- Hid, find_output_update_same
      by done. by rewrite find_output_set_idr, find_output_set_locked, Hid, Ho. }
  change (mc_locked s1) with false. cbn [mbind option_bind].
  change (crtc_idr (set_locked s1 true)) with m'. rewrite Hk'.
  change (find_output (set_locked s1 true) (mc_output_id cmd)) with (find_output s1 (mc_output_id cmd)).
  rewrite Hf1. unfold drm_mode_detachmode, user_modes_of.
  change (output_id o1) with (output_id o). rewrite Hid.
  change (find_output (set_locked s1 true) (mc_output_id cmd)) with (find_output s1 (mc_output_id cmd)).
  rewrite Hf1. cbn [fmap option_fmap option_map default user_modes o1 with_output_user_modes].
  unfold Datatypes.id. rewrite find_index_last by done.
  split_and!; [reflexivity | | | reflexivity].
  - rewrite find_output_mutex_unlock, find_output_set_idr, find_output_update_same by done.
    rewrite find_output_set_locked, find_output_mutex_unlock, <- Hid, find_output_update_same
      by done.
    rewrite find_output_set_idr, find_output_set_locked, Hid, Ho. cbn. rewrite delete_middle, app_nil_r.
    f_equal. by destruct o.
  - cbn. unfold drm_mode_destroy, drm_idr_put. rewrite list_lookup_middle by done.
    cbn. exact Hundo.
Qed.

(** [drm_mode_detachmode] on an output none of whose user modes is
    [drm_mode_equal] to the given one fails with -EINVAL and changes
    nothing. *)
Theorem drm_mode_detachmode_absent s oid mode :
  Forall (fun m => drm_mode_equal m mode = false) (user_modes_of s oid) ->
  drm_mode_detachmode s oid mode = (s, - EINVAL).
Proof.
  intros Hall. unfold drm_mode_detachmode.
  destruct (find_index _ _) as [i|] eqn:Hi; [|done].
  destruct (find_index_Some _ _ _ Hi) as (m & Hm & Heq & _).
  rewrite (proj1 (Forall_lookup _ _) Hall i m Hm) in Heq. discriminate.
Qed.

(** Two outputs on CRTC 1 (4 then 5) and one elsewhere (3). *)
Definition shared_config : drm_mode_config :=
  set_idr (sample_config [sample_output 3 output_status_connected 3 [] None;
                          sample_output 4 output_status_connected 3 [] (Some 1);
                          sample_output 5 output_status_connected 3 [] (Some 1)])
    (<[3 := OBJ_OUTPUT]> (<[4 := OBJ_OUTPUT]> (<[5 := OBJ_OUTPUT]> (crtc_idr (sample_config []))))).

(** A driver mode object, registered by [drm_mode_create] with
    identifier 6. *)
Definition driver_mode : drm_display_mode := set_mode_id mode_720p 6.
Definition shared_config_mode : drm_mode_config :=
  set_idr shared_config (<[6 := OBJ_MODE]> (crtc_idr shared_config)).

(** [drm_mode_attachmode_crtc] gives the first output on the CRTC the
    caller's own mode object (identifier 6) and the second a duplicate
    (identifier 7); a later [drm_mode_detachmode_crtc] with that mode
    destroys both, so the caller's object is released although the caller
    still holds it. *)
Theorem drm_mode_attachmode_crtc_shares_mode :
  let s1 := (drm_mode_attachmode_crtc shared_config_mode 1 driver_mode).1 in
  (fun o => mode_id <$> user_modes o) <$> find_output s1 4 = Some [6] /\
  (fun o => mode_id <$> user_modes o) <$> find_output s1 5 = Some [7] /\
  (fun o => user_modes o) <$> find_output s1 3 = Some [] /\
  crtc_idr s1 !! 6 = Some OBJ_MODE /\
  crtc_idr (drm_mode_detachmode_crtc s1 driver_mode).1 !! 6 = None /\
  crtc_idr (drm_mode_detachmode_crtc s1 driver_mode).1 !! 7 = None.
Proof. vm_compute. split_and!; reflexivity. Qed.

Definition attach_cmd : drm_mode_mode_cmd :=
  mk_mode_cmd 3 (drm_crtc_convert_to_umode mode_720p).

Lemma drm_mode_attach_detach_roundtrip_witness :
  exists s1 s2, drm_mode_attachmode_ioctl shared_config attach_cmd = Some (s1, 0) /\
    drm_mode_detachmode_ioctl s1 attach_cmd = Some (s2, 0) /\
    find_output s2 3 = Some (sample_output 3 output_status_connected 3 [] None) /\
    crtc_idr s2 = crtc_idr shared_config /\ mc_locked s2 = false.
Proof.
  apply (drm_mode_attach_detach_roundtrip shared_config attach_cmd
           (sample_output 3 output_status_connected 3 [] None));
    [reflexivity | eexists; reflexivity | reflexivity | reflexivity | constructor].
Defined.

Lemma drm_mode_detachmode_absent_witness :
  drm_mode_detachmode shared_config 3 mode_720p = (shared_config, - EINVAL).
Proof. apply drm_mode_detachmode_absent. vm_compute. constructor. Defined.

(** C21: [drm_mode_attachmode_crtc] links the caller's own mode object
    into the first output on the CRTC and fresh duplicates (identifiers
    not registered before the call, same timings) into every later one;
    the outputs off the CRTC keep their user modes. *)
Theorem drm_mode_attachmode_crtc_shares s cid mode pre o post :
  NoDup (output_id <$> output_list s) -> crtc_idr s !! 0 = None ->
  output_list s = pre ++ o :: post ->
  Forall (fun x => output_crtc x <> Some cid) pre -> output_crtc o = Some cid ->
  exists post',
    output_list (drm_mode_attachmode_crtc s cid mode).1 =
      pre ++ with_output_user_modes o (user_modes o ++ [mode]) :: post' /\
    Forall2 (fun x x' => if bool_decide (output_crtc x = Some cid)
               then exists d, x' = with_output_user_modes x (user_modes x ++ [d]) /\
                      mode_timings d = mode_timings mode /\ crtc_idr s !! mode_id d = None
               else x' = x) post post'.
Proof.
  intros Hnd H0 Hs Hpre Ho. rewrite drm_mode_attachmode_crtc_ref_eq by done.
  rewrite Hs, attachmode_crtc_ref_unbound by done. cbn [attachmode_crtc_ref].
  rewrite bool_decide_true by done.
  pose proof (attachmode_crtc_ref_dups cid mode post (crtc_idr s) (crtc_idr s) H0 (fun _ _ H => H)) as Hd.
  destruct (attachmode_crtc_ref cid mode true (crtc_idr s) post) as [m2 post'].
  exists post'. split; [reflexivity | exact Hd].
Qed.

Lemma drm_mode_attachmode_crtc_shares_witness :
  exists post',
    output_list (drm_mode_attachmode_crtc shared_config_mode 1 driver_mode).1 =
      [sample_output 3 output_status_connected 3 [] None;
       with_output_user_modes (sample_output 4 output_status_connected 3 [] (Some 1)) [driver_mode]]
      ++ post'.
Proof.
  destruct (drm_mode_attachmode_crtc_shares shared_config_mode 1 driver_mode
              [sample_output 3 output_status_connected 3 [] None]
              (sample_output 4 output_status_connected 3 [] (Some 1))
              [sample_output 5 output_status_connected 3 [] (Some 1)]) as (post' & Hl & _);
    [apply (bool_decide_unpack _); vm_compute; reflexivity | vm_compute; reflexivity | reflexivity
    | constructor; [discriminate | constructor] | reflexivity |].
  exists post'. rewrite Hl. reflexivity.
Defined.

