(* ===== verification/Scanout.v ===== *)
(** * The cursor ioctl and framebuffer replacement

    [drm_mode_cursor_ioctl] hands a cursor buffer ([DRM_MODE_CURSOR_BO])
    and a cursor position ([DRM_MODE_CURSOR_MOVE]) to the CRTC's optional
    [cursor_set] and [cursor_move] hooks, the class [DrmCursorFuncs]: a
    hook is [None] when the driver leaves it NULL, and returns the int the
    driver returns; each call is also recorded in the hook trace.

    [drm_mode_replacefb] gives a framebuffer of the caller a new buffer
    object and geometry and asks every CRTC scanning it out to reload its
    base.  The result is [None] when the call does not return: the mutex
    is already held, or the code dereferences a NULL pointer (a CRTC
    without framebuffer, or a NULL [mode_set_base]). *)

From S2P Require Import Prelude Idr Modes Config SetMode Ioctl.

Definition DRM_MODE_CURSOR_BO : Z := 1.
Definition DRM_MODE_CURSOR_MOVE : Z := 2.

(** The cursor hooks of [struct drm_crtc_funcs]; the buffer object is
    given by its handle, [None] for NULL. *)
Class DrmCursorFuncs := {
  crtc_cursor_set : option (drm_crtc -> option Z -> Z -> Z -> Z);
  crtc_cursor_move : option (drm_crtc -> Z -> Z -> Z);
}.

(** [struct drm_mode_cursor]. *)
Record drm_mode_cursor := mk_cursor {
  cur_flags : Z; cur_crtc : Z; cur_x : Z; cur_y : Z;
  cur_width : Z; cur_height : Z; cur_handle : Z;
}.

Section cursor.
Context `{!DrmBufferObjects} `{!DrmCursorFuncs}.

(** The [DRM_MODE_CURSOR_BO] part: the state, the return code, and
    whether the code goes on ([false] for its [goto out]). *)
Definition cursor_bo_part (s : drm_mode_config) (crtc : drm_crtc) (req : drm_mode_cursor)
  : drm_mode_config * Z * bool :=
  if negb (c_bool (Z.land (cur_flags req) DRM_MODE_CURSOR_BO)) then (s, 0, true)
  else if negb ((cur_handle req =? 0) || bool_decide (is_Some (bo_lookup (cur_handle req))))
  then (s, - EINVAL, false)
  else
    let bo := if cur_handle req =? 0 then None else Some (cur_handle req) in
    match crtc_cursor_set with
    | Some f => (emit s (EvCursorSet (crtc_id crtc) bo (cur_width req) (cur_height req)),
                 f crtc bo (cur_width req) (cur_height req), true)
    | None => (s, - EFAULT, false)
    end.

(** The [DRM_MODE_CURSOR_MOVE] part, after the buffer part's [ret]. *)
Definition cursor_move_part (s : drm_mode_config) (crtc : drm_crtc) (req : drm_mode_cursor)
    (ret : Z) : drm_mode_config * Z :=
  if negb (c_bool (Z.land (cur_flags req) DRM_MODE_CURSOR_MOVE)) then (s, ret)
  else match crtc_cursor_move with
       | Some g => (emit s (EvCursorMove (crtc_id crtc) (cur_x req) (cur_y req)),
                    g crtc (cur_x req) (cur_y req))
       | None => (s, - EFAULT)
       end.

Definition drm_mode_cursor_ioctl (s : drm_mode_config) (req : drm_mode_cursor)
  : option (drm_mode_config * Z) :=
  if negb (c_bool (cur_flags req)) then Some (s, - EINVAL) else
  s1 ← mutex_lock s;
  match idr_lookup s1 (cur_crtc req) (find_crtc s1 (cur_crtc req)) with
  | None => Some (mutex_unlock s1, - EINVAL)
  | Some crtc =>
      let '(s2, ret, go) := cursor_bo_part s1 crtc req in
      if negb go then Some (mutex_unlock s2, ret)
      else let '(s3, ret') := cursor_move_part s2 crtc req ret in Some (mutex_unlock s3, ret')
  end.
End cursor.

(** ** [drm_mode_replacefb] *)

Definition update_fb (s : drm_mode_config) (id : Z) (f : drm_framebuffer -> drm_framebuffer)
  : drm_mode_config :=
  set_fbs s (map (fun fb => if fb_id fb =? id then f fb else fb) (fb_list s)).

Section replacefb.
Context `{!DrmFuncs} `{!DrmBufferObjects}.

(** One pass of the CRTC loop: [crtc->fb->id] is read without a NULL
    check, and [mode_set_base] is called without checking it exists. *)
Definition replacefb_crtc_step (id : Z) (acc : option drm_mode_config) (c : drm_crtc)
  : option drm_mode_config :=
  s ← acc;
  fid ← crtc_fb c;
  if fid =? id then
    if crtc_has_mode_set_base c then Some (emit s (EvCrtcModeSetBase (crtc_id c) (crtc_x c) (crtc_y c)))
    else None
  else Some s.

Definition drm_mode_replacefb (s : drm_mode_config) (f : drm_file) (r : drm_mode_fb_cmd)
  : option (drm_mode_config * Z) :=
  s1 ← mutex_lock s;
  match bo_lookup (fbc_handle r) with
  | None => Some (mutex_unlock s1, - EINVAL)
  | Some kernel =>
    match idr_lookup s1 (fbc_buffer_id r) (find_fb s1 (fbc_buffer_id r)) with
    | None => Some (mutex_unlock s1, - EINVAL)
    | Some fb =>
      if negb (existsb (fun x => x =? fb_id fb) (file_fbs f)) then Some (mutex_unlock s1, - EINVAL)
      else
        let s2 := update_fb s1 (fb_id fb)
                    (fun fb => mk_fb (fb_id fb) (fbc_width r) (fbc_height r) (fbc_pitch r)
                                 (fbc_bpp r) (fbc_depth r) (fbc_handle r) kernel) in
        s3 ← fold_left (replacefb_crtc_step (fbc_buffer_id r)) (crtc_list s2) (Some s2);
        Some (mutex_unlock s3, 0)
    end
  end.
End replacefb.

(** * Properties *)

Section cursor_props.
Context `{!DrmBufferObjects} `{!DrmCursorFuncs}.

(** C25: Both parts requested, the buffer accepted: the code calls
    [cursor_set], then [cursor_move], and returns what [cursor_move]
    returns; [cursor_set]'s result is overwritten. *)
Theorem drm_mode_cursor_set_error_lost s req crtc f g :
  mc_locked s = false -> cur_flags req = Z.lor DRM_MODE_CURSOR_BO DRM_MODE_CURSOR_MOVE ->
  is_Some (crtc_idr s !! cur_crtc req) -> find_crtc s (cur_crtc req) = Some crtc ->
  (cur_handle req = 0 \/ is_Some (bo_lookup (cur_handle req))) ->
  crtc_cursor_set = Some f -> crtc_cursor_move = Some g ->
  let bo := if cur_handle req =? 0 then None else Some (cur_handle req) in
  drm_mode_cursor_ioctl s req =
    Some (emit (emit s (EvCursorSet (crtc_id crtc) bo (cur_width req) (cur_height req)))
               (EvCursorMove (crtc_id crtc) (cur_x req) (cur_y req)),
          g crtc (cur_x req) (cur_y req)).
Proof.
  intros Hl Hfl [k Hk] Hc Hbo Hf Hg bo.
  unfold drm_mode_cursor_ioctl, mutex_lock, idr_lookup. rewrite Hfl, Hl.
  cbn [c_bool negb Z.land Z.lor DRM_MODE_CURSOR_BO DRM_MODE_CURSOR_MOVE Z.eqb mbind
       option_bind crtc_idr set_locked]. rewrite Hk.
  change (find_crtc (set_locked s true) (cur_crtc req)) with (find_crtc s (cur_crtc req)).
  rewrite Hc. unfold cursor_bo_part, cursor_move_part. rewrite Hfl.
  cbn [c_bool negb Z.land Z.lor DRM_MODE_CURSOR_BO DRM_MODE_CURSOR_MOVE Z.eqb].
  assert ((cur_handle req =? 0) || bool_decide (is_Some (bo_lookup (cur_handle req))) = true)
    as -> by (destruct Hbo as [->|Hs]; [done | by rewrite bool_decide_true, orb_true_r]).
  rewrite Hf, Hg. cbn [negb]. destruct s. simpl in Hl. by subst.
Qed.

Lemma c_bool_land_nonzero x m : c_bool (Z.land x m) = true -> c_bool x = true.
Proof. rewrite !c_bool_true. intros Hz ->. by rewrite Z.land_0_l in Hz. Qed.

(** The error paths of [drm_mode_cursor_ioctl]: no operation requested
    (refused before the mutex is taken, even when it is held), an unknown
    CRTC, a buffer handle the memory manager does not know, and a CRTC
    without [cursor_set]; each returns the device as it was and calls no
    hook. *)
Theorem drm_mode_cursor_ioctl_errors s req :
  (cur_flags req = 0 -> drm_mode_cursor_ioctl s req = Some (s, - EINVAL)) /\
  (mc_locked s = false -> c_bool (cur_flags req) = true -> crtc_idr s !! cur_crtc req = None ->
   drm_mode_cursor_ioctl s req = Some (s, - EINVAL)) /\
  (forall crtc, mc_locked s = false -> c_bool (Z.land (cur_flags req) DRM_MODE_CURSOR_BO) = true ->
   is_Some (crtc_idr s !! cur_crtc req) -> find_crtc s (cur_crtc req) = Some crtc ->
   ((cur_handle req <> 0 /\ bo_lookup (cur_handle req) = None ->
     drm_mode_cursor_ioctl s req = Some (s, - EINVAL)) /\
    ((cur_handle req = 0 \/ is_Some (bo_lookup (cur_handle req))) -> crtc_cursor_set = None ->
     drm_mode_cursor_ioctl s req = Some (s, - EFAULT)))).
Proof.
  unfold drm_mode_cursor_ioctl, mutex_lock, idr_lookup. split_and!.
  - intros ->. done.
  - intros Hl Hf Hn. rewrite Hf, Hl. cbn. rewrite Hn. by rewrite mutex_unlock_lock.
  - intros crtc Hl Hbo [k Hk] Hc. pose proof (c_bool_land_nonzero _ _ Hbo) as Hf.
    rewrite Hf, Hl. cbn [negb mbind option_bind crtc_idr set_locked]. rewrite Hk.
    change (find_crtc (set_locked s true) (cur_crtc req)) with (find_crtc s (cur_crtc req)).
    rewrite Hc. unfold cursor_bo_part. rewrite Hbo. cbn [negb]. split.
    + intros [Hh Hn]. rewrite (proj2 (Z.eqb_neq _ _) Hh), Hn. cbn.
      by rewrite mutex_unlock_lock.
    + intros Hok Hset.
      assert ((cur_handle req =? 0) || bool_decide (is_Some (bo_lookup (cur_handle req))) = true)
        as -> by (destruct Hok as [->|Hs]; [done | by rewrite bool_decide_true, orb_true_r]).
      rewrite Hset. cbn. by rewrite mutex_unlock_lock.
Qed.
End cursor_props.

Section replacefb_props.
Context `{!DrmFuncs} `{!DrmBufferObjects}.

Definition base_event (c : drm_crtc) : drm_event := EvCrtcModeSetBase (crtc_id c) (crtc_x c) (crtc_y c).

Lemma replacefb_fold_none id l : fold_left (replacefb_crtc_step id) l None = None.
Proof. by induction l. Qed.

Lemma replacefb_fold_null id l s :
  (exists c, c ∈ l /\ crtc_fb c = None) -> fold_left (replacefb_crtc_step id) l (Some s) = None.
Proof.
  revert s. induction l as [|c l IH]; intros s (c' & Hin & Hn); [by apply not_elem_of_nil in Hin|].
  cbn [fold_left]. unfold replacefb_crtc_step at 2. cbn [mbind option_bind].
  destruct (crtc_fb c) as [fid|] eqn:Hc; [|apply replacefb_fold_none].
  apply elem_of_cons in Hin as [->|Hin]; [congruence|].
  cbn [mbind option_bind].
  repeat case_match; first [apply replacefb_fold_none | apply IH; by exists c'].
Qed.

Lemma replacefb_fold_ok id l s :
  Forall (fun c => is_Some (crtc_fb c) /\ (crtc_fb c = Some id -> crtc_has_mode_set_base c = true)) l ->
  fold_left (replacefb_crtc_step id) l (Some s) =
    Some (emit_all s (base_event <$> filter (fun c => crtc_fb c = Some id) l)).
Proof.
  revert s. induction l as [|c l IH]; intros s Hall; [done|].
  apply Forall_cons in Hall as [[[fid Hfb] Hbase] Hall].
  cbn [fold_left]. unfold replacefb_crtc_step at 2. rewrite Hfb, filter_cons.
  cbn [mbind option_bind]. destruct (Z.eqb_spec fid id) as [->|Hne].
  - rewrite Hbase, decide_True by done. by rewrite IH.
  - rewrite decide_False by congruence. by rewrite IH.
Qed.

(** The checks of [drm_mode_replacefb] pass: the mutex is free, the
    handle names a buffer object, the identifier a framebuffer the
    caller owns. *)
Definition replacefb_accepts (s : drm_mode_config) (f : drm_file) (r : drm_mode_fb_cmd)
    (kernel : bool) (fb : drm_framebuffer) : Prop :=
  mc_locked s = false /\ bo_lookup (fbc_handle r) = Some kernel /\
  is_Some (crtc_idr s !! fbc_buffer_id r) /\ find_fb s (fbc_buffer_id r) = Some fb /\
  fb_id fb ∈ file_fbs f.

(** The state after the accepted checks and the field updates. *)
Definition replacefb_updated (s : drm_mode_config) (r : drm_mode_fb_cmd) (kernel : bool)
    (fb : drm_framebuffer) : drm_mode_config :=
  update_fb (set_locked s true) (fb_id fb)
    (fun fb => mk_fb (fb_id fb) (fbc_width r) (fbc_height r) (fbc_pitch r)
                 (fbc_bpp r) (fbc_depth r) (fbc_handle r) kernel).

Lemma drm_mode_replacefb_accepted s f r kernel fb :
  replacefb_accepts s f r kernel fb ->
  drm_mode_replacefb s f r =
    s3 ← fold_left (replacefb_crtc_step (fbc_buffer_id r)) (crtc_list s)
           (Some (replacefb_updated s r kernel fb));
    Some (mutex_unlock s3, 0).
Proof.
  intros (Hl & Hbo & [k Hk] & Hfb & Hin). unfold drm_mode_replacefb, mutex_lock, idr_lookup.
  rewrite Hl. cbn [mbind option_bind]. rewrite Hbo. cbn [crtc_idr set_locked]. rewrite Hk.
  change (find_fb (set_locked s true) (fbc_buffer_id r)) with (find_fb s (fbc_buffer_id r)).
  rewrite Hfb. assert (existsb (fun x => x =? fb_id fb) (file_fbs f) = true) as ->.
  { apply existsb_exists. exists (fb_id fb). split; [by apply list_elem_of_In | apply Z.eqb_refl]. }
  done.
Qed.

(** C24: [drm_mode_replacefb] dereferences [crtc->fb] of every CRTC: once its
    checks pass, a single CRTC without framebuffer makes the call crash,
    whether or not that CRTC has anything to do with the framebuffer
    being replaced. *)
Theorem drm_mode_replacefb_null_crtc_fb s f r kernel fb :
  replacefb_accepts s f r kernel fb -> (exists c, c ∈ crtc_list s /\ crtc_fb c = None) ->
  drm_mode_replacefb s f r = None.
Proof.
  intros Hacc Hnull. rewrite (drm_mode_replacefb_accepted _ _ _ _ _ Hacc).
  by rewrite replacefb_fold_null.
Qed.

Lemma emit_all_fbs s evs : fb_list (emit_all s evs) = fb_list s.
Proof. apply (fold_left_preserve fb_list). done. Qed.

(** C23: When every CRTC has a framebuffer and those scanning out the
    replaced one have [mode_set_base], [drm_mode_replacefb] succeeds: the
    framebuffer takes the request's geometry and buffer object, each CRTC
    scanning it out reloads its base at its position, in list order, and
    nothing else changes. *)
Theorem drm_mode_replacefb_spec s f r kernel fb :
  replacefb_accepts s f r kernel fb ->
  Forall (fun c => is_Some (crtc_fb c) /\
            (crtc_fb c = Some (fbc_buffer_id r) -> crtc_has_mode_set_base c = true)) (crtc_list s) ->
  exists s', drm_mode_replacefb s f r = Some (s', 0) /\ mc_locked s' = false /\
    fb_list s' = map (fun x => if fb_id x =? fb_id fb
                               then mk_fb (fb_id x) (fbc_width r) (fbc_height r) (fbc_pitch r)
                                      (fbc_bpp r) (fbc_depth r) (fbc_handle r) kernel
                               else x) (fb_list s) /\
    crtc_list s' = crtc_list s /\ crtc_idr s' = crtc_idr s /\
    hw_trace s' = hw_trace s ++
      (base_event <$> filter (fun c => crtc_fb c = Some (fbc_buffer_id r)) (crtc_list s)).
Proof.
  intros Hacc Hall. rewrite (drm_mode_replacefb_accepted _ _ _ _ _ Hacc), replacefb_fold_ok by done.
  cbn [mbind option_bind]. eexists. split; [reflexivity|].
  cbn [mutex_unlock mc_locked set_locked fb_list crtc_list crtc_idr hw_trace].
  rewrite emit_all_fbs, emit_all_trace, !(proj2 (proj2 (emit_all_rest _ _))),
    !(proj1 (proj2 (emit_all_rest _ _))). done.
Qed.
End replacefb_props.

(** ** Witnesses *)

(** Two CRTCs without framebuffer and a framebuffer 3 of the caller,
    backed by buffer object 7. *)
Definition replace_config : drm_mode_config :=
  set_idr (set_fbs (sample_config []) [mk_fb 3 1024 768 4096 32 24 7 false])
    (<[3 := OBJ_FB]> (crtc_idr (sample_config []))).

(** The same device with both CRTCs scanning out framebuffer 3. *)
Definition replace_config_on : drm_mode_config :=
  set_crtcs replace_config [with_crtc_fb (sample_crtc 1) (Some 3); with_crtc_fb (sample_crtc 2) (Some 3)].

Definition replace_req : drm_mode_fb_cmd := mk_fb_cmd 3 800 600 3200 32 24 7.

Lemma drm_mode_replacefb_null_crtc_fb_witness :
  @drm_mode_replacefb sample_funcs sample_bos replace_config (mk_file [3]) replace_req = None.
Proof.
  apply (@drm_mode_replacefb_null_crtc_fb sample_funcs sample_bos replace_config (mk_file [3])
           replace_req false (mk_fb 3 1024 768 4096 32 24 7 false)).
  - split_and!; [reflexivity | reflexivity | by eexists | reflexivity | by left].
  - exists (sample_crtc 1). split; [by left | reflexivity].
Defined.

Lemma drm_mode_replacefb_spec_witness :
  exists s', @drm_mode_replacefb sample_funcs sample_bos replace_config_on (mk_file [3]) replace_req
               = Some (s', 0) /\
    hw_trace s' = [EvCrtcModeSetBase 1 0 0; EvCrtcModeSetBase 2 0 0].
Proof.
  destruct (@drm_mode_replacefb_spec sample_funcs sample_bos replace_config_on (mk_file [3])
           replace_req false (mk_fb 3 1024 768 4096 32 24 7 false)) as (s' & Hs & _ & _ & _ & _ & Ht).
  - split_and!; [reflexivity | reflexivity | by eexists | reflexivity | by left].
  - repeat constructor; by eexists.
  - exists s'. split; [exact Hs | exact Ht].
Defined.

Definition cursor_funcs : DrmCursorFuncs := {|
  crtc_cursor_set := Some (fun _ _ _ _ => - EINVAL);
  crtc_cursor_move := Some (fun _ _ _ => 0);
|}.

(** A cursor request on CRTC 1 with buffer object 7 and a move. *)
Definition cursor_req : drm_mode_cursor := mk_cursor 3 1 10 20 64 64 7.

Lemma drm_mode_cursor_set_error_lost_witness :
  @drm_mode_cursor_ioctl sample_bos cursor_funcs (sample_config []) cursor_req =
    Some (emit (emit (sample_config []) (EvCursorSet 1 (Some 7) 64 64)) (EvCursorMove 1 10 20), 0).
Proof.
  apply (@drm_mode_cursor_set_error_lost sample_bos cursor_funcs (sample_config []) cursor_req
           (sample_crtc 1) (fun _ _ _ _ => - EINVAL) (fun _ _ _ => 0));
    [reflexivity | reflexivity | by eexists | reflexivity | right; by eexists | reflexivity
    | reflexivity].
Defined.

Definition no_cursor_funcs : DrmCursorFuncs := {|
  crtc_cursor_set := None;
  crtc_cursor_move := None;
|}.

Lemma drm_mode_cursor_ioctl_errors_witness :
  @drm_mode_cursor_ioctl sample_bos no_cursor_funcs (sample_config []) cursor_req =
    Some (sample_config [], - EFAULT).
Proof.
  destruct (@drm_mode_cursor_ioctl_errors sample_bos no_cursor_funcs (sample_config []) cursor_req)
    as (_ & _ & H).
  apply (proj2 (H (sample_crtc 1) eq_refl eq_refl (ex_intro _ OBJ_CRTC eq_refl) eq_refl)).
  - right. by eexists.
  - reflexivity.
Defined.
