(* ===== verification/Store.v ===== *)
(** * The store invariant [config_wf]

    [config_wf s]: the registry never holds identifier 0, and for every
    kind of object the device keeps in a list (framebuffers, CRTCs,
    outputs, properties, blobs) the identifiers of the list are distinct
    and registered in [crtc_idr] with that kind.  An identifier has one
    kind, so objects of different kinds have different identifiers too:
    under [config_wf] an object and its identifier determine each other,
    which is what the model's use of identifiers for pointers relies on.
    Mode objects are registered but not kept in a list of the device; the
    invariant says nothing of them (leaked mode identifiers are allowed).

    The file proves that the constructors and destructors of
    [drm_crtc.c], the mode-apply protocol, the transaction, the prober,
    the assignment engine, initial configuration and hotplug preserve the
    invariant (the ioctls are in [StoreIoctls]), each under the condition
    the code needs: the
    creators need room in the idr (a full idr makes them store the
    identifier 0, which breaks the invariant), the destructors need an
    object of the device. *)

From S2P Require Import Prelude Idr Modes Config Property Probe PickCrtcs SetMode SetConfig Device Ioctl UserModes Scanout PropertyIoctl.
From Stdlib Require Import Morphisms.

(** ** The invariant *)

Definition entity_kinds : list drm_obj := [OBJ_FB; OBJ_CRTC; OBJ_OUTPUT; OBJ_PROPERTY; OBJ_BLOB].

(** The identifiers of the objects of one kind, in list order. *)
Definition kind_ids (s : drm_mode_config) (k : drm_obj) : list Z :=
  match k with
  | OBJ_FB => fb_id <$> fb_list s
  | OBJ_CRTC => crtc_id <$> crtc_list s
  | OBJ_OUTPUT => output_id <$> output_list s
  | OBJ_PROPERTY => prop_id <$> property_list s
  | OBJ_BLOB => blob_id <$> property_blob_list s
  | OBJ_MODE => []
  end.

Definition kind_wf (m : idr) (k : drm_obj) (ids : list Z) : Prop :=
  NoDup ids /\ Forall (fun id => m !! id = Some k) ids.

Definition config_wf (s : drm_mode_config) : Prop :=
  crtc_idr s !! 0 = None /\ Forall (fun k => kind_wf (crtc_idr s) k (kind_ids s k)) entity_kinds.

#[export] Instance config_wf_dec s : Decision (config_wf s).
Proof. unfold config_wf, kind_wf. apply _. Defined.

(** The registry grows without losing an object of a listed kind, and
    stays free of 0. *)
Definition idr_keeps (m m' : idr) : Prop :=
  (m !! 0 = None -> m' !! 0 = None) /\
  forall id k, k <> OBJ_MODE -> m !! id = Some k -> m' !! id = Some k.

#[export] Instance idr_keeps_preorder : PreOrder idr_keeps.
Proof. split; [by split | intros m1 m2 m3 [H1 H2] [H3 H4]; split; naive_solver]. Qed.

(** ** Generic lemmas *)

Lemma entity_kinds_spec k : k ∈ entity_kinds <-> k <> OBJ_MODE.
Proof. destruct k; unfold entity_kinds; split; intros H; try done; set_solver. Qed.

Lemma config_wf_iff s :
  config_wf s <->
  crtc_idr s !! 0 = None /\ forall k, k <> OBJ_MODE -> kind_wf (crtc_idr s) k (kind_ids s k).
Proof.
  unfold config_wf. rewrite Forall_forall.
  setoid_rewrite entity_kinds_spec. done.
Qed.

(** An identifier registered with one kind is not among the identifiers
    of another kind. *)
Lemma kind_ids_other s k k' id :
  config_wf s -> k' <> OBJ_MODE -> crtc_idr s !! id = Some k -> k' <> k ->
  id ∉ kind_ids s k'.
Proof.
  intros Hwf Hk' Hid Hne Hin. apply config_wf_iff in Hwf as [_ Hwf].
  destruct (Hwf k' Hk') as [_ Hreg]. rewrite Forall_forall in Hreg.
  specialize (Hreg id Hin). congruence.
Qed.

Lemma config_wf_keep s s' :
  config_wf s -> idr_keeps (crtc_idr s) (crtc_idr s') ->
  (forall k, kind_ids s' k = kind_ids s k) -> config_wf s'.
Proof.
  rewrite !config_wf_iff. intros [H0 Hw] [Hk0 Hk] Hids. split; [auto|].
  intros k Hk'. rewrite Hids. destruct (Hw k Hk') as [Hnd Hreg]. split; [done|].
  eapply Forall_impl; [done|]. intros id. by apply Hk.
Qed.

Lemma config_wf_insert s s' k id :
  config_wf s -> k <> OBJ_MODE -> id <> 0 -> crtc_idr s !! id = None ->
  crtc_idr s' = <[id := k]> (crtc_idr s) ->
  kind_ids s' k ≡ₚ id :: kind_ids s k ->
  (forall k', k' <> k -> kind_ids s' k' = kind_ids s k') -> config_wf s'.
Proof.
  rewrite !config_wf_iff. intros [H0 Hw] Hk Hid Hfree Hidr Hperm Hother. rewrite Hidr.
  split; [by rewrite lookup_insert_ne|]. intros k' Hk'. unfold kind_wf.
  assert (forall x k'', crtc_idr s !! x = Some k'' -> <[id := k]> (crtc_idr s) !! x = Some k'')
    as Hup by (intros x k'' Hx; rewrite lookup_insert_ne; [done|]; intros ->; congruence).
  destruct (decide (k' = k)) as [->|Hne].
  - rewrite Hperm. destruct (Hw k Hk) as [Hnd Hreg]. split.
    + constructor; [|done]. intros Hin. rewrite Forall_forall in Hreg.
      specialize (Hreg _ Hin). congruence.
    + constructor; [by rewrite lookup_insert_eq|]. eapply Forall_impl; [done|]. auto.
  - rewrite Hother by done. destruct (Hw k' Hk') as [Hnd Hreg]. split; [done|].
    eapply Forall_impl; [done|]. auto.
Qed.

Lemma remove_first_NoDup_Z (l : list Z) id :
  NoDup l -> NoDup (remove_first (fun x => x =? id) l).
Proof.
  intros Hnd. pose proof (remove_first_NoDup (fun x : Z => x) (fun x => x =? id) l) as H.
  rewrite !list_fmap_id in H. auto.
Qed.

Lemma config_wf_delete s s' k id :
  config_wf s -> k <> OBJ_MODE -> id ∈ kind_ids s k ->
  crtc_idr s' = delete id (crtc_idr s) ->
  kind_ids s' k = remove_first (fun x => x =? id) (kind_ids s k) ->
  (forall k', k' <> k -> kind_ids s' k' = kind_ids s k') -> config_wf s'.
Proof.
  rewrite !config_wf_iff. intros [H0 Hw] Hk Hin Hidr Hrem Hother. rewrite Hidr.
  destruct (Hw k Hk) as [Hnd Hreg].
  assert (crtc_idr s !! id = Some k) as Hid by (rewrite Forall_forall in Hreg; auto).
  split; [apply lookup_delete_None; by right|]. intros k' Hk'. unfold kind_wf.
  destruct (decide (k' = k)) as [->|Hne].
  - rewrite Hrem. split; [by apply remove_first_NoDup_Z|].
    apply Forall_forall. intros x Hx. rewrite lookup_delete_ne.
    + rewrite Forall_forall in Hreg. apply Hreg. by eapply remove_first_sub.
    + intros <-. pose proof (remove_first_key (fun x : Z => x) (kind_ids s k) id id) as Hkey.
      rewrite list_fmap_id in Hkey. by apply Hkey.
  - rewrite Hother by done. destruct (Hw k' Hk') as [Hnd' Hreg']. split; [done|].
    eapply Forall_impl; [done|]. intros x Hx. rewrite lookup_delete_ne; [done|].
    intros ->. congruence.
Qed.

Lemma fmap_remove_first {A} (f : A -> Z) (l : list A) k :
  f <$> remove_first (fun y => f y =? k) l = remove_first (fun x => x =? k) (f <$> l).
Proof.
  induction l as [|x l IH]; [done|]. rewrite fmap_cons. cbn [remove_first].
  destruct (f x =? k); [done|]. by rewrite fmap_cons, IH.
Qed.

(** ** How the setters move the identifiers *)

Create Rewrite HintDb drm_kind.

Section kind_ids_setters.
Context (s : drm_mode_config) (k : drm_obj).

Lemma kind_ids_set_idr m : kind_ids (set_idr s m) k = kind_ids s k.
Proof. by destruct k. Qed.
Lemma kind_ids_set_locked b : kind_ids (set_locked s b) k = kind_ids s k.
Proof. by destruct k. Qed.
Lemma kind_ids_emit e : kind_ids (emit s e) k = kind_ids s k.
Proof. by destruct k. Qed.
Lemma kind_ids_set_counts a b c : kind_ids (set_counts s a b c) k = kind_ids s k.
Proof. by destruct k. Qed.
Lemma kind_ids_set_hotplug n : kind_ids (set_hotplug s n) k = kind_ids s k.
Proof. by destruct k. Qed.
Lemma kind_ids_mutex_unlock : kind_ids (mutex_unlock s) k = kind_ids s k.
Proof. by destruct k. Qed.
End kind_ids_setters.

#[export] Hint Rewrite kind_ids_set_idr kind_ids_set_locked kind_ids_emit kind_ids_set_counts
  kind_ids_set_hotplug kind_ids_mutex_unlock : drm_kind.

(** A map over a list that keeps the identifier of every element. *)
Lemma fmap_map_keep {A} (f : A -> Z) (g : A -> A) (l : list A) :
  (forall x, f (g x) = f x) -> f <$> map g l = f <$> l.
Proof. intros Hg. induction l as [|x l IH]; [done|]. rewrite map_cons, !fmap_cons, IH. by rewrite Hg. Qed.

Lemma kind_ids_update_crtc s cid f k :
  (forall c, crtc_id (f c) = crtc_id c) -> kind_ids (update_crtc s cid f) k = kind_ids s k.
Proof.
  intros Hf. destruct k; try done. cbn. apply fmap_map_keep.
  intros c. by destruct (crtc_id c =? cid).
Qed.

Lemma kind_ids_update_output s oid f k :
  (forall o, output_id (f o) = output_id o) -> kind_ids (update_output s oid f) k = kind_ids s k.
Proof.
  intros Hf. destruct k; try done. cbn. apply fmap_map_keep.
  intros o. by destruct (output_id o =? oid).
Qed.

Lemma kind_ids_emit_all s evs k : kind_ids (emit_all s evs) k = kind_ids s k.
Proof. apply (fold_left_preserve (fun s => kind_ids s k)). intros. apply kind_ids_emit. Qed.

#[export] Hint Rewrite kind_ids_emit_all : drm_kind.

(** ** The registry operations *)

Lemma idr_keeps_get m o : idr_keeps m (drm_idr_get m o).1.
Proof.
  destruct (drm_idr_get_cases m o) as (r & _ & Hr & Hfree & _ & _ & [[-> _]|[-> _]]);
    simpl; [|reflexivity].
  split; [intros; rewrite lookup_insert_ne; [done|lia]|].
  intros id k _ H. rewrite lookup_insert_ne; [done|]. intros ->. congruence.
Qed.

(** What [drm_idr_get] hands out is registered with the requested kind,
    or is 0, which the registry does not hold. *)
Lemma drm_idr_get_kind m o k :
  m !! 0 = None -> (drm_idr_get m o).1 !! (drm_idr_get m o).2 = Some k -> k = o.
Proof.
  intros H0. destruct (drm_idr_get_cases m o) as (r & _ & _ & _ & _ & _ & [[-> _]|[-> _]]);
    simpl; [rewrite lookup_insert_eq; congruence | congruence].
Qed.

Lemma idr_keeps_delete m id :
  (forall k, m !! id = Some k -> k = OBJ_MODE) -> idr_keeps m (delete id m).
Proof.
  intros Hid. split; [intros; apply lookup_delete_None; by right|].
  intros id' k Hk H. rewrite lookup_delete_ne; [done|]. intros <-. by apply Hk, Hid.
Qed.

Lemma drm_mode_duplicate_keeps m mode :
  m !! 0 = None ->
  idr_keeps m (drm_mode_duplicate m mode).1 /\
  forall k, (drm_mode_duplicate m mode).1 !! mode_id (drm_mode_duplicate m mode).2 = Some k ->
            k = OBJ_MODE.
Proof.
  intros H0. pose proof (idr_keeps_get m OBJ_MODE) as Hk.
  pose proof (drm_idr_get_kind m OBJ_MODE) as Hkind.
  unfold drm_mode_duplicate, drm_mode_create.
  destruct (drm_idr_get m OBJ_MODE) as [m' id]. simpl in *. auto.
Qed.

(** ** Tactics *)

(** Rewrites [kind_ids] through the setters and the identifier-keeping
    updates. *)
Ltac kind_ids_rw :=
  repeat first
    [ rewrite kind_ids_update_crtc by (intros; reflexivity)
    | rewrite kind_ids_update_output by (intros; reflexivity)
    | progress autorewrite with drm_kind ].

(** Reduces a goal [config_wf s'] whose [s'] keeps the identifiers of
    [s] to a goal on the registries. *)
Ltac wf_keep s :=
  apply (config_wf_keep s); [done | | intros ?k; kind_ids_rw; try reflexivity].

(** ** Updates that keep the identifiers *)

Create HintDb drm_wf discriminated.

Section keep.
Context (s : drm_mode_config) (Hwf : config_wf s).

Lemma config_wf_update_crtc cid f :
  (forall c, crtc_id (f c) = crtc_id c) -> config_wf (update_crtc s cid f).
Proof. intros Hf. wf_keep s; [done|]. by rewrite kind_ids_update_crtc. Qed.

Lemma config_wf_update_output oid f :
  (forall o, output_id o = oid -> output_id (f o) = oid) -> config_wf (update_output s oid f).
Proof. intros Hf. wf_keep s; [done|]. destruct k; try done. by apply update_output_ids. Qed.

Lemma config_wf_set_outputs l :
  output_id <$> l = output_id <$> output_list s -> config_wf (set_outputs s l).
Proof. intros Hl. wf_keep s; [done|]. destruct k; [..|done|]; done. Qed.

Lemma config_wf_set_crtcs l :
  crtc_id <$> l = crtc_id <$> crtc_list s -> config_wf (set_crtcs s l).
Proof. intros Hl. wf_keep s; [done|]. destruct k; [|done|..]; done. Qed.

Lemma config_wf_set_idr m : idr_keeps (crtc_idr s) m -> config_wf (set_idr s m).
Proof. intros Hm. by wf_keep s. Qed.

Lemma config_wf_emit e : config_wf (emit s e).
Proof. by wf_keep s. Qed.

Lemma config_wf_emit_all evs : config_wf (emit_all s evs).
Proof. wf_keep s. by rewrite (proj2 (proj2 (emit_all_rest _ _))). Qed.

Lemma config_wf_set_locked b : config_wf (set_locked s b).
Proof. by wf_keep s. Qed.

Lemma config_wf_set_counts a b c : config_wf (set_counts s a b c).
Proof. by wf_keep s. Qed.

Lemma config_wf_set_hotplug n : config_wf (set_hotplug s n).
Proof. by wf_keep s. Qed.


End keep.

Lemma fold_left_invariant {A B} (P : A -> Prop) (f : A -> B -> A) l s :
  (forall s b, P s -> P (f s b)) -> P s -> P (fold_left f l s).
Proof. intros Hf. revert s. induction l as [|b l IH]; intros s Hs; simpl; auto. Qed.

(** A fold whose steps keep the registry and every identifier list. *)
Lemma config_wf_fold_keep {B} (f : drm_mode_config -> B -> drm_mode_config) l s :
  (forall s b k, crtc_idr (f s b) = crtc_idr s /\ kind_ids (f s b) k = kind_ids s k) ->
  config_wf s -> config_wf (fold_left f l s).
Proof.
  intros Hf. apply fold_left_invariant. intros s0 b Hwf.
  wf_keep s0; [by rewrite (proj1 (Hf s0 b OBJ_FB)) | apply Hf].
Qed.

Lemma config_wf_disable_unused s : config_wf s -> config_wf (drm_disable_unused_functions s).
Proof.
  intros Hwf. unfold drm_disable_unused_functions.
  apply config_wf_fold_keep; [|apply config_wf_fold_keep; [|done]];
    intros s0 b k; unfold disable_output_step, disable_crtc_step; repeat case_match;
    by rewrite ?kind_ids_emit.
Qed.

(** ** The assignment engine *)

Lemma pick_one_rest s k :
  crtc_idr (pick_one s k) = crtc_idr s /\ fb_list (pick_one s k) = fb_list s /\
  property_list (pick_one s k) = property_list s /\
  property_blob_list (pick_one s k) = property_blob_list s.
Proof. unfold pick_one. by repeat case_match. Qed.

Theorem drm_pick_crtcs_wf s : config_wf s -> config_wf (drm_pick_crtcs s).
Proof.
  apply config_wf_fold_keep. intros s0 i k.
  destruct (pick_one_rest s0 i) as (Hidr & Hfb & Hp & Hb). split; [done|].
  destruct k; cbn [kind_ids]; rewrite ?Hfb, ?Hp, ?Hb; try done.
  - apply pick_one_crtc_ids.
  - apply output_ids_of_keys, pick_one_keys.
Qed.

(** ** The prober *)

Lemma probe_fallback_keeps m probed ms :
  m !! 0 = None -> idr_keeps m (probe_fallback m probed ms).1.1.
Proof.
  intros H0. unfold probe_fallback. destruct ms; [|reflexivity].
  destruct (drm_mode_duplicate_keeps m std_mode H0) as [Hk _].
  destruct (drm_mode_duplicate m std_mode). exact Hk.
Qed.

Section prober.
Context `{!DrmFuncs}.

Theorem drm_crtc_probe_single_output_modes_wf s oid maxX maxY :
  config_wf s -> config_wf (drm_crtc_probe_single_output_modes s oid maxX maxY).
Proof.
  intros Hwf. pose proof Hwf as [H0 _]. unfold drm_crtc_probe_single_output_modes.
  destruct (find_output s oid) as [o0|] eqn:Ho; [|done]. apply find_output_id in Ho.
  case_bool_decide; [by apply config_wf_update_output|].
  destruct (probe_fallback (crtc_idr s) _ _) as [[m' probed] ms3] eqn:Hfb.
  apply config_wf_update_output.
  - apply config_wf_set_idr; [done|].
    match type of Hfb with probe_fallback ?m ?p ?l = _ =>
      pose proof (probe_fallback_keeps m p l H0) as Hk end.
    by rewrite Hfb in Hk.
  - intros o _. cbn [output_id with_output_modes]. by rewrite probe_merge_id.
Qed.

Theorem drm_crtc_probe_output_modes_wf s maxX maxY :
  config_wf s -> config_wf (drm_crtc_probe_output_modes s maxX maxY).
Proof.
  apply fold_left_invariant. intros s0 o. apply drm_crtc_probe_single_output_modes_wf.
Qed.
End prober.

(** ** The mode-apply protocol *)

Section protocol.
Context `{!DrmFuncs}.

Theorem drm_crtc_set_mode_wf s cid mode x y :
  config_wf s -> config_wf (drm_crtc_set_mode s cid mode x y).1.
Proof.
  intros Hwf. pose proof Hwf as [H0 _].
  destruct (drm_mode_duplicate_keeps (crtc_idr s) mode H0) as [Hk Hmode].
  unfold drm_crtc_set_mode. destruct (find_crtc s cid) as [crtc0|]; [|done].
  destruct (drm_mode_duplicate (crtc_idr s) mode) as [m1 adj]. simpl in Hk, Hmode.
  repeat case_match; cbn [fst]; wf_keep s; cbn [crtc_idr update_crtc set_crtcs set_idr emit];
    try done.
  unfold drm_mode_destroy, drm_idr_put. rewrite (proj2 (proj2 (emit_all_rest _ _))).
  cbn [crtc_idr update_crtc set_crtcs set_idr]. etransitivity; [done|].
  by apply idr_keeps_delete.
Qed.

Lemma drm_crtc_set_mode_wf_eq s cid mode x y s' b :
  drm_crtc_set_mode s cid mode x y = (s', b) -> config_wf s -> config_wf s'.
Proof. intros Heq Hwf. change s' with (s', b).1. rewrite <- Heq. by apply drm_crtc_set_mode_wf. Qed.

Lemma restore_bindings_ids outs saved :
  length saved = length outs -> output_id <$> restore_bindings outs saved = output_id <$> outs.
Proof.
  revert saved. induction outs as [|o outs IH]; intros [|c saved] Hl; try done.
  cbn in *. rewrite IH; [done|lia].
Qed.

Theorem drm_crtc_set_config_wf s set :
  config_wf s -> config_wf (drm_crtc_set_config s set).1.
Proof.
  intros Hwf. unfold drm_crtc_set_config.
  destruct (ms_crtc set) as [cid|]; [|done]. destruct (find_crtc s cid) as [crtc|]; [|done].
  assert (Hl : length (map (fun o => with_output_crtc o (new_binding set cid o)) (output_list s))
               = length (output_list s)) by apply length_map.
  assert (Hs1 : config_wf (set_outputs s (map (fun o => with_output_crtc o (new_binding set cid o))
                                              (output_list s))))
    by (apply config_wf_set_outputs; [done | by apply fmap_map_keep]).
  repeat case_match; cbn [fst];
    repeat first
      [ apply config_wf_disable_unused | apply config_wf_emit
      | apply config_wf_update_crtc; [|intros; reflexivity]
      | match goal with H : drm_crtc_set_mode _ _ _ _ _ = _ |- _ =>
          apply (drm_crtc_set_mode_wf_eq _ _ _ _ _ _ _ H) end
      | done ].
  match goal with H : drm_crtc_set_mode ?s2 ?c ?m ?x ?y = (?s3, _) |- _ =>
    pose proof (drm_crtc_set_mode_output_list s2 c m x y) as Ho; rewrite H in Ho;
    pose proof (drm_crtc_set_mode_wf_eq _ _ _ _ _ _ _ H) as Hw3 end.
  apply config_wf_set_outputs.
  - apply config_wf_update_crtc; [|intros; reflexivity]. apply Hw3.
    apply config_wf_update_crtc; [done | intros; reflexivity].
  - apply restore_bindings_ids. cbn in Ho |- *. by rewrite length_map, Ho, length_map.
Qed.
End protocol.

(** ** Constructors and destructors *)

(** With room in the registry, [drm_idr_get] registers a fresh non-zero
    identifier. *)
Lemma drm_idr_get_room m o :
  m !! 0 = None -> Z.of_nat (size m) < MAX_ID ->
  exists id, id <> 0 /\ m !! id = None /\ drm_idr_get m o = (<[id := o]> m, id).
Proof.
  intros H0 Hroom. destruct (drm_idr_get_fresh m o H0) as (id & Hfree & [[Hid Hg]|(_ & _ & Hmax)]);
    [by exists id | lia].
Qed.

(** The registry has room and does not hold 0. *)
Definition idr_room (s : drm_mode_config) : Prop := Z.of_nat (size (crtc_idr s)) < MAX_ID.

(** The identifier lists of the kinds an operation does not touch. *)
Ltac other_kinds := let k := fresh "k" in let Hk := fresh "Hk" in
  intros k Hk; destruct k; try done.

Theorem drm_framebuffer_create_wf s :
  config_wf s -> idr_room s -> config_wf (drm_framebuffer_create s).1.
Proof.
  intros Hwf Hroom. destruct (drm_idr_get_room (crtc_idr s) OBJ_FB (proj1 Hwf) Hroom)
    as (id & Hid & Hfree & Hg).
  unfold drm_framebuffer_create. rewrite Hg.
  apply (config_wf_insert s _ OBJ_FB id).
  1-6: done.
  other_kinds.
Qed.

Theorem drm_framebuffer_destroy_wf s fb :
  config_wf s -> fb ∈ fb_id <$> fb_list s -> config_wf (drm_framebuffer_destroy s fb).
Proof.
  intros Hwf Hin. apply (config_wf_delete s _ OBJ_FB fb); try done.
  - cbn. apply fmap_remove_first.
  - other_kinds. cbn. apply fmap_map_keep. intros c. by case_bool_decide.
Qed.

Theorem drm_crtc_create_wf s :
  config_wf s -> idr_room s -> config_wf (drm_crtc_create s).1.
Proof.
  intros Hwf Hroom. destruct (drm_idr_get_room (crtc_idr s) OBJ_CRTC (proj1 Hwf) Hroom)
    as (id & Hid & Hfree & Hg).
  unfold drm_crtc_create. rewrite Hg.
  apply (config_wf_insert s _ OBJ_CRTC id); try done; [|other_kinds].
  cbn. rewrite fmap_app. symmetry. apply Permutation_cons_append.
Qed.

Theorem drm_crtc_destroy_wf s cid :
  config_wf s -> cid ∈ crtc_id <$> crtc_list s -> config_wf (drm_crtc_destroy s cid).
Proof.
  intros Hwf Hin. apply (config_wf_delete s _ OBJ_CRTC cid); try done; [|other_kinds].
  cbn. apply fmap_remove_first.
Qed.

Lemma drm_output_attach_property_id o p v :
  output_id (drm_output_attach_property o p v).2 = output_id o.
Proof. unfold drm_output_attach_property. by case_match. Qed.

Theorem drm_output_create_wf s t :
  config_wf s -> idr_room s -> mc_locked s = false ->
  exists s' id, drm_output_create s t = Some (s', id) /\ config_wf s'.
Proof.
  intros Hwf Hroom Hl. destruct (drm_idr_get_room (crtc_idr s) OBJ_OUTPUT (proj1 Hwf) Hroom)
    as (id & Hid & Hfree & Hg).
  unfold drm_output_create, mutex_lock. rewrite Hg. cbn [mc_locked set_idr]. rewrite Hl.
  do 2 eexists. split; [reflexivity|].
  apply (config_wf_insert s _ OBJ_OUTPUT id); try done; [|other_kinds].
  cbn. rewrite fmap_app, !fmap_cons, !drm_output_attach_property_id. cbn.
  symmetry. apply Permutation_cons_append.
Qed.

Theorem drm_output_destroy_wf s oid :
  config_wf s -> oid ∈ output_id <$> output_list s -> mc_locked s = false ->
  exists s', drm_output_destroy s oid = Some s' /\ config_wf s'.
Proof.
  intros Hwf Hin Hl. unfold drm_output_destroy, mutex_lock. cbn [mc_locked emit]. rewrite Hl.
  eexists. split; [reflexivity|].
  apply (config_wf_delete s _ OBJ_OUTPUT oid); try done; [|other_kinds].
  cbn. apply fmap_remove_first.
Qed.

Section properties.
Context (s : drm_mode_config) (Hwf : config_wf s).

Theorem drm_property_create_wf flags name n :
  idr_room s -> config_wf (drm_property_create s flags name n).1.
Proof.
  intros Hroom. destruct (drm_idr_get_room (crtc_idr s) OBJ_PROPERTY (proj1 Hwf) Hroom)
    as (id & Hid & Hfree & Hg).
  unfold drm_property_create. rewrite Hg.
  apply (config_wf_insert s _ OBJ_PROPERTY id); try done; [|other_kinds].
  cbn. rewrite fmap_app. symmetry. apply Permutation_cons_append.
Qed.

Theorem drm_property_destroy_wf pid :
  pid ∈ prop_id <$> property_list s -> config_wf (drm_property_destroy s pid).
Proof.
  intros Hin. apply (config_wf_delete s _ OBJ_PROPERTY pid); try done; [|other_kinds].
  cbn. apply fmap_remove_first.
Qed.

Theorem drm_property_create_blob_wf len data :
  idr_room s -> config_wf (drm_property_create_blob s len data).1.
Proof.
  intros Hroom. destruct (drm_idr_get_room (crtc_idr s) OBJ_BLOB (proj1 Hwf) Hroom)
    as (id & Hid & Hfree & Hg).
  unfold drm_property_create_blob. destruct data as [d|]; [|done].
  destruct (len =? 0); [done|]. rewrite Hg.
  apply (config_wf_insert s _ OBJ_BLOB id); try done; [|other_kinds].
  cbn. rewrite fmap_app. symmetry. apply Permutation_cons_append.
Qed.

Theorem drm_property_destroy_blob_config_wf bid :
  bid ∈ blob_id <$> property_blob_list s -> config_wf (drm_property_destroy_blob s bid).
Proof.
  intros Hin. apply (config_wf_delete s _ OBJ_BLOB bid); try done; [|other_kinds].
  cbn. apply fmap_remove_first.
Qed.
End properties.

(** ** Property creation in sequence *)

(** Room for [n] more identifiers after the next one. *)
Definition idr_room_n (s : drm_mode_config) (n : Z) : Prop :=
  Z.of_nat (size (crtc_idr s)) + n < MAX_ID.

Lemma drm_property_create_room s flags name n k :
  config_wf s -> 0 <= k + 1 -> idr_room_n s (k + 1) ->
  config_wf (drm_property_create s flags name n).1 /\ idr_room_n (drm_property_create s flags name n).1 k.
Proof.
  intros Hwf Hk Hroom. assert (idr_room s) as Hr by (unfold idr_room, idr_room_n in *; lia).
  split; [by apply drm_property_create_wf|].
  destruct (drm_idr_get_room (crtc_idr s) OBJ_PROPERTY (proj1 Hwf) Hr) as (id & _ & Hfree & Hg).
  unfold drm_property_create, idr_room_n in *. rewrite Hg. cbn [fst crtc_idr set_properties set_idr].
  rewrite map_size_insert_None by done. lia.
Qed.

Lemma drm_property_add_enum_id p i v n : prop_id (drm_property_add_enum p i v n).2 = prop_id p.
Proof. unfold drm_property_add_enum. by repeat case_match. Qed.

Lemma kind_ids_update_property s pid f k :
  (forall p, prop_id (f p) = prop_id p) -> kind_ids (update_property s pid f) k = kind_ids s k.
Proof.
  intros Hf. destruct k; try done. cbn. apply fmap_map_keep.
  intros p. by destruct (prop_id p =? pid).
Qed.

(** Updates of one property keep the invariant and the room. *)
Lemma config_wf_update_property s pid f n :
  (forall p, prop_id (f p) = prop_id p) -> config_wf s -> idr_room_n s n ->
  config_wf (update_property s pid f) /\ idr_room_n (update_property s pid f) n.
Proof. intros Hf Hwf Hr. split; [|done]. wf_keep s; [done|]. by rewrite kind_ids_update_property. Qed.

Lemma config_wf_add_enum_list s pid l n :
  config_wf s -> idr_room_n s n -> config_wf (add_enum_list s pid l) /\ idr_room_n (add_enum_list s pid l) n.
Proof.
  unfold add_enum_list. intros Hwf Hr.
  apply (fold_left_invariant (fun s => config_wf s /\ idr_room_n s n)); [|done].
  intros s0 [i [v nm]] [Hw0 Hr0]. apply config_wf_update_property; [|done|done].
  intros p. apply drm_property_add_enum_id.
Qed.

(** A margin property: created with two values, then given the range
    [0, 100]. *)
Lemma create_range_wf s flags name k :
  config_wf s -> 0 <= k -> idr_room_n s (k + 1) ->
  config_wf (set_range (drm_property_create s flags name 2).1 (drm_property_create s flags name 2).2 0 100) /\
  idr_room_n (set_range (drm_property_create s flags name 2).1 (drm_property_create s flags name 2).2 0 100) k.
Proof.
  intros Hwf Hk Hr. destruct (drm_property_create_room s flags name 2 k Hwf ltac:(lia) Hr) as [Hw1 Hr1].
  by apply config_wf_update_property.
Qed.

Ltac tv_margin k :=
  match goal with
  | Hw : config_wf ?s, Hr : idr_room_n ?s _ |- context [drm_property_create ?s ?fl ?nm 2] =>
      destruct (create_range_wf s fl nm k Hw ltac:(lia) ltac:(unfold idr_room_n in *; lia)) as [?Hw ?Hr];
      destruct (drm_property_create s fl nm 2); cbn [fst snd] in *; clear Hw Hr
  end.

(** [drm_create_tv_properties] keeps the invariant when the idr has room
    for its five properties. *)
Theorem drm_create_tv_properties_wf s modes :
  config_wf s -> idr_room_n s 4 -> config_wf (drm_create_tv_properties s modes).1.
Proof.
  intros Hwf Hr. unfold drm_create_tv_properties.
  tv_margin 3. tv_margin 2. tv_margin 1. tv_margin 0.
  match goal with
  | Hw : config_wf ?s, Hr : idr_room_n ?s _ |- context [drm_property_create ?s ?fl ?nm ?n] =>
      destruct (drm_property_create_room s fl nm n (-1) Hw ltac:(lia) ltac:(unfold idr_room_n in *; lia))
        as [Hw5 Hr5];
      destruct (drm_property_create s fl nm n); cbn [fst snd] in *
  end.
  apply (config_wf_add_enum_list _ _ _ (-1)); [match goal with |- config_wf (set_tv_props ?x _) => by wf_keep x end | done].
Qed.

(** ** Initialisation, initial configuration and hotplug *)

(** The state [drm_mode_config_init] builds satisfies the invariant; the
    check is executable. *)
Lemma drm_mode_config_init_wf : config_wf drm_mode_config_init.
Proof. decide_by_compute. Qed.

Section device.
Context `{!DrmFuncs} `{!DrmDriver}.

Lemma fb_probe_step_wf s crtc o : config_wf s -> config_wf (fb_probe_step s crtc o).
Proof.
  intros Hwf. unfold fb_probe_step. apply config_wf_emit.
  case_match; [|done]. by apply config_wf_update_crtc.
Qed.

Lemma initial_config_step_wf s oid : config_wf s -> config_wf (initial_config_step s oid).
Proof.
  intros Hwf. unfold initial_config_step. repeat case_match; try done.
  - by apply drm_crtc_set_mode_wf, fb_probe_step_wf.
  - by apply fb_probe_step_wf.
Qed.

Theorem drm_initial_config_wf s can_grow r :
  config_wf s -> drm_initial_config s can_grow = Some r -> config_wf r.1.
Proof.
  intros Hwf. unfold drm_initial_config, mutex_lock. case_match; [done|]. intros [= <-].
  cbn [fst]. apply config_wf_set_locked, config_wf_disable_unused.
  apply fold_left_invariant; [intros; by apply initial_config_step_wf|].
  by apply drm_pick_crtcs_wf, drm_crtc_probe_output_modes_wf, config_wf_set_locked.
Qed.

Theorem drm_hotplug_stage_two_wf s oid connected :
  config_wf s -> config_wf (drm_hotplug_stage_two s oid connected).1.
Proof.
  intros Hwf. unfold drm_hotplug_stage_two.
  assert (config_wf (set_hotplug s (hotplug_counter s + 1))) as H1
    by by apply config_wf_set_hotplug.
  destruct connected; [|done]. cbn [negb].
  pose proof (drm_crtc_probe_output_modes_wf _ 2048 2048 H1) as H2.
  destruct (bool_decide _); cbn [negb];
    [|pose proof (drm_pick_crtcs_wf _ H2) as H3];
    repeat case_match; cbn [fst]; try done;
    apply config_wf_disable_unused, config_wf_emit;
    first [by apply drm_crtc_set_mode_wf, config_wf_emit | by apply fb_probe_step_wf].
Qed.
End device.

(** ** User modes attached by the kernel *)

Lemma drm_mode_attachmode_wf s oid mode : config_wf s -> config_wf (drm_mode_attachmode s oid mode).1.
Proof. intros Hwf. by apply config_wf_update_output. Qed.

(** [drm_mode_attachmode_crtc]: the duplicates are fresh mode objects. *)
Lemma drm_mode_attachmode_crtc_wf s cid mode :
  config_wf s -> config_wf (drm_mode_attachmode_crtc s cid mode).1.
Proof.
  intros Hwf. unfold drm_mode_attachmode_crtc. cbn [fst].
  apply (fold_left_invariant (fun acc => config_wf acc.1)); [|done].
  intros [s0 need_dup] o Hs0. cbn [fst] in Hs0. unfold attachmode_crtc_step.
  destruct (bool_decide _); [|done]. cbn [fst]. destruct need_dup; [|by apply drm_mode_attachmode_wf].
  destruct (drm_mode_duplicate_keeps (crtc_idr s0) mode (proj1 Hs0)) as [Hk _].
  destruct (drm_mode_duplicate _ _) as [m' d]. by apply drm_mode_attachmode_wf, config_wf_set_idr.
Qed.

(** ** The invariant over the whole program *)

Section preservation.
Context `{!DrmFuncs} `{!DrmDriver}.

(** C9: on a device whose store is well formed (no identifier 0, the
    framebuffers, CRTCs, outputs, properties and blobs each with distinct
    identifiers registered with their kind), the transaction, the
    mode-apply protocol, the prober, the assignment engine, the power-off
    sweep, initial configuration, hotplug and the driver's
    [drm_mode_attachmode_crtc] leave the store well formed, whatever the
    request and the driver hooks, and so does [drm_create_tv_properties]
    when the idr has room for its five properties. *)
Theorem config_wf_mode_setting s :
  config_wf s ->
  (forall set, config_wf (drm_crtc_set_config s set).1) /\
  (forall cid mode x y, config_wf (drm_crtc_set_mode s cid mode x y).1) /\
  (forall maxX maxY, config_wf (drm_crtc_probe_output_modes s maxX maxY)) /\
  config_wf (drm_pick_crtcs s) /\ config_wf (drm_disable_unused_functions s) /\
  (forall can_grow r, drm_initial_config s can_grow = Some r -> config_wf r.1) /\
  (forall oid c, config_wf (drm_hotplug_stage_two s oid c).1) /\
  (forall cid mode, config_wf (drm_mode_attachmode_crtc s cid mode).1) /\
  (forall modes, idr_room_n s 4 -> config_wf (drm_create_tv_properties s modes).1).
Proof.
  intros Hwf. split_and!; intros.
  - by apply drm_crtc_set_config_wf.
  - by apply drm_crtc_set_mode_wf.
  - by apply drm_crtc_probe_output_modes_wf.
  - by apply drm_pick_crtcs_wf.
  - by apply config_wf_disable_unused.
  - by eapply drm_initial_config_wf.
  - by apply drm_hotplug_stage_two_wf.
  - by apply drm_mode_attachmode_crtc_wf.
  - by apply drm_create_tv_properties_wf.
Qed.
End preservation.

(** ** Witnesses *)

(** The device of [drm_mode_config_init] with two CRTCs and an output. *)
Definition wf_sample : drm_mode_config :=
  default drm_mode_config_init
    ((fun r => r.1) <$> drm_output_create (drm_crtc_create (drm_crtc_create drm_mode_config_init).1).1 0).

Lemma config_wf_mode_setting_witness :
  config_wf wf_sample /\
  config_wf (@drm_crtc_set_config sample_funcs wf_sample
               (mk_mode_set (Some 5) 0 0 (Some mode_720p) [7] None)).1.
Proof.
  assert (config_wf wf_sample) as H by decide_by_compute.
  split; [exact H|].
  destruct (@config_wf_mode_setting sample_funcs sample_driver wf_sample H) as [Hset _].
  apply Hset.
Defined.
