(* ===== verification/StoreIoctls.v ===== *)
(** * The store invariant under the ioctls

    The ioctl handlers keep [config_wf]; the framebuffer list of the
    calling file stays a list of distinct framebuffers of the device
    ([file_wf]): [drm_mode_addfb] needs room in the idr,
    [drm_mode_detachmode_ioctl] needs the user modes of the output to own
    their identifiers ([user_modes_registered]), the others need nothing.
    The handlers that do not create or destroy framebuffers leave the
    framebuffer list as it was. *)

From S2P Require Import Prelude Idr Modes Config Property Probe PickCrtcs SetMode SetConfig Device Ioctl UserModes Scanout PropertyIoctl Store.

(** ** The ioctls *)

(** The invariant of a file's framebuffer list: distinct framebuffers of
    the device. *)
Definition file_wf (s : drm_mode_config) (f : drm_file) : Prop :=
  NoDup (file_fbs f) /\ Forall (fun id => id ∈ fb_id <$> fb_list s) (file_fbs f).

#[export] Instance file_wf_dec s f : Decision (file_wf s f).
Proof. unfold file_wf. apply _. Defined.

Lemma fb_ids_destroy s x : fb_id <$> fb_list (drm_framebuffer_destroy s x) =
  remove_first (fun y => y =? x) (fb_id <$> fb_list s).
Proof. apply fmap_remove_first. Qed.

(** Destroying one framebuffer keeps the others. *)
Lemma fb_ids_destroy_other s x y :
  y ∈ fb_id <$> fb_list s -> y <> x -> y ∈ fb_id <$> fb_list (drm_framebuffer_destroy s x).
Proof. intros Hy Hne. rewrite fb_ids_destroy. apply remove_first_keep; [done|]. by apply Z.eqb_neq. Qed.

Lemma fb_release_fold_wf l s :
  config_wf s -> NoDup l -> Forall (fun id => id ∈ fb_id <$> fb_list s) l ->
  config_wf (fold_left drm_framebuffer_destroy l s).
Proof.
  revert s. induction l as [|x l IH]; intros s Hwf Hnd Hin; [done|].
  apply NoDup_cons in Hnd as [Hx Hnd]. apply Forall_cons in Hin as [Hxin Hin]. simpl.
  apply IH; [by apply drm_framebuffer_destroy_wf | done |].
  apply Forall_forall. intros y Hy. rewrite Forall_forall in Hin.
  apply fb_ids_destroy_other; [by apply Hin | by intros ->].
Qed.

Lemma wf_registered s k x :
  config_wf s -> k <> OBJ_MODE -> x ∈ kind_ids s k -> crtc_idr s !! x = Some k.
Proof.
  intros Hwf Hk Hx. apply config_wf_iff in Hwf as [_ Hw].
  destruct (Hw k Hk) as [_ Hreg]. rewrite Forall_forall in Hreg. auto.
Qed.

Lemma find_fb_elem s id fb : find_fb s id = Some fb -> fb_id fb ∈ fb_id <$> fb_list s.
Proof. intros [? _]%find_first_Some. by apply list_elem_of_fmap_2. Qed.

Theorem drm_fb_release_wf s f r :
  config_wf s -> file_wf s f -> drm_fb_release s f = Some r ->
  config_wf r.1 /\ file_wf r.1 r.2.
Proof.
  intros Hwf [Hnd Hin]. unfold drm_fb_release, mutex_lock. case_match; [done|].
  intros [= <-]. split; [|split; constructor].
  apply config_wf_set_locked, fb_release_fold_wf; [by apply config_wf_set_locked | done | done].
Qed.

Theorem drm_mode_rmfb_wf s f id r :
  config_wf s -> file_wf s f -> drm_mode_rmfb s f id = Some r ->
  config_wf r.1.1 /\ file_wf r.1.1 r.1.2.
Proof.
  intros Hwf [Hnd Hin]. unfold drm_mode_rmfb, mutex_lock, idr_lookup. case_match; [done|].
  cbn [mbind option_bind]. repeat case_match; intros [= <-]; cbn [fst snd];
    try (split; [by apply config_wf_set_locked | by split]).
  match goal with H : find_fb _ _ = Some ?fb |- _ => apply find_fb_elem in H; set (x := fb_id fb) in * end.
  split.
  - by apply config_wf_set_locked, drm_framebuffer_destroy_wf; [apply config_wf_set_locked|].
  - split; cbn [file_fbs]; [by apply remove_first_NoDup_Z|].
    apply Forall_forall. intros y Hy. rewrite Forall_forall in Hin.
    apply fb_ids_destroy_other.
    + by apply Hin, (remove_first_sub _ _ _ Hy).
    + pose proof (remove_first_key (fun z : Z => z) (file_fbs f) x y) as Hk.
      rewrite list_fmap_id in Hk. by apply Hk.
Qed.

Section addfb.
Context `{!DrmBufferObjects}.

Theorem drm_mode_addfb_wf s f r res :
  config_wf s -> idr_room s -> file_wf s f -> drm_mode_addfb s f r = Some res ->
  config_wf res.1.1.1 /\ file_wf res.1.1.1 res.1.1.2.
Proof.
  intros Hwf Hroom [Hnd Hin]. unfold drm_mode_addfb, mutex_lock.
  destruct (_ || _); [intros [= <-]; by split|].
  destruct (_ || _); [intros [= <-]; by split|].
  destruct (mc_locked s); [done|]. cbn [mbind option_bind].
  destruct (bo_lookup _) as [kernel|];
    [|intros [= <-]; split; [by apply config_wf_set_locked | by split]].
  destruct (drm_idr_get_room (crtc_idr s) OBJ_FB (proj1 Hwf) Hroom) as (id & Hid & Hfree & Hg).
  unfold drm_framebuffer_create. change (crtc_idr (set_locked s true)) with (crtc_idr s).
  rewrite Hg. intros [= <-]. cbn [fst snd]. split.
  - apply (config_wf_insert s _ OBJ_FB id); try done; other_kinds.
  - split; cbn.
    + constructor; [|done]. intros Hx. rewrite Forall_forall in Hin.
      pose proof (wf_registered s OBJ_FB id Hwf ltac:(done) (Hin _ Hx)). congruence.
    + constructor; [by left|]. eapply Forall_impl; [done|]. intros y Hy. by right.
Qed.
End addfb.

Section queries.
Context `{!DrmFuncs}.

Theorem drm_mode_getresources_wf s c1 c2 c3 r :
  config_wf s -> drm_mode_getresources s c1 c2 c3 = Some r -> config_wf r.1.
Proof.
  intros Hwf. unfold drm_mode_getresources, mutex_lock. case_match; [done|].
  intros [= <-]. by apply config_wf_set_locked.
Qed.

Theorem drm_mode_getcrtc_wf s cid r :
  config_wf s -> drm_mode_getcrtc s cid = Some r -> config_wf r.1.
Proof.
  intros Hwf. unfold drm_mode_getcrtc, mutex_lock. case_match; [done|].
  intros [= <-]. by apply config_wf_set_locked.
Qed.

Theorem drm_mode_getoutput_wf s oid cm cp r :
  config_wf s -> drm_mode_getoutput s oid cm cp = Some r -> config_wf r.1.
Proof.
  intros Hwf. unfold drm_mode_getoutput, mutex_lock. destruct (mc_locked s); [done|].
  cbn [mbind option_bind]. pose proof (config_wf_set_locked s Hwf true) as H1.
  repeat case_match; intros [= <-]; apply config_wf_set_locked;
    try apply drm_crtc_probe_single_output_modes_wf; done.
Qed.

Theorem drm_mode_setcrtc_wf s req r :
  config_wf s -> drm_mode_setcrtc s req = Some r -> config_wf r.1.
Proof.
  intros Hwf. unfold drm_mode_setcrtc, mutex_lock. destruct (mc_locked s); [done|].
  cbn [mbind option_bind]. pose proof (config_wf_set_locked s Hwf true) as H1.
  unfold setcrtc_checked, drm_mode_create.
  pose proof (idr_keeps_get (crtc_idr (set_locked s true)) OBJ_MODE) as Hk.
  destruct (drm_idr_get (crtc_idr (set_locked s true)) OBJ_MODE) as [m' mid].
  assert (config_wf (set_idr (set_locked s true) m')) as H2 by by apply config_wf_set_idr.
  repeat case_match; simplify_eq; intros [= <-]; cbn [fst]; apply config_wf_set_locked;
    try done; match goal with H : drm_crtc_set_config ?s0 ?set = _ |- _ =>
      pose proof (drm_crtc_set_config_wf s0 set) as Hc; rewrite H in Hc; by apply Hc end.
Qed.
End queries.

(** ** Cursor, [drm_mode_replacefb] and the user modes *)

Lemma config_wf_mutex_unlock s : config_wf s -> config_wf (mutex_unlock s).
Proof. intros Hwf. by apply config_wf_set_locked. Qed.

Lemma kind_ids_update_fb s id f k :
  (forall fb, fb_id (f fb) = fb_id fb) -> kind_ids (update_fb s id f) k = kind_ids s k.
Proof.
  intros Hf. destruct k; try done. cbn. apply fmap_map_keep.
  intros fb. by destruct (fb_id fb =? id).
Qed.

(** The identifier slot of a user mode is free or holds a mode. *)
Definition mode_slot_ok (m : idr) (id : Z) : bool :=
  match m !! id with Some OBJ_MODE | None => true | _ => false end.

(** The user modes of output [oid] own their identifiers, as
    [drm_mode_detachmode] releases them. *)
Definition user_modes_registered (s : drm_mode_config) (oid : Z) : Prop :=
  Forall (fun m => mode_slot_ok (crtc_idr s) (mode_id m) = true) (user_modes_of s oid).

#[export] Instance user_modes_registered_dec s oid : Decision (user_modes_registered s oid).
Proof. unfold user_modes_registered. apply _. Defined.

Lemma mode_slot_ok_keeps m id : mode_slot_ok m id = true -> idr_keeps m (drm_idr_put m id).
Proof.
  intros Hok. apply idr_keeps_delete. intros k Hk. unfold mode_slot_ok in Hok.
  rewrite Hk in Hok. by destruct k.
Qed.

Section scanout.
Context `{!DrmFuncs} `{!DrmBufferObjects} `{!DrmCursorFuncs}.

Lemma cursor_bo_part_wf s crtc req : config_wf s -> config_wf (cursor_bo_part s crtc req).1.1.
Proof. intros Hwf. unfold cursor_bo_part. repeat case_match; by try apply config_wf_emit. Qed.

Lemma cursor_move_part_wf s crtc req ret : config_wf s -> config_wf (cursor_move_part s crtc req ret).1.
Proof. intros Hwf. unfold cursor_move_part. repeat case_match; by try apply config_wf_emit. Qed.

Theorem drm_mode_cursor_ioctl_wf s req r :
  config_wf s -> drm_mode_cursor_ioctl s req = Some r -> config_wf r.1.
Proof.
  intros Hwf. unfold drm_mode_cursor_ioctl, mutex_lock.
  destruct (negb _); [by intros [= <-]|]. destruct (mc_locked s); [done|].
  cbn [mbind option_bind]. pose proof (config_wf_set_locked s Hwf true) as Hl1.
  destruct (idr_lookup _ _ _) as [crtc|]; [|intros [= <-]; by apply config_wf_mutex_unlock].
  pose proof (cursor_bo_part_wf _ crtc req Hl1) as Hl2.
  destruct (cursor_bo_part _ _ _) as [[s2 ret] go]. cbn [fst] in Hl2.
  destruct (negb go); [intros [= <-]; by apply config_wf_mutex_unlock|].
  pose proof (cursor_move_part_wf s2 crtc req ret Hl2) as Hl3.
  destruct (cursor_move_part _ _ _ _). intros [= <-]. by apply config_wf_mutex_unlock.
Qed.

Lemma replacefb_crtc_step_cases id s c :
  replacefb_crtc_step id (Some s) c = None \/
  (exists e, replacefb_crtc_step id (Some s) c = Some (emit s e)) \/
  replacefb_crtc_step id (Some s) c = Some s.
Proof.
  unfold replacefb_crtc_step. cbn [mbind option_bind]. destruct (crtc_fb c) as [fid|]; cbn [mbind option_bind]; [|by left].
  destruct (fid =? id); [|by right; right].
  destruct (crtc_has_mode_set_base c); [right; left; by eexists | by left].
Qed.

Lemma replacefb_fold_wf id l s s' :
  config_wf s -> fold_left (replacefb_crtc_step id) l (Some s) = Some s' ->
  config_wf s' /\ fb_list s' = fb_list s.
Proof.
  revert s. induction l as [|c l IH]; intros s Hwf; cbn [fold_left]; [by intros [= <-]|].
  destruct (replacefb_crtc_step_cases id s c) as [->|[[e ->]| ->]]; intros Hs.
  - by rewrite replacefb_fold_none in Hs.
  - by destruct (IH _ (config_wf_emit s Hwf e) Hs) as [? ->].
  - by apply IH.
Qed.

Theorem drm_mode_replacefb_wf s f req r :
  config_wf s -> file_wf s f -> drm_mode_replacefb s f req = Some r ->
  config_wf r.1 /\ file_wf r.1 f.
Proof.
  intros Hwf [Hnd Hin]. unfold drm_mode_replacefb, mutex_lock. destruct (mc_locked s); [done|].
  cbn [mbind option_bind]. pose proof (config_wf_set_locked s Hwf true) as Hl1.
  repeat (case_match; [|intros [= <-]; split; [by apply config_wf_mutex_unlock | done]]).
  case_match; [intros [= <-]; split; [by apply config_wf_mutex_unlock | done]|].
  destruct (fold_left _ _ _) as [s3|] eqn:Hfold; [|done]. intros [= <-].
  set (s2 := update_fb _ _ _) in Hfold.
  assert (config_wf s2) as Hl2 by (wf_keep (set_locked s true); [done | unfold s2; by rewrite kind_ids_update_fb]).
  destruct (replacefb_fold_wf _ _ _ _ Hl2 Hfold) as [Hl3 Hfbs]. split; [by apply config_wf_mutex_unlock|].
  split; [done|]. eapply Forall_impl; [exact Hin|]. intros x Hx. cbn. rewrite Hfbs.
  change (fb_id <$> fb_list s2) with (kind_ids s2 OBJ_FB). unfold s2; by rewrite kind_ids_update_fb.
Qed.
End scanout.

Theorem drm_mode_getproperty_ioctl_wf s req r :
  config_wf s -> drm_mode_getproperty_ioctl s req = Some r -> config_wf r.1.
Proof.
  intros Hwf. destruct (mc_locked s) eqn:Hl; [by unfold drm_mode_getproperty_ioctl, mutex_lock; rewrite Hl|].
  rewrite drm_mode_getproperty_ioctl_eq by done. by intros [= <-].
Qed.

Lemma drm_mode_detachmode_wf s oid mode :
  config_wf s -> user_modes_registered s oid -> config_wf (drm_mode_detachmode s oid mode).1.
Proof.
  intros Hwf Hreg. unfold drm_mode_detachmode.
  destruct (find_index _ _) as [i|] eqn:Hi; [|done].
  destruct (find_index_Some _ _ _ Hi) as (m & Hm & _ & _). rewrite Hm. cbn [default fst].
  apply config_wf_set_idr; [by apply config_wf_update_output|].
  apply mode_slot_ok_keeps. exact (proj1 (Forall_lookup _ _) Hreg i m Hm).
Qed.

Theorem drm_mode_attachmode_ioctl_wf s cmd r :
  config_wf s -> drm_mode_attachmode_ioctl s cmd = Some r -> config_wf r.1.
Proof.
  intros Hwf. unfold drm_mode_attachmode_ioctl, mutex_lock. destruct (mc_locked s); [done|].
  cbn [mbind option_bind]. pose proof (config_wf_set_locked s Hwf true) as Hl1.
  destruct (idr_lookup _ _ _) as [o|]; [|intros [= <-]; by apply config_wf_mutex_unlock].
  unfold drm_mode_create. pose proof (idr_keeps_get (crtc_idr (set_locked s true)) OBJ_MODE) as Hk.
  destruct (drm_idr_get _ _) as [m' id]. intros [= <-].
  apply config_wf_mutex_unlock, drm_mode_attachmode_wf. by apply config_wf_set_idr.
Qed.

Theorem drm_mode_detachmode_ioctl_wf s cmd r :
  config_wf s -> user_modes_registered s (mc_output_id cmd) ->
  drm_mode_detachmode_ioctl s cmd = Some r -> config_wf r.1.
Proof.
  intros Hwf Hreg. unfold drm_mode_detachmode_ioctl, mutex_lock. destruct (mc_locked s); [done|].
  cbn [mbind option_bind]. pose proof (config_wf_set_locked s Hwf true) as Hl1.
  destruct (idr_lookup _ _ _) as [o|] eqn:Hlk; [|intros [= <-]; by apply config_wf_mutex_unlock].
  apply idr_lookup_Some in Hlk as [_ Ho%find_output_id].
  pose proof (drm_mode_detachmode_wf (set_locked s true) (output_id o)
                (drm_crtc_convert_umode zero_mode (mc_mode cmd)) Hl1) as Hd.
  rewrite Ho in Hd |- *. specialize (Hd Hreg).
  destruct (drm_mode_detachmode _ _ _). intros [= <-]. by apply config_wf_mutex_unlock.
Qed.

(** ** Operations that keep the framebuffer list *)

Ltac fb_simpl :=
  repeat first
    [ progress cbn [fst snd fb_list set_idr update_crtc set_crtcs set_outputs update_output emit
                    set_locked mutex_unlock set_counts set_hotplug]
    | rewrite emit_all_fbs ].

Lemma fb_list_disable_unused s : fb_list (drm_disable_unused_functions s) = fb_list s.
Proof.
  unfold drm_disable_unused_functions.
  rewrite (fold_left_preserve fb_list); [apply (fold_left_preserve fb_list)|];
    intros s0 x; [unfold disable_output_step | unfold disable_crtc_step]; by case_match.
Qed.

Section fb_keep.
Context `{!DrmFuncs}.

Lemma fb_list_set_mode s cid mode x y : fb_list (drm_crtc_set_mode s cid mode x y).1 = fb_list s.
Proof.
  unfold drm_crtc_set_mode. destruct (find_crtc s cid); [|done].
  destruct (drm_mode_duplicate _ _). repeat case_match; fb_simpl; done.
Qed.

Lemma fb_list_set_config s set : fb_list (drm_crtc_set_config s set).1 = fb_list s.
Proof.
  unfold drm_crtc_set_config. destruct (ms_crtc set) as [cid|]; [|done].
  destruct (find_crtc s cid); [|done].
  repeat case_match; simplify_eq; fb_simpl; rewrite ?fb_list_disable_unused; fb_simpl;
    try done;
    match goal with H : drm_crtc_set_mode ?s2 ?c ?m ?x ?y = (?s3, _) |- _ =>
      pose proof (fb_list_set_mode s2 c m x y) as Hf; rewrite H in Hf; cbn [fst] in Hf;
      rewrite Hf; by fb_simpl end.
Qed.

Lemma fb_list_probe_single s oid maxX maxY :
  fb_list (drm_crtc_probe_single_output_modes s oid maxX maxY) = fb_list s.
Proof.
  unfold drm_crtc_probe_single_output_modes. destruct (find_output s oid); [|done].
  case_bool_decide; [done|]. by destruct (probe_fallback _ _ _) as [[? ?] ?].
Qed.

Lemma fb_list_setcrtc s req r : drm_mode_setcrtc s req = Some r -> fb_list r.1 = fb_list s.
Proof.
  unfold drm_mode_setcrtc, mutex_lock. destruct (mc_locked s); [done|]. cbn [mbind option_bind].
  destruct (idr_lookup _ _ _) as [crtc|]; [|by intros [= <-]].
  unfold setcrtc_checked, drm_mode_create. destruct (drm_idr_get _ _).
  repeat case_match; simplify_eq; intros [= <-]; fb_simpl; try done;
    match goal with H : drm_crtc_set_config ?s0 ?set = _ |- _ =>
      pose proof (fb_list_set_config s0 set) as Hc; rewrite H in Hc; cbn [fst] in Hc;
      rewrite Hc; by fb_simpl end.
Qed.

Lemma fb_list_getoutput s oid cm cp r : drm_mode_getoutput s oid cm cp = Some r -> fb_list r.1 = fb_list s.
Proof.
  unfold drm_mode_getoutput, mutex_lock. destruct (mc_locked s); [done|]. cbn [mbind option_bind].
  destruct (idr_lookup _ _ _); intros [= <-]; fb_simpl; [|done].
  case_match; fb_simpl; [by rewrite fb_list_probe_single | done].
Qed.
End fb_keep.

Section ioctl_preservation.
Context `{!DrmFuncs} `{!DrmBufferObjects} `{!DrmCursorFuncs}.

(** The ioctls keep the store well formed and the caller's
    framebuffer list a list of distinct framebuffers of the device:
    [drm_mode_addfb] when the idr has room, [drm_mode_rmfb],
    [drm_fb_release] and [drm_mode_replacefb] always; [drm_mode_setcrtc],
    [drm_mode_getoutput], [drm_mode_getresources], [drm_mode_getcrtc],
    [drm_mode_cursor_ioctl] and [drm_mode_attachmode_ioctl] keep the store
    well formed, [drm_mode_getproperty_ioctl] leaves it as it was, and
    [drm_mode_detachmode_ioctl] keeps it well formed when the user modes
    of the output own their identifiers. *)
Theorem config_wf_ioctls s f :
  config_wf s -> file_wf s f ->
  (forall r res, idr_room s -> drm_mode_addfb s f r = Some res ->
     config_wf res.1.1.1 /\ file_wf res.1.1.1 res.1.1.2) /\
  (forall id res, drm_mode_rmfb s f id = Some res -> config_wf res.1.1 /\ file_wf res.1.1 res.1.2) /\
  (forall res, drm_fb_release s f = Some res -> config_wf res.1 /\ file_wf res.1 res.2) /\
  (forall req res, drm_mode_setcrtc s req = Some res -> config_wf res.1) /\
  (forall oid cm cp res, drm_mode_getoutput s oid cm cp = Some res -> config_wf res.1) /\
  (forall c1 c2 c3 res, drm_mode_getresources s c1 c2 c3 = Some res -> config_wf res.1) /\
  (forall cid res, drm_mode_getcrtc s cid = Some res -> config_wf res.1) /\
  (forall r res, drm_mode_replacefb s f r = Some res -> config_wf res.1 /\ file_wf res.1 f) /\
  (forall req res, drm_mode_cursor_ioctl s req = Some res -> config_wf res.1) /\
  (forall cmd res, drm_mode_attachmode_ioctl s cmd = Some res -> config_wf res.1) /\
  (forall cmd res, user_modes_registered s (mc_output_id cmd) ->
     drm_mode_detachmode_ioctl s cmd = Some res -> config_wf res.1) /\
  (forall req res, drm_mode_getproperty_ioctl s req = Some res -> config_wf res.1).
Proof.
  intros Hwf Hf. split_and!; intros.
  - by eapply drm_mode_addfb_wf.
  - by eapply drm_mode_rmfb_wf.
  - by eapply drm_fb_release_wf.
  - by eapply drm_mode_setcrtc_wf.
  - by eapply drm_mode_getoutput_wf.
  - by eapply drm_mode_getresources_wf.
  - by eapply drm_mode_getcrtc_wf.
  - by eapply drm_mode_replacefb_wf.
  - by eapply drm_mode_cursor_ioctl_wf.
  - by eapply drm_mode_attachmode_ioctl_wf.
  - by eapply drm_mode_detachmode_ioctl_wf.
  - by eapply drm_mode_getproperty_ioctl_wf.
Qed.
End ioctl_preservation.

(** ** Witnesses *)

Lemma config_wf_ioctls_witness :
  config_wf wf_sample /\ file_wf wf_sample (mk_file []) /\
  (forall res, @drm_mode_addfb sample_bos wf_sample (mk_file []) fb_req = Some res ->
     config_wf res.1.1.1 /\ file_wf res.1.1.1 res.1.1.2).
Proof.
  assert (config_wf wf_sample) as H by decide_by_compute.
  assert (file_wf wf_sample (mk_file [])) as Hf by decide_by_compute.
  split_and!; [exact H | exact Hf |].
  destruct (@config_wf_ioctls sample_funcs sample_bos cursor_funcs wf_sample (mk_file []) H Hf) as [Hadd _].
  intros res. apply Hadd. vm_compute. reflexivity.
Defined.
