(* ===== verification/Locking.v ===== *)
(** * The ioctls as one interface, and the lock discipline

    User space reaches the mode-setting code through the DRM ioctl table
    (in [drm_drv.c], outside [drm_crtc.c]): [drm_ioctl] lists the
    mode-setting entries of that table with their arguments, and
    [drm_ioctl_run] dispatches one of them to its handler on the device
    state and the caller's file, returning the new state, the file and
    the return code.  [drm_fb_release] runs when the file is closed and
    is listed with them.

    The theorems show the handlers' lock discipline: on a device whose
    [mode_config.mutex] is free every handler returns, and returns with
    the mutex free, except [drm_mode_replacefb], which can crash; hence
    any sequence of these calls runs to its end and never blocks.  A
    session is also a step relation ([session_step]) on the device and
    the caller's file, along which the store invariant [config_wf] and
    the file's framebuffer list are preserved (rule induction). *)

From S2P Require Import Prelude Idr Modes Config Property Probe PickCrtcs SetMode SetConfig Device PropertyIoctl Ioctl UserModes Scanout Store StoreIoctls.

Inductive drm_ioctl :=
  | IoGetResources (count_fbs count_crtcs count_outputs : Z)
  | IoGetCrtc (crtc_id : Z)
  | IoSetCrtc (req : drm_mode_crtc_req)
  | IoCursor (req : drm_mode_cursor)
  | IoGetOutput (output_id count_modes count_props : Z)
  | IoAddFb (r : drm_mode_fb_cmd)
  | IoRmFb (fb_id : Z)
  | IoGetFb (r : drm_mode_fb_cmd)
  | IoReplaceFb (r : drm_mode_fb_cmd)
  | IoAttachMode (cmd : drm_mode_mode_cmd)
  | IoDetachMode (cmd : drm_mode_mode_cmd)
  | IoGetProperty (req : drm_mode_get_property)
  | IoSetProperty (output_id prop_id value : Z)
  | IoGetBlob (blob_id length : Z)
  | IoHotplug
  | IoRelease.

Definition is_replacefb (io : drm_ioctl) : bool :=
  match io with IoReplaceFb _ => true | _ => false end.

Section dispatch.
Context `{!DrmFuncs} `{!DrmBufferObjects} `{!DrmCursorFuncs}.

(** One call: [None] when the handler blocks on the mutex or crashes. *)
Definition drm_ioctl_run (s : drm_mode_config) (f : drm_file) (io : drm_ioctl)
  : option (drm_mode_config * drm_file * Z) :=
  match io with
  | IoGetResources a b c => r ← drm_mode_getresources s a b c; Some (r.1, f, r.2.1)
  | IoGetCrtc cid => r ← drm_mode_getcrtc s cid; Some (r.1, f, r.2.1)
  | IoSetCrtc req => r ← drm_mode_setcrtc s req; Some (r.1, f, r.2)
  | IoCursor req => r ← drm_mode_cursor_ioctl s req; Some (r.1, f, r.2)
  | IoGetOutput oid cm cp => r ← drm_mode_getoutput s oid cm cp; Some (r.1, f, r.2.1)
  | IoAddFb r => x ← drm_mode_addfb s f r; Some (x.1.1.1, x.1.1.2, x.1.2)
  | IoRmFb id => drm_mode_rmfb s f id
  | IoGetFb r => x ← drm_mode_getfb s r; Some (x.1.1, f, x.1.2)
  | IoReplaceFb r => x ← drm_mode_replacefb s f r; Some (x.1, f, x.2)
  | IoAttachMode cmd => x ← drm_mode_attachmode_ioctl s cmd; Some (x.1, f, x.2)
  | IoDetachMode cmd => x ← drm_mode_detachmode_ioctl s cmd; Some (x.1, f, x.2)
  | IoGetProperty req => x ← drm_mode_getproperty_ioctl s req; Some (x.1, f, x.2.1)
  | IoSetProperty oid pid v => x ← drm_mode_output_property_set_ioctl s oid pid v; Some (x.1, f, x.2)
  | IoGetBlob bid len => x ← drm_mode_getblob_ioctl s bid len; Some (x.1, f, x.2.1.1)
  | IoHotplug => Some (s, f, (drm_mode_hotplug_ioctl s).1)
  | IoRelease => x ← drm_fb_release s f; Some (x.1, x.2, 0)
  end.

(** A sequence of calls by one file, with their return codes. *)
Fixpoint drm_ioctl_trace (s : drm_mode_config) (f : drm_file) (ios : list drm_ioctl)
  : option (drm_mode_config * drm_file * list Z) :=
  match ios with
  | [] => Some (s, f, [])
  | io :: rest =>
      '(s1, f1, ret) ← drm_ioctl_run s f io;
      '(s2, f2, rets) ← drm_ioctl_trace s1 f1 rest;
      Some (s2, f2, ret :: rets)
  end.

(** * Properties *)

(** What a handler promises on a free mutex: it returns, and with the
    mutex free. *)
Definition returns_unlocked {A} (st : A -> drm_mode_config) (r : option A) : Prop :=
  exists a, r = Some a /\ mc_locked (st a) = false.

Lemma returns_unlocked_intro {A} (st : A -> drm_mode_config) a :
  mc_locked (st a) = false -> returns_unlocked st (Some a).
Proof. by exists a. Qed.

Lemma mc_locked_mutex_unlock s : mc_locked (mutex_unlock s) = false.
Proof. done. Qed.

(** Takes the mutex, then every branch returns with [mutex_unlock]. *)
Ltac handler_unlocks :=
  intros Hl; unfold mutex_lock; rewrite ?Hl; cbn [mbind option_bind];
  repeat first [ apply returns_unlocked_intro; first [done | apply mc_locked_mutex_unlock]
               | progress case_match ].

Lemma drm_mode_getresources_unlocks s a b c :
  mc_locked s = false -> returns_unlocked fst (drm_mode_getresources s a b c).
Proof. unfold drm_mode_getresources. handler_unlocks. Qed.

Lemma drm_mode_getcrtc_unlocks s cid :
  mc_locked s = false -> returns_unlocked fst (drm_mode_getcrtc s cid).
Proof. unfold drm_mode_getcrtc. handler_unlocks. Qed.

Lemma drm_mode_setcrtc_unlocks s req :
  mc_locked s = false -> returns_unlocked fst (drm_mode_setcrtc s req).
Proof.
  unfold drm_mode_setcrtc. intros Hl. unfold mutex_lock. rewrite Hl. cbn [mbind option_bind].
  destruct (idr_lookup _ _ _); [|by apply returns_unlocked_intro].
  destruct (setcrtc_checked _ _ _). by apply returns_unlocked_intro.
Qed.

Lemma drm_mode_cursor_ioctl_unlocks s req :
  mc_locked s = false -> returns_unlocked fst (drm_mode_cursor_ioctl s req).
Proof.
  unfold drm_mode_cursor_ioctl. intros Hl. destruct (negb _); [by apply returns_unlocked_intro|].
  unfold mutex_lock. rewrite Hl. cbn [mbind option_bind].
  destruct (idr_lookup _ _ _); [|by apply returns_unlocked_intro].
  destruct (cursor_bo_part _ _ _) as [[s2 ret] go]. destruct (negb go); [by apply returns_unlocked_intro|].
  destruct (cursor_move_part _ _ _ _). by apply returns_unlocked_intro.
Qed.

Lemma drm_mode_getoutput_unlocks s oid cm cp :
  mc_locked s = false -> returns_unlocked fst (drm_mode_getoutput s oid cm cp).
Proof.
  unfold drm_mode_getoutput. intros Hl. unfold mutex_lock. rewrite Hl. cbn [mbind option_bind].
  destruct (idr_lookup _ _ _); by apply returns_unlocked_intro.
Qed.

Lemma drm_mode_addfb_unlocks s f r :
  mc_locked s = false -> returns_unlocked (fun x => x.1.1.1) (drm_mode_addfb s f r).
Proof.
  unfold drm_mode_addfb. intros Hl.
  destruct (_ || _); [by apply returns_unlocked_intro|]. destruct (_ || _); [by apply returns_unlocked_intro|].
  unfold mutex_lock. rewrite Hl. cbn [mbind option_bind].
  destruct (bo_lookup _); [|by apply returns_unlocked_intro].
  destruct (drm_framebuffer_create _). by apply returns_unlocked_intro.
Qed.

Lemma drm_mode_rmfb_unlocks s f id :
  mc_locked s = false -> returns_unlocked (fun x => x.1.1) (drm_mode_rmfb s f id).
Proof.
  unfold drm_mode_rmfb. intros Hl. unfold mutex_lock. rewrite Hl. cbn [mbind option_bind].
  destruct (idr_lookup _ _ _); [|by apply returns_unlocked_intro].
  destruct (negb _); by apply returns_unlocked_intro.
Qed.

Lemma drm_mode_getfb_unlocks s r :
  mc_locked s = false -> returns_unlocked (fun x => x.1.1) (drm_mode_getfb s r).
Proof.
  unfold drm_mode_getfb. intros Hl. unfold mutex_lock. rewrite Hl. cbn [mbind option_bind].
  destruct (idr_lookup _ _ _); by apply returns_unlocked_intro.
Qed.

(** [drm_mode_replacefb] returns with the mutex free or crashes. *)
Lemma drm_mode_replacefb_unlocks s f r :
  mc_locked s = false ->
  drm_mode_replacefb s f r = None \/ returns_unlocked fst (drm_mode_replacefb s f r).
Proof.
  unfold drm_mode_replacefb. intros Hl. unfold mutex_lock. rewrite Hl. cbn [mbind option_bind].
  destruct (bo_lookup _); [|right; by apply returns_unlocked_intro].
  destruct (idr_lookup _ _ _); [|right; by apply returns_unlocked_intro].
  destruct (negb _); [right; by apply returns_unlocked_intro|].
  destruct (fold_left _ _ _); [right; by apply returns_unlocked_intro | by left].
Qed.

Lemma drm_mode_attachmode_ioctl_unlocks s cmd :
  mc_locked s = false -> returns_unlocked fst (drm_mode_attachmode_ioctl s cmd).
Proof.
  unfold drm_mode_attachmode_ioctl. intros Hl. unfold mutex_lock. rewrite Hl. cbn [mbind option_bind].
  destruct (idr_lookup _ _ _); [|by apply returns_unlocked_intro].
  destruct (drm_mode_create _). destruct (drm_mode_attachmode _ _ _). by apply returns_unlocked_intro.
Qed.

Lemma drm_mode_detachmode_ioctl_unlocks s cmd :
  mc_locked s = false -> returns_unlocked fst (drm_mode_detachmode_ioctl s cmd).
Proof.
  unfold drm_mode_detachmode_ioctl. intros Hl. unfold mutex_lock. rewrite Hl. cbn [mbind option_bind].
  destruct (idr_lookup _ _ _); [|by apply returns_unlocked_intro].
  destruct (drm_mode_detachmode _ _ _). by apply returns_unlocked_intro.
Qed.

Lemma drm_mode_getproperty_ioctl_unlocks s req :
  mc_locked s = false -> returns_unlocked fst (drm_mode_getproperty_ioctl s req).
Proof. intros Hl. rewrite drm_mode_getproperty_ioctl_eq by done. by apply returns_unlocked_intro. Qed.

Lemma drm_mode_output_property_set_ioctl_unlocks s oid pid v :
  mc_locked s = false -> returns_unlocked fst (drm_mode_output_property_set_ioctl s oid pid v).
Proof.
  unfold drm_mode_output_property_set_ioctl. intros Hl. unfold mutex_lock. rewrite Hl.
  cbn [mbind option_bind]. by apply returns_unlocked_intro.
Qed.

Lemma drm_mode_getblob_ioctl_unlocks s bid len :
  mc_locked s = false -> returns_unlocked fst (drm_mode_getblob_ioctl s bid len).
Proof.
  unfold drm_mode_getblob_ioctl. intros Hl. unfold mutex_lock. rewrite Hl.
  cbn [mbind option_bind]. by apply returns_unlocked_intro.
Qed.

Lemma drm_fb_release_unlocks s f :
  mc_locked s = false -> returns_unlocked fst (drm_fb_release s f).
Proof.
  unfold drm_fb_release. intros Hl. unfold mutex_lock. rewrite Hl.
  cbn [mbind option_bind]. by apply returns_unlocked_intro.
Qed.

(** Every call but [drm_mode_replacefb] returns, with the mutex free. *)
Lemma drm_ioctl_run_unlocks s f io :
  mc_locked s = false -> is_replacefb io = false ->
  exists s' f' ret, drm_ioctl_run s f io = Some (s', f', ret) /\ mc_locked s' = false.
Proof.
  intros Hl Hr. destruct io; try discriminate Hr; unfold drm_ioctl_run;
    [ destruct (drm_mode_getresources_unlocks s count_fbs count_crtcs count_outputs Hl) as (x & -> & Hx)
    | destruct (drm_mode_getcrtc_unlocks s crtc_id Hl) as (x & -> & Hx)
    | destruct (drm_mode_setcrtc_unlocks s req Hl) as (x & -> & Hx)
    | destruct (drm_mode_cursor_ioctl_unlocks s req Hl) as (x & -> & Hx)
    | destruct (drm_mode_getoutput_unlocks s output_id count_modes count_props Hl) as (x & -> & Hx)
    | destruct (drm_mode_addfb_unlocks s f r Hl) as (x & -> & Hx)
    | destruct (drm_mode_rmfb_unlocks s f fb_id Hl) as ([[s' f'] ret] & -> & Hx)
    | destruct (drm_mode_getfb_unlocks s r Hl) as (x & -> & Hx)
    | destruct (drm_mode_attachmode_ioctl_unlocks s cmd Hl) as (x & -> & Hx)
    | destruct (drm_mode_detachmode_ioctl_unlocks s cmd Hl) as (x & -> & Hx)
    | destruct (drm_mode_getproperty_ioctl_unlocks s req Hl) as (x & -> & Hx)
    | destruct (drm_mode_output_property_set_ioctl_unlocks s output_id prop_id value Hl) as (x & -> & Hx)
    | destruct (drm_mode_getblob_ioctl_unlocks s blob_id length Hl) as (x & -> & Hx)
    | by do 3 eexists
    | destruct (drm_fb_release_unlocks s f Hl) as (x & -> & Hx) ];
    cbn [mbind option_bind]; (do 3 eexists; split; [reflexivity | exact Hx]).
Qed.

(** C27: On a device whose mutex is free, any sequence of
    mode-setting calls without [drm_mode_replacefb] runs to its end:
    every call returns, and returns with the mutex free, so no call of
    the sequence blocks on [mode_config.mutex]. *)
Theorem drm_ioctl_trace_completes s f ios :
  mc_locked s = false -> Forall (fun io => is_replacefb io = false) ios ->
  exists s' f' rets, drm_ioctl_trace s f ios = Some (s', f', rets) /\
    length rets = length ios /\ mc_locked s' = false.
Proof.
  intros Hl Hios. revert s f Hl. induction Hios as [|io ios Hio _ IH]; intros s f Hl.
  - by do 3 eexists.
  - destruct (drm_ioctl_run_unlocks s f io Hl Hio) as (s1 & f1 & ret & Hrun & Hl1).
    destruct (IH s1 f1 Hl1) as (s2 & f2 & rets & Htr & Hlen & Hl2).
    cbn [drm_ioctl_trace]. rewrite Hrun. cbn [mbind option_bind]. rewrite Htr. cbn [mbind option_bind].
    exists s2, f2, (ret :: rets). cbn [length]. split_and!; [reflexivity | lia | exact Hl2].
Qed.

(** ** The store invariant along a session *)

(** The conditions under which a call keeps the store well formed: room
    in the idr for [drm_mode_addfb], user modes that own their
    identifiers for [drm_mode_detachmode_ioctl]. *)
Definition io_ok (s : drm_mode_config) (io : drm_ioctl) : Prop :=
  match io with
  | IoAddFb _ => idr_room s
  | IoDetachMode cmd => user_modes_registered s (mc_output_id cmd)
  | _ => True
  end.

(** One call of the file's session, as a step relation on the device and
    the file. *)
Inductive session_step : drm_mode_config * drm_file -> drm_mode_config * drm_file -> Prop :=
  | session_call s f io s' f' ret :
      io_ok s io -> drm_ioctl_run s f io = Some (s', f', ret) -> session_step (s, f) (s', f').

Lemma file_wf_same_fbs s s' f : fb_list s' = fb_list s -> file_wf s f -> file_wf s' f.
Proof. unfold file_wf. by intros ->. Qed.

(** A call that only reads the store and releases the mutex. *)
Lemma query_keeps {A} s (a : A) r :
  Some (mutex_unlock (set_locked s true), a) = Some r -> fb_list r.1 = fb_list s.
Proof. by intros [= <-]. Qed.

Lemma fb_list_cursor s req r : drm_mode_cursor_ioctl s req = Some r -> fb_list r.1 = fb_list s.
Proof.
  unfold drm_mode_cursor_ioctl, mutex_lock. destruct (negb _); [by intros [= <-]|].
  destruct (mc_locked s); [done|]. cbn [mbind option_bind].
  destruct (idr_lookup _ _ _) as [crtc|]; [|by intros [= <-]].
  unfold cursor_bo_part, cursor_move_part. repeat case_match; simplify_eq; by intros [= <-].
Qed.

Lemma fb_list_attachmode s cmd r : drm_mode_attachmode_ioctl s cmd = Some r -> fb_list r.1 = fb_list s.
Proof.
  unfold drm_mode_attachmode_ioctl, mutex_lock. destruct (mc_locked s); [done|]. cbn [mbind option_bind].
  destruct (idr_lookup _ _ _); [|by intros [= <-]]. destruct (drm_mode_create _). by intros [= <-].
Qed.

Lemma fb_list_detachmode s cmd r : drm_mode_detachmode_ioctl s cmd = Some r -> fb_list r.1 = fb_list s.
Proof.
  unfold drm_mode_detachmode_ioctl, mutex_lock. destruct (mc_locked s); [done|]. cbn [mbind option_bind].
  destruct (idr_lookup _ _ _); [|by intros [= <-]]. unfold drm_mode_detachmode.
  destruct (find_index _ _); by intros [= <-].
Qed.

Lemma drm_ioctl_run_wf s f io s' f' ret :
  config_wf s -> file_wf s f -> io_ok s io -> drm_ioctl_run s f io = Some (s', f', ret) ->
  config_wf s' /\ file_wf s' f'.
Proof.
  intros Hwf Hf Hok. destruct (config_wf_ioctls s f Hwf Hf) as
    (Hadd & Hrm & Hrel & Hset & Hgo & Hres & Hgc & Hrep & Hcur & Hatt & Hdet & Hgp).
  destruct io; cbn [drm_ioctl_run io_ok] in *.
  - destruct (drm_mode_getresources _ _ _ _) as [x|] eqn:E; [|done]. intros [= <- <- _].
    split; [exact (Hres _ _ _ x E) | apply (file_wf_same_fbs s); [|done]].
    revert E. unfold drm_mode_getresources, mutex_lock. destruct (mc_locked s); [done|]. apply query_keeps.
  - destruct (drm_mode_getcrtc _ _) as [x|] eqn:E; [|done]. intros [= <- <- _].
    split; [exact (Hgc _ x E) | apply (file_wf_same_fbs s); [|done]].
    revert E. unfold drm_mode_getcrtc, mutex_lock. destruct (mc_locked s); [done|]. apply query_keeps.
  - destruct (drm_mode_setcrtc _ _) as [x|] eqn:E; [|done]. intros [= <- <- _].
    split; [exact (Hset _ x E) | apply (file_wf_same_fbs s); [by apply (fb_list_setcrtc _ req) | done]].
  - destruct (drm_mode_cursor_ioctl _ _) as [x|] eqn:E; [|done]. intros [= <- <- _].
    split; [exact (Hcur _ x E) | apply (file_wf_same_fbs s); [by apply (fb_list_cursor _ req) | done]].
  - destruct (drm_mode_getoutput _ _ _ _) as [x|] eqn:E; [|done]. intros [= <- <- _].
    split; [exact (Hgo _ _ _ x E) | apply (file_wf_same_fbs s); [by eapply fb_list_getoutput | done]].
  - destruct (drm_mode_addfb _ _ _) as [x|] eqn:E; [|done]. intros [= <- <- _]. exact (Hadd r x Hok E).
  - intros E. exact (Hrm fb_id (s', f', ret) E).
  - destruct (drm_mode_getfb _ _) as [x|] eqn:E; [|done]. intros [= <- <- _].
    revert E. unfold drm_mode_getfb, mutex_lock. destruct (mc_locked s); [done|]. cbn [mbind option_bind].
    destruct (idr_lookup _ _ _); intros [= <-]; (split; [by apply config_wf_mutex_unlock, config_wf_set_locked | done]).
  - destruct (drm_mode_replacefb _ _ _) as [x|] eqn:E; [|done]. intros [= <- <- _]. exact (Hrep r x E).
  - destruct (drm_mode_attachmode_ioctl _ _) as [x|] eqn:E; [|done]. intros [= <- <- _].
    split; [exact (Hatt cmd x E) | apply (file_wf_same_fbs s); [by apply (fb_list_attachmode _ cmd) | done]].
  - destruct (drm_mode_detachmode_ioctl _ _) as [x|] eqn:E; [|done]. intros [= <- <- _].
    split; [exact (Hdet cmd x Hok E) | apply (file_wf_same_fbs s); [by apply (fb_list_detachmode _ cmd) | done]].
  - destruct (mc_locked s) eqn:Hl; [by unfold drm_mode_getproperty_ioctl, mutex_lock; rewrite Hl|].
    rewrite drm_mode_getproperty_ioctl_eq by done. cbn [mbind option_bind]. intros [= <- <- _]. done.
  - unfold drm_mode_output_property_set_ioctl, mutex_lock. destruct (mc_locked s); [done|].
    cbn [mbind option_bind]. intros [= <- <- _]. split; [by apply config_wf_mutex_unlock, config_wf_set_locked | done].
  - unfold drm_mode_getblob_ioctl, mutex_lock. destruct (mc_locked s); [done|].
    cbn [mbind option_bind]. intros [= <- <- _]. split; [by apply config_wf_mutex_unlock, config_wf_set_locked | done].
  - intros [= <- <- _]. done.
  - destruct (drm_fb_release _ _) as [x|] eqn:E; [|done]. intros [= <- <- _]. exact (Hrel x eq_refl).
Qed.

Lemma session_wf_pairs x y :
  rtc session_step x y -> config_wf x.1 /\ file_wf x.1 x.2 -> config_wf y.1 /\ file_wf y.1 y.2.
Proof.
  induction 1 as [x|x y z Hxy _ IH]; [done|]. intros [Hwf Hf]. apply IH.
  destruct Hxy as [s f io s1 f1 ret Hok Hrun]. by apply (drm_ioctl_run_wf s f io s1 f1 ret).
Qed.

(** The store invariant holds along every session: from a well-formed
    device and file, every state reached by calls under their conditions
    has a well-formed store and file. *)
Theorem session_wf s f s' f' :
  rtc session_step (s, f) (s', f') -> config_wf s -> file_wf s f -> config_wf s' /\ file_wf s' f'.
Proof. intros Hrtc Hwf Hf. exact (session_wf_pairs _ _ Hrtc (conj Hwf Hf)). Qed.

End dispatch.

(** ** Witnesses *)

(** Resources, a new framebuffer, the DPMS property, the hotplug counter,
    and closing the file, on the device of [drm_mode_config_init]. *)
Definition sample_session : list drm_ioctl :=
  [IoGetResources 0 0 0; IoAddFb fb_req; IoGetProperty (mk_get_property 2 0 0); IoHotplug; IoRelease].

Lemma drm_ioctl_trace_completes_witness :
  exists s' f' rets,
    @drm_ioctl_trace sample_funcs sample_bos cursor_funcs drm_mode_config_init (mk_file [])
      sample_session = Some (s', f', rets) /\ length rets = 5%nat /\ mc_locked s' = false.
Proof.
  apply (@drm_ioctl_trace_completes sample_funcs sample_bos cursor_funcs drm_mode_config_init
           (mk_file []) sample_session); [vm_compute; reflexivity | repeat constructor].
Defined.

(** A session of a device with two CRTCs that adds a framebuffer. *)
Lemma session_wf_witness :
  exists s' f', rtc (@session_step sample_funcs sample_bos cursor_funcs) ((sample_config []), mk_file []) (s', f') /\
    file_fbs f' <> [] /\ config_wf s' /\ file_wf s' f'.
Proof.
  destruct (@drm_ioctl_run sample_funcs sample_bos cursor_funcs (sample_config []) (mk_file []) (IoAddFb fb_req))
    as [[[s1 f1] ret]|] eqn:E; [|vm_compute in E; discriminate].
  assert (Hs : rtc (@session_step sample_funcs sample_bos cursor_funcs) ((sample_config []), mk_file []) (s1, f1)).
  { apply rtc_once. eapply (session_call (sample_config []) (mk_file []) (IoAddFb fb_req) s1 f1 ret); [cbn [io_ok]; unfold idr_room; vm_compute; reflexivity | exact E]. }
  destruct (@session_wf sample_funcs sample_bos cursor_funcs _ _ _ _ Hs) as [Hw1 Hf1];
    [decide_by_compute | decide_by_compute |].
  exists s1, f1. split_and!; [exact Hs | | exact Hw1 | exact Hf1].
  vm_compute in E. injection E as _ <- _. discriminate.
Defined.
