(* ===== verification/Clients.v ===== *)
(** * Several clients

    Every process that opens the device has its own [struct drm_file],
    whose [fbs] list holds the framebuffers it created; the clients'
    calls interleave on the one device state.  [client_step] is one call
    by any of the open files; [files_wf] says that every file's list
    holds distinct framebuffers of the device and that no framebuffer is
    on two lists.  The theorem shows that the store invariant and
    [files_wf] hold in every state an interleaving of calls reaches: the
    ownership checks of [drm_mode_rmfb] and [drm_mode_replacefb] keep a
    client from touching another client's framebuffers. *)

From S2P Require Import Prelude Idr Modes Config Property Probe PickCrtcs SetMode SetConfig Device PropertyIoctl Ioctl UserModes Scanout Store StoreIoctls Locking.

Definition fb_ids (s : drm_mode_config) : list Z := fb_id <$> fb_list s.

(** The open files: each well formed, no framebuffer on two lists. *)
Definition files_wf (s : drm_mode_config) (fs : list drm_file) : Prop :=
  Forall (file_wf s) fs /\
  forall i j fi fj, i <> j -> fs !! i = Some fi -> fs !! j = Some fj -> file_fbs fi ## file_fbs fj.

Section clients.
Context `{!DrmFuncs} `{!DrmBufferObjects} `{!DrmCursorFuncs}.

(** One call by the [i]-th open file. *)
Inductive client_step : drm_mode_config * list drm_file -> drm_mode_config * list drm_file -> Prop :=
  | client_call s fs i f io s' f' ret :
      fs !! i = Some f -> io_ok s io -> drm_ioctl_run s f io = Some (s', f', ret) ->
      client_step (s, fs) (s', <[i := f']> fs).

(** * Properties *)

(** What a call by [f] does to the framebuffers: those not on [f]'s list
    stay, and [f]'s new list holds its old framebuffers and fresh ones. *)
Definition fb_effect (s : drm_mode_config) (f : drm_file) (s' : drm_mode_config) (f' : drm_file)
  : Prop :=
  (forall x, x ∉ file_fbs f -> x ∈ fb_ids s -> x ∈ fb_ids s') /\
  (forall x, x ∈ file_fbs f' -> x ∈ file_fbs f \/ x ∉ fb_ids s).

Lemma fb_effect_same s s' f : fb_ids s' = fb_ids s -> fb_effect s f s' f.
Proof. intros Hs. split; [intros x _; by rewrite Hs | intros x Hx; by left]. Qed.

Lemma fb_effect_same_list s s' f : fb_list s' = fb_list s -> fb_effect s f s' f.
Proof. intros Hs. apply fb_effect_same. unfold fb_ids. by rewrite Hs. Qed.

Lemma fb_ids_replacefb s f r res :
  drm_mode_replacefb s f r = Some res -> fb_ids res.1 = fb_ids s.
Proof.
  unfold drm_mode_replacefb, mutex_lock. destruct (mc_locked s); [done|]. cbn [mbind option_bind].
  repeat (case_match; [|by intros [= <-]]). case_match; [by intros [= <-]|].
  destruct (fold_left _ _ _) as [s3|] eqn:Hfold; [|done]. intros [= <-].
  assert (Hfb : forall l s0 s1, fold_left (replacefb_crtc_step (fbc_buffer_id r)) l (Some s0) = Some s1 ->
                              fb_list s1 = fb_list s0).
  { induction l as [|c l IH]; intros s0 s1; cbn [fold_left]; [by intros [= <-]|].
    destruct (replacefb_crtc_step_cases (fbc_buffer_id r) s0 c) as [->|[[e ->]| ->]]; intros Hs.
    - by rewrite replacefb_fold_none in Hs.
    - by rewrite (IH _ _ Hs).
    - by apply IH. }
  unfold fb_ids. cbn [fst mutex_unlock set_locked fb_list]. rewrite (Hfb _ _ _ Hfold).
  refine (kind_ids_update_fb (set_locked s true) _ _ OBJ_FB _). done.
Qed.

Lemma fb_effect_addfb s f r res :
  config_wf s -> idr_room s -> drm_mode_addfb s f r = Some res -> fb_effect s f res.1.1.1 res.1.1.2.
Proof.
  intros Hwf Hroom. unfold drm_mode_addfb, mutex_lock.
  destruct (_ || _); [intros [= <-]; by apply fb_effect_same|].
  destruct (_ || _); [intros [= <-]; by apply fb_effect_same|].
  destruct (mc_locked s); [done|]. cbn [mbind option_bind].
  destruct (bo_lookup _) as [kernel|]; [|intros [= <-]; by apply fb_effect_same_list].
  destruct (drm_idr_get_room (crtc_idr s) OBJ_FB (proj1 Hwf) Hroom) as (id & Hid & Hfree & Hg).
  unfold drm_framebuffer_create. change (crtc_idr (set_locked s true)) with (crtc_idr s).
  rewrite Hg. intros [= <-]. cbn. split.
  - intros x _ Hx. by right.
  - intros x [->|Hx]%elem_of_cons; [right | by left].
    intros Hin. pose proof (wf_registered s OBJ_FB id Hwf ltac:(done) Hin). congruence.
Qed.

Lemma fb_effect_rmfb s f id res :
  config_wf s -> file_wf s f -> drm_mode_rmfb s f id = Some res -> fb_effect s f res.1.1 res.1.2.
Proof.
  intros Hwf [Hnd Hin]. unfold drm_mode_rmfb, mutex_lock, idr_lookup. destruct (mc_locked s); [done|].
  cbn [mbind option_bind]. change (crtc_idr (set_locked s true)) with (crtc_idr s).
  destruct (crtc_idr s !! id); [|intros [= <-]; by apply fb_effect_same_list].
  destruct (find_fb _ _) as [fb|]; [|intros [= <-]; by apply fb_effect_same_list].
  destruct (negb _) eqn:Hown; [intros [= <-]; by apply fb_effect_same_list|]. intros [= <-].
  apply negb_false_iff, existsb_exists in Hown as (y & Hy%list_elem_of_In & ->%Z.eqb_eq).
  split; cbn [fst snd file_fbs].
  - intros x Hx Hxs. apply fb_ids_destroy_other; [done|]. by intros ->.
  - intros x Hx. left. by apply (remove_first_sub _ _ _ Hx).
Qed.

Lemma fb_release_fold_keeps l s x :
  x ∉ l -> x ∈ fb_ids s -> x ∈ fb_ids (fold_left drm_framebuffer_destroy l s).
Proof.
  revert s. induction l as [|y l IH]; intros s Hx Hs; [done|]. cbn [fold_left].
  apply not_elem_of_cons in Hx as [Hxy Hx]. apply IH; [done|]. by apply fb_ids_destroy_other.
Qed.

Lemma fb_effect_release s f res :
  drm_fb_release s f = Some res -> fb_effect s f res.1 res.2.
Proof.
  unfold drm_fb_release, mutex_lock. destruct (mc_locked s); [done|]. cbn [mbind option_bind].
  intros [= <-]. split; cbn [fst snd file_fbs].
  - intros x Hx Hs. by apply fb_release_fold_keeps.
  - by intros x ?%not_elem_of_nil.
Qed.

Lemma drm_ioctl_run_fb_effect s f io s' f' ret :
  config_wf s -> file_wf s f -> io_ok s io -> drm_ioctl_run s f io = Some (s', f', ret) ->
  fb_effect s f s' f'.
Proof.
  intros Hwf Hf Hok. destruct io; cbn [drm_ioctl_run io_ok] in *.
  - destruct (drm_mode_getresources _ _ _ _) as [x|] eqn:E; [|done]. intros [= <- <- _].
    apply fb_effect_same_list. revert E. unfold drm_mode_getresources, mutex_lock.
    destruct (mc_locked s); [done|]. apply query_keeps.
  - destruct (drm_mode_getcrtc _ _) as [x|] eqn:E; [|done]. intros [= <- <- _].
    apply fb_effect_same_list. revert E. unfold drm_mode_getcrtc, mutex_lock.
    destruct (mc_locked s); [done|]. apply query_keeps.
  - destruct (drm_mode_setcrtc _ _) as [x|] eqn:E; [|done]. intros [= <- <- _].
    apply fb_effect_same_list. by apply (fb_list_setcrtc _ req).
  - destruct (drm_mode_cursor_ioctl _ _) as [x|] eqn:E; [|done]. intros [= <- <- _].
    apply fb_effect_same_list. by apply (fb_list_cursor _ req).
  - destruct (drm_mode_getoutput _ _ _ _) as [x|] eqn:E; [|done]. intros [= <- <- _].
    apply fb_effect_same_list. by eapply fb_list_getoutput.
  - destruct (drm_mode_addfb _ _ _) as [x|] eqn:E; [|done]. intros [= <- <- _].
    exact (fb_effect_addfb s f r x Hwf Hok E).
  - intros E. exact (fb_effect_rmfb s f fb_id (s', f', ret) Hwf Hf E).
  - destruct (drm_mode_getfb _ _) as [x|] eqn:E; [|done]. intros [= <- <- _].
    apply fb_effect_same_list. revert E. unfold drm_mode_getfb, mutex_lock.
    destruct (mc_locked s); [done|]. cbn [mbind option_bind]. destruct (idr_lookup _ _ _); by intros [= <-].
  - destruct (drm_mode_replacefb _ _ _) as [x|] eqn:E; [|done]. intros [= <- <- _].
    apply fb_effect_same. exact (fb_ids_replacefb s f r x E).
  - destruct (drm_mode_attachmode_ioctl _ _) as [x|] eqn:E; [|done]. intros [= <- <- _].
    apply fb_effect_same_list. by apply (fb_list_attachmode _ cmd).
  - destruct (drm_mode_detachmode_ioctl _ _) as [x|] eqn:E; [|done]. intros [= <- <- _].
    apply fb_effect_same_list. by apply (fb_list_detachmode _ cmd).
  - destruct (mc_locked s) eqn:Hl; [by unfold drm_mode_getproperty_ioctl, mutex_lock; rewrite Hl|].
    rewrite drm_mode_getproperty_ioctl_eq by done. cbn [mbind option_bind]. intros [= <- <- _].
    by apply fb_effect_same.
  - unfold drm_mode_output_property_set_ioctl, mutex_lock. destruct (mc_locked s); [done|].
    cbn [mbind option_bind]. intros [= <- <- _]. by apply fb_effect_same_list.
  - unfold drm_mode_getblob_ioctl, mutex_lock. destruct (mc_locked s); [done|].
    cbn [mbind option_bind]. intros [= <- <- _]. by apply fb_effect_same_list.
  - intros [= <- <- _]. by apply fb_effect_same.
  - destruct (drm_fb_release _ _) as [x|] eqn:E; [|done]. intros [= <- <- _].
    exact (fb_effect_release s f x E).
Qed.

(** Another client's file stays well formed and disjoint from the
    caller's. *)
Lemma fb_effect_other s f s' f' g :
  fb_effect s f s' f' -> file_wf s g -> file_fbs f ## file_fbs g ->
  file_wf s' g /\ file_fbs f' ## file_fbs g.
Proof.
  intros [Hkeep Hnew] [Hnd Hin] Hdis. rewrite Forall_forall in Hin. split; [split|].
  - done.
  - apply Forall_forall. intros x Hx. apply Hkeep; [|by apply Hin].
    intros Hxf. exact (Hdis x Hxf Hx).
  - intros x Hxf' Hxg. destruct (Hnew x Hxf') as [Hxf|Hfresh]; [exact (Hdis x Hxf Hxg)|].
    apply Hfresh, Hin, Hxg.
Qed.

Lemma files_wf_step s fs i f io s' f' ret :
  config_wf s -> files_wf s fs -> fs !! i = Some f -> io_ok s io ->
  drm_ioctl_run s f io = Some (s', f', ret) -> files_wf s' (<[i := f']> fs).
Proof.
  intros Hwf [Hall Hdis] Hi Hok Hrun.
  pose proof (proj1 (Forall_lookup _ _) Hall i f Hi) as Hf.
  destruct (drm_ioctl_run_wf s f io s' f' ret Hwf Hf Hok Hrun) as [_ Hf'].
  pose proof (drm_ioctl_run_fb_effect s f io s' f' ret Hwf Hf Hok Hrun) as Heff.
  assert (forall j g, j <> i -> fs !! j = Some g -> file_wf s' g /\ file_fbs f' ## file_fbs g) as Hother.
  { intros j g Hji Hj. apply (fb_effect_other s f s' f' g Heff).
    - exact (proj1 (Forall_lookup _ _) Hall j g Hj).
    - exact (Hdis i j f g (not_eq_sym Hji) Hi Hj). }
  split.
  - apply Forall_lookup. intros j g Hj. apply list_lookup_insert_Some in Hj as [(<- & <- & _)|(Hij & Hj)];
      [done | exact (proj1 (Hother j g (not_eq_sym Hij) Hj))].
  - intros j k gj gk Hjk Hj Hk.
    apply list_lookup_insert_Some in Hj as [(<- & <- & _)|(Hij & Hj)];
      apply list_lookup_insert_Some in Hk as [(<- & <- & _)|(Hik & Hk)].
    + done.
    + exact (proj2 (Hother k gk (not_eq_sym Hik) Hk)).
    + intros x Hx1 Hx2. exact (proj2 (Hother j gj (not_eq_sym Hij) Hj) x Hx2 Hx1).
    + exact (Hdis j k gj gk Hjk Hj Hk).
Qed.

Lemma clients_wf_pairs x y :
  rtc client_step x y -> config_wf x.1 /\ files_wf x.1 x.2 -> config_wf y.1 /\ files_wf y.1 y.2.
Proof.
  induction 1 as [x|x y z Hxy _ IH]; [done|]. intros [Hwf Hfs]. apply IH.
  destruct Hxy as [s fs i f io s' f' ret Hi Hok Hrun]. cbn [fst snd] in *. split.
  - exact (proj1 (drm_ioctl_run_wf s f io s' f' ret Hwf (proj1 (Forall_lookup _ _) (proj1 Hfs) i f Hi) Hok Hrun)).
  - exact (files_wf_step s fs i f io s' f' ret Hwf Hfs Hi Hok Hrun).
Qed.

(** C16: Interleaved clients: from a well-formed store whose open files hold
    distinct framebuffers of the device, no framebuffer on two files,
    every state reached by calls of any of the files (each under its
    condition) keeps the store and the files that way. *)
Theorem clients_wf s fs s' fs' :
  rtc client_step (s, fs) (s', fs') -> config_wf s -> files_wf s fs ->
  config_wf s' /\ files_wf s' fs'.
Proof. intros Hrtc Hwf Hfs. exact (clients_wf_pairs _ _ Hrtc (conj Hwf Hfs)). Qed.

End clients.

(** ** Witnesses *)

Lemma files_wf_fresh s n : files_wf s (replicate n (mk_file [])).
Proof.
  split.
  - apply Forall_replicate. split; constructor.
  - intros i j fi fj _ Hi _. apply lookup_replicate in Hi as [-> _]. by intros x ?%not_elem_of_nil.
Qed.

(** Two clients of a device with two CRTCs each add a framebuffer: they
    get framebuffers 3 and 4. *)
Lemma clients_wf_witness :
  exists s' fs',
    rtc (@client_step sample_funcs sample_bos cursor_funcs)
      (sample_config [], [mk_file []; mk_file []]) (s', fs') /\
    fs' = [mk_file [3]; mk_file [4]] /\ config_wf s' /\ files_wf s' fs'.
Proof.
  destruct (@drm_ioctl_run sample_funcs sample_bos cursor_funcs (sample_config []) (mk_file [])
              (IoAddFb fb_req)) as [[[s1 f1] r1]|] eqn:E1; [|vm_compute in E1; discriminate].
  pose proof E1 as E1'. vm_compute in E1'. injection E1' as Hs1 Hf1 _.
  destruct (@drm_ioctl_run sample_funcs sample_bos cursor_funcs s1 (mk_file [])
              (IoAddFb fb_req)) as [[[s2 f2] r2]|] eqn:E2; [|rewrite <- Hs1 in E2; vm_compute in E2; discriminate].
  pose proof E2 as E2'. rewrite <- Hs1 in E2'. vm_compute in E2'. injection E2' as Hs2 Hf2 _.
  assert (Hs : rtc (@client_step sample_funcs sample_bos cursor_funcs)
                 (sample_config [], [mk_file []; mk_file []])
                 (s2, <[1%nat := f2]> (<[0%nat := f1]> [mk_file []; mk_file []]))).
  { eapply rtc_l; [apply (client_call _ _ 0 (mk_file []) (IoAddFb fb_req) s1 f1 r1);
                   [reflexivity | cbn [io_ok]; unfold idr_room; vm_compute; reflexivity | exact E1]|].
    apply rtc_once. apply (client_call _ _ 1 (mk_file []) (IoAddFb fb_req) s2 f2 r2);
      [reflexivity | cbn [io_ok]; unfold idr_room; rewrite <- Hs1; vm_compute; reflexivity | exact E2]. }
  destruct (@clients_wf sample_funcs sample_bos cursor_funcs _ _ _ _ Hs) as [Hw Hfs];
    [decide_by_compute | apply (files_wf_fresh _ 2) |].
  exists s2, (<[1%nat := f2]> (<[0%nat := f1]> [mk_file []; mk_file []])).
  split_and!; [exact Hs | by rewrite <- Hf1, <- Hf2 | exact Hw | exact Hfs].
Defined.
