(* ===== verification/ModeOwnership.v ===== *)
(** * Ownership of the user modes' identifiers

    [drm_mode_detachmode] releases the identifier of the user mode it
    removes ([drm_mode_destroy]); that is sound only if the identifier
    still belongs to that mode.  [umodes_own] says so of every user mode
    of every output: its identifier is 0 (an allocation the full idr
    refused) or registered as a mode, and no two user modes share a
    non-zero identifier.  The file shows that every ioctl keeps this
    invariant, so that along a session of one file, and along any
    interleaving of calls by several files ([owned_client_step]),
    [drm_mode_detachmode_ioctl] needs no condition of its own.

    The registry facts used: the operations only add fresh identifiers
    and remove identifiers they allocated in the same call
    ([drm_crtc_set_mode]'s adjusted mode) or framebuffer identifiers;
    the user-mode lists change only by [drm_mode_attachmode] and
    [drm_mode_detachmode]. *)

From S2P Require Import Prelude Idr Modes Config Property Probe PickCrtcs SetMode SetConfig Device PropertyIoctl Ioctl UserModes Scanout Store StoreIoctls Locking Clients.

(** The user modes of all outputs, in list order. *)
Definition listed_modes (s : drm_mode_config) : list drm_display_mode :=
  concat (user_modes <$> output_list s).

(** Every mode of [l] has identifier 0 or a mode identifier of [m], and
    no two share a non-zero identifier. *)
Definition modes_owned (m : idr) (l : list drm_display_mode) : Prop :=
  Forall (fun md => mode_id md = 0 \/ m !! mode_id md = Some OBJ_MODE) l /\
  NoDup (filter (fun id => id <> 0) (mode_id <$> l)).

Definition umodes_own (s : drm_mode_config) : Prop := modes_owned (crtc_idr s) (listed_modes s).

#[export] Instance modes_owned_dec m l : Decision (modes_owned m l).
Proof. unfold modes_owned. apply _. Defined.

#[export] Instance umodes_own_dec s : Decision (umodes_own s).
Proof. unfold umodes_own. apply _. Defined.

(** The registered modes stay registered. *)
Definition modes_kept (m m' : idr) : Prop :=
  forall id, m !! id = Some OBJ_MODE -> m' !! id = Some OBJ_MODE.

#[export] Instance modes_kept_preorder : PreOrder modes_kept.
Proof. split; [by intros m id | intros m1 m2 m3 H12 H23 id Hid; auto]. Qed.

(** A step that keeps every output's user modes and every registered
    mode. *)
Definition umodes_step (s s' : drm_mode_config) : Prop :=
  user_modes <$> output_list s' = user_modes <$> output_list s /\
  modes_kept (crtc_idr s) (crtc_idr s').

#[export] Instance umodes_step_preorder : PreOrder umodes_step.
Proof.
  split; [by intros s; split | intros s1 s2 s3 [H12 K12] [H23 K23]; split; [congruence | by trans (crtc_idr s2)]].
Qed.

(** * Properties *)

#[export] Instance modes_owned_perm m : Proper ((≡ₚ) ==> iff) (modes_owned m).
Proof. intros l l' Hp. unfold modes_owned. by rewrite Hp. Qed.

Lemma umodes_own_keep s s' : umodes_own s -> umodes_step s s' -> umodes_own s'.
Proof.
  intros [Hall Hnd] [Hum Hk]. unfold umodes_own, modes_owned, listed_modes in *. rewrite Hum. split; [|done].
  eapply Forall_impl; [exact Hall|]. intros m [H0|Hm]; [by left | right; by apply Hk].
Qed.

Lemma umodes_step_same s s' :
  output_list s' = output_list s -> crtc_idr s' = crtc_idr s -> umodes_step s s'.
Proof. intros Ho Hi. unfold umodes_step. rewrite Ho, Hi. done. Qed.

Lemma modes_kept_grows m m' : (forall id k, m !! id = Some k -> m' !! id = Some k) -> modes_kept m m'.
Proof. intros H id. apply H. Qed.

Lemma modes_kept_get m o : modes_kept m (drm_idr_get m o).1.
Proof.
  apply modes_kept_grows. intros id k Hk.
  destruct (drm_idr_get_cases m o) as (r & _ & _ & Hfree & _ & _ & [[-> _]|[-> _]]); cbn [fst]; [|done].
  rewrite lookup_insert_ne; [done | congruence].
Qed.

Lemma modes_kept_duplicate m mode : modes_kept m (drm_mode_duplicate m mode).1.
Proof. unfold drm_mode_duplicate, drm_mode_create. pose proof (modes_kept_get m OBJ_MODE). by destruct (drm_idr_get _ _). Qed.

(** Releasing an identifier that is not a registered mode. *)
Lemma modes_kept_put m id : m !! id <> Some OBJ_MODE -> modes_kept m (drm_idr_put m id).
Proof.
  intros Hid id' Hid'. unfold drm_idr_put. rewrite lookup_delete_ne; [done|]. by intros ->.
Qed.

(** A map over a list that keeps the user modes of every element. *)
Lemma user_modes_map_keep (g : drm_output -> drm_output) (l : list drm_output) :
  (forall o, o ∈ l -> user_modes (g o) = user_modes o) -> user_modes <$> map g l = user_modes <$> l.
Proof.
  intros Hg. induction l as [|o l IH]; [done|]. rewrite map_cons, !fmap_cons, IH.
  - rewrite Hg; [done | by left].
  - intros o' Ho'. apply Hg. by right.
Qed.

Lemma user_modes_update_output s oid f :
  (forall o, o ∈ output_list s -> output_id o = oid -> user_modes (f o) = user_modes o) ->
  user_modes <$> output_list (update_output s oid f) = user_modes <$> output_list s.
Proof.
  intros Hf. unfold update_output. cbn [output_list set_outputs]. apply user_modes_map_keep.
  intros o Ho. destruct (Z.eqb_spec (output_id o) oid); [by apply Hf | done].
Qed.

(** The output [find_output] returns is the only one with its identifier
    when the identifiers are distinct. *)
Lemma find_output_unique s oid o0 o :
  NoDup (output_id <$> output_list s) -> find_output s oid = Some o0 ->
  o ∈ output_list s -> output_id o = oid -> o = o0.
Proof.
  intros Hnd Hf Ho Hid. pose proof (find_output_id _ _ _ Hf) as Hid0.
  apply find_first_Some in Hf as [Ho0 _].
  apply list_elem_of_lookup in Ho as [i Hi]. apply list_elem_of_lookup in Ho0 as [j Hj].
  assert (i = j) as ->; [|congruence].
  apply (NoDup_lookup _ i j oid Hnd); rewrite list_lookup_fmap; [rewrite Hi | rewrite Hj]; cbn; congruence.
Qed.

(** ** Framebuffers *)

Lemma umodes_step_fb_create s : umodes_step s (drm_framebuffer_create s).1.
Proof.
  unfold drm_framebuffer_create. pose proof (modes_kept_get (crtc_idr s) OBJ_FB) as Hk.
  destruct (drm_idr_get _ _). by split.
Qed.

Lemma umodes_step_fb_destroy s fb :
  crtc_idr s !! fb <> Some OBJ_MODE -> umodes_step s (drm_framebuffer_destroy s fb).
Proof. intros Hfb. split; [done | by apply modes_kept_put]. Qed.

(** [drm_fb_release]'s loop over identifiers none of which is a mode. *)
Lemma umodes_step_release_fold l s :
  Forall (fun id => crtc_idr s !! id <> Some OBJ_MODE) l ->
  umodes_step s (fold_left drm_framebuffer_destroy l s).
Proof.
  revert s. induction l as [|x l IH]; intros s Hl; [done|]. apply Forall_cons in Hl as [Hx Hl].
  cbn [fold_left]. trans (drm_framebuffer_destroy s x); [by apply umodes_step_fb_destroy|].
  apply IH. eapply Forall_impl; [exact Hl|]. intros id Hid. cbn. unfold drm_idr_put.
  destruct (decide (id = x)) as [->|Hne]; [by rewrite lookup_delete_eq | by rewrite lookup_delete_ne].
Qed.

(** A framebuffer identifier of a well-formed store is not a mode. *)
Lemma fb_not_mode s id : config_wf s -> id ∈ fb_id <$> fb_list s -> crtc_idr s !! id <> Some OBJ_MODE.
Proof. intros Hwf Hid. by rewrite (wf_registered s OBJ_FB id Hwf). Qed.

(** ** User modes *)

Lemma wf_output_ids s : config_wf s -> NoDup (output_id <$> output_list s).
Proof. intros Hwf. apply config_wf_iff in Hwf as [_ Hw]. by destruct (Hw OBJ_OUTPUT). Qed.

Lemma map_update_other (f : drm_output -> drm_output) oid l :
  oid ∉ output_id <$> l -> map (fun o => if output_id o =? oid then f o else o) l = l.
Proof.
  induction l as [|x l IH]; intros Hl; [done|]. rewrite fmap_cons, not_elem_of_cons in Hl.
  cbn. destruct (Z.eqb_spec (output_id x) oid); [by destruct Hl | by rewrite IH; [|apply Hl]].
Qed.

(** Updating the output [oid] replaces its user modes in place in the
    listing of all user modes. *)
Lemma listed_modes_update_output s oid o f :
  NoDup (output_id <$> output_list s) -> find_output s oid = Some o ->
  exists pre post, listed_modes s = pre ++ user_modes o ++ post /\
    listed_modes (update_output s oid f) = pre ++ user_modes (f o) ++ post.
Proof.
  intros Hnd Hf. pose proof (find_output_id _ _ _ Hf) as Hid. apply find_first_Some in Hf as [Ho _].
  apply list_elem_of_split in Ho as (l1 & l2 & Hs).
  unfold listed_modes, update_output. cbn [output_list set_outputs]. rewrite Hs in Hnd |- *.
  rewrite fmap_app, fmap_cons, Hid in Hnd. apply NoDup_app in Hnd as (_ & Hdis & Hnd2).
  apply NoDup_cons in Hnd2 as [Hn2 _].
  assert (Hn1 : oid ∉ output_id <$> l1) by (intros Hin; apply (Hdis oid Hin); by left).
  rewrite (List.map_app (fun o' : drm_output => if output_id o' =? oid then f o' else o')). cbn [map].
  rewrite (map_update_other f oid l1 Hn1), (map_update_other f oid l2 Hn2).
  cbv beta. rewrite Hid, Z.eqb_refl.
  exists (concat (user_modes <$> l1)), (concat (user_modes <$> l2)).
  by rewrite !fmap_app, !fmap_cons, !concat_app, !concat_cons.
Qed.

Lemma modes_owned_cons_zero m l md : modes_owned m l -> mode_id md = 0 -> modes_owned m (md :: l).
Proof.
  intros [Hall Hnd] H0. split; [by apply Forall_cons; split; [left|] |].
  rewrite fmap_cons, filter_cons, H0. case_decide; [congruence | done].
Qed.

(** A mode with a fresh identifier, registered as it is attached. *)
Lemma modes_owned_cons_fresh m l md :
  modes_owned m l -> m !! mode_id md = None -> mode_id md <> 0 ->
  modes_owned (<[mode_id md := OBJ_MODE]> m) (md :: l).
Proof.
  intros [Hall Hnd] Hfree H0. split.
  - constructor; [right; apply lookup_insert_eq|].
    eapply Forall_impl; [exact Hall|]. intros md' [Hz|Hm]; [by left | right].
    rewrite lookup_insert_ne; [done|]. intros Heq. rewrite Heq in Hfree. congruence.
  - rewrite fmap_cons, filter_cons. case_decide; [|done]. constructor; [|done].
    intros (_ & [md' [Hid Hin]]%list_elem_of_fmap)%list_elem_of_filter.
    rewrite Forall_forall in Hall. destruct (Hall md' Hin) as [Hz|Hm]; congruence.
Qed.

(** Removing a mode and releasing its identifier. *)
Lemma modes_owned_remove m l md : modes_owned m (md :: l) -> modes_owned (delete (mode_id md) m) l.
Proof.
  intros [Hall Hnd]. apply Forall_cons in Hall as [_ Hall].
  rewrite fmap_cons, filter_cons in Hnd.
  assert (Hout : mode_id md <> 0 -> (mode_id md ∉ filter (fun id => id <> 0) (mode_id <$> l)) /\
                   NoDup (filter (fun id => id <> 0) (mode_id <$> l))).
  { intros Hz. case_decide; [by apply NoDup_cons in Hnd | done]. }
  split.
  - apply Forall_forall. intros md' Hin. rewrite Forall_forall in Hall.
    destruct (decide (mode_id md' = 0)) as [Hz|Hz]; [by left | right].
    destruct (Hall md' Hin) as [?|Hm]; [done|].
    rewrite lookup_delete_ne; [done|]. intros Heq.
    destruct (Hout ltac:(congruence)) as [Hni _]. apply Hni, list_elem_of_filter.
    split; [congruence|]. apply list_elem_of_fmap. by exists md'.
  - destruct (decide (mode_id md = 0)) as [Hz|Hz]; [|apply Hout, Hz].
    case_decide; [done | exact Hnd].
Qed.

(** [drm_mode_attachmode] puts the mode at the tail of one output's list. *)
Lemma attach_listed s oid o md m' :
  NoDup (output_id <$> output_list s) -> find_output s oid = Some o ->
  listed_modes (update_output (set_idr s m') oid (fun o => with_output_user_modes o (user_modes o ++ [md])))
    ≡ₚ md :: listed_modes s.
Proof.
  intros Hnd Hf.
  destruct (listed_modes_update_output (set_idr s m') oid o
              (fun o => with_output_user_modes o (user_modes o ++ [md])) Hnd Hf) as (pre & post & Hold & Hnew).
  rewrite Hnew. change (listed_modes (set_idr s m')) with (listed_modes s) in Hold. rewrite Hold.
  cbn [user_modes with_output_user_modes]. solve_Permutation.
Qed.

Theorem drm_mode_attachmode_ioctl_umodes s cmd r :
  config_wf s -> umodes_own s -> drm_mode_attachmode_ioctl s cmd = Some r -> umodes_own r.1.
Proof.
  intros Hwf Hown. unfold drm_mode_attachmode_ioctl, mutex_lock. destruct (mc_locked s); [done|].
  cbn [mbind option_bind]. destruct (idr_lookup _ _ _) as [o|] eqn:Hlk; [|by intros [= <-]].
  apply idr_lookup_Some in Hlk as [_ Hf]. pose proof (find_output_id _ _ _ Hf) as Hid. rewrite <- Hid in Hf.
  unfold drm_mode_attachmode, drm_mode_create.
  destruct (drm_idr_get_cases (crtc_idr (set_locked s true)) OBJ_MODE)
    as (id & _ & Hid1 & Hfree & _ & _ & [[Hg _]|[Hg _]]); rewrite Hg; intros [= <-]; cbn [fst];
    unfold umodes_own; change (listed_modes (mutex_unlock ?x)) with (listed_modes x);
    rewrite (attach_listed (set_locked s true) _ o _ _ (wf_output_ids s Hwf) Hf).
  - match goal with |- modes_owned _ (?md :: _) =>
      apply (modes_owned_cons_fresh (crtc_idr s) (listed_modes s) md Hown) end; cbn; [exact Hfree | lia].
  - by apply modes_owned_cons_zero.
Qed.

(** [drm_mode_detachmode] removes one listed mode and releases its
    identifier. *)
Theorem drm_mode_detachmode_umodes s oid mode :
  NoDup (output_id <$> output_list s) -> umodes_own s -> umodes_own (drm_mode_detachmode s oid mode).1.
Proof.
  intros Hnd Hown. unfold drm_mode_detachmode.
  destruct (find_index _ _) as [i|] eqn:Hi; [|done].
  destruct (find_index_Some _ _ _ Hi) as (md & Hmd & _ & _). rewrite Hmd. cbn [default fst].
  unfold user_modes_of in Hmd. destruct (find_output s oid) as [o|] eqn:Hf; [|done]. cbn in Hmd.
  destruct (listed_modes_update_output s oid o
              (fun o => with_output_user_modes o (delete i (user_modes o))) Hnd Hf) as (pre & post & Hold & Hnew).
  assert (Hp : listed_modes s ≡ₚ md :: pre ++ delete i (user_modes o) ++ post).
  { rewrite Hold. trans (pre ++ (md :: delete i (user_modes o)) ++ post); [|solve_Permutation].
    apply Permutation_app_head, Permutation_app_tail. by apply delete_Permutation. }
  unfold umodes_own. change (listed_modes (set_idr ?x _)) with (listed_modes x). rewrite Hnew.
  cbn [crtc_idr set_idr update_output set_outputs user_modes with_output_user_modes].
  unfold drm_mode_destroy, drm_idr_put. apply modes_owned_remove. by rewrite <- Hp.
Qed.

Theorem drm_mode_detachmode_ioctl_umodes s cmd r :
  config_wf s -> umodes_own s -> drm_mode_detachmode_ioctl s cmd = Some r -> umodes_own r.1.
Proof.
  intros Hwf Hown. unfold drm_mode_detachmode_ioctl, mutex_lock. destruct (mc_locked s); [done|].
  cbn [mbind option_bind]. destruct (idr_lookup _ _ _) as [o|]; [|by intros [= <-]].
  pose proof (drm_mode_detachmode_umodes (set_locked s true) (output_id o)
                (drm_crtc_convert_umode zero_mode (mc_mode cmd)) (wf_output_ids s Hwf) Hown) as Hd.
  destruct (drm_mode_detachmode _ _ _). intros [= <-]. exact Hd.
Qed.

Section driver.
Context `{!DrmFuncs}.

Lemma modes_kept_set_mode s cid mode x y :
  crtc_idr s !! 0 = None -> modes_kept (crtc_idr s) (crtc_idr (drm_crtc_set_mode s cid mode x y).1).
Proof.
  intros H0. unfold drm_crtc_set_mode. destruct (find_crtc s cid); [|done].
  destruct (drm_mode_duplicate_fresh (crtc_idr s) mode H0) as (Hfresh & _ & Hsub & _).
  destruct (drm_mode_duplicate (crtc_idr s) mode) as [m1 adj] eqn:Hd. cbn [fst snd] in *.
  assert (modes_kept (crtc_idr s) m1) as Hk by (apply modes_kept_grows; exact Hsub).
  repeat case_match; cbn [fst]; try exact Hk.
  unfold drm_mode_destroy. rewrite (proj2 (proj2 (emit_all_rest _ _))). cbn [crtc_idr update_crtc set_crtcs set_idr].
  intros id Hid. unfold drm_idr_put. rewrite lookup_delete_ne; [by apply Hk|]. intros Heq. rewrite <- Heq in Hid. congruence.
Qed.

Lemma modes_kept_disable_unused s : crtc_idr (drm_disable_unused_functions s) = crtc_idr s.
Proof.
  unfold drm_disable_unused_functions.
  rewrite (fold_left_preserve crtc_idr); [apply (fold_left_preserve crtc_idr)|];
    intros s0 o; [unfold disable_output_step | unfold disable_crtc_step]; by case_match.
Qed.

Lemma user_modes_disable_unused s : output_list (drm_disable_unused_functions s) = output_list s.
Proof.
  unfold drm_disable_unused_functions.
  rewrite (fold_left_preserve output_list); [apply (fold_left_preserve output_list)|];
    intros s0 o; [unfold disable_output_step | unfold disable_crtc_step]; by case_match.
Qed.

Lemma restore_bindings_user_modes outs saved :
  length saved = length outs -> user_modes <$> restore_bindings outs saved = user_modes <$> outs.
Proof.
  revert saved. induction outs as [|o outs IH]; intros [|c saved] Hl; try done.
  cbn in *. rewrite IH; [done | lia].
Qed.

(** [drm_crtc_set_config] keeps the user modes and the registered modes. *)
Lemma set_config_umodes s set :
  crtc_idr s !! 0 = None ->
  umodes_step s (drm_crtc_set_config s set).1.
Proof.
  intros H0. unfold umodes_step. unfold drm_crtc_set_config. destruct (ms_crtc set) as [cid|]; [|done].
  destruct (find_crtc s cid); [|done].
  assert (Hum : user_modes <$> map (fun o => with_output_crtc o (new_binding set cid o)) (output_list s)
                = user_modes <$> output_list s) by (by apply user_modes_map_keep).
  repeat case_match; simplify_eq; cbn [fst];
    rewrite ?user_modes_disable_unused, ?modes_kept_disable_unused; cbn;
    try (split; [exact Hum | reflexivity]);
    match goal with H : drm_crtc_set_mode ?s2 ?c ?m ?x ?y = (?s3, _) |- _ =>
      pose proof (drm_crtc_set_mode_output_list s2 c m x y) as Ho;
      pose proof (modes_kept_set_mode s2 c m x y H0) as Hk; rewrite H in Ho, Hk; cbn in Ho, Hk end;
    (split; [|exact Hk]); rewrite ?restore_bindings_user_modes, Ho; try exact Hum.
  by rewrite Ho, !length_map.
Qed.

Lemma probe_merge_user_modes o p ms :
  user_modes (with_output_modes (probe_merge o) p ms) = user_modes o.
Proof. unfold probe_merge. by case_match. Qed.

(** The prober changes one output, keeping its user modes. *)
Lemma probe_single_umodes s oid maxX maxY :
  crtc_idr s !! 0 = None -> NoDup (output_id <$> output_list s) ->
  umodes_step s (drm_crtc_probe_single_output_modes s oid maxX maxY).
Proof.
  intros H0 Hnd. unfold umodes_step. unfold drm_crtc_probe_single_output_modes.
  destruct (find_output s oid) as [o0|] eqn:Hf; [|done].
  assert (forall g s1, user_modes g = user_modes o0 -> output_list s1 = output_list s ->
            user_modes <$> output_list (update_output s1 oid (fun _ => g)) = user_modes <$> output_list s)
    as Hupd.
  { intros g s1 Hg Hs1. rewrite <- Hs1. apply user_modes_update_output. intros o Ho Hid.
    rewrite Hs1 in Ho. by rewrite Hg, (find_output_unique s oid o0 o Hnd Hf Ho Hid). }
  case_match; [split; [by apply Hupd | reflexivity]|].
  destruct (probe_fallback (crtc_idr s) _ _) as [[m' probed] ms3] eqn:Hfb.
  split; [apply Hupd; [by rewrite probe_merge_user_modes | done]|].
  cbn [crtc_idr update_output set_outputs set_idr]. unfold probe_fallback in Hfb.
  case_match; [|by simplify_eq].
  pose proof (modes_kept_duplicate (crtc_idr s) std_mode) as Hdup.
  destruct (drm_mode_duplicate _ _) as [m1 d]. by simplify_eq.
Qed.

End driver.

(** ** Every ioctl *)

Ltac umodes_same := apply umodes_step_same; reflexivity.

Lemma umodes_step_unlock s s' : umodes_step s s' -> umodes_step s (mutex_unlock s').
Proof. done. Qed.

Lemma umodes_step_emit s s' e : umodes_step s s' -> umodes_step s (emit s' e).
Proof. done. Qed.

Section handlers.
Context `{!DrmFuncs} `{!DrmBufferObjects} `{!DrmCursorFuncs}.

Lemma drm_mode_setcrtc_umodes s req r :
  config_wf s -> drm_mode_setcrtc s req = Some r -> umodes_step s r.1.
Proof.
  intros Hwf. unfold drm_mode_setcrtc, mutex_lock. destruct (mc_locked s); [done|]. cbn [mbind option_bind].
  destruct (idr_lookup _ _ _) as [crtc|]; [|intros [= <-]; umodes_same].
  unfold setcrtc_checked, drm_mode_create.
  pose proof (modes_kept_get (crtc_idr (set_locked s true)) OBJ_MODE) as Hk.
  pose proof (proj1 (idr_keeps_get (crtc_idr (set_locked s true)) OBJ_MODE) (proj1 Hwf)) as Hz.
  destruct (drm_idr_get _ _) as [m' id].
  repeat case_match; simplify_eq; intros [= <-]; apply umodes_step_unlock;
    try umodes_same; try (split; [reflexivity | exact Hk]);
    match goal with Hc : drm_crtc_set_config ?s0 ?set = _ |- _ =>
      pose proof (set_config_umodes s0 set) as Hs; rewrite Hc in Hs; cbn [fst] in Hs;
      (trans s0; [split; [reflexivity | first [exact Hk | reflexivity]] | apply Hs; first [exact Hz | apply Hwf]])
    end.
Qed.

Lemma drm_mode_getoutput_umodes s oid cm cp r :
  config_wf s -> drm_mode_getoutput s oid cm cp = Some r -> umodes_step s r.1.
Proof.
  intros Hwf. unfold drm_mode_getoutput, mutex_lock. destruct (mc_locked s); [done|]. cbn [mbind option_bind].
  destruct (idr_lookup _ _ _); intros [= <-]; apply umodes_step_unlock; [|umodes_same].
  case_match; [|umodes_same].
  apply (probe_single_umodes (set_locked s true) oid _ _ (proj1 Hwf) (wf_output_ids s Hwf)).
Qed.

Lemma drm_mode_cursor_ioctl_umodes s req r : drm_mode_cursor_ioctl s req = Some r -> umodes_step s r.1.
Proof.
  unfold drm_mode_cursor_ioctl, mutex_lock, cursor_bo_part, cursor_move_part.
  destruct (negb _); [by intros [= <-]|]. destruct (mc_locked s); [done|]. cbn [mbind option_bind].
  repeat case_match; simplify_eq; intros [= <-]; umodes_same.
Qed.

Lemma drm_mode_addfb_umodes s f rq res : drm_mode_addfb s f rq = Some res -> umodes_step s res.1.1.1.
Proof.
  unfold drm_mode_addfb, mutex_lock. repeat (case_match; [intros [= <-]; umodes_same|]).
  destruct (mc_locked s); [done|]. cbn [mbind option_bind]. case_match; [|intros [= <-]; umodes_same].
  pose proof (umodes_step_fb_create (set_locked s true)) as Hc.
  destruct (drm_framebuffer_create _) as [s2 id]. intros [= <-]. cbn [fst] in *.
  trans (set_locked s true); [umodes_same|]. trans s2; [exact Hc|].
  unfold fill_new_fb. case_match; umodes_same.
Qed.

Lemma drm_mode_rmfb_umodes s f id r : config_wf s -> drm_mode_rmfb s f id = Some r -> umodes_step s r.1.1.
Proof.
  intros Hwf. unfold drm_mode_rmfb, mutex_lock. destruct (mc_locked s); [done|]. cbn [mbind option_bind].
  destruct (idr_lookup _ _ _) as [fb|] eqn:Hlk; [|intros [= <-]; umodes_same].
  apply idr_lookup_Some in Hlk as [_ Hf%find_fb_elem].
  case_match; intros [= <-]; [umodes_same|]. apply umodes_step_unlock.
  trans (set_locked s true); [umodes_same|]. apply umodes_step_fb_destroy. by apply (fb_not_mode s).
Qed.

Lemma drm_fb_release_umodes s f r :
  config_wf s -> file_wf s f -> drm_fb_release s f = Some r -> umodes_step s r.1.
Proof.
  intros Hwf [_ Hin]. unfold drm_fb_release, mutex_lock. destruct (mc_locked s); [done|].
  intros [= <-]. apply umodes_step_unlock. trans (set_locked s true); [umodes_same|].
  apply umodes_step_release_fold. eapply Forall_impl; [exact Hin|]. intros id Hid. by apply (fb_not_mode s).
Qed.

Lemma replacefb_fold_umodes id l s s' :
  fold_left (replacefb_crtc_step id) l (Some s) = Some s' -> umodes_step s s'.
Proof.
  revert s. induction l as [|c l IH]; intros s; cbn [fold_left]; [by intros [= <-]|].
  destruct (replacefb_crtc_step_cases id s c) as [->|[[e ->]| ->]]; intros Hs.
  - by rewrite replacefb_fold_none in Hs.
  - trans (emit s e); [umodes_same | by apply IH].
  - by apply IH.
Qed.

Lemma drm_mode_replacefb_umodes s f rq r : drm_mode_replacefb s f rq = Some r -> umodes_step s r.1.
Proof.
  unfold drm_mode_replacefb, mutex_lock. destruct (mc_locked s); [done|]. cbn [mbind option_bind].
  repeat (case_match; [|intros [= <-]; umodes_same]).
  case_match; [intros [= <-]; umodes_same|].
  destruct (fold_left _ _ _) as [s3|] eqn:Hfold; [|done]. intros [= <-].
  apply replacefb_fold_umodes in Hfold. apply umodes_step_unlock.
  trans (update_fb (set_locked s true) (fb_id d) (fun fb => mk_fb (fb_id fb) (fbc_width rq) (fbc_height rq)
           (fbc_pitch rq) (fbc_bpp rq) (fbc_depth rq) (fbc_handle rq) b)); [umodes_same | exact Hfold].
Qed.
End handlers.

(** A call that only reads the store and releases the mutex. *)
Lemma query_umodes {A} s (a : A) r : Some (mutex_unlock (set_locked s true), a) = Some r -> umodes_step s r.1.
Proof. intros [= <-]. umodes_same. Qed.

(** The user modes of every output own their identifiers, so
    [drm_mode_detachmode]'s condition holds for every output. *)
Lemma umodes_registered s oid : config_wf s -> umodes_own s -> user_modes_registered s oid.
Proof.
  intros Hwf [Hall _]. unfold listed_modes in Hall. apply Forall_concat in Hall.
  unfold user_modes_registered, user_modes_of. destruct (find_output s oid) as [o|] eqn:Hf; cbn; [|constructor].
  apply find_first_Some in Hf as [Ho _]. rewrite Forall_forall in Hall.
  eapply Forall_impl; [apply Hall; by apply list_elem_of_fmap_2|]. intros md [Hz|Hm]; unfold mode_slot_ok;
    [by rewrite Hz, (proj1 Hwf) | by rewrite Hm].
Qed.

Section session.
Context `{!DrmFuncs} `{!DrmBufferObjects} `{!DrmCursorFuncs}.

Theorem drm_ioctl_run_umodes s f io s' f' ret :
  config_wf s -> file_wf s f -> umodes_own s -> drm_ioctl_run s f io = Some (s', f', ret) -> umodes_own s'.
Proof.
  intros Hwf Hf Hown. destruct io; cbn [drm_ioctl_run].
  - destruct (drm_mode_getresources _ _ _ _) as [x|] eqn:E; [|done]. intros [= <- <- _].
    apply (umodes_own_keep s); [done|]. revert E. unfold drm_mode_getresources, mutex_lock.
    destruct (mc_locked s); [done|]. apply query_umodes.
  - destruct (drm_mode_getcrtc _ _) as [x|] eqn:E; [|done]. intros [= <- <- _].
    apply (umodes_own_keep s); [done|]. revert E. unfold drm_mode_getcrtc, mutex_lock.
    destruct (mc_locked s); [done|]. apply query_umodes.
  - destruct (drm_mode_setcrtc _ _) as [x|] eqn:E; [|done]. intros [= <- <- _].
    apply (umodes_own_keep s); [done | by apply (drm_mode_setcrtc_umodes s req)].
  - destruct (drm_mode_cursor_ioctl _ _) as [x|] eqn:E; [|done]. intros [= <- <- _].
    apply (umodes_own_keep s); [done | by apply (drm_mode_cursor_ioctl_umodes s req)].
  - destruct (drm_mode_getoutput _ _ _ _) as [x|] eqn:E; [|done]. intros [= <- <- _].
    apply (umodes_own_keep s); [done | by eapply drm_mode_getoutput_umodes].
  - destruct (drm_mode_addfb _ _ _) as [x|] eqn:E; [|done]. intros [= <- <- _].
    apply (umodes_own_keep s); [done | by eapply drm_mode_addfb_umodes].
  - intros E. apply (umodes_own_keep s); [done|]. exact (drm_mode_rmfb_umodes s f fb_id _ Hwf E).
  - destruct (drm_mode_getfb _ _) as [x|] eqn:E; [|done]. intros [= <- <- _].
    revert E. unfold drm_mode_getfb, mutex_lock. destruct (mc_locked s); [done|]. cbn [mbind option_bind].
    destruct (idr_lookup _ _ _); intros [= <-]; exact Hown.
  - destruct (drm_mode_replacefb _ _ _) as [x|] eqn:E; [|done]. intros [= <- <- _].
    apply (umodes_own_keep s); [done | by eapply drm_mode_replacefb_umodes].
  - destruct (drm_mode_attachmode_ioctl _ _) as [x|] eqn:E; [|done]. intros [= <- <- _].
    by apply (drm_mode_attachmode_ioctl_umodes s cmd).
  - destruct (drm_mode_detachmode_ioctl _ _) as [x|] eqn:E; [|done]. intros [= <- <- _].
    by apply (drm_mode_detachmode_ioctl_umodes s cmd).
  - destruct (mc_locked s) eqn:Hl; [by unfold drm_mode_getproperty_ioctl, mutex_lock; rewrite Hl|].
    rewrite drm_mode_getproperty_ioctl_eq by done. cbn [mbind option_bind]. intros [= <- <- _]. exact Hown.
  - unfold drm_mode_output_property_set_ioctl, mutex_lock. destruct (mc_locked s); [done|].
    cbn [mbind option_bind]. intros [= <- <- _]. exact Hown.
  - unfold drm_mode_getblob_ioctl, mutex_lock. destruct (mc_locked s); [done|].
    cbn [mbind option_bind]. intros [= <- <- _]. exact Hown.
  - intros [= <- <- _]. exact Hown.
  - destruct (drm_fb_release _ _) as [x|] eqn:E; [|done]. intros [= <- <- _].
    apply (umodes_own_keep s); [done | by apply (drm_fb_release_umodes s f)].
Qed.

(** Only [drm_mode_addfb] keeps a condition: room in the registry, as
    [drm_framebuffer_create] does not check the identifier it gets. *)
Definition io_room (s : drm_mode_config) (io : drm_ioctl) : Prop :=
  match io with IoAddFb _ => idr_room s | _ => True end.

(** The session of one file with no condition on [drm_mode_detachmode_ioctl]. *)
(** Where the user modes own their identifiers, [io_room] is all that
    [io_ok] asks. *)
Lemma io_room_ok s io : config_wf s -> umodes_own s -> io_room s io -> io_ok s io.
Proof. intros Hwf Hown Hroom. destruct io; try exact I; [exact Hroom | exact (umodes_registered s _ Hwf Hown)]. Qed.

Inductive owned_step : drm_mode_config * drm_file -> drm_mode_config * drm_file -> Prop :=
  | owned_call s f io s' f' ret :
      io_room s io -> drm_ioctl_run s f io = Some (s', f', ret) -> owned_step (s, f) (s', f').

Definition owned_inv (x : drm_mode_config * drm_file) : Prop :=
  config_wf x.1 /\ file_wf x.1 x.2 /\ umodes_own x.1.

Lemma owned_step_session x y : owned_inv x -> owned_step x y -> session_step x y /\ owned_inv y.
Proof.
  intros Hx Hxy. destruct Hxy as [s f io s' f' ret Hroom Hrun]. destruct Hx as (Hwf & Hf & Hown).
  cbn [fst snd] in *. pose proof (io_room_ok s io Hwf Hown Hroom) as Hok.
  split; [by apply (session_call s f io s' f' ret)|].
  destruct (drm_ioctl_run_wf s f io s' f' ret Hwf Hf Hok Hrun) as [Hwf' Hf'].
  split_and!; [done | done | by apply (drm_ioctl_run_umodes s f io s' f' ret)].
Qed.

Lemma owned_session_pairs x y : rtc owned_step x y -> owned_inv x -> rtc session_step x y /\ owned_inv y.
Proof.
  induction 1 as [x|x y z Hxy _ IH]; intros Hx; [done|].
  destruct (owned_step_session x y Hx Hxy) as [Hs Hy]. destruct (IH Hy) as [Hr Hz].
  split; [by apply rtc_l with y | done].
Qed.

(** From a well-formed device and file whose user modes own their
    identifiers, every sequence of ioctls in which only
    [drm_mode_addfb] needs room in the registry is a session of guarded
    calls: [drm_mode_detachmode_ioctl] never releases an identifier that
    is not its mode's. Every state reached keeps the store and the file
    well formed and the user modes owning their identifiers. *)
Theorem owned_session_refines s f s' f' :
  rtc owned_step (s, f) (s', f') -> config_wf s -> file_wf s f -> umodes_own s ->
  rtc session_step (s, f) (s', f') /\ config_wf s' /\ file_wf s' f' /\ umodes_own s'.
Proof.
  intros Hr Hwf Hf Hown. destruct (owned_session_pairs _ _ Hr (conj Hwf (conj Hf Hown))) as (Hs & Hinv).
  exact (conj Hs Hinv).
Qed.

(** ** Several clients *)

(** Interleaved calls of several open files, with no condition on
    [drm_mode_detachmode_ioctl]. *)
Inductive owned_client_step :
    drm_mode_config * list drm_file -> drm_mode_config * list drm_file -> Prop :=
  | owned_client_call s fs i f io s' f' ret :
      fs !! i = Some f -> io_room s io -> drm_ioctl_run s f io = Some (s', f', ret) ->
      owned_client_step (s, fs) (s', <[i := f']> fs).

Definition clients_inv (x : drm_mode_config * list drm_file) : Prop :=
  config_wf x.1 /\ files_wf x.1 x.2 /\ umodes_own x.1.

Lemma owned_client_step_refines x y :
  clients_inv x -> owned_client_step x y -> client_step x y /\ clients_inv y.
Proof.
  intros Hx Hxy. destruct Hxy as [s fs i f io s' f' ret Hi Hroom Hrun]. destruct Hx as (Hwf & Hfs & Hown).
  cbn [fst snd] in *. pose proof (io_room_ok s io Hwf Hown Hroom) as Hok.
  pose proof (proj1 (Forall_lookup _ _) (proj1 Hfs) i f Hi) as Hf.
  split; [by apply (client_call s fs i f io s' f' ret)|].
  split_and!.
  - exact (proj1 (drm_ioctl_run_wf s f io s' f' ret Hwf Hf Hok Hrun)).
  - exact (files_wf_step s fs i f io s' f' ret Hwf Hfs Hi Hok Hrun).
  - exact (drm_ioctl_run_umodes s f io s' f' ret Hwf Hf Hown Hrun).
Qed.

Lemma owned_clients_pairs x y :
  rtc owned_client_step x y -> clients_inv x -> rtc client_step x y /\ clients_inv y.
Proof.
  induction 1 as [x|x y z Hxy _ IH]; intros Hx; [done|].
  destruct (owned_client_step_refines x y Hx Hxy) as [Hs Hy]. destruct (IH Hy) as [Hr Hz].
  split; [by apply rtc_l with y | done].
Qed.

(** C17: Interleaved clients without a detach condition: from a
    well-formed device whose open files hold distinct framebuffers of the
    device (none on two files) and whose user modes own their
    identifiers, every interleaving of ioctls by the files in which only
    [drm_mode_addfb] needs room in the registry is an interleaving of
    guarded calls ([client_step]): one file may detach a mode another
    attached, and [drm_mode_detachmode_ioctl] still releases only its
    mode's identifier.  Every state reached keeps the store and the files
    well formed and the user modes owning their identifiers. *)
Theorem owned_clients_refines s fs s' fs' :
  rtc owned_client_step (s, fs) (s', fs') -> config_wf s -> files_wf s fs -> umodes_own s ->
  rtc client_step (s, fs) (s', fs') /\ config_wf s' /\ files_wf s' fs' /\ umodes_own s'.
Proof.
  intros Hr Hwf Hfs Hown. destruct (owned_clients_pairs _ _ Hr (conj Hwf (conj Hfs Hown))) as (Hs & Hinv).
  exact (conj Hs Hinv).
Qed.
End session.

(** ** Witness *)

(** Attaching a mode to output 3 of [shared_config] and detaching it
    again, with no condition on the detach. *)
Definition attach_detach_session (s : drm_mode_config) : option (drm_mode_config * drm_file) :=
  x ← @drm_ioctl_run sample_funcs sample_bos cursor_funcs s (mk_file []) (IoAttachMode attach_cmd);
  y ← @drm_ioctl_run sample_funcs sample_bos cursor_funcs x.1.1 x.1.2 (IoDetachMode attach_cmd);
  Some y.1.

Lemma owned_session_refines_witness :
  exists y, rtc (@session_step sample_funcs sample_bos cursor_funcs) (shared_config, mk_file []) y /\
    umodes_own y.1 /\ attach_detach_session shared_config = Some y.
Proof.
  destruct (@drm_ioctl_run sample_funcs sample_bos cursor_funcs shared_config (mk_file []) (IoAttachMode attach_cmd))
    as [[[s1 f1] r1]|] eqn:E1; [|vm_compute in E1; discriminate].
  destruct (@drm_ioctl_run sample_funcs sample_bos cursor_funcs s1 f1 (IoDetachMode attach_cmd))
    as [[[s2 f2] r2]|] eqn:E2; [|vm_compute in E1; injection E1 as <- <- _; vm_compute in E2; discriminate].
  assert (Hr : rtc (@owned_step sample_funcs sample_bos cursor_funcs) (shared_config, mk_file []) (s2, f2)).
  { eapply rtc_l; [exact (owned_call shared_config (mk_file []) (IoAttachMode attach_cmd) s1 f1 r1 I E1)|].
    apply rtc_once. exact (owned_call s1 f1 (IoDetachMode attach_cmd) s2 f2 r2 I E2). }
  destruct (@owned_session_refines sample_funcs sample_bos cursor_funcs _ _ _ _ Hr)
    as (Hs & _ & _ & Hown); [decide_by_compute | decide_by_compute | decide_by_compute |].
  exists (s2, f2). split_and!; [exact Hs | exact Hown |].
  unfold attach_detach_session. rewrite E1. cbn [mbind option_bind fst snd]. by rewrite E2.
Defined.

(** The first of two files attaches a mode to output 3 of
    [shared_config], the second detaches it. *)
Lemma owned_clients_refines_witness :
  exists y, rtc (@client_step sample_funcs sample_bos cursor_funcs)
              (shared_config, [mk_file []; mk_file []]) y /\ umodes_own y.1 /\
    attach_detach_session shared_config = Some (y.1, mk_file []).
Proof.
  destruct (@drm_ioctl_run sample_funcs sample_bos cursor_funcs shared_config (mk_file []) (IoAttachMode attach_cmd))
    as [[[s1 f1] r1]|] eqn:E1; [|vm_compute in E1; discriminate].
  pose proof E1 as E1'. vm_compute in E1'. injection E1' as _ Hf1 _.
  destruct (@drm_ioctl_run sample_funcs sample_bos cursor_funcs s1 (mk_file []) (IoDetachMode attach_cmd))
    as [[[s2 f2] r2]|] eqn:E2; [|vm_compute in E1; injection E1 as <- _ _; vm_compute in E2; discriminate].
  assert (Hr : rtc (@owned_client_step sample_funcs sample_bos cursor_funcs)
                 (shared_config, [mk_file []; mk_file []])
                 (s2, <[1%nat := f2]> (<[0%nat := f1]> [mk_file []; mk_file []]))).
  { eapply rtc_l; [exact (owned_client_call shared_config [mk_file []; mk_file []] 0 (mk_file []) (IoAttachMode attach_cmd) s1 f1 r1 eq_refl I E1)|].
    apply rtc_once. exact (owned_client_call s1 (<[0%nat := f1]> [mk_file []; mk_file []]) 1 (mk_file []) (IoDetachMode attach_cmd) s2 f2 r2 eq_refl I E2). }
  destruct (@owned_clients_refines sample_funcs sample_bos cursor_funcs _ _ _ _ Hr)
    as (Hs & _ & _ & Hown); [decide_by_compute | apply (files_wf_fresh _ 2) | decide_by_compute |].
  exists (s2, <[1%nat := f2]> (<[0%nat := f1]> [mk_file []; mk_file []])). split_and!; [exact Hs | exact Hown |].
  unfold attach_detach_session. rewrite E1. cbn [mbind option_bind fst snd]. rewrite <- Hf1, E2.
  f_equal. pose proof E2 as E2'. vm_compute in E1. injection E1 as <- _ _. vm_compute in E2'.
  by injection E2' as _ <- _.
Defined.
