(* ===== verification/Alloc.v ===== *)
(** * Allocation failure

    The rest of the development takes every [kzalloc] to succeed.  Here
    each allocating operation of [drm_crtc.c] is given the outcome of its
    allocation as an argument [ok] ([false]: [kzalloc] returned NULL),
    with the control flow the code has on NULL; with [ok = true] each is
    the operation of the other files ([*_k_ok] lemmas).  One flag stands
    for every allocation of the call ([drm_mode_attachmode_crtc]
    duplicates once per further output: all of them fail together, as
    when memory is exhausted); allocations made by the functions a
    handler calls afterwards ([drm_crtc_set_config] inside
    [drm_mode_setcrtc]) succeed.

    Two kinds of behaviour come out:
    - checked failures: [drm_framebuffer_create] returns NULL before
      registering anything, and [drm_mode_addfb] reports it as -EINVAL;
      [drm_mode_attachmode_ioctl] and [drm_crtc_set_config] return
      -ENOMEM; in each case the device is left as it was;
    - unchecked failures, a NULL dereference (the result [None]):
      [drm_mode_setcrtc] converts the user's mode into the NULL
      [drm_mode_create] returned, the prober's fallback adds a NULL
      [stdmode] to the probed list, [drm_mode_attachmode_crtc] attaches a
      NULL duplicate. *)

From S2P Require Import Prelude Idr Modes Config Property Probe PickCrtcs SetMode SetConfig Device Ioctl UserModes.

(** ** Allocators *)

(** [drm_framebuffer_create]: [fb = kzalloc(..); if (!fb) return NULL;]
    before the identifier is taken. *)
Definition drm_framebuffer_create_k (ok : bool) (s : drm_mode_config) : drm_mode_config * option Z :=
  if ok then let '(s', id) := drm_framebuffer_create s in (s', Some id) else (s, None).

(** [drm_mode_create]: [nmode = kzalloc(..); if (!nmode) return NULL;]. *)
Definition drm_mode_create_k (ok : bool) (m : idr) : idr * option drm_display_mode :=
  if ok then let '(m', md) := drm_mode_create m in (m', Some md) else (m, None).

(** [drm_mode_duplicate] (drm_modes.c): NULL when its [drm_mode_create]
    is. *)
Definition drm_mode_duplicate_k (ok : bool) (m : idr) (mode : drm_display_mode)
  : idr * option drm_display_mode :=
  if ok then let '(m', d) := drm_mode_duplicate m mode in (m', Some d) else (m, None).

(** ** Handlers that check the allocation *)

Section checked.
Context `{!DrmBufferObjects}.

(** [drm_mode_addfb]: [if (!fb) { ret = -EINVAL; goto out; }]. *)
Definition drm_mode_addfb_k (ok : bool) (s : drm_mode_config) (f : drm_file) (r : drm_mode_fb_cmd)
  : option (drm_mode_config * drm_file * Z * option Z) :=
  if (fbc_width r <? min_width s) || (max_width s <? fbc_width r) then Some (s, f, - EINVAL, None)
  else if (fbc_height r <? min_height s) || (max_height s <? fbc_height r)
  then Some (s, f, - EINVAL, None)
  else
    s1 ← mutex_lock s;
    match bo_lookup (fbc_handle r) with
    | None => Some (mutex_unlock s1, f, - EINVAL, None)
    | Some kernel =>
        match drm_framebuffer_create_k ok s1 with
        | (s2, None) => Some (mutex_unlock s2, f, - EINVAL, None)
        | (s2, Some id) =>
            Some (mutex_unlock (fill_new_fb s2 r kernel), mk_file (id :: file_fbs f), 0, Some id)
        end
    end.
End checked.

(** [drm_mode_attachmode_ioctl]: [if (!mode) { ret = -ENOMEM; goto out; }]. *)
Definition drm_mode_attachmode_ioctl_k (ok : bool) (s : drm_mode_config) (cmd : drm_mode_mode_cmd)
  : option (drm_mode_config * Z) :=
  s1 ← mutex_lock s;
  match idr_lookup s1 (mc_output_id cmd) (find_output s1 (mc_output_id cmd)) with
  | None => Some (mutex_unlock s1, - EINVAL)
  | Some o =>
      match drm_mode_create_k ok (crtc_idr s1) with
      | (_, None) => Some (mutex_unlock s1, - ENOMEM)
      | (m', Some mode) =>
          let '(s2, ret) := drm_mode_attachmode (set_idr s1 m') (output_id o)
                              (drm_crtc_convert_umode mode (mc_mode cmd)) in
          Some (mutex_unlock s2, ret)
      end
  end.

Section set_config.
Context `{!DrmFuncs}.

(** [drm_crtc_set_config]: [save_crtcs = kzalloc(..); if (!save_crtcs)
    return -ENOMEM;], after the checks of [set] and [set->crtc] and
    before anything is changed. *)
Definition drm_crtc_set_config_k (ok : bool) (s : drm_mode_config) (set : drm_mode_set)
  : drm_mode_config * Z :=
  match ms_crtc set with
  | None => (s, - EINVAL)
  | Some _ => if ok then drm_crtc_set_config s set else (s, - ENOMEM)
  end.

(** ** Handlers that do not check it *)

(** [drm_mode_setcrtc] after the CRTC lookup: [mode = drm_mode_create(dev);
    drm_crtc_convert_umode(mode, ..)] with no test of [mode] ([mode_ok]);
    [output_set = kmalloc(..); if (!output_set) { ret = -ENOMEM; .. }]
    ([outs_ok]), taken only for a non-empty output list. *)
Definition setcrtc_checked_k (mode_ok outs_ok : bool) (s1 : drm_mode_config)
    (req : drm_mode_crtc_req) (crtc : drm_crtc) : option (drm_mode_config * Z) :=
  let count := Z.of_nat (length (req_outputs req)) in
  let fb_res :=
    if req_mode_valid req =? 0 then Some None
    else if req_fb_id req =? 2 ^ 32 - 1 then
      Some (if existsb (fun c => crtc_id c =? crtc_id crtc) (crtc_list s1)
            then crtc_fb crtc else None)
    else option_map (fun fb => Some (fb_id fb))
           (idr_lookup s1 (req_fb_id req) (find_fb s1 (req_fb_id req))) in
  match fb_res with
  | None => Some (s1, - EINVAL)
  | Some fb =>
    r ← (if req_mode_valid req =? 0 then Some (s1, None)
         else match drm_mode_create_k mode_ok (crtc_idr s1) with
              | (_, None) => None
              | (m', Some mode) => Some (set_idr s1 m', Some (drm_crtc_convert_umode mode (req_mode req)))
              end);
    let '(s2, mode) := r in
    if (count =? 0) && bool_decide (mode <> None) then Some (s2, - EINVAL)
    else if (0 <? count) && bool_decide (mode = None) && bool_decide (fb = None)
    then Some (s2, - EINVAL)
    else if (0 <? count) && negb outs_ok then Some (s2, - ENOMEM)
    else match lookup_outputs s2 (req_outputs req) with
         | None => Some (s2, - EINVAL)
         | Some outs =>
             Some (drm_crtc_set_config s2
                     (mk_mode_set (Some (crtc_id crtc)) (req_x req) (req_y req) mode outs fb))
         end
  end.

Definition drm_mode_setcrtc_k (mode_ok outs_ok : bool) (s : drm_mode_config) (req : drm_mode_crtc_req)
  : option (drm_mode_config * Z) :=
  s1 ← mutex_lock s;
  match idr_lookup s1 (req_crtc_id req) (find_crtc s1 (req_crtc_id req)) with
  | None => Some (mutex_unlock s1, - EINVAL)
  | Some crtc => r ← setcrtc_checked_k mode_ok outs_ok s1 req crtc; Some (mutex_unlock r.1, r.2)
  end.

(** The prober's fallback: [stdmode = drm_mode_duplicate(..);
    drm_mode_probed_add(output, stdmode);] with no test: [list_add] on
    the NULL mode's list head. *)
Definition probe_fallback_k (ok : bool) (m : idr) (probed ms2 : list drm_display_mode)
  : option (idr * list drm_display_mode * list drm_display_mode) :=
  match ms2 with
  | [] => match drm_mode_duplicate_k ok m std_mode with
          | (_, None) => None
          | (m', Some stdmode) => Some (m', [], [] ++ drm_mode_probed_add probed stdmode)
          end
  | _ => Some (m, probed, ms2)
  end.

Definition drm_crtc_probe_single_output_modes_k (ok : bool) (s : drm_mode_config) (oid maxX maxY : Z)
  : option drm_mode_config :=
  match find_output s oid with
  | None => Some s
  | Some o0 =>
    let o1 := with_output_modes o0 (probed_modes o0)
                (map (fun m => with_status m MODE_UNVERIFIED) (modes o0)) in
    let st := output_detect o1 in
    let o2 := with_output_status o1 st in
    if bool_decide (st = output_status_disconnected) then Some (update_output s oid (fun _ => o2))
    else
    let o4 := probe_merge o2 in
    '(m', probed, ms3) ← probe_fallback_k ok (crtc_idr s) (probed_modes o4) (probe_candidates o4 maxX maxY);
    let ms4 := map (fun m => with_vrefresh m (drm_mode_vrefresh m)) (drm_mode_sort ms3) in
    Some (update_output (set_idr s m') oid (fun _ => with_output_modes o4 probed ms4))
  end.
End set_config.

(** [drm_mode_attachmode_crtc]: [dup_mode = drm_mode_duplicate(..);
    ret = drm_mode_attachmode(dev, output, dup_mode);] with no test:
    [list_add_tail] on the NULL duplicate. *)
Definition attachmode_crtc_step_k (ok : bool) (cid : Z) (mode : drm_display_mode)
    (acc : option (drm_mode_config * bool)) (o : drm_output) : option (drm_mode_config * bool) :=
  match acc with
  | None => None
  | Some (s, need_dup) =>
    if bool_decide (output_crtc o = Some cid) then
      let dup : option (drm_mode_config * drm_display_mode) :=
        if need_dup then match drm_mode_duplicate_k ok (crtc_idr s) mode with
                         | (_, None) => None
                         | (m', Some d) => Some (set_idr s m', d)
                         end
        else Some (s, mode) in
      match dup with
      | None => None
      | Some (s1, dup_mode) => Some ((drm_mode_attachmode s1 (output_id o) dup_mode).1, true)
      end
    else Some (s, need_dup)
  end.

Definition drm_mode_attachmode_crtc_k (ok : bool) (s : drm_mode_config) (cid : Z)
    (mode : drm_display_mode) : option (drm_mode_config * Z) :=
  r ← fold_left (attachmode_crtc_step_k ok cid mode) (output_list s) (Some (s, false));
  Some (r.1, 0).

(** * Properties *)

(** ** The success paths are the operations of the other files *)

Lemma drm_mode_addfb_k_ok `{!DrmBufferObjects} s f r : drm_mode_addfb_k true s f r = drm_mode_addfb s f r.
Proof.
  unfold drm_mode_addfb_k, drm_mode_addfb, drm_framebuffer_create_k.
  destruct (_ || _); [done|]. destruct (_ || _); [done|]. destruct (mutex_lock s); [|done].
  cbn [mbind option_bind]. destruct (bo_lookup _); [|done]. by destruct (drm_framebuffer_create _).
Qed.

Lemma drm_mode_attachmode_ioctl_k_ok s cmd :
  drm_mode_attachmode_ioctl_k true s cmd = drm_mode_attachmode_ioctl s cmd.
Proof.
  unfold drm_mode_attachmode_ioctl_k, drm_mode_attachmode_ioctl, drm_mode_create_k.
  destruct (mutex_lock s); [|done]. cbn [mbind option_bind].
  destruct (idr_lookup _ _ _); [|done]. by destruct (drm_mode_create _).
Qed.

Section ok.
Context `{!DrmFuncs}.

Lemma drm_crtc_set_config_k_ok s set : drm_crtc_set_config_k true s set = drm_crtc_set_config s set.
Proof. unfold drm_crtc_set_config_k, drm_crtc_set_config. by destruct (ms_crtc set). Qed.

Lemma setcrtc_checked_k_ok s1 req crtc :
  setcrtc_checked_k true true s1 req crtc = Some (setcrtc_checked s1 req crtc).
Proof.
  unfold setcrtc_checked_k, setcrtc_checked, drm_mode_create_k. cbn [negb]. rewrite !andb_false_r.
  destruct (if req_mode_valid req =? 0 then _ else _) as [fb|]; [|done].
  destruct (req_mode_valid req =? 0); cbn [mbind option_bind];
    [|destruct (drm_mode_create _) as [m' mode]; cbn [mbind option_bind]];
    repeat (case_match; try done).
Qed.

Lemma drm_mode_setcrtc_k_ok s req : drm_mode_setcrtc_k true true s req = drm_mode_setcrtc s req.
Proof.
  unfold drm_mode_setcrtc_k, drm_mode_setcrtc. destruct (mutex_lock s); [|done]. cbn [mbind option_bind].
  destruct (idr_lookup _ _ _); [|done]. rewrite setcrtc_checked_k_ok. cbn [mbind option_bind].
  by destruct (setcrtc_checked _ _ _).
Qed.

Lemma drm_crtc_probe_single_output_modes_k_ok s oid maxX maxY :
  drm_crtc_probe_single_output_modes_k true s oid maxX maxY =
  Some (drm_crtc_probe_single_output_modes s oid maxX maxY).
Proof.
  unfold drm_crtc_probe_single_output_modes_k, drm_crtc_probe_single_output_modes,
    probe_fallback_k, probe_fallback, drm_mode_duplicate_k.
  destruct (find_output s oid); [|done]. case_bool_decide; [done|].
  destruct (probe_candidates _ _ _); [|done]. by destruct (drm_mode_duplicate _ _).
Qed.
End ok.

Lemma attachmode_crtc_fold_k_ok cid mode l acc :
  fold_left (attachmode_crtc_step_k true cid mode) l (Some acc) =
  Some (fold_left (attachmode_crtc_step cid mode) l acc).
Proof.
  revert acc. induction l as [|o l IH]; intros [s need_dup]; [done|]. cbn [fold_left].
  rewrite <- IH. f_equal. unfold attachmode_crtc_step_k, attachmode_crtc_step, drm_mode_duplicate_k.
  case_bool_decide; [|done]. destruct need_dup; [|done]. by destruct (drm_mode_duplicate _ _).
Qed.

Lemma drm_mode_attachmode_crtc_k_ok s cid mode :
  drm_mode_attachmode_crtc_k true s cid mode = Some (drm_mode_attachmode_crtc s cid mode).
Proof. unfold drm_mode_attachmode_crtc_k. by rewrite attachmode_crtc_fold_k_ok. Qed.

(** ** Checked failures *)

(** C33: Checked allocation failures: when [kzalloc] returns NULL,
    [drm_mode_addfb] (past its size checks, with a known buffer object)
    fails with -EINVAL, not -ENOMEM, [drm_mode_attachmode_ioctl] (for an
    existing output) and [drm_crtc_set_config] (for a request naming a
    CRTC) fail with -ENOMEM; each leaves the device exactly as it was:
    no identifier registered, no object created, the mutex released. *)
Theorem alloc_failure_checked `{!DrmFuncs} `{!DrmBufferObjects} s f r cmd set :
  mc_locked s = false ->
  (min_width s <= fbc_width r <= max_width s -> min_height s <= fbc_height r <= max_height s ->
   is_Some (bo_lookup (fbc_handle r)) -> drm_mode_addfb_k false s f r = Some (s, f, - EINVAL, None)) /\
  (is_Some (crtc_idr s !! mc_output_id cmd) -> is_Some (find_output s (mc_output_id cmd)) ->
   drm_mode_attachmode_ioctl_k false s cmd = Some (s, - ENOMEM)) /\
  (ms_crtc set <> None -> drm_crtc_set_config_k false s set = (s, - ENOMEM)).
Proof.
  intros Hl. split_and!.
  - intros Hw Hh [kernel Hbo]. unfold drm_mode_addfb_k, mutex_lock.
    assert (E1 : (fbc_width r <? min_width s) || (max_width s <? fbc_width r) = false)
      by (apply orb_false_iff; split; apply Z.ltb_ge; lia).
    assert (E2 : (fbc_height r <? min_height s) || (max_height s <? fbc_height r) = false)
      by (apply orb_false_iff; split; apply Z.ltb_ge; lia).
    rewrite E1, E2, Hl. cbn [orb mbind option_bind]. rewrite Hbo. cbn. by rewrite mutex_unlock_lock.
  - intros [k Hk] [o Ho]. unfold drm_mode_attachmode_ioctl_k, mutex_lock, idr_lookup. rewrite Hl.
    cbn [mbind option_bind crtc_idr set_locked]. rewrite Hk.
    change (find_output (set_locked s true)) with (find_output s). rewrite Ho. cbn. by rewrite mutex_unlock_lock.
  - intros Hc. unfold drm_crtc_set_config_k. by destruct (ms_crtc set).
Qed.

(** ** Unchecked failures *)

Lemma attachmode_crtc_fold_k_none ok cid mode l :
  fold_left (attachmode_crtc_step_k ok cid mode) l None = None.
Proof. induction l as [|o l IH]; [done|]. exact IH. Qed.

(** With the duplicates failing, the loop of [drm_mode_attachmode_crtc]
    crashes as soon as it meets an output on the CRTC after the first. *)
Lemma attachmode_crtc_fold_k_fail (cid : Z) (mode : drm_display_mode) (l : list drm_output)
    (s : drm_mode_config) (need_dup : bool) :
  ((if need_dup then 1 else 2) <= length (filter (fun o : drm_output => output_crtc o = Some cid) l))%nat ->
  fold_left (attachmode_crtc_step_k false cid mode) l (Some (s, need_dup)) = None.
Proof.
  revert s need_dup. induction l as [|o l IH]; intros s need_dup Hn.
  { cbn in Hn. destruct need_dup; lia. }
  rewrite filter_cons in Hn. cbn [fold_left]. unfold attachmode_crtc_step_k at 2.
  case_bool_decide as Hc; rewrite ?decide_True, ?decide_False in Hn by done; cbn [length] in Hn.
  - destruct need_dup; [apply attachmode_crtc_fold_k_none|]. apply IH. lia.
  - by apply IH.
Qed.

(** C36: Unchecked allocation failures crash the kernel: with
    [kzalloc] returning NULL, [drm_mode_setcrtc] with a mode and the
    current framebuffer dereferences the NULL mode it converts into; the
    prober, on a connected output the driver leaves without usable modes,
    adds the NULL copy of the 640x480 mode to the probed list; and
    [drm_mode_attachmode_crtc] on a CRTC driving two outputs attaches a
    NULL duplicate.  None of the three reaches an error return. *)
Theorem alloc_failure_unchecked `{!DrmFuncs} :
  (forall s req outs_ok,
     mc_locked s = false -> is_Some (crtc_idr s !! req_crtc_id req) ->
     is_Some (find_crtc s (req_crtc_id req)) ->
     req_mode_valid req <> 0 -> req_fb_id req = 2 ^ 32 - 1 ->
     drm_mode_setcrtc_k false outs_ok s req = None) /\
  (forall s oid maxX maxY o,
     find_output s oid = Some o ->
     output_detect (with_output_modes o (probed_modes o)
                      (map (fun m => with_status m MODE_UNVERIFIED) (modes o))) <> output_status_disconnected ->
     (forall oo m, output_mode_valid oo m <> MODE_OK) ->
     drm_crtc_probe_single_output_modes_k false s oid maxX maxY = None) /\
  (forall s cid mode,
     (2 <= length (filter (fun o : drm_output => output_crtc o = Some cid) (output_list s)))%nat ->
     drm_mode_attachmode_crtc_k false s cid mode = None).
Proof.
  split_and!.
  - intros s req outs_ok Hl [k Hk] [crtc Hc] Hv Hfb. unfold drm_mode_setcrtc_k, mutex_lock, idr_lookup.
    rewrite Hl. cbn [mbind option_bind crtc_idr set_locked]. rewrite Hk. change (find_crtc (set_locked s true)) with (find_crtc s).
    rewrite Hc. unfold setcrtc_checked_k. rewrite (proj2 (Z.eqb_neq _ _) Hv), Hfb, Z.eqb_refl. done.
  - intros s oid maxX maxY o Ho Hst Hrej. unfold drm_crtc_probe_single_output_modes_k. rewrite Ho.
    rewrite bool_decide_false by done. rewrite probe_candidates_rejected by done. done.
  - intros s cid mode Hn. unfold drm_mode_attachmode_crtc_k.
    by rewrite attachmode_crtc_fold_k_fail.
Qed.

(** ** Witnesses *)

Definition unbound_set : drm_mode_set := mk_mode_set (Some 1) 0 0 None [] None.

Lemma alloc_failure_checked_witness :
  @drm_mode_addfb_k sample_bos false shared_config (mk_file []) fb_req =
    Some (shared_config, mk_file [], - EINVAL, None) /\
  drm_mode_attachmode_ioctl_k false shared_config attach_cmd = Some (shared_config, - ENOMEM) /\
  @drm_crtc_set_config_k sample_funcs false shared_config unbound_set = (shared_config, - ENOMEM).
Proof.
  destruct (@alloc_failure_checked sample_funcs sample_bos shared_config (mk_file []) fb_req attach_cmd
              unbound_set ltac:(vm_compute; reflexivity)) as (Ha & Hb & Hc).
  split_and!.
  - apply Ha; [vm_compute; split; discriminate | vm_compute; split; discriminate | eexists; reflexivity].
  - apply Hb; eexists; vm_compute; reflexivity.
  - apply Hc. discriminate.
Defined.

(** A request for the 720p mode on CRTC 1 with its current framebuffer. *)
Definition mode_req : drm_mode_crtc_req :=
  mk_crtc_req 1 (2 ^ 32 - 1) 0 0 1 (drm_crtc_convert_to_umode mode_720p) [3].

Lemma alloc_failure_unchecked_witness :
  @drm_mode_setcrtc_k reject_funcs false true shared_config mode_req = None /\
  @drm_crtc_probe_single_output_modes_k reject_funcs false probe_config 3 0 0 = None /\
  drm_mode_attachmode_crtc_k false shared_config 1 mode_720p = None.
Proof.
  destruct (@alloc_failure_unchecked reject_funcs) as (Ha & Hb & Hc). split_and!.
  - apply Ha; [vm_compute; reflexivity | eexists; vm_compute; reflexivity
              | eexists; vm_compute; reflexivity | discriminate | reflexivity].
  - apply (Hb _ _ _ _ (sample_output 3 output_status_connected 3 [] None));
      [reflexivity | discriminate | intros; discriminate].
  - apply Hc. vm_compute. lia.
Defined.
